(** * IXFR engine of NSD (ixfr.c): shallow embedding and verified properties

    The development follows the layout of ixfr.c:
    - serial arithmetic and the RR byte walker [count_rr_length];
    - the per-zone version chain ([zone_ixfr_add], [zone_ixfr_remove],
      [zone_ixfr_make_space], [zone_ixfr_find_serial]);
    - the segment builder ([ixfr_store_start] ... [ixfr_store_finish]);
    - the response streamer ([ixfr_copy_rrs_into_packet], [query_ixfr]);
    - the startup reader ([ixfr_data_read], [ixfr_read_from_file]).

    Unsigned C quantities (uint8_t, uint16_t, uint32_t, size_t) are values
    of [N]; where the C arithmetic can wrap the reduction is written out.
    Byte buffers are [list byte]; a NULL buffer pointer is [None]. *)

From Stdlib Require Import NArith ZArith List Bool Lia Sorted.
From Stdlib Require String.
From Stdlib Require Import Strings.Byte.
Import ListNotations.

Local Open Scope N_scope.

(** ** Machine integers *)

Definition UINT16_MOD : N := 65536.
Definition UINT32_MOD : N := 4294967296.
Definition SIZE_MOD : N := 18446744073709551616.

(** uint16_t increment as in [total_added++]. *)
Definition u16_add (a b : N) : N := (a + b) mod UINT16_MOD.

(** size_t addition and subtraction as in [total_size += n], [total_size -= n]. *)
Definition size_add (a b : N) : N := (a + b) mod SIZE_MOD.
Definition size_sub (a b : N) : N := (a + SIZE_MOD - b mod SIZE_MOD) mod SIZE_MOD.

(** Length of a buffer as a size_t value. *)
Definition blen (l : list byte) : N := N.of_nat (length l).

(** Value of one octet. *)
Definition u8 (b : byte) : N := Byte.to_N b.

(** data[i] *)
Definition byte_at (data : list byte) (i : N) : byte :=
  nth (N.to_nat i) data x00.

(** Modelled from the spec: read_uint16 is declared in util.h, which is not
    part of ixfr.c; the 16-bit fields of an RR (type:16, class:16, rdlen:16)
    are in DNS network byte order, most significant octet first. *)
Definition read_uint16 (data : list byte) (i : N) : N :=
  N.lor (N.shiftl (u8 (byte_at data i)) 8) (u8 (byte_at data (i + 1))).

(** ** RFC 1982 serial comparison *)

(** Modelled from the spec: compare_serial lives in util.c, which is not part
    of ixfr.c.  The glossary fixes it: [a < b] iff [(b - a) mod 2^32] lies in
    the open interval (0, 2^31).  The result is the usual -1 / 0 / 1. *)
Definition serial_lt (a b : N) : bool :=
  let d := (b + UINT32_MOD - a mod UINT32_MOD) mod UINT32_MOD in
  (0 <? d) && (d <? 2147483648).

Definition compare_serial (a b : N) : Z :=
  if a =? b then 0%Z
  else if serial_lt a b then (-1)%Z
  else 1%Z.

(** ** The RR byte walker *)

(** Outcome of the owner-name loop of [count_rr_length]: the loop is
    unbounded in C, here it carries fuel. *)
Inductive dname_walk : Type :=
| OutOfFuel
| Reject
| NameEnd (i : N).

(** The [while(1)] loop that passes the owner dname. *)
Fixpoint pass_owner_dname (fuel : nat) (data : list byte) (data_len i : N)
  : dname_walk :=
  match fuel with
  | O => OutOfFuel
  | S fuel' =>
      if data_len <? i + 1 then Reject
      else
        let label_size := u8 (byte_at data i) in
        let i := i + 1 in
        if label_size =? 0 then NameEnd i
        else if negb (N.land label_size 192 =? 0) then Reject
        else if data_len <? i + label_size then Reject
        else pass_owner_dname fuel' data data_len (i + label_size)
  end.

(** count_rr_length: length of the record that starts at [current], 0 when
    the record is malformed or does not lie inside the buffer.  [None] only
    when the owner-name loop runs out of fuel, which
    [count_rr_length_total] excludes. *)
Definition count_rr_length (data : list byte) (data_len current : N)
  : option N :=
  if data_len <=? current then Some 0
  else
    match pass_owner_dname (S (N.to_nat data_len)) data data_len current with
    | OutOfFuel => None
    | Reject => Some 0
    | NameEnd i =>
        if data_len <? i + 10 then Some 0
        else
          let i := i + 8 in
          let rdlen := read_uint16 data i in
          let i := i + 2 in
          if data_len <? i + rdlen then Some 0
          else Some (i + rdlen - current)
    end.

(** *** Wire layout of a well-formed record, used to state what the walker
    computes. A label is its length octet followed by that many octets. *)

Definition label : Type := (byte * list byte)%type.

Definition label_wf (l : label) : Prop :=
  u8 (fst l) = blen (snd l) /\ 0 < u8 (fst l) /\ u8 (fst l) < 64.

Definition label_wire (l : label) : list byte := fst l :: snd l.

Definition labels_wire (ls : list label) : list byte :=
  flat_map label_wire ls.

(** owner name, 8 octets of type/class/ttl, rdlen (hi, lo), rdata *)
Definition rr_wire (ls : list label) (fixed : list byte) (hi lo : byte)
  (rdata : list byte) : list byte :=
  labels_wire ls ++ [x00] ++ fixed ++ [hi; lo] ++ rdata.

Definition rr_wf (ls : list label) (fixed : list byte) (hi lo : byte)
  (rdata : list byte) : Prop :=
  Forall label_wf ls /\ length fixed = 8%nat /\
  read_uint16 [hi; lo] 0 = blen rdata.

(** ** Loops *)

(** A C [while(cond) body;] with fuel: [None] when the fuel is used up
    before the condition turns false. *)
Fixpoint while_loop {S : Type} (fuel : nat) (cond : S -> bool)
  (body : S -> S) (s : S) : option S :=
  match fuel with
  | O => None
  | S fuel' =>
      if cond s then while_loop fuel' cond body (body s) else Some s
  end.

(** The same for a body that can free memory the program still points
    to: [None] also when a turn of the loop has no defined state behind
    it. *)
Fixpoint while_loop_partial {S : Type} (fuel : nat) (cond : S -> bool)
  (body : S -> option S) (s : S) : option S :=
  match fuel with
  | O => None
  | S fuel' =>
      if cond s then
        match body s with
        | None => None
        | Some s' => while_loop_partial fuel' cond body s'
        end
      else Some s
  end.

(** ** Resource records as the zone parser hands them over *)

(** A dname is kept as its wire form; [name_size] is its length. *)
Definition dname : Type := list byte.

(** rdata_atom_type: a domain reference or a length-prefixed octet string
    ([data[0]] is the length, [data+1] the octets). *)
Inductive rdata_atom : Type :=
| AtomDomain (name : dname)
| AtomData (octets : list byte).

Record rr : Type := mk_rr {
  rr_owner : dname;
  rr_type : N;
  rr_klass : N;
  rr_ttl : N;
  rdatas : list rdata_atom
}.

Definition TYPE_SOA : N := 6.
Definition CLASS_IN : N := 1.

(** Modelled from the spec: read_uint32 is declared in util.h, which is not
    part of ixfr.c; the serial is a 32-bit field in network byte order. *)
Definition read_uint32 (data : list byte) (i : N) : N :=
  N.lor (N.shiftl (read_uint16 data i) 16) (read_uint16 data (i + 2)).

(** [rdatas[2].data[0] < 4] and [read_uint32(&rdatas[2].data[1])]: the third
    rdata atom of an SOA holds the serial.  The zone parser builds the third
    atom of an SOA as an octet string; a domain atom in its place is read as
    a short one. *)
Definition atom_serial (a : rdata_atom) : N :=
  match a with
  | AtomData octets => if blen octets <? 4 then 0 else read_uint32 octets 0
  | AtomDomain _ => 0
  end.

(** soa_rr_get_serial *)
Definition soa_rr_get_serial (r : rr) : N :=
  if N.of_nat (length (rdatas r)) <? 3 then 0
  else atom_serial (nth 2 (rdatas r) (AtomData [])).

(** ** Segments and the per-zone version chain *)

(** struct ixfr_data.  A buffer pointer and its length field are one
    optional list: [None] is the NULL pointer with length 0. *)
Record ixfr_data : Type := mk_ixfr_data {
  oldserial : N;
  newserial : N;
  newsoa : option (list byte);
  oldsoa : option (list byte);
  del : option (list byte);
  add : option (list byte);
  log_str : option String.string;
  file_num : Z
}.

Definition buf_len (b : option (list byte)) : N :=
  match b with Some l => blen l | None => 0 end.

Definition buf_bytes (b : option (list byte)) : list byte :=
  match b with Some l => l | None => [] end.

Definition newsoa_len (d : ixfr_data) : N := buf_len (newsoa d).
Definition oldsoa_len (d : ixfr_data) : N := buf_len (oldsoa d).
Definition del_len (d : ixfr_data) : N := buf_len (del d).
Definition add_len (d : ixfr_data) : N := buf_len (add d).

(** ixfrcompare: the comparator the chain's tree is created with.  It
    compares the two 32-bit serials as plain unsigned numbers. *)
Definition ixfrcompare (x y : N) : Z :=
  if x <? y then (-1)%Z
  else if y <? x then 1%Z
  else 0%Z.

(** Modelled from the spec: rbtree.c is not part of ixfr.c.  The spec (4D, 9)
    describes the tree as an ordered map with insert, find by key, first,
    last, next and previous in key order; a tree is the list of its nodes
    in the order of the comparator it was created with.  Keys are the 32-bit
    values the comparator reads through the key pointers. *)
Section Rbtree.
Context {A : Type} (key : A -> N) (cmp : N -> N -> Z).

(** A pointer to a node: the node's element and, for rbtree_next, the
    elements that follow it in the order. *)
Definition rbnode : Type := (A * list A)%type.

(** rbtree_search: the node whose key compares equal, or NULL. *)
Fixpoint rbtree_search (k : N) (t : list A) : option rbnode :=
  match t with
  | [] => None
  | y :: t' =>
      if (cmp k (key y) =? 0)%Z then Some (y, t') else rbtree_search k t'
  end.

(** rbtree_insert: links the node in at its place in the order; when a
    node with an equal key is already there nothing is inserted. *)
Fixpoint rbtree_insert (x : A) (t : list A) : list A :=
  match t with
  | [] => [x]
  | y :: t' =>
      let r := cmp (key x) (key y) in
      if (r =? 0)%Z then t
      else if (r <? 0)%Z then x :: t
      else y :: rbtree_insert x t'
  end.

(** rbtree_delete: unlinks the node found by rbtree_search, if any. *)
Fixpoint rbtree_delete (k : N) (t : list A) : list A :=
  match t with
  | [] => []
  | y :: t' =>
      if (cmp k (key y) =? 0)%Z then t' else y :: rbtree_delete k t'
  end.

Definition rbtree_first (t : list A) : option rbnode :=
  match t with
  | [] => None
  | y :: t' => Some (y, t')
  end.

Definition rbtree_last (t : list A) : option rbnode :=
  match t with
  | [] => None
  | y :: t' => Some (last t' y, [])
  end.

(** rbtree_next: the successor in the order, or NULL. *)
Definition rbtree_next (n : rbnode) : option rbnode :=
  match snd n with
  | [] => None
  | y :: t' => Some (y, t')
  end.
End Rbtree.

(** struct zone_ixfr; [data->count] is the number of nodes. *)
Record zone_ixfr : Type := mk_zone_ixfr {
  data : list ixfr_data;
  total_size : N;
  num_files : Z
}.

Definition count (ixfr : zone_ixfr) : N := N.of_nat (length (data ixfr)).

(** The options of the zone's pattern that ixfr.c reads. *)
Record pattern_options : Type := mk_pattern {
  store_ixfr : bool;
  ixfr_number : N;
  ixfr_size : N
}.

(** struct zone, as far as ixfr.c looks at it: the apex dname (NULL when
    the zone has no data), the SOA rrset, the version chain and the
    options. *)
Record zone : Type := mk_zone {
  apex : option dname;
  soa_rrset : option (list rr);
  ixfr : option zone_ixfr;
  opts : pattern_options
}.

Definition set_zone_ixfr (z : zone) (i : option zone_ixfr) : zone :=
  {| apex := apex z; soa_rrset := soa_rrset z; ixfr := i; opts := opts z |}.

(** zone_get_current_serial *)
Definition zone_get_current_serial (z : option zone) : N :=
  match z with
  | None => 0
  | Some z =>
      match soa_rrset z with
      | None => 0
      | Some rrs =>
          match rrs with
          | [] => 0
          | r :: _ =>
              if N.of_nat (length (rdatas r)) <? 3 then 0
              else atom_serial (nth 2 (rdatas r) (AtomData []))
          end
      end
  end.

(** struct ixfr_store: the builder of one segment.  The zone it points to
    is passed alongside. *)
Record ixfr_store : Type := mk_ixfr_store {
  cancelled : bool;
  store_data : option ixfr_data;
  del_capacity : N;
  add_capacity : N
}.

(** ixfr_store_cancel (ixfr_data_free releases memory only). *)
Definition ixfr_store_cancel (st : ixfr_store) : ixfr_store :=
  {| cancelled := true;
     store_data := None;
     del_capacity := del_capacity st;
     add_capacity := add_capacity st |}.

(** ixfr_store_free: releases the memory of the store's segment; the
    fields of the store stay as they are. *)
Definition ixfr_store_free (st : ixfr_store) : ixfr_store := st.

(** A segment is linked into the tree when the tree has a node with its
    key: the tree holds at most one node for an old serial. *)
Definition still_linked (d : ixfr_data) (t : list ixfr_data) : bool :=
  existsb (fun e => oldserial e =? oldserial d) t.

Section Chain.
(** sizeof(struct ixfr_data), fixed by ixfr.h and the platform. *)
Variable sizeof_ixfr_data : N.

(** zone_ixfr_remove hands [&data->node.key] to rbtree_delete: the address
    of the node's key pointer, where zone_ixfr_add stores
    [&data->oldserial] in that pointer and the sibling call in
    domain_table_delete passes [node.key] itself.  ixfrcompare reads its
    argument as a uint32_t, so the key that is searched for is the first
    four octets of the pointer value held in [node.key]; it depends on
    where the segment was allocated and is a parameter of the model. *)
Variable node_key_slot : ixfr_data -> N.

(** ixfr_data_size *)
Definition ixfr_data_size (d : ixfr_data) : N :=
  (sizeof_ixfr_data + newsoa_len d + oldsoa_len d + del_len d + add_len d)
    mod SIZE_MOD.

(** zone_ixfr_create *)
Definition zone_ixfr_create : zone_ixfr :=
  {| data := []; total_size := 0; num_files := 0 |}.

(** zone_ixfr_clear *)
Definition zone_ixfr_clear (ixfr : option zone_ixfr) : option zone_ixfr :=
  match ixfr with
  | None => None
  | Some i => Some {| data := []; total_size := 0; num_files := num_files i |}
  end.

(** zone_ixfr_remove.  rbtree_delete unlinks the node it finds for the
    key it is handed, if there is one; ixfr_data_free then frees [data],
    whether or not [data] was that node.  [None]: [data] has been freed
    while it is still linked into the tree.  From then on the tree holds a
    pointer to freed memory and every walk over it (rbtree_first,
    rbtree_search, rbtree_next) reads that memory: the call leaves no
    chain behind that the model could go on with. *)
Definition zone_ixfr_remove (ixfr : zone_ixfr) (d : ixfr_data)
  : option zone_ixfr :=
  let t := rbtree_delete oldserial ixfrcompare (node_key_slot d) (data ixfr) in
  if still_linked d t then None
  else
    Some {| data := t;
            total_size := size_sub (total_size ixfr) (ixfr_data_size d);
            num_files := num_files ixfr |}.

(** zone_ixfr_remove_oldest *)
Definition zone_ixfr_remove_oldest (ixfr : zone_ixfr) : option zone_ixfr :=
  if 0 <? count ixfr then
    match rbtree_first (data ixfr) with
    | Some (oldest, _) => zone_ixfr_remove ixfr oldest
    | None => Some ixfr
    end
  else Some ixfr.

(** zone_ixfr_add: the node's key is [&data->oldserial]. *)
Definition zone_ixfr_add (ixfr : zone_ixfr) (d : ixfr_data) : zone_ixfr :=
  {| data := rbtree_insert oldserial ixfrcompare d (data ixfr);
     total_size := size_add (total_size ixfr) (ixfr_data_size d);
     num_files := num_files ixfr |}.

(** zone_ixfr_find_serial *)
Definition zone_ixfr_find_serial (ixfr : option zone_ixfr) (qserial : N)
  : option (@rbnode ixfr_data) :=
  match ixfr with
  | None => None
  | Some i => rbtree_search oldserial ixfrcompare qserial (data i)
  end.

(** zone_ixfr_make_space.  [None]: one of the two eviction loops did not
    come to an end within [fuel] iterations, or a removal freed a segment
    that is still linked into the tree. *)
Definition zone_ixfr_make_space (fuel : nat) (ixfr : option zone_ixfr)
  (o : pattern_options) (d : option ixfr_data) (st : ixfr_store)
  : option (option zone_ixfr * ixfr_store) :=
  match ixfr, d with
  | None, _ => Some (ixfr, st)
  | _, None => Some (ixfr, st)
  | Some i, Some d =>
      if ixfr_number o =? 0 then Some (ixfr, ixfr_store_cancel st)
      else
        match while_loop_partial fuel (fun i => ixfr_number o <=? count i)
                zone_ixfr_remove_oldest i with
        | None => None
        | Some i =>
            if ixfr_size o =? 0 then Some (Some i, st)
            else
              let addsize := ixfr_data_size d in
              match while_loop_partial fuel
                      (fun i => (0 <? count i) &&
                                (ixfr_size o <? size_add (total_size i) addsize))
                      zone_ixfr_remove_oldest i with
              | None => None
              | Some i =>
                  if (count i =? 0) &&
                     (ixfr_size o <? size_add (total_size i) addsize)
                  then Some (Some i, ixfr_store_cancel st)
                  else Some (Some i, st)
              end
        end
  end.
End Chain.

(** ** Packet buffers *)

(** The header fields of a DNS message that ixfr.c reads and writes through
    the packet.h macros. *)
Record header : Type := mk_header {
  QDCOUNT : N;
  ANCOUNT : N;
  NSCOUNT : N;
  ARCOUNT : N;
  AA : bool;
  TC : bool;
  RCODE : N
}.

(** Modelled from the spec: struct buffer and its accessors are declared in
    buffer.h, which is not part of ixfr.c.  The spec speaks of a byte array
    with a current position that can be read, written and cut back; octets
    that were never written read as zero. *)
Record buffer : Type := mk_buffer {
  hdr : header;
  buf_data : list byte;
  position : N;
  limit : N
}.

Definition buffer_position (b : buffer) : N := position b.

Definition buffer_set_position (b : buffer) (p : N) : buffer :=
  {| hdr := hdr b; buf_data := buf_data b; position := p; limit := limit b |}.

Definition buffer_skip (b : buffer) (n : N) : buffer :=
  buffer_set_position b (position b + n).

Definition buffer_set_limit (b : buffer) (l : N) : buffer :=
  {| hdr := hdr b; buf_data := buf_data b;
     position := if l <? position b then l else position b;
     limit := l |}.

Definition buffer_available (b : buffer) (n : N) : bool :=
  position b + n <=? limit b.

Definition buffer_read_u16 (b : buffer) : N * buffer :=
  (read_uint16 (buf_data b) (position b), buffer_skip b 2).

Definition buffer_read_u32 (b : buffer) : N * buffer :=
  (read_uint32 (buf_data b) (position b), buffer_skip b 4).

(** The first [n] octets of the buffer. *)
Definition buffer_upto (n : N) (l : list byte) : list byte :=
  firstn (N.to_nat n) l ++ repeat x00 (N.to_nat n - length l).

(** buffer_write: copies the octets in at the position and moves it on. *)
Definition buffer_write (b : buffer) (octets : list byte) : buffer :=
  {| hdr := hdr b;
     buf_data := buffer_upto (position b) (buf_data b) ++ octets
                 ++ skipn (N.to_nat (position b + blen octets)) (buf_data b);
     position := position b + blen octets;
     limit := limit b |}.

(** The message that goes out when the buffer is flushed: everything
    before the position. *)
Definition buffer_message (b : buffer) : list byte :=
  buffer_upto (position b) (buf_data b).

Definition set_hdr (b : buffer) (h : header) : buffer :=
  {| hdr := h; buf_data := buf_data b; position := position b;
     limit := limit b |}.

Definition QDCOUNT_SET (b : buffer) (n : N) : buffer :=
  set_hdr b {| QDCOUNT := n; ANCOUNT := ANCOUNT (hdr b);
               NSCOUNT := NSCOUNT (hdr b); ARCOUNT := ARCOUNT (hdr b);
               AA := AA (hdr b); TC := TC (hdr b); RCODE := RCODE (hdr b) |}.
Definition ANCOUNT_SET (b : buffer) (n : N) : buffer :=
  set_hdr b {| QDCOUNT := QDCOUNT (hdr b); ANCOUNT := n;
               NSCOUNT := NSCOUNT (hdr b); ARCOUNT := ARCOUNT (hdr b);
               AA := AA (hdr b); TC := TC (hdr b); RCODE := RCODE (hdr b) |}.
Definition NSCOUNT_SET (b : buffer) (n : N) : buffer :=
  set_hdr b {| QDCOUNT := QDCOUNT (hdr b); ANCOUNT := ANCOUNT (hdr b);
               NSCOUNT := n; ARCOUNT := ARCOUNT (hdr b);
               AA := AA (hdr b); TC := TC (hdr b); RCODE := RCODE (hdr b) |}.
Definition ARCOUNT_SET (b : buffer) (n : N) : buffer :=
  set_hdr b {| QDCOUNT := QDCOUNT (hdr b); ANCOUNT := ANCOUNT (hdr b);
               NSCOUNT := NSCOUNT (hdr b); ARCOUNT := n;
               AA := AA (hdr b); TC := TC (hdr b); RCODE := RCODE (hdr b) |}.
Definition AA_SET (b : buffer) : buffer :=
  set_hdr b {| QDCOUNT := QDCOUNT (hdr b); ANCOUNT := ANCOUNT (hdr b);
               NSCOUNT := NSCOUNT (hdr b); ARCOUNT := ARCOUNT (hdr b);
               AA := true; TC := TC (hdr b); RCODE := RCODE (hdr b) |}.
Definition TC_SET (b : buffer) : buffer :=
  set_hdr b {| QDCOUNT := QDCOUNT (hdr b); ANCOUNT := ANCOUNT (hdr b);
               NSCOUNT := NSCOUNT (hdr b); ARCOUNT := ARCOUNT (hdr b);
               AA := AA (hdr b); TC := true; RCODE := RCODE (hdr b) |}.
Definition RCODE_SET (b : buffer) (r : N) : buffer :=
  set_hdr b {| QDCOUNT := QDCOUNT (hdr b); ANCOUNT := ANCOUNT (hdr b);
               NSCOUNT := NSCOUNT (hdr b); ARCOUNT := ARCOUNT (hdr b);
               AA := AA (hdr b); TC := TC (hdr b); RCODE := r |}.

Definition RCODE_FORMAT : N := 1.
Definition RCODE_SERVFAIL : N := 2.
Definition RCODE_NOTAUTH : N := 9.
Definition QHEADERSZ : N := 12.

(** ** Writing integers *)

Definition byte_of_N (n : N) : byte :=
  match Byte.of_N (n mod 256) with
  | Some b => b
  | None => x00
  end.

(** Modelled from the spec: write_uint16 and write_uint32 are declared in
    util.h, which is not part of ixfr.c; the fixed fields of an RR
    (type:16, class:16, ttl:32, rdlen:16) are written in network byte order,
    the value cut to the width of the field. *)
Definition write_uint16 (v : N) : list byte :=
  [byte_of_N (N.shiftr v 8); byte_of_N v].

Definition write_uint32 (v : N) : list byte :=
  [byte_of_N (N.shiftr v 24); byte_of_N (N.shiftr v 16);
   byte_of_N (N.shiftr v 8); byte_of_N v].

(** ** Growing byte runs *)

Definition IXFR_STORE_INITIAL_SIZE : N := 4096.

(** Modelled from the spec: xalloc and xrealloc live in util.c, which is not
    part of ixfr.c.  The spec describes the runs as growing by allocation
    (4B); an allocation hands back a buffer, a reallocation keeps the
    octets.  The run's list holds the [len] octets in use, the capacity is
    kept next to it. *)
Definition xalloc (size : N) : option (list byte) := Some [].

Definition xrealloc (rrs : option (list byte)) (size : N)
  : option (list byte) := Some (buf_bytes rrs).

(** ixfr_rrs_make_space: returns the new [*rrs] and [*capacity]. *)
Definition ixfr_rrs_make_space (rrs : option (list byte)) (capacity added : N)
  : option (list byte) * N :=
  let len := buf_len rrs in
  match rrs with
  | None =>
      let newsize := IXFR_STORE_INITIAL_SIZE in
      let newsize :=
        if newsize <? size_add len added then size_add len added
        else newsize in
      (xalloc newsize, newsize)
  | Some _ =>
      if size_add len added <=? capacity then (rrs, capacity)
      else
        let newsize := (capacity * 2) mod SIZE_MOD in
        let newsize :=
          if newsize <? size_add len added then size_add len added
          else newsize in
        (xrealloc rrs newsize, newsize)
  end.

(** ixfr_trim_capacity *)
Definition ixfr_trim_capacity (rrs : option (list byte)) (capacity : N)
  : option (list byte) * N :=
  match rrs with
  | None => (rrs, capacity)
  | Some _ =>
      if capacity =? buf_len rrs then (rrs, capacity)
      else (xrealloc rrs (buf_len rrs), buf_len rrs)
  end.

(** ** The segment builder *)

(** The two runs of a segment that [ixfr_put_newsoa] and [ixfr_store_putrr]
    are pointed at: [&data->del, &data->del_len, &store->del_capacity] or
    the same for add. *)
Inductive run : Type := DelRun | AddRun.

Definition run_rrs (w : run) (d : ixfr_data) : option (list byte) :=
  match w with DelRun => del d | AddRun => add d end.

Definition run_capacity (w : run) (st : ixfr_store) : N :=
  match w with DelRun => del_capacity st | AddRun => add_capacity st end.

Definition set_newsoa (d : ixfr_data) (b : option (list byte)) : ixfr_data :=
  {| oldserial := oldserial d; newserial := newserial d; newsoa := b;
     oldsoa := oldsoa d; del := del d; add := add d;
     log_str := log_str d; file_num := file_num d |}.

Definition set_oldsoa (d : ixfr_data) (b : option (list byte)) : ixfr_data :=
  {| oldserial := oldserial d; newserial := newserial d; newsoa := newsoa d;
     oldsoa := b; del := del d; add := add d;
     log_str := log_str d; file_num := file_num d |}.

Definition set_run_rrs (w : run) (d : ixfr_data) (b : option (list byte))
  : ixfr_data :=
  match w with
  | DelRun =>
      {| oldserial := oldserial d; newserial := newserial d;
         newsoa := newsoa d; oldsoa := oldsoa d; del := b; add := add d;
         log_str := log_str d; file_num := file_num d |}
  | AddRun =>
      {| oldserial := oldserial d; newserial := newserial d;
         newsoa := newsoa d; oldsoa := oldsoa d; del := del d; add := b;
         log_str := log_str d; file_num := file_num d |}
  end.

Definition set_log_str (d : ixfr_data) (s : option String.string) : ixfr_data :=
  {| oldserial := oldserial d; newserial := newserial d; newsoa := newsoa d;
     oldsoa := oldsoa d; del := del d; add := add d;
     log_str := s; file_num := file_num d |}.

(** Writes a run and its capacity back into the store. *)
Definition set_run (w : run) (st : ixfr_store) (d : ixfr_data)
  (b : option (list byte)) (capacity : N) : ixfr_store :=
  {| cancelled := cancelled st;
     store_data := Some (set_run_rrs w d b);
     del_capacity := match w with DelRun => capacity | AddRun => del_capacity st end;
     add_capacity := match w with DelRun => add_capacity st | AddRun => capacity end |}.

Definition set_store_data (st : ixfr_store) (d : option ixfr_data) : ixfr_store :=
  {| cancelled := cancelled st; store_data := d;
     del_capacity := del_capacity st; add_capacity := add_capacity st |}.

(** ixfr_store_start: the store and its segment are zeroed, the serials
    filled in. *)
Definition ixfr_store_start (old_serial new_serial : N) : ixfr_store :=
  {| cancelled := false;
     store_data := Some {| oldserial := old_serial; newserial := new_serial;
                           newsoa := None; oldsoa := None;
                           del := None; add := None;
                           log_str := None; file_num := 0%Z |};
     del_capacity := 0;
     add_capacity := 0 |}.

(** ixfr_put_newsoa.  [None]: the store has no segment, the C code
    dereferences NULL. *)
Definition ixfr_put_newsoa (st : ixfr_store) (w : run) : option ixfr_store :=
  match store_data st with
  | None => None
  | Some d =>
      let soa := buf_bytes (newsoa d) in
      let soa_len := newsoa_len d in
      let '(rrs, capacity) :=
        ixfr_rrs_make_space (run_rrs w d) (run_capacity w st) soa_len in
      match rrs with
      | None => Some (ixfr_store_cancel (set_run w st d rrs capacity))
      | Some l =>
          if capacity <? size_add (blen l) soa_len
          then Some (ixfr_store_cancel (set_run w st d rrs capacity))
          else Some (set_run w st d (Some (l ++ soa)) capacity)
      end
  end.

(** ixfr_trim_capacity applied to one run of the store's segment. *)
Definition store_trim_capacity (st : ixfr_store) (w : run)
  : option ixfr_store :=
  match store_data st with
  | None => None
  | Some d =>
      let '(rrs, capacity) :=
        ixfr_trim_capacity (run_rrs w d) (run_capacity w st) in
      Some (set_run w st d rrs capacity)
  end.

Section Builder.
Variable sizeof_ixfr_data : N.
Variable node_key_slot : ixfr_data -> N.

(** dname_make_wire_from_packet (dname.c): reads a possibly compressed
    name at the packet's position; gives the uncompressed wire name and
    the position behind the name, or fails (returns 0). *)
Variable dname_make_wire_from_packet : buffer -> option (dname * N).

(** rdata_wireformat_to_rdata_atoms (rdata.c): parses [rrlen] octets of
    rdata of the given type at the packet's position; fails with -1. *)
Variable rdata_wireformat_to_rdata_atoms :
  N -> N -> buffer -> option (list rdata_atom).

(** read_soa_rdata: the two names, the five 32-bit fields, the size
    counter [*sz] and the packet behind the rdata. *)
Definition read_soa_rdata (packet : buffer) (sz : N)
  : option (dname * dname * (N * N * N * N * N) * N * buffer) :=
  match dname_make_wire_from_packet packet with
  | None => None
  | Some (primns, pos) =>
      let packet := buffer_set_position packet pos in
      let sz := size_add sz (blen primns) in
      match dname_make_wire_from_packet packet with
      | None => None
      | Some (email, pos) =>
          let packet := buffer_set_position packet pos in
          let sz := size_add sz (blen email) in
          let '(serial, packet) := buffer_read_u32 packet in
          let sz := size_add sz 4 in
          let '(refresh, packet) := buffer_read_u32 packet in
          let sz := size_add sz 4 in
          let '(retry, packet) := buffer_read_u32 packet in
          let sz := size_add sz 4 in
          let '(expire, packet) := buffer_read_u32 packet in
          let sz := size_add sz 4 in
          let '(minimum, packet) := buffer_read_u32 packet in
          let sz := size_add sz 4 in
          Some (primns, email, (serial, refresh, retry, expire, minimum),
                sz, packet)
      end
  end.

(** store_soa: the SOA in wire form with the apex as uncompressed owner. *)
Definition store_soa (apex_name : dname) (ttl rdlen_uncompressed : N)
  (primns email : dname) (fields : N * N * N * N * N) : list byte :=
  let '(serial, refresh, retry, expire, minimum) := fields in
  apex_name ++ write_uint16 TYPE_SOA ++ write_uint16 CLASS_IN
  ++ write_uint32 ttl ++ write_uint16 rdlen_uncompressed
  ++ primns ++ email
  ++ write_uint32 serial ++ write_uint32 refresh ++ write_uint32 retry
  ++ write_uint32 expire ++ write_uint32 minimum.

(** ixfr_store_add_newsoa.  The packet's position is put back on every
    path, so the packet is not part of the result.  [None]: the C code
    dereferences NULL (no segment in a store that is not cancelled, or a
    zone without apex). *)
Definition ixfr_store_add_newsoa (z : zone) (st : ixfr_store)
  (packet : buffer) (ttlpos : N) : option ixfr_store :=
  if cancelled st then Some st
  else
    match store_data st with
    | None => None
    | Some d =>
        let d := set_newsoa d None in
        let st := set_store_data st (Some d) in
        let packet := buffer_set_position packet ttlpos in
        match apex z with
        | None => None
        | Some apex_name =>
            let sz := blen apex_name in
            let sz := size_add sz (2 + 2) in
            if negb (buffer_available packet (4 + 2))
            then Some (ixfr_store_cancel st)
            else
              let '(ttl, packet) := buffer_read_u32 packet in
              let sz := size_add sz 4 in
              let '(rdlen_wire, packet) := buffer_read_u16 packet in
              let sz := size_add sz 2 in
              if negb (buffer_available packet rdlen_wire)
              then Some (ixfr_store_cancel st)
              else
                match read_soa_rdata packet sz with
                | None => Some (ixfr_store_cancel st)
                | Some (primns, email, fields, sz, _) =>
                    let rdlen_uncompressed :=
                      (blen primns + blen email + 4 + 4 + 4 + 4 + 4)
                        mod UINT16_MOD in
                    Some (set_store_data st
                            (Some (set_newsoa d
                                     (Some (store_soa apex_name ttl
                                              rdlen_uncompressed primns
                                              email fields)))))
                end
        end
    end.

(** ixfr_store_add_oldsoa.  The budget check may evict from the zone's
    chain, so the zone is part of the result. *)
Definition ixfr_store_add_oldsoa (fuel : nat) (z : zone) (st : ixfr_store)
  (ttl : N) (packet : buffer) (rrlen : N) : option (zone * ixfr_store) :=
  if cancelled st then Some (z, st)
  else
    match store_data st with
    | None => None
    | Some d =>
        let d := set_oldsoa d None in
        let st := set_store_data st (Some d) in
        match zone_ixfr_make_space sizeof_ixfr_data node_key_slot fuel
                (ixfr z) (opts z) (store_data st) st with
        | None => None
        | Some (i, st) =>
            let z := set_zone_ixfr z i in
            if cancelled st then Some (z, st)
            else
              match apex z with
              | None => None
              | Some apex_name =>
                  let sz := blen apex_name in
                  let sz := size_add sz (2 + 2 + 4 + 2) in
                  if negb (buffer_available packet rrlen)
                  then Some (z, ixfr_store_cancel st)
                  else
                    match read_soa_rdata packet sz with
                    | None => Some (z, ixfr_store_cancel st)
                    | Some (primns, email, fields, sz, _) =>
                        let rdlen_uncompressed :=
                          (blen primns + blen email + 4 + 4 + 4 + 4 + 4)
                            mod UINT16_MOD in
                        Some (z, set_store_data st
                                   (Some (set_oldsoa d
                                            (Some (store_soa apex_name ttl
                                                     rdlen_uncompressed
                                                     primns email fields)))))
                    end
              end
        end
    end.

(** Size and octets of one rdata atom in uncompressed wire form. *)
Definition atom_wire (a : rdata_atom) : list byte :=
  match a with
  | AtomDomain name => name
  | AtomData octets => octets
  end.

(** ixfr_putrr: appends one record to a run.  The boolean is the return
    value; the run and its capacity are returned as the call leaves them. *)
Definition ixfr_putrr (owner : dname) (type klass ttl : N)
  (atoms : list rdata_atom) (rrs : option (list byte)) (rrs_capacity : N)
  : bool * option (list byte) * N :=
  let rdlen_uncompressed :=
    fold_left (fun acc a => size_add acc (blen (atom_wire a))) atoms 0 in
  let sz := size_add (size_add (blen owner) (2 + 2 + 4 + 2))
              rdlen_uncompressed in
  let rrs_len := buf_len rrs in
  let '(rrs, rrs_capacity) := ixfr_rrs_make_space rrs rrs_capacity sz in
  match rrs with
  | None => (false, rrs, rrs_capacity)
  | Some l =>
      if rrs_capacity <? size_add rrs_len sz
      then (false, rrs, rrs_capacity)
      else
        (true,
         Some (l ++ owner ++ write_uint16 type ++ write_uint16 klass
                 ++ write_uint32 ttl ++ write_uint16 rdlen_uncompressed
                 ++ flat_map atom_wire atoms),
         rrs_capacity)
  end.

(** ixfr_store_putrr, for the run [w] that ixfr_store_delrr or
    ixfr_store_addrr points it at. *)
Definition ixfr_store_putrr (fuel : nat) (z : zone) (st : ixfr_store)
  (owner : dname) (type klass ttl : N) (packet : buffer) (rrlen : N)
  (w : run) : option (zone * ixfr_store) :=
  if cancelled st then Some (z, st)
  else if type =? TYPE_SOA then Some (z, st)
  else
    match zone_ixfr_make_space sizeof_ixfr_data node_key_slot fuel
            (ixfr z) (opts z) (store_data st) st with
    | None => None
    | Some (i, st) =>
        let z := set_zone_ixfr z i in
        if cancelled st then Some (z, st)
        else
          match rdata_wireformat_to_rdata_atoms type rrlen packet with
          | None => Some (z, ixfr_store_cancel st)
          | Some atoms =>
              match store_data st with
              | None => None
              | Some d =>
                  let '(ok, rrs, capacity) :=
                    ixfr_putrr owner type klass ttl atoms
                      (run_rrs w d) (run_capacity w st) in
                  if ok then Some (z, set_run w st d rrs capacity)
                  else Some (z, ixfr_store_cancel
                                  (set_run w st d rrs capacity))
              end
          end
    end.

(** ixfr_store_delrr and ixfr_store_addrr *)
Definition ixfr_store_delrr (fuel : nat) (z : zone) (st : ixfr_store)
  (owner : dname) (type klass ttl : N) (packet : buffer) (rrlen : N)
  : option (zone * ixfr_store) :=
  ixfr_store_putrr fuel z st owner type klass ttl packet rrlen DelRun.

Definition ixfr_store_addrr (fuel : nat) (z : zone) (st : ixfr_store)
  (owner : dname) (type klass ttl : N) (packet : buffer) (rrlen : N)
  : option (zone * ixfr_store) :=
  ixfr_store_putrr fuel z st owner type klass ttl packet rrlen AddRun.

(** The four calls of ixfr_store_finish between the two tests of
    [cancelled]: the new SOA is put behind both runs, then both are
    trimmed. *)
Definition finish_runs (st : ixfr_store) : option ixfr_store :=
  match ixfr_put_newsoa st DelRun with
  | None => None
  | Some st =>
      match ixfr_put_newsoa st AddRun with
      | None => None
      | Some st =>
          match store_trim_capacity st DelRun with
          | None => None
          | Some st => store_trim_capacity st AddRun
          end
      end
  end.

(** ixfr_store_finish *)
Definition ixfr_store_finish (fuel : nat) (z : zone) (st : ixfr_store)
  (log_buf : option String.string) : option (zone * ixfr_store) :=
  if cancelled st then Some (z, ixfr_store_free st)
  else
    match finish_runs st with
    | None => None
    | Some st =>
        if cancelled st then Some (z, ixfr_store_free st)
        else
          match store_data st with
          | None => None
          | Some d =>
              let d := match log_buf with
                       | Some s => set_log_str d (Some s)
                       | None => d
                       end in
              let st := set_store_data st (Some d) in
              let i := match ixfr z with
                       | None => zone_ixfr_create
                       | Some i => i
                       end in
              match zone_ixfr_make_space sizeof_ixfr_data node_key_slot
                      fuel (Some i) (opts z) (store_data st) st with
              | None => None
              | Some (i, st) =>
                  let z := set_zone_ixfr z i in
                  if cancelled st then Some (z, ixfr_store_free st)
                  else
                    match i, store_data st with
                    | Some i, Some d =>
                        let z := set_zone_ixfr z
                                   (Some (zone_ixfr_add sizeof_ixfr_data i d)) in
                        Some (z, ixfr_store_free (set_store_data st None))
                    | _, _ => None
                    end
              end
          end
    end.
End Builder.

(** ** The response streamer *)

(** Modelled from the spec: MAX_COMPRESSION_OFFSET is a constant of the
    query headers, which are not part of ixfr.c.  The spec (4F) gives the
    cap on the wire length of a response packet as 16384, the
    compression-offset cap. *)
Definition MAX_COMPRESSION_OFFSET : N := 16384.

Definition IXFR_MAX_MESSAGE_LEN : N := MAX_COMPRESSION_OFFSET.

(** IXFR_TSIG_SIGN_EVERY_NTH is 0: the [#if] branches are compiled out. *)

Inductive tsig_status : Type := TSIG_NOT_PRESENT | TSIG_OK | TSIG_ERROR.

Definition tsig_status_eqb (a b : tsig_status) : bool :=
  match a, b with
  | TSIG_NOT_PRESENT, TSIG_NOT_PRESENT => true
  | TSIG_OK, TSIG_OK => true
  | TSIG_ERROR, TSIG_ERROR => true
  | _, _ => false
  end.

Inductive query_state_type : Type :=
| QUERY_PROCESSED
| QUERY_DISCARDED
| QUERY_IN_AXFR
| QUERY_IN_IXFR.

(** struct query, as far as ixfr.c looks at it. *)
Record query : Type := mk_query {
  packet : buffer;
  maxlen : N;
  tcp : bool;
  qname : dname;
  tsig : tsig_status;
  tsig_prepare_it : bool;
  tsig_update_it : bool;
  tsig_sign_it : bool;
  ixfr_is_done : bool;
  q_ixfr_data : option (@rbnode ixfr_data);
  q_ixfr_end_data : option (@rbnode ixfr_data);
  ixfr_count_newsoa : N;
  ixfr_count_oldsoa : N;
  ixfr_count_del : N;
  ixfr_count_add : N;
  ixfr_pos_of_newsoa : N
}.

Definition set_packet (q : query) (p : buffer) : query :=
  {| packet := p; maxlen := maxlen q; tcp := tcp q; qname := qname q;
     tsig := tsig q; tsig_prepare_it := tsig_prepare_it q;
     tsig_update_it := tsig_update_it q; tsig_sign_it := tsig_sign_it q;
     ixfr_is_done := ixfr_is_done q; q_ixfr_data := q_ixfr_data q;
     q_ixfr_end_data := q_ixfr_end_data q;
     ixfr_count_newsoa := ixfr_count_newsoa q;
     ixfr_count_oldsoa := ixfr_count_oldsoa q;
     ixfr_count_del := ixfr_count_del q;
     ixfr_count_add := ixfr_count_add q;
     ixfr_pos_of_newsoa := ixfr_pos_of_newsoa q |}.

Definition set_maxlen (q : query) (m : N) : query :=
  {| packet := packet q; maxlen := m; tcp := tcp q; qname := qname q;
     tsig := tsig q; tsig_prepare_it := tsig_prepare_it q;
     tsig_update_it := tsig_update_it q; tsig_sign_it := tsig_sign_it q;
     ixfr_is_done := ixfr_is_done q; q_ixfr_data := q_ixfr_data q;
     q_ixfr_end_data := q_ixfr_end_data q;
     ixfr_count_newsoa := ixfr_count_newsoa q;
     ixfr_count_oldsoa := ixfr_count_oldsoa q;
     ixfr_count_del := ixfr_count_del q;
     ixfr_count_add := ixfr_count_add q;
     ixfr_pos_of_newsoa := ixfr_pos_of_newsoa q |}.

(** The three tsig flags. *)
Definition set_tsig_flags (q : query) (prepare update sign : bool) : query :=
  {| packet := packet q; maxlen := maxlen q; tcp := tcp q; qname := qname q;
     tsig := tsig q; tsig_prepare_it := prepare;
     tsig_update_it := update; tsig_sign_it := sign;
     ixfr_is_done := ixfr_is_done q; q_ixfr_data := q_ixfr_data q;
     q_ixfr_end_data := q_ixfr_end_data q;
     ixfr_count_newsoa := ixfr_count_newsoa q;
     ixfr_count_oldsoa := ixfr_count_oldsoa q;
     ixfr_count_del := ixfr_count_del q;
     ixfr_count_add := ixfr_count_add q;
     ixfr_pos_of_newsoa := ixfr_pos_of_newsoa q |}.

Definition set_tsig_sign_it (q : query) (sign : bool) : query :=
  set_tsig_flags q (tsig_prepare_it q) (tsig_update_it q) sign.

Definition set_ixfr_is_done (q : query) (d : bool) : query :=
  {| packet := packet q; maxlen := maxlen q; tcp := tcp q; qname := qname q;
     tsig := tsig q; tsig_prepare_it := tsig_prepare_it q;
     tsig_update_it := tsig_update_it q; tsig_sign_it := tsig_sign_it q;
     ixfr_is_done := d; q_ixfr_data := q_ixfr_data q;
     q_ixfr_end_data := q_ixfr_end_data q;
     ixfr_count_newsoa := ixfr_count_newsoa q;
     ixfr_count_oldsoa := ixfr_count_oldsoa q;
     ixfr_count_del := ixfr_count_del q;
     ixfr_count_add := ixfr_count_add q;
     ixfr_pos_of_newsoa := ixfr_pos_of_newsoa q |}.

(** The streamer's position in the chain: segment pointers, the four
    progress counters and the remembered packet position. *)
Definition set_stream (q : query) (cur end_data : option (@rbnode ixfr_data))
  (c_newsoa c_oldsoa c_del c_add pos_newsoa : N) : query :=
  {| packet := packet q; maxlen := maxlen q; tcp := tcp q; qname := qname q;
     tsig := tsig q; tsig_prepare_it := tsig_prepare_it q;
     tsig_update_it := tsig_update_it q; tsig_sign_it := tsig_sign_it q;
     ixfr_is_done := ixfr_is_done q; q_ixfr_data := cur;
     q_ixfr_end_data := end_data;
     ixfr_count_newsoa := c_newsoa;
     ixfr_count_oldsoa := c_oldsoa;
     ixfr_count_del := c_del;
     ixfr_count_add := c_add;
     ixfr_pos_of_newsoa := pos_newsoa |}.

(** [data + current], [rrlen] octets of it. *)
Definition slice (l : list byte) (current rrlen : N) : list byte :=
  firstn (N.to_nat rrlen) (skipn (N.to_nat current) l).

(** One of the two [while] loops of ixfr_copy_rrs_into_packet, over the del
    or the add run.  The result is [(returned, count, packet, total_added)]:
    [returned] when the loop left the function by [return total_added].
    [None]: out of fuel. *)
Fixpoint copy_run_loop (fuel : nat) (rrs : list byte) (rrs_len max : N)
  (cnt : N) (p : buffer) (total_added : N)
  : option (bool * N * buffer * N) :=
  match fuel with
  | O => None
  | S fuel' =>
      if cnt <? rrs_len then
        match count_rr_length rrs rrs_len cnt with
        | None => None
        | Some rrlen =>
            if negb (rrlen =? 0) && (buffer_position p <? max)
               && (buffer_position p + rrlen <? max)
            then
              copy_run_loop fuel' rrs rrs_len max (cnt + rrlen)
                (buffer_write p (slice rrs cnt rrlen))
                (u16_add total_added 1)
            else Some (true, cnt, p, total_added)
        end
      else Some (false, cnt, p, total_added)
  end.

(** The four blocks of ixfr_copy_rrs_into_packet.  Each hands back
    [(returned, total_added, query)]: [returned] when the block left the
    function by [return total_added]. *)

(** Add first SOA: the new SOA of the final segment. *)
Definition copy_first_soa (q : query) (end_data : ixfr_data) (total_added : N)
  : bool * N * query :=
  if ixfr_count_newsoa q <? newsoa_len end_data then
    if (buffer_position (packet q) <? maxlen q)
       && (buffer_position (packet q) + newsoa_len end_data <? maxlen q)
    then
      let p := buffer_write (packet q) (buf_bytes (newsoa end_data)) in
      (false, u16_add total_added 1,
       set_stream (set_packet q p) (q_ixfr_data q) (q_ixfr_end_data q)
         (newsoa_len end_data) (ixfr_count_oldsoa q) (ixfr_count_del q)
         (ixfr_count_add q) (buffer_position p))
    else (true, total_added, q)
  else (false, total_added, q).

(** Add second SOA: the old SOA of the current segment. *)
Definition copy_second_soa (q : query) (cur : ixfr_data) (total_added : N)
  : bool * N * query :=
  if ixfr_count_oldsoa q <? oldsoa_len cur then
    if (buffer_position (packet q) <? maxlen q)
       && (buffer_position (packet q) + oldsoa_len cur <? maxlen q)
    then
      let p := buffer_write (packet q) (buf_bytes (oldsoa cur)) in
      (false, u16_add total_added 1,
       set_stream (set_packet q p) (q_ixfr_data q) (q_ixfr_end_data q)
         (ixfr_count_newsoa q) (oldsoa_len cur) (ixfr_count_del q)
         (ixfr_count_add q) (ixfr_pos_of_newsoa q))
    else (true, total_added, q)
  else (false, total_added, q).

(** Add del data, with deleted RRs and a SOA. *)
Definition copy_del (q : query) (cur : ixfr_data) (total_added : N)
  : option (bool * N * query) :=
  match copy_run_loop (S (length (buf_bytes (del cur))))
          (buf_bytes (del cur)) (del_len cur) (maxlen q)
          (ixfr_count_del q) (packet q) total_added with
  | None => None
  | Some (returned, cnt, p, total_added) =>
      Some (returned, total_added,
            set_stream (set_packet q p) (q_ixfr_data q) (q_ixfr_end_data q)
              (ixfr_count_newsoa q) (ixfr_count_oldsoa q) cnt
              (ixfr_count_add q) (ixfr_pos_of_newsoa q))
  end.

(** Add add data, with added RRs and a SOA. *)
Definition copy_add (q : query) (cur : ixfr_data) (total_added : N)
  : option (bool * N * query) :=
  match copy_run_loop (S (length (buf_bytes (add cur))))
          (buf_bytes (add cur)) (add_len cur) (maxlen q)
          (ixfr_count_add q) (packet q) total_added with
  | None => None
  | Some (returned, cnt, p, total_added) =>
      Some (returned, total_added,
            set_stream (set_packet q p) (q_ixfr_data q) (q_ixfr_end_data q)
              (ixfr_count_newsoa q) (ixfr_count_oldsoa q) (ixfr_count_del q)
              cnt (ixfr_pos_of_newsoa q))
  end.

(** ixfr_copy_rrs_into_packet: the number of records added and the query
    as the call leaves it.  [None]: a loop ran out of fuel, or the query
    has no segment to stream from (NULL dereference). *)
Definition ixfr_copy_rrs_into_packet (q : query) : option (N * query) :=
  match q_ixfr_data q, q_ixfr_end_data q with
  | Some (cur, _), Some (end_data, _) =>
      let total_added := 0 in
      let '(returned, total_added, q) :=
        copy_first_soa q end_data total_added in
      if returned then Some (total_added, q)
      else
        let '(returned, total_added, q) :=
          copy_second_soa q cur total_added in
        if returned then Some (total_added, q)
        else
          match copy_del q cur total_added with
          | None => None
          | Some (returned, total_added, q) =>
              if returned then Some (total_added, q)
              else
                match copy_add q cur total_added with
                | None => None
                | Some (_, total_added, q) => Some (total_added, q)
                end
          end
  | _, _ => None
  end.

(** connect_ixfrs: walks the successors of a node; the boolean is the
    return value, the number is [*end_serial] as the call leaves it. *)
Fixpoint connect_ixfrs_from (p : ixfr_data) (succs : list ixfr_data)
  (end_serial : N) : bool * N :=
  match succs with
  | n :: rest =>
      if negb (newserial p =? oldserial n) then (false, end_serial)
      else connect_ixfrs_from n rest end_serial
  | [] => (true, newserial p)
  end.

Definition connect_ixfrs (d : @rbnode ixfr_data) (end_serial : N) : bool * N :=
  connect_ixfrs_from (fst d) (snd d) end_serial.

(** The [while(query->ixfr_count_add >= query->ixfr_data->add_len)] loop of
    query_ixfr, by recursion on the successors of the current segment. *)
Fixpoint next_segments (q : query) (cur : ixfr_data) (succs : list ixfr_data)
  (total_added : N) : option (N * query) :=
  if add_len cur <=? ixfr_count_add q then
    match succs with
    | n :: rest =>
        let q := set_stream q (Some (n, rest)) (q_ixfr_end_data q)
                   (ixfr_count_newsoa q) (oldsoa_len n) 0 0
                   (ixfr_pos_of_newsoa q) in
        match ixfr_copy_rrs_into_packet q with
        | None => None
        | Some (added, q) =>
            next_segments q n rest (u16_add total_added added)
        end
    | [] =>
        Some (total_added,
              set_ixfr_is_done (set_tsig_sign_it q true) true)
    end
  else Some (total_added, q).

(** Modelled from the spec: the zone database (namedb.h) is not part of
    ixfr.c; the core asks it to "find zone by owner name". *)
Definition namedb : Type := list (dname * zone).

Definition dname_eqb (a b : dname) : bool :=
  if list_eq_dec Byte.byte_eq_dec a b then true else false.

Fixpoint namedb_find_zone (db : namedb) (name : dname) : option zone :=
  match db with
  | [] => None
  | (n, z) :: db' => if dname_eqb n name then Some z else namedb_find_zone db' name
  end.

(** [if (query->maxlen > IXFR_MAX_MESSAGE_LEN)
      query->maxlen = IXFR_MAX_MESSAGE_LEN;] *)
Definition clamp_maxlen (q : query) : query :=
  if IXFR_MAX_MESSAGE_LEN <? maxlen q
  then set_maxlen q IXFR_MAX_MESSAGE_LEN
  else q.

Section QueryIxfr.
(** packet_skip_dname and packet_skip_rr (packet.c): the position behind
    the name or record at the packet's position, or failure. *)
Variable packet_skip_dname : buffer -> option N.
Variable packet_skip_rr : buffer -> bool -> option N.

(** packet_encode_rr (packet.c) together with the compression-table calls
    around it: encodes the record at the packet's position, or returns 0
    when it does not fit and leaves the packet as it was. *)
Variable packet_encode_rr : query -> option dname -> rr -> N -> option buffer.

(** query_axfr (axfr.c): the full zone transfer the handler falls back to. *)
Variable query_axfr : namedb -> query -> query_state_type * query.

(** The [for(i=0; i<NSCOUNT(packet); i++)] loop of parse_qserial; the
    result is the serial, if the SOA was found and is well-formed. *)
Fixpoint parse_qserial_loop (n : nat) (p : buffer) : option N :=
  match n with
  | O => None
  | S n' =>
      match packet_skip_dname p with
      | None => None
      | Some pos =>
          let p := buffer_set_position p pos in
          if negb (buffer_available p 10) then None
          else
            let '(type, p) := buffer_read_u16 p in
            let p := buffer_skip p 6 in
            let '(rdlen, p) := buffer_read_u16 p in
            if negb (buffer_available p rdlen) then None
            else if type =? TYPE_SOA then
              match packet_skip_dname p with
              | None => None
              | Some pos =>
                  let p := buffer_set_position p pos in
                  match packet_skip_dname p with
                  | None => None
                  | Some pos =>
                      let p := buffer_set_position p pos in
                      if negb (buffer_available p 4) then None
                      else Some (fst (buffer_read_u32 p))
                  end
              end
            else parse_qserial_loop n' (buffer_skip p rdlen)
      end
  end.

(** parse_qserial: the serial on success, and [*snip_pos] as the call
    leaves it ([snip_pos] on entry is what the caller put there). *)
Definition parse_qserial (p : buffer) (snip_pos : N) : option N * N :=
  if NSCOUNT (hdr p) =? 0 then (None, snip_pos)
  else
    let p := buffer_set_position p QHEADERSZ in
    if negb (QDCOUNT (hdr p) =? 1) then (None, snip_pos)
    else
      match packet_skip_rr p true with
      | None => (None, snip_pos)
      | Some pos =>
          let p := buffer_set_position p pos in
          let snip_pos := buffer_position p in
          (parse_qserial_loop (N.to_nat (NSCOUNT (hdr p))) p, snip_pos)
      end.

(** Modelled from the spec: query_prepare_response (query.c) is not part
    of ixfr.c.  4F: the streamer is re-entered "with a fresh output buffer
    whose header has question-section count set to zero and
    answer-section only".  Behind [buffer_set_limit(packet, QHEADERSZ)]
    the position is put at the limit, the limit is opened up to the
    buffer's capacity, and the flags and the rcode start afresh. *)
Definition query_prepare_response (q : query) (capacity : N) : query :=
  let p := packet q in
  let p := buffer_set_position p (limit p) in
  let p := {| hdr := {| QDCOUNT := QDCOUNT (hdr p); ANCOUNT := ANCOUNT (hdr p);
                        NSCOUNT := NSCOUNT (hdr p); ARCOUNT := ARCOUNT (hdr p);
                        AA := false; TC := false; RCODE := 0 |};
              buf_data := buf_data p; position := position p;
              limit := capacity |} in
  set_packet q p.

(** The first statements of the part of query_ixfr behind the
    [if (query->ixfr_data == NULL)] statement: copy records into the
    packet and move on through the chain while segments are finished. *)
Definition stream_fill (q : query) : option (N * query) :=
  match ixfr_copy_rrs_into_packet q with
  | None => None
  | Some (total_added, q) =>
      match q_ixfr_data q with
      | None => None
      | Some (cur, succs) => next_segments q cur succs total_added
      end
  end.

(** The rest of query_ixfr: set the header, truncate over UDP, decide on
    signing. *)
Definition stream_answer (total_added : N) (q : query) : query :=
  (* return the answer *)
  let p := AA_SET (packet q) in
  let p := ANCOUNT_SET p total_added in
  let p := NSCOUNT_SET p 0 in
  let p := ARCOUNT_SET p 0 in
  let q := set_packet q p in
  let q :=
    if negb (tcp q) && negb (ixfr_is_done q) then
      let p := TC_SET (packet q) in
      let p :=
        if negb (ixfr_pos_of_newsoa q =? 0) then
          ANCOUNT_SET (buffer_set_position p (ixfr_pos_of_newsoa q)) 1
        else p in
      set_ixfr_is_done (set_packet q p) true
    else q in
  (* check if it needs tsig signatures *)
  if tsig_status_eqb (tsig q) TSIG_OK
  then set_tsig_sign_it q true
  else q.

Definition query_ixfr_stream (q : query) : option (query_state_type * query) :=
  match stream_fill q with
  | None => None
  | Some (total_added, q) => Some (QUERY_IN_IXFR, stream_answer total_added q)
  end.

(** query_ixfr.  [capacity] is the size of the packet buffer, which
    query_prepare_response opens the limit up to. *)
Definition query_ixfr (db : namedb) (capacity : N) (q : query)
  : option (query_state_type * query) :=
  if ixfr_is_done q then Some (QUERY_PROCESSED, q)
  else
    let q := clamp_maxlen q in
    (* only keep running values for most packets *)
    let q :=
      if tsig_sign_it q then set_tsig_flags q true true false
      else set_tsig_flags q false true (tsig_sign_it q) in
    match q_ixfr_data q with
    | None =>
        (* This is the first packet, process the query further *)
        let oldpos := QHEADERSZ in
        let '(parsed, oldpos) := parse_qserial (packet q) oldpos in
        let p := NSCOUNT_SET (packet q) 0 in
        let p := ARCOUNT_SET p 0 in
        let p := buffer_set_position p oldpos in
        let q := set_packet q p in
        match parsed with
        | None =>
            Some (QUERY_PROCESSED,
                  set_packet q (RCODE_SET (packet q) RCODE_FORMAT))
        | Some qserial =>
            match namedb_find_zone db (qname q) with
            | None =>
                Some (QUERY_PROCESSED,
                      set_packet q (RCODE_SET (packet q) RCODE_NOTAUTH))
            | Some z =>
                let current_serial := zone_get_current_serial (Some z) in
                if (compare_serial qserial current_serial >=? 0)%Z then
                  match soa_rrset z with
                  | Some [soa] =>
                      let q :=
                        match packet_encode_rr q (apex z) soa (rr_ttl soa) with
                        | Some p => set_packet q (ANCOUNT_SET p 1)
                        | None =>
                            set_packet q (RCODE_SET (packet q) RCODE_SERVFAIL)
                        end in
                      Some (QUERY_PROCESSED, set_packet q (AA_SET (packet q)))
                  | _ =>
                      Some (QUERY_PROCESSED,
                            set_packet q (RCODE_SET (packet q) RCODE_SERVFAIL))
                  end
                else
                  match ixfr z with
                  | None => Some (query_axfr db q)
                  | Some i =>
                      match zone_ixfr_find_serial (ixfr z) qserial with
                      | None => Some (query_axfr db q)
                      | Some d =>
                          let '(connected, end_serial) := connect_ixfrs d 0 in
                          if negb connected
                             || negb (end_serial =? current_serial)
                          then Some (query_axfr db q)
                          else
                            let q := set_stream q (Some d)
                                       (rbtree_last (data i)) 0 0 0 0 0 in
                            let q := set_ixfr_is_done q false in
                            let q :=
                              if tsig_status_eqb (tsig q) TSIG_OK
                              then set_tsig_sign_it q true
                              else q in
                            query_ixfr_stream q
                      end
                  end
            end
        end
    | Some _ =>
        let p := buffer_set_limit (packet q) QHEADERSZ in
        let p := QDCOUNT_SET p 0 in
        let q := query_prepare_response (set_packet q p) capacity in
        query_ixfr_stream q
    end.

End QueryIxfr.

(** ** Reading the IXFR files at startup *)

(** A file is the sequence of lines that fgets hands out. *)
Definition ixfr_file : Type := list (list byte).

(** isspace of the C locale: space, \t, \n, \v, \f, \r. *)
Definition isspace (b : byte) : bool :=
  let c := u8 b in (c =? 32) || ((9 <=? c) && (c <=? 13)).

(** skipwhite *)
Fixpoint skipwhite (str : list byte) : list byte :=
  match str with
  | c :: rest => if isspace c then skipwhite rest else str
  | [] => []
  end.

Section ReadFiles.
Variable sizeof_ixfr_data : N.

(** zonec_parse_string (zonec.c) on one line, with the checks
    ixfr_data_readrr makes on its outcome: the one record the line holds,
    or failure (parse error, or not exactly one record). *)
Variable zonec_parse_string : list byte -> option rr.

(** The body of the fgets loop of ixfr_data_readrr for one line: the line
    is passed over (blank or comment), or it is handed to the parser. *)
Inductive line_outcome : Type :=
| LineSkip
| LineBad
| LineRR (r : rr).

Definition read_line (line : list byte) : line_outcome :=
  match skipwhite line with
  | [] => LineSkip
  | c :: _ =>
      if u8 c =? 0 then LineSkip
      else if u8 c =? 59 then LineSkip
      else
        match zonec_parse_string line with
        | None => LineBad
        | Some r => LineRR r
        end
  end.

(** ixfr_data_readrr: the next record of the file and the lines left
    behind it. *)
Fixpoint ixfr_data_readrr (lines : ixfr_file) : option (rr * ixfr_file) :=
  match lines with
  | [] => None
  | line :: rest =>
      match read_line line with
      | LineSkip => ixfr_data_readrr rest
      | LineBad => None
      | LineRR r => Some (r, rest)
      end
  end.

(** ixfr_putrr with a capacity that starts at 0, as the readers use it. *)
Definition read_putrr (r : rr) (rrs : option (list byte)) (capacity : N)
  : bool * option (list byte) * N :=
  ixfr_putrr (rr_owner r) (rr_type r) (rr_klass r) (rr_ttl r) (rdatas r)
    rrs capacity.

(** The checks on an SOA line that ixfr_data_readnewsoa and
    ixfr_data_readoldsoa share: type, class, the zone has an apex, and the
    owner is the apex (dname_compare on the wire names). *)
Definition soa_line_ok (z : zone) (r : rr) : bool :=
  (rr_type r =? TYPE_SOA) && (rr_klass r =? CLASS_IN) &&
  match apex z with
  | None => false
  | Some a => dname_eqb a (rr_owner r)
  end.

Definition set_serials (d : ixfr_data) (old new : N) : ixfr_data :=
  {| oldserial := old; newserial := new; newsoa := newsoa d;
     oldsoa := oldsoa d; del := del d; add := add d;
     log_str := log_str d; file_num := file_num d |}.

(** ixfr_data_readnewsoa *)
Definition ixfr_data_readnewsoa (d : ixfr_data) (z : zone)
  (lines : ixfr_file) (dest_serial : N) : option (ixfr_data * ixfr_file) :=
  match ixfr_data_readrr lines with
  | None => None
  | Some (r, rest) =>
      if negb (soa_line_ok z r) then None
      else
        let d := set_serials d (oldserial d) (soa_rr_get_serial r) in
        if negb (newserial d =? dest_serial) then None
        else
          let '(ok, rrs, capacity) := read_putrr r (newsoa d) 0 in
          if negb ok then None
          else
            let '(rrs, _) := ixfr_trim_capacity rrs capacity in
            Some (set_newsoa d rrs, rest)
  end.

(** ixfr_data_readoldsoa; the third component is the new [*dest_serial]. *)
Definition ixfr_data_readoldsoa (d : ixfr_data) (z : zone)
  (lines : ixfr_file) : option (ixfr_data * ixfr_file * N) :=
  match ixfr_data_readrr lines with
  | None => None
  | Some (r, rest) =>
      if negb (soa_line_ok z r) then None
      else
        let d := set_serials d (soa_rr_get_serial r) (newserial d) in
        let '(ok, rrs, capacity) := read_putrr r (oldsoa d) 0 in
        if negb ok then None
        else
          let '(rrs, _) := ixfr_trim_capacity rrs capacity in
          Some (set_oldsoa d rrs, rest, oldserial d)
  end.

(** The [while(1)] loop of ixfr_data_readdel and ixfr_data_readadd: records
    are appended to the run until an SOA with the segment's new serial has
    been appended.  The recursion is on the lines of the file, with
    ixfr_data_readrr unfolded line by line. *)
Fixpoint read_section (lines : ixfr_file) (new_serial : N)
  (rrs : option (list byte)) (capacity : N)
  : option (option (list byte) * N * ixfr_file) :=
  match lines with
  | [] => None
  | line :: rest =>
      match read_line line with
      | LineSkip => read_section rest new_serial rrs capacity
      | LineBad => None
      | LineRR r =>
          let '(ok, rrs, capacity) := read_putrr r rrs capacity in
          if negb ok then None
          else if (rr_type r =? TYPE_SOA)
                  && (soa_rr_get_serial r =? new_serial)
          then Some (rrs, capacity, rest)
          else read_section rest new_serial rrs capacity
      end
  end.

(** ixfr_data_readdel and ixfr_data_readadd *)
Definition ixfr_data_readrun (w : run) (d : ixfr_data) (lines : ixfr_file)
  : option (ixfr_data * ixfr_file) :=
  match read_section lines (newserial d) (run_rrs w d) 0 with
  | None => None
  | Some (rrs, capacity, rest) =>
      let '(rrs, _) := ixfr_trim_capacity rrs capacity in
      Some (set_run_rrs w d rrs, rest)
  end.

(** The four readers of ixfr_data_read in a row: the segment of the file
    and the new [*dest_serial], or failure. *)
Definition ixfr_data_parse (z : zone) (lines : ixfr_file) (dest_serial : N)
  (num : Z) : option ixfr_data * N :=
  let d := {| oldserial := 0; newserial := 0; newsoa := None;
              oldsoa := None; del := None; add := None;
              log_str := None; file_num := num |} in
  match ixfr_data_readnewsoa d z lines dest_serial with
  | None => (None, dest_serial)
  | Some (d, lines) =>
      match ixfr_data_readoldsoa d z lines with
      | None => (None, dest_serial)
      | Some (d, lines, dest_serial) =>
          match ixfr_data_readrun DelRun d lines with
          | None => (None, dest_serial)
          | Some (d, lines) =>
              match ixfr_data_readrun AddRun d lines with
              | None => (None, dest_serial)
              | Some (d, _) => (Some d, dest_serial)
              end
          end
      end
  end.

(** ixfr_data_read: the return value, the zone and [*dest_serial]. *)
Definition ixfr_data_read (z : zone) (lines : ixfr_file) (dest_serial : N)
  (num : Z) : bool * zone * N :=
  let full :=
    match ixfr z with
    | Some i => count i =? ixfr_number (opts z)
    | None => false
    end in
  if full then (false, z, dest_serial)
  else
    match apex z with
    | None => (false, z, dest_serial)
    | Some _ =>
        match ixfr_data_parse z lines dest_serial num with
        | (None, dest_serial) => (false, z, dest_serial)
        | (Some d, dest_serial) =>
            let i := match ixfr z with
                     | None => zone_ixfr_create
                     | Some i => i
                     end in
            let z := set_zone_ixfr z (Some i) in
            if negb (ixfr_size (opts z) =? 0)
               && (ixfr_size (opts z)
                     <? size_add (total_size i)
                          (ixfr_data_size sizeof_ixfr_data d))
            then (false, z, dest_serial)
            else
              (true,
               set_zone_ixfr z (Some (zone_ixfr_add sizeof_ixfr_data i d)),
               dest_serial)
        end
    end.

(** The [while(ixfr_read_one_more_file(...)) num_files++;] loop: [files]
    are the files numbered [num_files + 1], [num_files + 2], ... that can
    be opened; the loop ends at the first file that cannot be opened or
    whose ixfr_data_read fails.  The result is the zone, the serial
    variable and [num_files] behind the loop. *)
Fixpoint ixfr_read_files (files : list ixfr_file) (z : zone) (serial : N)
  (num_files : Z) : zone * N * Z :=
  match files with
  | [] => (z, serial, num_files)
  | f :: rest =>
      match ixfr_data_read z f serial (num_files + 1) with
      | (true, z, serial) => ixfr_read_files rest z serial (num_files + 1)
      | (false, z, serial) => (z, serial, num_files)
      end
  end.

Definition set_num_files (i : zone_ixfr) (n : Z) : zone_ixfr :=
  {| data := data i; total_size := total_size i; num_files := n |}.

(** ixfr_read_from_file *)
Definition ixfr_read_from_file (z : zone) (files : list ixfr_file) : zone :=
  let z := set_zone_ixfr z (zone_ixfr_clear (ixfr z)) in
  let serial := zone_get_current_serial (Some z) in
  let '(z, _, num_files) := ixfr_read_files files z serial 0 in
  if (0 <? num_files)%Z then
    match ixfr z with
    | Some i => set_zone_ixfr z (Some (set_num_files i num_files))
    | None => z
    end
  else z.
End ReadFiles.

(** ** Writing the IXFR files *)

(** *** The printf conversions ixfr.c uses *)

(** The decimal digits of a number, least significant first. *)
Fixpoint little_digits (fuel : nat) (n : N) : list byte :=
  match fuel with
  | O => []
  | S fuel' =>
      byte_of_N (48 + n mod 10)
      :: (if n / 10 =? 0 then [] else little_digits fuel' (n / 10))
  end.

(** %u and %lu: a number has no more decimal than binary digits. *)
Definition decimal (n : N) : list byte :=
  rev (little_digits (S (N.to_nat (N.log2 n))) n).

(** %d *)
Definition decimal_int (n : Z) : list byte :=
  if (n <? 0)%Z then x2d :: decimal (Z.abs_N n) else decimal (Z.to_N n).

(** %s: the octets of a C string, up to its NUL. *)
Fixpoint c_string (s : list byte) : list byte :=
  match s with
  | [] => []
  | c :: rest => if u8 c =? 0 then [] else c :: c_string rest
  end.

(** snprintf(buf, len, ...): the text, cut to [len - 1] octets. *)
Definition snprintf (len : N) (text : list byte) : list byte :=
  firstn (N.to_nat (len - 1)) text.

(** Conversion of an unsigned value to int: 32 bits, two's complement. *)
Definition to_int (n : N) : Z :=
  let m := Z.of_N (n mod UINT32_MOD) in
  if (m <? 2147483648)%Z then m else (m - 4294967296)%Z.

(** *** The directory of the zone file *)

(** Modelled from POSIX: the files that stat, unlink, rename and fopen
    work on are a finite map from path names to contents.  A call fails
    only for a file that is not there (ENOENT); permissions, a full disk
    and other I/O errors are left out, so fopen for writing and the
    writes themselves succeed. *)
Definition disk : Type := list (list byte * list byte).

Definition name_eqb (a b : list byte) : bool :=
  if list_eq_dec Byte.byte_eq_dec a b then true else false.

Fixpoint disk_find (dk : disk) (name : list byte) : option (list byte) :=
  match dk with
  | [] => None
  | (n, content) :: rest =>
      if name_eqb n name then Some content else disk_find rest name
  end.

Definition disk_remove (dk : disk) (name : list byte) : disk :=
  filter (fun e => negb (name_eqb (fst e) name)) dk.

Definition disk_store (dk : disk) (name content : list byte) : disk :=
  (name, content) :: disk_remove dk name.

(** unlink(path): the directory behind the call, or ENOENT. *)
Definition unlink (dk : disk) (name : list byte) : option disk :=
  match disk_find dk name with
  | Some _ => Some (disk_remove dk name)
  | None => None
  end.

(** rename(old, new): a file that is at [new] is replaced. *)
Definition rename (dk : disk) (old new : list byte) : option disk :=
  match disk_find dk old with
  | Some content => Some (disk_store (disk_remove dk old) new content)
  | None => None
  end.

(** *** File names and file management *)

Definition set_file_num (d : ixfr_data) (n : Z) : ixfr_data :=
  {| oldserial := oldserial d; newserial := newserial d; newsoa := newsoa d;
     oldsoa := oldsoa d; del := del d; add := add d;
     log_str := log_str d; file_num := n |}.

Definition set_data (i : zone_ixfr) (nodes : list ixfr_data) : zone_ixfr :=
  {| data := nodes; total_size := total_size i; num_files := num_files i |}.

(** zone_is_ixfr_enabled *)
Definition zone_is_ixfr_enabled (z : zone) : bool := store_ixfr (opts z).

(** ixfr_target_number_files *)
Definition ixfr_target_number_files (z : zone) : Z :=
  match ixfr z with
  | None => 0%Z
  | Some i =>
      if negb (zone_is_ixfr_enabled z) then 0%Z
      else
        let dest_num_files := to_int (ixfr_number (opts z)) in
        if (to_int (count i) <? dest_num_files)%Z then to_int (count i)
        else dest_num_files
  end.

(** make_ixfr_name: "%s.ixfr" for file 1, "%s.ixfr.%d" for the others, in
    a buffer of 1024+24 octets. *)
Definition make_ixfr_name (zfile : list byte) (file_num : Z) : list byte :=
  snprintf (1024 + 24)
    (if (file_num =? 1)%Z
     then c_string zfile ++ [x2e; x69; x78; x66; x72]
     else c_string zfile ++ [x2e; x69; x78; x66; x72; x2e]
          ++ decimal_int file_num).

(** ixfr_file_exists *)
Definition ixfr_file_exists (dk : disk) (zfile : list byte) (file_num : Z)
  : bool :=
  match disk_find dk (make_ixfr_name zfile file_num) with
  | Some _ => true
  | None => false
  end.

(** ixfr_unlink_it: the return value and the directory.  [ignore_enoent]
    only decides whether the failure is logged. *)
Definition ixfr_unlink_it (dk : disk) (zfile : list byte) (file_num : Z)
  (ignore_enoent : bool) : bool * disk :=
  match unlink dk (make_ixfr_name zfile file_num) with
  | Some dk' => (true, dk')
  | None => (false, dk)
  end.

(** ixfr_delete_rest_files.  [nodes] is the node [from] followed by the
    nodes that rbtree_previous leads to.  The loop goes on while file_num
    is 0, so the unlink in its body is never reached. *)
Fixpoint ixfr_delete_rest_files (dk : disk) (zfile : list byte)
  (nodes : list ixfr_data) : disk * list ixfr_data :=
  match nodes with
  | [] => (dk, [])
  | d :: previous =>
      if (file_num d =? 0)%Z then
        let '(dk, d) :=
          if negb (file_num d =? 0)%Z
          then (snd (ixfr_unlink_it dk zfile (file_num d) false),
                set_file_num d 0)
          else (dk, d) in
        let '(dk, previous) := ixfr_delete_rest_files dk zfile previous in
        (dk, d :: previous)
      else (dk, nodes)
  end.

(** The [while(ixfr_unlink_it(zone, zfile, i, 1)) i++;] loop of
    ixfr_delete_superfluous_files.  [None]: out of fuel. *)
Fixpoint unlink_loop (fuel : nat) (dk : disk) (zfile : list byte) (i : Z)
  : option disk :=
  match fuel with
  | O => None
  | S fuel' =>
      match ixfr_unlink_it dk zfile i true with
      | (true, dk) => unlink_loop fuel' dk zfile (i + 1)
      | (false, dk) => Some dk
      end
  end.

(** ixfr_delete_superfluous_files *)
Definition ixfr_delete_superfluous_files (fuel : nat) (dk : disk)
  (zfile : list byte) (dest_num_files : Z) : option disk :=
  let i := (dest_num_files + 1)%Z in
  if negb (ixfr_file_exists dk zfile i) then Some dk
  else unlink_loop fuel dk zfile i.

(** ixfr_rename_it *)
Definition ixfr_rename_it (dk : disk) (zfile : list byte) (oldnum newnum : Z)
  : bool * disk :=
  match rename dk (make_ixfr_name zfile oldnum)
          (make_ixfr_name zfile newnum) with
  | Some dk' => (true, dk')
  | None => (false, dk)
  end.

(** The loop of ixfr_rename_files at the node that heads [nodes]; the
    rest of [nodes] is what rbtree_next leads to, [before] holds the nodes
    already passed, the nearest first.  The result is the return value,
    the directory and the nodes of the chain in tree order. *)
Fixpoint rename_loop (dk : disk) (zfile : list byte)
  (before nodes : list ixfr_data) (destnum : Z)
  : bool * disk * list ixfr_data :=
  match nodes with
  | [] => (true, dk, rev before)
  | d :: next =>
      if (file_num d =? 0)%Z then (true, dk, rev before ++ nodes)
      else if (file_num d =? destnum)%Z then (true, dk, rev before ++ nodes)
      else
        let dk :=
          if ixfr_file_exists dk zfile destnum
          then snd (ixfr_unlink_it dk zfile destnum false)
          else dk in
        match ixfr_rename_it dk zfile (file_num d) destnum with
        | (false, dk) =>
            let '(dk, before) :=
              match before with
              | [] => (dk, before)
              | _ :: _ => ixfr_delete_rest_files dk zfile before
              end in
            (false, dk, rev before ++ nodes)
        | (true, dk) =>
            let d := set_file_num d destnum in
            let destnum := (destnum - 1)%Z in
            if (destnum =? 0)%Z then (true, dk, rev (d :: before) ++ next)
            else rename_loop dk zfile (d :: before) next destnum
        end
  end.

Section WriteFiles.
Variable sizeof_ixfr_data : N.
Variable node_key_slot : ixfr_data -> N.

(** ixfr_delete_memory_items.  [None]: the loop that removes the oldest
    segment does not come to an end within [fuel] iterations, or a removal
    freed a segment that is still linked into the tree. *)
Definition ixfr_delete_memory_items (fuel : nat) (z : zone)
  (dest_num_files : Z) : option zone :=
  match ixfr z with
  | None => Some z
  | Some i =>
      if (dest_num_files =? to_int (count i))%Z then Some z
      else if (to_int (count i) <? dest_num_files)%Z then Some z
      else
        match while_loop_partial fuel
                (fun i => (dest_num_files <? to_int (count i))%Z)
                (zone_ixfr_remove_oldest sizeof_ixfr_data node_key_slot)
                i with
        | None => None
        | Some i => Some (set_zone_ixfr z (Some i))
        end
  end.

(** ixfr_rename_files *)
Definition ixfr_rename_files (dk : disk) (z : zone) (zfile : list byte)
  (dest_num_files : Z) : bool * disk * zone :=
  match ixfr z with
  | None => (true, dk, z)
  | Some i =>
      let '(ok, dk, nodes) := rename_loop dk zfile [] (data i) dest_num_files in
      (ok, dk, set_zone_ixfr z (Some (set_data i nodes)))
  end.

(** [zone->opts->name], which the model of struct zone leaves out. *)
Variable zone_name : list byte.

(** ixfr_write_file_header.  fprintf returns the number of octets it
    wrote, or a negative number: the tests [!fprintf(...)] never hold and
    the function returns 1. *)
Definition ixfr_write_file_header (d : ixfr_data) : list byte :=
  [x3b; x20; x49; x58; x46; x52; x20; x64; x61; x74; x61; x20; x66; x69;
   x6c; x65; x0a]
  ++ [x3b; x20; x7a; x6f; x6e; x65; x20] ++ c_string zone_name ++ [x0a]
  ++ [x3b; x20; x66; x72; x6f; x6d; x5f; x73; x65; x72; x69; x61; x6c; x20]
  ++ decimal (oldserial d) ++ [x0a]
  ++ [x3b; x20; x74; x6f; x5f; x73; x65; x72; x69; x61; x6c; x20]
  ++ decimal (newserial d) ++ [x0a]
  ++ match log_str d with
     | Some s => [x3b; x20] ++ c_string (String.list_byte_of_string s) ++ [x0a]
     | None => []
     end.

(** dname_make (dname.c) with normalize set: the name that starts the
    octets, in normalized wire form, or NULL. *)
Variable dname_make : list byte -> option dname.

(** rdata_wireformat_to_rdata_atoms (rdata.c), as for the builder. *)
Variable rdata_wireformat_to_rdata_atoms :
  N -> N -> buffer -> option (list rdata_atom).

(** dname_to_string, rrclass_to_string and rrtype_to_string (dname.c,
    dns.c): the text as a C string. *)
Variable dname_to_string : dname -> list byte.
Variable rrclass_to_string : N -> list byte.
Variable rrtype_to_string : N -> list byte.

(** [rrtype_descriptor_by_type(type)->zoneformat[i]] (dns.c). *)
Variable zoneformat : N -> nat -> N.

(** rdata_atom_to_string (rdata.c): the text it appends to the output
    buffer for one atom in the given zone format, or failure. *)
Variable rdata_atom_to_string : N -> rdata_atom -> rr -> option (list byte).

(** rdata_atoms_to_unknown_string (rdata.c), for the descriptor of the
    given type. *)
Variable rdata_atoms_to_unknown_string :
  N -> list rdata_atom -> option (list byte).

(** oneline_print_rdata: the text appended for the atoms from index [i]
    on; on failure the output position is put back. *)
Fixpoint oneline_print_rdata (record : rr) (i : nat)
  (atoms : list rdata_atom) : option (list byte) :=
  match atoms with
  | [] => Some []
  | a :: rest =>
      let sep := if Nat.eqb i 0 then [x09] else [x20] in
      match rdata_atom_to_string (zoneformat (rr_type record) i) a record with
      | None => None
      | Some s =>
          match oneline_print_rdata record (S i) rest with
          | None => None
          | Some t => Some (sep ++ s ++ t)
          end
      end
  end.

(** parse_wirerr_into_temp on [len] octets at [buf]: the owner name and
    the record; the record's owner field stays zeroed. *)
Definition parse_wirerr_into_temp (buf : list byte) (len : N)
  : option (dname * rr) :=
  match dname_make buf with
  | None => None
  | Some name =>
      let bufpos := blen name in
      if len <? bufpos + 10 then None
      else
        let type := read_uint16 buf bufpos in
        let bufpos := bufpos + 2 in
        let klass := read_uint16 buf bufpos in
        let bufpos := bufpos + 2 in
        let ttl := read_uint32 buf bufpos in
        let bufpos := bufpos + 4 in
        let rdlen := read_uint16 buf bufpos in
        let bufpos := bufpos + 2 in
        if len <? bufpos + rdlen then None
        else
          let packet :=
            {| hdr := mk_header 0 0 0 0 false false 0;
               buf_data := slice buf bufpos rdlen;
               position := 0; limit := rdlen |} in
          match rdata_wireformat_to_rdata_atoms type rdlen packet with
          | None => None
          | Some atoms =>
              Some (name,
                    {| rr_owner := []; rr_type := type; rr_klass := klass;
                       rr_ttl := ttl; rdatas := atoms |})
          end
  end.

(** print_rr_oneline: the text in the output buffer. *)
Definition print_rr_oneline (name : dname) (r : rr) : option (list byte) :=
  let text :=
    c_string (dname_to_string name)
    ++ [x09] ++ decimal (rr_ttl r)
    ++ [x09] ++ c_string (rrclass_to_string (rr_klass r))
    ++ [x09] ++ c_string (rrtype_to_string (rr_type r)) in
  match oneline_print_rdata r 0 (rdatas r) with
  | Some rdata => Some (text ++ rdata)
  | None =>
      match rdata_atoms_to_unknown_string (rr_type r) (rdatas r) with
      | Some rdata => Some (text ++ rdata)
      | None => None
      end
  end.

(** ixfr_write_rr: the line that goes to the file, or failure. *)
Definition ixfr_write_rr (buf : list byte) (len : N) : option (list byte) :=
  match parse_wirerr_into_temp buf len with
  | None => None
  | Some (name, r) =>
      match print_rr_oneline name r with
      | None => None
      | Some text => Some (c_string text ++ [x0a])
      end
  end.

(** The loop of ixfr_write_rrs: the return value and what went to the
    file.  [None]: out of fuel. *)
Fixpoint ixfr_write_rrs_loop (fuel : nat) (buf : list byte) (len current : N)
  : option (bool * list byte) :=
  match fuel with
  | O => None
  | S fuel' =>
      if current <? len then
        match count_rr_length buf len current with
        | None => None
        | Some rrlen =>
            if rrlen =? 0 then Some (false, [])
            else if len <? current + rrlen then Some (false, [])
            else
              match ixfr_write_rr (skipn (N.to_nat current) buf) rrlen with
              | None => Some (false, [])
              | Some line =>
                  match ixfr_write_rrs_loop fuel' buf len (current + rrlen)
                  with
                  | None => None
                  | Some (ok, out) => Some (ok, line ++ out)
                  end
              end
        end
      else Some (true, [])
  end.

(** ixfr_write_rrs; every turn of the loop consumes at least one octet. *)
Definition ixfr_write_rrs (buf : option (list byte))
  : option (bool * list byte) :=
  match buf with
  | None => Some (true, [])
  | Some l =>
      if blen l =? 0 then Some (true, [])
      else ixfr_write_rrs_loop (S (length l)) l (blen l) 0
  end.

(** ixfr_write_file_data *)
Definition ixfr_write_file_data (d : ixfr_data) : option (bool * list byte) :=
  match ixfr_write_rrs (newsoa d) with
  | None => None
  | Some (false, out1) => Some (false, out1)
  | Some (true, out1) =>
      match ixfr_write_rrs (oldsoa d) with
      | None => None
      | Some (false, out2) => Some (false, out1 ++ out2)
      | Some (true, out2) =>
          match ixfr_write_rrs (del d) with
          | None => None
          | Some (false, out3) => Some (false, out1 ++ out2 ++ out3)
          | Some (true, out3) =>
              match ixfr_write_rrs (add d) with
              | None => None
              | Some (ok, out4) => Some (ok, out1 ++ out2 ++ out3 ++ out4)
              end
          end
      end
  end.

(** ixfr_write_file: the return value, the directory and the segment.
    The file is created by fopen and keeps what was written to it when the
    data cannot be written. *)
Definition ixfr_write_file (dk : disk) (d : ixfr_data) (zfile : list byte)
  (num : Z) : option (bool * disk * ixfr_data) :=
  let ixfrfile := make_ixfr_name zfile num in
  let header := ixfr_write_file_header d in
  match ixfr_write_file_data d with
  | None => None
  | Some (false, out) => Some (false, disk_store dk ixfrfile (header ++ out), d)
  | Some (true, out) =>
      Some (true, disk_store dk ixfrfile (header ++ out), set_file_num d num)
  end.

(** The loop of ixfr_write_files at the node that heads [nodes]; the rest
    of [nodes] is what rbtree_previous leads to, [after] holds the nodes
    already passed, in tree order. *)
Fixpoint write_loop (dk : disk) (zfile : list byte)
  (nodes after : list ixfr_data) (num : Z)
  : option (disk * list ixfr_data) :=
  match nodes with
  | [] => Some (dk, after)
  | d :: previous =>
      if (file_num d =? 0)%Z then
        match ixfr_write_file dk d zfile num with
        | None => None
        | Some (false, dk, d) =>
            let '(dk, nodes) :=
              ixfr_delete_rest_files dk zfile (d :: previous) in
            Some (dk, rev nodes ++ after)
        | Some (true, dk, d) =>
            write_loop dk zfile previous (d :: after) (num + 1)
        end
      else Some (dk, rev nodes ++ after)
  end.

(** ixfr_write_files *)
Definition ixfr_write_files (dk : disk) (z : zone) (zfile : list byte)
  : option (disk * zone) :=
  match ixfr z with
  | None => Some (dk, z)
  | Some i =>
      match write_loop dk zfile (rev (data i)) [] 1 with
      | None => None
      | Some (dk, nodes) =>
          Some (dk, set_zone_ixfr z (Some (set_data i nodes)))
      end
  end.

(** ixfr_write_to_file: the directory and the zone behind the call. *)
Definition ixfr_write_to_file (fuel : nat) (dk : disk) (z : zone)
  (zfile : list byte) : option (disk * zone) :=
  let dest_num_files := ixfr_target_number_files z in
  match ixfr_delete_superfluous_files fuel dk zfile dest_num_files with
  | None => None
  | Some dk =>
      match ixfr_delete_memory_items fuel z dest_num_files with
      | None => None
      | Some z =>
          match ixfr_rename_files dk z zfile dest_num_files with
          | (false, dk, z) => Some (dk, z)
          | (true, dk, z) => ixfr_write_files dk z zfile
          end
      end
  end.
End WriteFiles.

(** *** Reading a file line by line *)

(** fgets(line, size, in) with [n = size - 1]: the octets up to and with
    the next newline, at most [n] of them, and what is left of the file. *)
Fixpoint fgets (n : nat) (content : list byte) : list byte * list byte :=
  match n, content with
  | S n', c :: rest =>
      if u8 c =? 10 then ([c], rest)
      else let '(line, rest') := fgets n' rest in (c :: line, rest')
  | _, _ => ([], content)
  end.

(** The lines that the calls of fgets in ixfr_data_readrr, with its buffer
    of 65536 octets, hand out for a file. *)
Fixpoint fgets_lines (fuel : nat) (content : list byte) : ixfr_file :=
  match fuel, content with
  | S fuel', _ :: _ =>
      let '(line, rest) := fgets (N.to_nat 65535) content in
      line :: fgets_lines fuel' rest
  | _, _ => []
  end.

Definition file_lines (content : list byte) : ixfr_file :=
  fgets_lines (length content) content.

(** The files ixfr_read_one_more_file can open, from number [file_num]
    on, up to the first one that is not there. *)
Fixpoint openable_files (fuel : nat) (dk : disk) (zfile : list byte)
  (file_num : Z) : list ixfr_file :=
  match fuel with
  | O => []
  | S fuel' =>
      match disk_find dk (make_ixfr_name zfile file_num) with
      | None => []
      | Some content =>
          file_lines content
          :: openable_files fuel' dk zfile (file_num + 1)
      end
  end.

(** ** Notions used to state the properties *)

(** The chain's nodes are in increasing order of old_serial, as unsigned
    numbers. *)
Definition chain_sorted (t : list ixfr_data) : Prop :=
  StronglySorted (fun a b => oldserial a < oldserial b) t.

(** The chain's nodes are in increasing order of old_serial under the
    RFC 1982 comparison. *)
Definition chain_sorted_rfc1982 (t : list ixfr_data) : Prop :=
  StronglySorted
    (fun a b => compare_serial (oldserial a) (oldserial b) = (-1)%Z) t.

(** The chains a zone can hold: what zone_ixfr_create, zone_ixfr_add,
    zone_ixfr_remove, zone_ixfr_remove_oldest and zone_ixfr_clear make of
    one another, as long as no removal has freed a segment that is still
    linked. *)
Inductive chain_reachable (sizeof_ixfr_data : N)
  (node_key_slot : ixfr_data -> N) : zone_ixfr -> Prop :=
| reach_create :
    chain_reachable sizeof_ixfr_data node_key_slot zone_ixfr_create
| reach_add i d :
    chain_reachable sizeof_ixfr_data node_key_slot i ->
    chain_reachable sizeof_ixfr_data node_key_slot
      (zone_ixfr_add sizeof_ixfr_data i d)
| reach_remove i d i' :
    chain_reachable sizeof_ixfr_data node_key_slot i ->
    zone_ixfr_remove sizeof_ixfr_data node_key_slot i d = Some i' ->
    chain_reachable sizeof_ixfr_data node_key_slot i'
| reach_remove_oldest i i' :
    chain_reachable sizeof_ixfr_data node_key_slot i ->
    zone_ixfr_remove_oldest sizeof_ixfr_data node_key_slot i = Some i' ->
    chain_reachable sizeof_ixfr_data node_key_slot i'
| reach_clear i i' :
    chain_reachable sizeof_ixfr_data node_key_slot i ->
    zone_ixfr_clear (Some i) = Some i' ->
    chain_reachable sizeof_ixfr_data node_key_slot i'.

(** A segment that holds nothing but its two serials. *)
Definition bare_segment (old new : N) : ixfr_data :=
  {| oldserial := old; newserial := new; newsoa := None; oldsoa := None;
     del := None; add := None; log_str := None; file_num := 0%Z |}.

(** The zone and builder on which eviction is tried: ixfr-number 1, no byte
    cap, the chain holds 10 -> 20, the builder holds 20 -> 30. *)
Definition full_chain : zone_ixfr :=
  {| data := [bare_segment 10 20]; total_size := 64; num_files := 0 |}.

Definition one_slot_options : pattern_options :=
  {| store_ixfr := true; ixfr_number := 1; ixfr_size := 0 |}.




(** The chain a zone has, or the empty one ixfr_store_finish creates. *)
Definition chain_or_new (z : zone) : zone_ixfr :=
  match ixfr z with
  | None => zone_ixfr_create
  | Some i => i
  end.


Definition builder_with_newsoa : ixfr_store :=
  {| cancelled := false;
     store_data := Some {| oldserial := 10; newserial := 20;
                           newsoa := Some (repeat x00 30); oldsoa := None;
                           del := None; add := None;
                           log_str := None; file_num := 0%Z |};
     del_capacity := 0;
     add_capacity := 0 |}.

Definition roomy_zone : zone :=
  {| apex := Some [x00]; soa_rrset := None; ixfr := None;
     opts := {| store_ixfr := true; ixfr_number := 3; ixfr_size := 0 |} |}.


(** *** A stand-in for the zone parser, to run the reader on examples.
    A line "S" n is the SOA of the apex with serial n, a line "A" n is an
    address-like record of the apex with the one octet n as rdata. *)
Definition toy_soa (serial : N) : rr :=
  {| rr_owner := [x00]; rr_type := TYPE_SOA; rr_klass := CLASS_IN;
     rr_ttl := 3600;
     rdatas := [AtomDomain [x00]; AtomDomain [x00];
                AtomData (write_uint32 serial); AtomData (write_uint32 1);
                AtomData (write_uint32 2); AtomData (write_uint32 3);
                AtomData (write_uint32 4)] |}.

Definition toy_rr (octet : byte) : rr :=
  {| rr_owner := [x00]; rr_type := 1; rr_klass := CLASS_IN; rr_ttl := 3600;
     rdatas := [AtomData [octet]] |}.

Definition toy_parse (line : list byte) : option rr :=
  match line with
  | [tag; n] =>
      if u8 tag =? 83 then Some (toy_soa (u8 n))
      else if u8 tag =? 65 then Some (toy_rr n)
      else None
  | _ => None
  end.

(** The file of the segment [old] -> [new]: a comment, the new SOA, the old
    SOA, one deleted record closed by the new SOA, one added record closed
    by the new SOA. *)
Definition toy_file (old new : byte) : ixfr_file :=
  [[x3b; x20; x49]; [x53; new]; [x53; old];
   [x41; x01]; [x53; new]; [x41; x02]; [x53; new]].

Definition toy_zone (serial : N) (number size : N) : zone :=
  {| apex := Some [x00]; soa_rrset := Some [toy_soa serial]; ixfr := None;
     opts := {| store_ixfr := true; ixfr_number := number;
                ixfr_size := size |} |}.

(** The chain of a zone, empty when the zone has no chain object. *)
Definition chain_data (z : zone) : list ixfr_data :=
  match ixfr z with
  | Some i => data i
  | None => []
  end.

(** *** Records of a run, and what fits into a packet *)


(** From offset [cnt] on, the walker cuts the run into the records [rrs],
    one after the other up to the end of the run. *)
Fixpoint walks (run_data : list byte) (cnt : N) (rrs : list (list byte))
  : Prop :=
  match rrs with
  | [] => blen run_data <= cnt
  | r :: rest =>
      cnt < blen run_data /\
      count_rr_length run_data (blen run_data) cnt = Some (blen r) /\
      0 < blen r /\
      slice run_data cnt (blen r) = r /\
      walks run_data (cnt + blen r) rest
  end.


(** The SOA records the streamer still has to write for the current
    segment, and with the records [dels] and [adds] left in the two runs
    everything it still has to write for it. *)
Definition pending_soas (q : query) (cur end_data : ixfr_data)
  : list (list byte) :=
  (if ixfr_count_newsoa q <? newsoa_len end_data
   then [buf_bytes (newsoa end_data)] else [])
  ++ (if ixfr_count_oldsoa q <? oldsoa_len cur
      then [buf_bytes (oldsoa cur)] else []).

Definition pending (q : query) (cur end_data : ixfr_data)
  (dels adds : list (list byte)) : list (list byte) :=
  pending_soas q cur end_data ++ dels ++ adds.

(** The octets of the answer section of a response packet whose answer
    section starts at [start]. *)
Definition answer_section (start : N) (p : buffer) : list byte :=
  skipn (N.to_nat start) (buffer_message p).


(** What a block of the streamer leaves alone. *)
Definition same_session (q q' : query) : Prop :=
  maxlen q' = maxlen q /\ tcp q' = tcp q /\ qname q' = qname q /\
  tsig q' = tsig q /\ tsig_prepare_it q' = tsig_prepare_it q /\
  tsig_update_it q' = tsig_update_it q /\ tsig_sign_it q' = tsig_sign_it q /\
  ixfr_is_done q' = ixfr_is_done q /\ q_ixfr_data q' = q_ixfr_data q /\
  q_ixfr_end_data q' = q_ixfr_end_data q /\
  hdr (packet q') = hdr (packet q) /\ limit (packet q') = limit (packet q).


(** What the whole streamer leaves alone from packet to packet. *)
Definition same_stream (q q' : query) : Prop :=
  maxlen q' = maxlen q /\ tcp q' = tcp q /\ qname q' = qname q /\
  tsig q' = tsig q /\ q_ixfr_end_data q' = q_ixfr_end_data q /\
  hdr (packet q') = hdr (packet q) /\ limit (packet q') = limit (packet q).

(** The opening new SOA is still to be written, and whether it fits. *)
Definition newsoa_pending (q : query) (end_data : ixfr_data) : bool :=
  ixfr_count_newsoa q <? newsoa_len end_data.

Definition newsoa_fits (q : query) (end_data : ixfr_data) : bool :=
  (position (packet q) <? maxlen q)
  && (position (packet q) + newsoa_len end_data <? maxlen q).

(** *** Stand-ins for packet.c and axfr.c, to run query_ixfr on examples:
    names without compression pointers, records written without
    compression, and an AXFR handler that only reports its state. *)
Definition plain_skip_dname (p : buffer) : option N :=
  match pass_owner_dname (S (length (buf_data p))) (buf_data p)
          (blen (buf_data p)) (position p) with
  | NameEnd i => Some i
  | _ => None
  end.

Definition plain_skip_rr (p : buffer) (question : bool) : option N :=
  match plain_skip_dname p with
  | None => None
  | Some i =>
      if question then Some (i + 4)
      else Some (i + 10 + read_uint16 (buf_data p) (i + 8))
  end.

Definition rr_wire_plain (r : rr) (ttl : N) : list byte :=
  rr_owner r ++ write_uint16 (rr_type r) ++ write_uint16 (rr_klass r)
  ++ write_uint32 ttl
  ++ write_uint16 (blen (flat_map atom_wire (rdatas r)))
  ++ flat_map atom_wire (rdatas r).

Definition plain_encode_rr (q : query) (owner : option dname) (r : rr)
  (ttl : N) : option buffer :=
  if position (packet q) + blen (rr_wire_plain r ttl) <=? maxlen q
  then Some (buffer_write (packet q) (rr_wire_plain r ttl))
  else None.

Definition axfr_stub (db : namedb) (q : query) : query_state_type * query :=
  (QUERY_IN_AXFR, q).

(** An IXFR query for the root zone: header, the question (root, type IXFR,
    class IN) and in the authority section the SOA with the client's
    serial. *)
Definition toy_query_packet (serial : N) : buffer :=
  {| hdr := {| QDCOUNT := 1; ANCOUNT := 0; NSCOUNT := 1; ARCOUNT := 0;
               AA := false; TC := false; RCODE := 0 |};
     buf_data := repeat x00 12 ++ [x00; x00; xfb; x00; x01]
                 ++ rr_wire_plain (toy_soa serial) 3600;
     position := 17;
     limit := 65535 |}.

Definition toy_query (over_tcp : bool) (max serial : N) : query :=
  {| packet := toy_query_packet serial; maxlen := max; tcp := over_tcp;
     qname := [x00]; tsig := TSIG_NOT_PRESENT;
     tsig_prepare_it := false; tsig_update_it := false;
     tsig_sign_it := false; ixfr_is_done := false;
     q_ixfr_data := None; q_ixfr_end_data := None;
     ixfr_count_newsoa := 0; ixfr_count_oldsoa := 0;
     ixfr_count_del := 0; ixfr_count_add := 0;
     ixfr_pos_of_newsoa := 0 |}.

(** The segment [old] -> [new] as the reader builds it from [toy_file]:
    SOAs of 33 octets, runs of one record of 12 octets and the closing
    SOA. *)
Definition toy_segment (old new : byte) : ixfr_data :=
  match fst (ixfr_data_parse toy_parse (toy_zone 0 0 0) (toy_file old new)
               (u8 new) 0) with
  | Some d => d
  | None => bare_segment (u8 old) (u8 new)
  end.

(** The root zone at serial [serial] with the given chain. *)
Definition toy_chain_zone (serial : N) (chain : list ixfr_data) : zone :=
  {| apex := Some [x00]; soa_rrset := Some [toy_soa serial];
     ixfr := Some {| data := chain; total_size := 0; num_files := 0 |};
     opts := {| store_ixfr := true; ixfr_number := 5; ixfr_size := 0 |} |}.

Definition toy_db (serial : N) (chain : list ixfr_data) : namedb :=
  [([x00], toy_chain_zone serial chain)].

(** A segment 10 -> 20 whose new SOA takes 520 octets (long names of the
    primary and the mailbox). *)
Definition long_soa_segment : ixfr_data :=
  {| oldserial := 10; newserial := 20;
     newsoa := Some (repeat x00 520);
     oldsoa := oldsoa (toy_segment x0a x14);
     del := del (toy_segment x0a x14);
     add := add (toy_segment x0a x14);
     log_str := None; file_num := 0%Z |}.

(** The query as query_ixfr hands it to the streamer on the first packet:
    the current segment is the head of the chain, nothing is written yet. *)
Definition toy_stream_start (over_tcp : bool) (max : N)
  (chain : list ixfr_data) : query :=
  set_stream (toy_query over_tcp max 10)
    (rbtree_first chain) (rbtree_last chain) 0 0 0 0 0.

(** The query as query_ixfr has it after parse_qserial on the first packet:
    the message length capped, the tsig flags set for this packet, the
    authority and additional counts cleared and the packet cut off behind
    the question section ([snip_pos]). *)
Definition first_packet_query (q : query) (snip_pos : N) : query :=
  let q := clamp_maxlen q in
  let q :=
    if tsig_sign_it q then set_tsig_flags q true true false
    else set_tsig_flags q false true (tsig_sign_it q) in
  set_packet q
    (buffer_set_position (ARCOUNT_SET (NSCOUNT_SET (packet q) 0) 0) snip_pos).


(** *** The records of a whole stream *)

(** The walker cuts the two runs of a segment into the records [dels] and
    [adds]; the added run holds at least its closing SOA. *)
Definition segment_rrs (d : ixfr_data)
  (rrs : list (list byte) * list (list byte)) : Prop :=
  walks (buf_bytes (del d)) 0 (fst rrs) /\
  walks (buf_bytes (add d)) 0 (snd rrs) /\
  snd rrs <> [].




(** The octets the stream sends for the segment [s] and its successors:
    the new SOA of the final segment, the old SOA of [s], and then for each
    segment in order its deleted run and its added run, as they are
    stored. *)
Definition chain_stream (s : ixfr_data) (succs : list ixfr_data)
  : list byte :=
  buf_bytes (newsoa (last succs s)) ++ buf_bytes (oldsoa s)
  ++ flat_map (fun n => buf_bytes (del n) ++ buf_bytes (add n)) (s :: succs).





(** The chain of the zone, if it has one, holds at most max-count
    segments. *)
Definition within_max_count (z : zone) : Prop :=
  match ixfr z with
  | Some i => count i <= ixfr_number (opts z)
  | None => True
  end.

(** ** Notions used to state further properties of the code *)

(** Every segment of the list hands over to the next one: its new serial
    is the old serial of its successor. *)
Definition serials_connect (l : list ixfr_data) : Prop :=
  forall l1 a b l2, l = l1 ++ a :: b :: l2 -> newserial a = oldserial b.

(** A record in the uncompressed wire form that ixfr_putrr writes. *)
Definition record_wire (r : rr) : list byte :=
  rr_owner r ++ write_uint16 (rr_type r) ++ write_uint16 (rr_klass r)
  ++ write_uint32 (rr_ttl r)
  ++ write_uint16 (blen (flat_map atom_wire (rdatas r)))
  ++ flat_map atom_wire (rdatas r).

(** An uncompressed wire name: labels of 1..63 octets and the root label. *)
Definition name_wf (n : dname) : Prop :=
  exists ls, Forall label_wf ls /\ n = labels_wire ls ++ [x00].

(** A record whose owner is an uncompressed wire name and whose rdata
    length fits the 16-bit rdlen field. *)
Definition rr_storable (r : rr) : Prop :=
  name_wf (rr_owner r) /\
  blen (flat_map atom_wire (rdatas r)) < UINT16_MOD.

(** The segments of the list, newest first, lead up to the serial [c]: the
    first one ends at [c], each further one ends where the one before it
    starts. *)
Fixpoint links_to (c : N) (l : list ixfr_data) : Prop :=
  match l with
  | [] => True
  | d :: rest => newserial d = c /\ links_to (oldserial d) rest
  end.

(** A line that holds nothing, or a comment: behind optional white space
    the line ends, or a ';' follows. *)
Definition blank_or_comment (line : list byte) : bool :=
  match skipwhite line with
  | [] => true
  | c :: _ => (u8 c =? 0) || (u8 c =? 59)
  end.

(** The file without its blank lines and comments. *)
Definition record_lines (lines : ixfr_file) : ixfr_file :=
  filter (fun line => negb (blank_or_comment line)) lines.

(** An IXFR query whose authority section is empty. *)
Definition toy_query_without_soa : query :=
  set_packet (toy_query true 65535 10)
    (NSCOUNT_SET (toy_query_packet 10) 0).

(** The root zone before it has any data but its apex. *)
Definition toy_zone_without_soa : zone :=
  {| apex := Some [x00]; soa_rrset := None; ixfr := None;
     opts := {| store_ixfr := true; ixfr_number := 5; ixfr_size := 0 |} |}.

(** The packet of [q'] has not reached the maximum length of [q]: either
    nothing was added to it, or it ends before the maximum. *)
Definition stays_below (q q' : query) : Prop :=
  maxlen q' = maxlen q /\
  (position (packet q') = position (packet q) \/
   position (packet q') < maxlen q).

(** The SOA record of the apex with the given rdata, as the zone parser
    hands it out: two names and five 32-bit fields. *)
Definition soa_record (apex_name : dname) (ttl : N) (primns email : dname)
  (fields : N * N * N * N * N) : rr :=
  let '(serial, refresh, retry, expire, minimum) := fields in
  {| rr_owner := apex_name; rr_type := TYPE_SOA; rr_klass := CLASS_IN;
     rr_ttl := ttl;
     rdatas := [AtomDomain primns; AtomDomain email;
                AtomData (write_uint32 serial);
                AtomData (write_uint32 refresh);
                AtomData (write_uint32 retry);
                AtomData (write_uint32 expire);
                AtomData (write_uint32 minimum)] |}.

(** A packet that holds the TTL, rdata length and rdata of the SOA of
    [toy_soa serial] from its first octet on, and a stand-in for
    dname_make_wire_from_packet that reads a root name. *)
Definition toy_soa_packet (serial : N) : buffer :=
  {| hdr := mk_header 1 0 0 0 false false 0;
     buf_data := write_uint32 3600 ++ write_uint16 22 ++ [x00; x00]
                 ++ write_uint32 serial ++ write_uint32 1 ++ write_uint32 2
                 ++ write_uint32 3 ++ write_uint32 4;
     position := 0; limit := 28 |}.

Definition root_name_from_packet (p : buffer) : option (dname * N) :=
  if u8 (byte_at (buf_data p) (position p)) =? 0
  then Some ([x00], position p + 1)
  else None.

(** The number a row of decimal digits stands for, least significant
    digit first. *)
Fixpoint little_value (digits : list byte) : N :=
  match digits with
  | [] => 0
  | c :: rest => (u8 c - 48) + 10 * little_value rest
  end.



(** The file numbers n, n - 1, ..., 1. *)
Fixpoint countdown (n : nat) : list Z :=
  match n with
  | O => []
  | S k => Z.of_nat n :: countdown k
  end.

(** The segments [l], in tree order, with the file numbers
    [base + length l], ..., [base + 1]: the oldest segment has the largest
    number. *)
Fixpoint number_above (base : Z) (l : list ixfr_data) : list ixfr_data :=
  match l with
  | [] => []
  | d :: rest =>
      set_file_num d (base + Z.of_nat (length l)) :: number_above base rest
  end.

(** The segments [l], newest first, with the file numbers [num],
    [num + 1], ... *)
Fixpoint number_up (num : Z) (l : list ixfr_data) : list ixfr_data :=
  match l with
  | [] => []
  | d :: rest => set_file_num d num :: number_up (num + 1) rest
  end.

(** The records of a file: what the zone parser makes of the lines that
    are neither blank nor comments, in the order of the file, up to the
    first line it rejects. *)
Fixpoint file_records (parse : list byte -> option rr) (lines : ixfr_file)
  : list rr :=
  match lines with
  | [] => []
  | line :: rest =>
      match read_line parse line with
      | LineSkip => file_records parse rest
      | LineBad => []
      | LineRR r => r :: file_records parse rest
      end
  end.

(** The record that closes a section of the file: an SOA with the new
    serial of the segment. *)
Definition closes_section (new_serial : N) (r : rr) : bool :=
  (rr_type r =? TYPE_SOA) && (soa_rr_get_serial r =? new_serial).

(** *** Stand-ins for the printing functions, to run the writer on
    examples.  A record of the root is printed as "." TAB ttl TAB "IN" TAB
    type TAB number: the type is "SOA" or "A", the number is the serial of
    an SOA (its low octet) or the one rdata octet of another record. *)
Definition toy_dname_make (buf : list byte) : option dname :=
  if u8 (byte_at buf 0) =? 0 then Some [x00] else None.

Definition toy_rdata_atoms (type rdlen : N) (packet : buffer)
  : option (list rdata_atom) :=
  Some [AtomData (buf_data packet)].

Definition toy_dname_to_string (name : dname) : list byte := [x2e].

Definition toy_rrclass_to_string (klass : N) : list byte := [x49; x4e].

Definition toy_rrtype_to_string (type : N) : list byte :=
  if type =? TYPE_SOA then [x53; x4f; x41] else [x41].

Definition toy_zoneformat (type : N) (i : nat) : N := 0.

Definition toy_rdata_atom_to_string (format : N) (a : rdata_atom) (r : rr)
  : option (list byte) :=
  match a with
  | AtomData octets =>
      Some (decimal (u8 (byte_at octets
                           (if blen octets =? 1 then 0 else 5))))
  | AtomDomain _ => None
  end.

Definition toy_rdata_atoms_to_unknown_string (type : N)
  (atoms : list rdata_atom) : option (list byte) := None.

(** The zone "z" with a chain of two segments: 5 -> 10, which has file 1,
    and 10 -> 20, which has no file yet; and a directory that holds file 1
    with some content. *)
Definition toy_written_segment : ixfr_data :=
  set_file_num (toy_segment x05 x0a) 1.

Definition toy_zone_on_disk : zone :=
  toy_chain_zone 20 [toy_written_segment; toy_segment x0a x14].

Definition toy_disk_one_file : disk := [(make_ixfr_name [x7a] 1, [x41; x0a])].

(** *** A file that is written and read again *)

(** A text and the newline that ends its line in the file. *)
Definition text_line (text : list byte) : list byte := text ++ [x0a].

(** A text that goes to the file as one line and comes back from fgets in
    one piece: it holds no newline and, with its newline, it fits the line
    buffer of ixfr_data_readrr. *)
Definition one_line (text : list byte) : Prop :=
  Forall (fun c => u8 c <> 10) text /\ blen text < 65535.

(** The record [r] is printed as the line of [text]: one line, neither
    blank nor a comment, that the zone parser reads as [r]. *)
Definition printed_as (parse : list byte -> option rr) (r : rr)
  (text : list byte) : Prop :=
  one_line text /\
  blank_or_comment (text_line text) = false /\
  parse (text_line text) = Some r.

(** The printing functions and the zone parser agree on the record [r]:
    ixfr_write_rr, handed the wire form of [r] with whatever follows it in
    its run, prints a line that the zone parser reads as [r]. *)
Definition reads_back (write_rr : list byte -> N -> option (list byte))
  (parse : list byte -> option rr) (r : rr) : Prop :=
  forall post, exists text,
    write_rr (record_wire r ++ post) (blen (record_wire r))
    = Some (text_line text) /\
    printed_as parse r text.

(** The segment [d] of the zone [z] holds the records [n] (new SOA), [o]
    (old SOA), [dr] and their closing SOA [dl] (deleted), [ar] and their
    closing SOA [al] (added): the form in which the builder and the reader
    leave a segment. *)
Definition segment_of_records (z : zone) (d : ixfr_data) (n o : rr)
  (dr : list rr) (dl : rr) (ar : list rr) (al : rr) : Prop :=
  newsoa d = Some (record_wire n) /\
  oldsoa d = Some (record_wire o) /\
  del d = Some (concat (map record_wire (dr ++ [dl]))) /\
  add d = Some (concat (map record_wire (ar ++ [al]))) /\
  soa_line_ok z n = true /\ soa_rr_get_serial n = newserial d /\
  soa_line_ok z o = true /\ soa_rr_get_serial o = oldserial d /\
  Forall (fun r => closes_section (newserial d) r = false) dr /\
  closes_section (newserial d) dl = true /\
  Forall (fun r => closes_section (newserial d) r = false) ar /\
  closes_section (newserial d) al = true.

(** The lines of the header that ixfr_write_file_header writes, without
    their newlines. *)
Definition header_texts (zone_name : list byte) (d : ixfr_data)
  : list (list byte) :=
  [[x3b; x20; x49; x58; x46; x52; x20; x64; x61; x74; x61; x20; x66; x69;
    x6c; x65];
   [x3b; x20; x7a; x6f; x6e; x65; x20] ++ c_string zone_name;
   [x3b; x20; x66; x72; x6f; x6d; x5f; x73; x65; x72; x69; x61; x6c; x20]
   ++ decimal (oldserial d);
   [x3b; x20; x74; x6f; x5f; x73; x65; x72; x69; x61; x6c; x20]
   ++ decimal (newserial d)]
  ++ match log_str d with
     | Some s => [[x3b; x20] ++ c_string (String.list_byte_of_string s)]
     | None => []
     end.

(** The text of the log string of a segment, empty if it has none. *)
Definition log_text (d : ixfr_data) : list byte :=
  match log_str d with
  | Some s => c_string (String.list_byte_of_string s)
  | None => []
  end.

(** The line the stand-in printer makes of a record of the root, without
    its newline, and a stand-in for the zone parser that reads these
    lines. *)
Definition toy_text (type number : list byte) : list byte :=
  [x2e; x09; x33; x36; x30; x30; x09; x49; x4e; x09] ++ type ++ [x09]
  ++ number.

Definition toy_line_parse (line : list byte) : option rr :=
  if name_eqb (firstn 14 line) (toy_text [x53; x4f; x41] [])
  then Some (toy_soa (little_value (rev (removelast (skipn 14 line)))))
  else if name_eqb (firstn 12 line) (toy_text [x41] [])
  then Some (toy_rr (byte_of_N
                       (little_value (rev (removelast (skipn 12 line))))))
  else None.

(* ===================================================================== *)
(** * Verified properties *)
(* ===================================================================== *)

(** Case analysis on the next [if a <? b] / [if a <=? b] / [if a =? b] of
    the goal, with the comparison turned into a proposition. *)
Ltac if_ltb :=
  match goal with
  | |- context [if ?a <? ?b then _ else _] =>
      let E := fresh "E" in
      destruct (a <? b) eqn:E; [apply N.ltb_lt in E | apply N.ltb_ge in E]
  end.
Ltac if_leb :=
  match goal with
  | |- context [if ?a <=? ?b then _ else _] =>
      let E := fresh "E" in
      destruct (a <=? b) eqn:E; [apply N.leb_le in E | apply N.leb_gt in E]
  end.

(** ** Buffers and octets *)

Lemma blen_app (a b : list byte) : blen (a ++ b) = blen a + blen b.
Proof. unfold blen. rewrite length_app. lia. Qed.

Lemma blen_cons (x : byte) (a : list byte) : blen (x :: a) = 1 + blen a.
Proof. unfold blen. simpl length. lia. Qed.

Lemma blen_nil : blen [] = 0.
Proof. reflexivity. Qed.

Lemma byte_at_app_r (pre rest : list byte) (i : N) :
  byte_at (pre ++ rest) (blen pre + i) = byte_at rest i.
Proof.
  unfold byte_at, blen.
  replace (N.to_nat (N.of_nat (length pre) + i))
    with (length pre + N.to_nat i)%nat by lia.
  now rewrite app_nth2_plus.
Qed.

Lemma byte_at_app_0 (pre rest : list byte) :
  byte_at (pre ++ rest) (blen pre) = byte_at rest 0.
Proof. rewrite <- (N.add_0_r (blen pre)) at 1. apply byte_at_app_r. Qed.

Lemma read_uint16_app_r (pre rest : list byte) (i : N) :
  read_uint16 (pre ++ rest) (blen pre + i) = read_uint16 rest i.
Proof.
  unfold read_uint16.
  rewrite <- N.add_assoc, !byte_at_app_r. reflexivity.
Qed.

(** ** The walker terminates: the fuel given by [count_rr_length] is enough *)

Lemma pass_owner_dname_fuel (fuel : nat) :
  forall data data_len i,
    (N.to_nat (data_len - i) < fuel)%nat ->
    pass_owner_dname fuel data data_len i <> OutOfFuel.
Proof.
  induction fuel as [|fuel IH]; intros data data_len i Hf; [lia|].
  simpl.
  destruct (data_len <? i + 1) eqn:E1; [discriminate|].
  destruct (u8 (byte_at data i) =? 0) eqn:E2; [discriminate|].
  destruct (N.land (u8 (byte_at data i)) 192 =? 0); simpl; [|discriminate].
  destruct (data_len <? i + 1 + u8 (byte_at data i)) eqn:E3; [discriminate|].
  apply IH.
  apply N.ltb_ge in E1, E3. apply N.eqb_neq in E2. lia.
Qed.

Lemma count_rr_length_total (data : list byte) (data_len current : N) :
  exists n, count_rr_length data data_len current = Some n.
Proof.
  unfold count_rr_length.
  destruct (data_len <=? current); [now eexists|].
  destruct (pass_owner_dname _ data data_len current) eqn:E.
  - exfalso. revert E. apply pass_owner_dname_fuel. lia.
  - now eexists.
  - destruct (data_len <? i + 10); [now eexists|].
    cbv zeta. destruct (data_len <? _); now eexists.
Qed.

(** A record reported by the walker is non-empty and lies inside the
    buffer. *)
Lemma pass_owner_dname_ge (fuel : nat) :
  forall data data_len i j,
    pass_owner_dname fuel data data_len i = NameEnd j -> i < j.
Proof.
  induction fuel as [|fuel IH]; intros data data_len i j; simpl; [discriminate|].
  destruct (data_len <? i + 1); [discriminate|].
  destruct (u8 (byte_at data i) =? 0).
  - intros [= <-]. lia.
  - destruct (N.land _ 192 =? 0); simpl; [|discriminate].
    destruct (data_len <? _); [discriminate|].
    intros H. apply IH in H. lia.
Qed.

Lemma count_rr_length_bound (data : list byte) (data_len current n : N) :
  count_rr_length data data_len current = Some n ->
  n = 0 \/ (0 < n /\ current + n <= data_len).
Proof.
  unfold count_rr_length.
  destruct (data_len <=? current); [intros [= <-]; now left|].
  destruct (pass_owner_dname _ data data_len current) eqn:E; try discriminate.
  - intros [= <-]; now left.
  - apply pass_owner_dname_ge in E.
    destruct (data_len <? i + 10); [intros [= <-]; now left|].
    cbv zeta. destruct (data_len <? _) eqn:E2; intros [= <-]; [now left|].
    right. apply N.ltb_ge in E2. lia.
Qed.

(** ** What the walker computes on the wire layout *)

Lemma land_192_small (x : N) : x < 64 -> N.land x 192 = 0.
Proof.
  intros H. destruct x as [|p]; [reflexivity|].
  do 6 (destruct p as [p|p|]; try reflexivity); lia.
Qed.

Lemma labels_wire_cons (l : label) (ls : list label) :
  labels_wire (l :: ls) = fst l :: snd l ++ labels_wire ls.
Proof. reflexivity. Qed.

(** The loop passes a sequence of well-formed labels, one per iteration. *)
Lemma pass_owner_dname_labels (ls : list label) :
  forall data pre rest k,
    Forall label_wf ls ->
    data = pre ++ labels_wire ls ++ rest ->
    pass_owner_dname (length ls + k) data (blen data) (blen pre)
    = pass_owner_dname k data (blen data) (blen pre + blen (labels_wire ls)).
Proof.
  induction ls as [|[b l] ls IH]; intros data pre rest k Hwf Hd.
  - simpl. now rewrite N.add_0_r.
  - inversion Hwf as [|? ? [Hlen [Hpos Hlt]] Hwf']; subst; simpl in *.
    change (flat_map label_wire ls) with (labels_wire ls).
    set (data := pre ++ b :: (l ++ labels_wire ls) ++ rest).
    assert (Hdl : blen data
                  = blen pre + 1 + blen l + blen (labels_wire ls) + blen rest).
    { unfold data. rewrite !blen_app, blen_cons, !blen_app. lia. }
    assert (Hb : byte_at data (blen pre) = b).
    { unfold data. now rewrite byte_at_app_0. }
    rewrite Hb.
    destruct (blen data <? blen pre + 1) eqn:E1;
      [apply N.ltb_lt in E1; lia|].
    destruct (u8 b =? 0) eqn:E2; [apply N.eqb_eq in E2; lia|].
    rewrite (land_192_small _ Hlt). simpl.
    destruct (blen data <? blen pre + 1 + u8 b) eqn:E3;
      [apply N.ltb_lt in E3; lia|].
    specialize (IH data (pre ++ b :: l) rest k Hwf').
    rewrite blen_app, blen_cons in IH.
    replace (blen pre + 1 + u8 b) with (blen pre + (1 + blen l)) by lia.
    rewrite IH.
    + f_equal. rewrite blen_cons, blen_app. lia.
    + unfold data. rewrite <- !app_assoc. simpl. now rewrite <- ?app_assoc.
Qed.

(** ... and stops behind the root label. *)
Lemma pass_owner_dname_name (ls : list label) (pre rest : list byte) (k : nat) :
  Forall label_wf ls ->
  let data := pre ++ labels_wire ls ++ x00 :: rest in
  pass_owner_dname (length ls + S k) data (blen data) (blen pre)
  = NameEnd (blen pre + blen (labels_wire ls) + 1).
Proof.
  intros Hwf data.
  rewrite (pass_owner_dname_labels ls data pre (x00 :: rest) (S k) Hwf eq_refl).
  simpl.
  assert (Hdl : blen data
                = blen pre + blen (labels_wire ls) + 1 + blen rest).
  { unfold data. rewrite !blen_app, blen_cons. lia. }
  destruct (blen data <? _) eqn:E1; [apply N.ltb_lt in E1; lia|].
  replace (byte_at data (blen pre + blen (labels_wire ls))) with x00.
  - reflexivity.
  - unfold data. rewrite app_assoc.
    rewrite <- blen_app. now rewrite byte_at_app_0.
Qed.

(** A label octet with one of the two top bits set stops the walk. *)
Lemma pass_owner_dname_compressed (ls : list label) (pre rest : list byte)
  (b : byte) (k : nat) :
  Forall label_wf ls ->
  N.land (u8 b) 192 <> 0 ->
  let data := pre ++ labels_wire ls ++ b :: rest in
  pass_owner_dname (length ls + S k) data (blen data) (blen pre) = Reject.
Proof.
  intros Hwf Hb data.
  rewrite (pass_owner_dname_labels ls data pre (b :: rest) (S k) Hwf eq_refl).
  simpl.
  assert (Hdl : blen data
                = blen pre + blen (labels_wire ls) + 1 + blen rest).
  { unfold data. rewrite !blen_app, blen_cons. lia. }
  destruct (blen data <? _) eqn:E1; [reflexivity|].
  replace (byte_at data (blen pre + blen (labels_wire ls))) with b.
  - destruct (u8 b =? 0) eqn:E2.
    + apply N.eqb_eq in E2. rewrite E2 in Hb. now elim Hb.
    + apply N.eqb_neq in Hb. now rewrite Hb.
  - unfold data. rewrite app_assoc.
    rewrite <- blen_app. now rewrite byte_at_app_0.
Qed.

Lemma labels_count_le (ls : list label) :
  (length ls <= length (labels_wire ls))%nat.
Proof.
  induction ls as [|[b l] ls IH]; [simpl; lia|].
  rewrite labels_wire_cons. simpl. rewrite length_app. lia.
Qed.

(** A buffer that ends inside the owner name stops the walk. *)
Lemma pass_owner_dname_truncated (ls : list label) :
  forall pre p q k,
    Forall label_wf ls ->
    p ++ q = labels_wire ls ++ [x00] ->
    q <> [] ->
    pass_owner_dname (length ls + S k) (pre ++ p) (blen (pre ++ p)) (blen pre)
    = Reject.
Proof.
  assert (Hend : forall pre k,
             pass_owner_dname (S k) (pre ++ []) (blen (pre ++ [])) (blen pre)
             = Reject).
  { intros pre k. simpl. rewrite app_nil_r.
    destruct (blen pre <? blen pre + 1) eqn:E; [reflexivity|].
    apply N.ltb_ge in E. lia. }
  induction ls as [|[b l] ls IH]; intros pre p q k Hwf Hpq Hq.
  - destruct p as [|x p]; [apply Hend|].
    simpl in Hpq. injection Hpq as _ Hpq.
    apply app_eq_nil in Hpq. now destruct Hpq.
  - destruct p as [|x p]; [apply Hend|].
    inversion Hwf as [|? ? [Hlen [Hpos Hlt]] Hwf']; subst; simpl in Hlen, Hpos, Hlt.
    rewrite labels_wire_cons in Hpq. simpl in Hpq.
    injection Hpq as -> Hpq. rewrite <- app_assoc in Hpq.
    assert (Hdl : blen (pre ++ b :: p) = blen pre + 1 + blen p).
    { rewrite blen_app, blen_cons. lia. }
    cbn [length Nat.add pass_owner_dname].
    rewrite byte_at_app_0. change (byte_at (b :: p) 0) with b.
    destruct (blen (pre ++ b :: p) <? blen pre + 1) eqn:E1; [reflexivity|].
    destruct (u8 b =? 0) eqn:E2; [apply N.eqb_eq in E2; lia|].
    rewrite (land_192_small _ Hlt). simpl.
    destruct (blen (pre ++ b :: p) <? blen pre + 1 + u8 b) eqn:E3;
      [reflexivity|].
    apply N.ltb_ge in E3.
    apply app_eq_app in Hpq. destruct Hpq as [c [[Hp Hr]|[Hl Hr]]].
    + subst p.
      specialize (IH (pre ++ b :: l) c q k Hwf' (eq_sym Hr) Hq).
      replace (pre ++ b :: l ++ c) with ((pre ++ b :: l) ++ c)
        by (now rewrite <- app_assoc).
      replace (blen pre + 1 + u8 b) with (blen (pre ++ b :: l))
        by (rewrite blen_app, blen_cons; lia).
      exact IH.
    + subst l. rewrite blen_app in Hlen.
      assert (blen c = 0) by lia.
      destruct c; [|unfold blen in *; simpl in *; lia].
      rewrite app_nil_r in *. simpl in Hr.
      specialize (IH (pre ++ b :: p) [] q k Hwf' Hr Hq).
      rewrite app_nil_r in IH.
      replace (blen pre + 1 + u8 b) with (blen (pre ++ b :: p))
        by (rewrite blen_app, blen_cons; lia).
      exact IH.
Qed.

(** The result of the loop does not depend on how much fuel is left over. *)
Lemma pass_owner_dname_fuel_irrel (f1 : nat) :
  forall f2 data data_len i,
    pass_owner_dname f1 data data_len i <> OutOfFuel ->
    pass_owner_dname f2 data data_len i <> OutOfFuel ->
    pass_owner_dname f1 data data_len i = pass_owner_dname f2 data data_len i.
Proof.
  induction f1 as [|f1 IH]; intros [|f2] data data_len i H1 H2;
    try (now elim H1); try (now elim H2).
  simpl in *.
  destruct (data_len <? i + 1); [reflexivity|].
  destruct (u8 (byte_at data i) =? 0); [reflexivity|].
  destruct (negb _); [reflexivity|].
  destruct (data_len <? _); [reflexivity|].
  now apply IH.
Qed.

Lemma pass_owner_dname_at_fuel (f : nat) (data : list byte) (i : N)
  (r : dname_walk) :
  pass_owner_dname f data (blen data) i = r ->
  r <> OutOfFuel ->
  pass_owner_dname (S (N.to_nat (blen data))) data (blen data) i = r.
Proof.
  intros H Hr. rewrite <- H.
  symmetry. apply pass_owner_dname_fuel_irrel.
  - now rewrite H.
  - apply pass_owner_dname_fuel. lia.
Qed.

Lemma read_uint16_head (hi lo : byte) (rest : list byte) :
  read_uint16 (hi :: lo :: rest) 0 = read_uint16 [hi; lo] 0.
Proof. reflexivity. Qed.

Lemma rr_wire_length (ls : list label) (fixed : list byte) (hi lo : byte)
  (rdata : list byte) :
  length fixed = 8%nat ->
  blen (rr_wire ls fixed hi lo rdata)
  = blen (labels_wire ls) + 1 + 10 + blen rdata.
Proof.
  intros Hf. unfold rr_wire, blen. rewrite !length_app, Hf.
  simpl length. lia.
Qed.

(** The walker on a complete well-formed record followed by anything. *)
Lemma count_rr_length_wf (pre post : list byte) (ls : list label)
  (fixed : list byte) (hi lo : byte) (rdata : list byte) :
  rr_wf ls fixed hi lo rdata ->
  let data := pre ++ rr_wire ls fixed hi lo rdata ++ post in
  count_rr_length data (blen data) (blen pre)
  = Some (blen (rr_wire ls fixed hi lo rdata)).
Proof.
  intros [Hwf [Hfix Hrd]] data.
  assert (Hrl := rr_wire_length ls fixed hi lo rdata Hfix).
  assert (Hdl : blen data = blen pre + blen (rr_wire ls fixed hi lo rdata)
                            + blen post).
  { unfold data. rewrite !blen_app. lia. }
  unfold count_rr_length.
  destruct (blen data <=? blen pre) eqn:E0; [apply N.leb_le in E0; lia|].
  assert (Hname : pass_owner_dname (length ls + 1) data (blen data) (blen pre)
                  = NameEnd (blen pre + blen (labels_wire ls) + 1)).
  { unfold data, rr_wire. rewrite <- !app_assoc.
    apply (pass_owner_dname_name ls pre _ 0 Hwf). }
  apply pass_owner_dname_at_fuel in Hname; [|discriminate].
  rewrite Hname.
  if_ltb; [lia|].
  cbv zeta.
  assert (Hr : read_uint16 data (blen pre + blen (labels_wire ls) + 1 + 8)
               = blen rdata).
  { rewrite <- Hrd.
    replace data with ((pre ++ labels_wire ls ++ [x00] ++ fixed)
                         ++ (hi :: lo :: rdata ++ post)).
    - replace (blen pre + blen (labels_wire ls) + 1 + 8)
        with (blen (pre ++ labels_wire ls ++ [x00] ++ fixed) + 0).
      + now rewrite read_uint16_app_r, read_uint16_head.
      + unfold blen. rewrite !length_app, Hfix. simpl length. lia.
    - unfold data, rr_wire. rewrite <- !app_assoc. reflexivity. }
  rewrite Hr.
  if_ltb; [lia|].
  f_equal. lia.
Qed.

(** The walker on a buffer that ends inside a well-formed record. *)
Lemma count_rr_length_truncated (pre p q : list byte) (ls : list label)
  (fixed : list byte) (hi lo : byte) (rdata : list byte) :
  rr_wf ls fixed hi lo rdata ->
  p ++ q = rr_wire ls fixed hi lo rdata ->
  q <> [] ->
  count_rr_length (pre ++ p) (blen (pre ++ p)) (blen pre) = Some 0.
Proof.
  intros [Hwf [Hfix Hrd]] Hpq Hq.
  unfold count_rr_length.
  if_leb; [reflexivity|].
  unfold rr_wire in Hpq. rewrite app_assoc in Hpq.
  assert (Hcut : (exists c, c <> [] /\ p ++ c = labels_wire ls ++ [x00]) \/
                 (exists c, p = (labels_wire ls ++ [x00]) ++ c /\
                            c ++ q = fixed ++ [hi; lo] ++ rdata)).
  { apply app_eq_app in Hpq. destruct Hpq as [c [[Hp Hr]|[Hl Hr]]].
    - right. exists c. now split.
    - destruct c as [|x c].
      + right. exists []. rewrite app_nil_r in *. simpl in Hr. now split.
      + left. exists (x :: c). split; [discriminate|now symmetry]. }
  destruct Hcut as [[c [Hc Hp]]|[c [Hp Hc]]].
  - rewrite (pass_owner_dname_at_fuel (length ls + 1) _ _ Reject);
      [reflexivity| |discriminate].
    now apply (pass_owner_dname_truncated ls pre p c 0).
  - subst p.
    assert (Hname : pass_owner_dname (length ls + 1)
                      (pre ++ labels_wire ls ++ x00 :: c)
                      (blen (pre ++ labels_wire ls ++ x00 :: c)) (blen pre)
                    = NameEnd (blen pre + blen (labels_wire ls) + 1))
      by apply (pass_owner_dname_name ls pre c 0 Hwf).
    rewrite <- app_assoc. simpl app.
    apply pass_owner_dname_at_fuel in Hname; [|discriminate].
    rewrite Hname.
    assert (Hdl : blen (pre ++ labels_wire ls ++ x00 :: c)
                  = blen pre + blen (labels_wire ls) + 1 + blen c).
    { rewrite !blen_app, blen_cons. lia. }
    if_ltb; [reflexivity|]. cbv zeta.
    apply app_eq_app in Hc. destruct Hc as [d [[Hcd Hr]|[Hf _]]].
    + assert (Hcl : blen c = 8 + blen d).
      { subst c. unfold blen. rewrite length_app, Hfix. lia. }
      destruct d as [|h [|l d]];
        [exfalso; rewrite blen_nil in Hcl; lia
        |exfalso; rewrite blen_cons, blen_nil in Hcl; lia|].
      * simpl in Hr. injection Hr as <- <- Hr.
        assert (Hrl : blen rdata = blen d + blen q)
          by (rewrite Hr; apply blen_app).
        assert (Hq0 : 0 < blen q)
          by (destruct q; [now elim Hq|rewrite blen_cons; lia]).
        rewrite !blen_cons in Hcl.
        replace (read_uint16 _ _) with (blen rdata).
        -- if_ltb; [reflexivity|]. lia.
        -- rewrite <- Hrd.
           replace (pre ++ labels_wire ls ++ x00 :: c)
             with ((pre ++ labels_wire ls ++ [x00] ++ fixed)
                     ++ (hi :: lo :: d)).
           ++ replace (blen pre + blen (labels_wire ls) + 1 + 8)
                with (blen (pre ++ labels_wire ls ++ [x00] ++ fixed) + 0).
              ** rewrite read_uint16_app_r. reflexivity.
              ** unfold blen. rewrite !length_app, Hfix. simpl length. lia.
           ++ subst c. rewrite <- !app_assoc. reflexivity.
    + exfalso. assert (Hl : length fixed = (length c + length d)%nat)
        by (rewrite Hf; apply length_app).
      unfold blen in Hdl, E0. lia.
Qed.

(** The walker on a buffer whose owner name holds a compression pointer
    (or any length octet with one of the top two bits set). *)
Lemma count_rr_length_compressed (pre post : list byte) (ls : list label)
  (b : byte) :
  Forall label_wf ls ->
  N.land (u8 b) 192 <> 0 ->
  let data := pre ++ labels_wire ls ++ b :: post in
  count_rr_length data (blen data) (blen pre) = Some 0.
Proof.
  intros Hwf Hb data. unfold count_rr_length.
  if_leb; [reflexivity|].
  rewrite (pass_owner_dname_at_fuel (length ls + 1) _ _ Reject);
    [reflexivity| |discriminate].
  now apply (pass_owner_dname_compressed ls pre post b 0).
Qed.

(** C7.  For a buffer and a start offset inside it: when a well-formed
    record (labels of 1..63 octets, the root label, 8 octets of type, class
    and ttl, a 16-bit rdlen and rdlen octets of rdata) starts at the offset
    and lies inside the buffer, [count_rr_length] returns its length, which
    is the owner-name length plus the 10 fixed octets plus rdlen; it
    reports failure (returns 0) when the buffer ends inside the name, inside
    the 10 fixed octets or inside the rdata, and when a label length octet
    has the top two bits set. *)
Theorem count_rr_length_correct (pre : list byte) (ls : list label)
  (fixed : list byte) (hi lo : byte) (rdata : list byte) :
  rr_wf ls fixed hi lo rdata ->
  let rr := rr_wire ls fixed hi lo rdata in
  (forall post,
      count_rr_length (pre ++ rr ++ post) (blen (pre ++ rr ++ post)) (blen pre)
      = Some (blen (labels_wire ls ++ [x00]) + 10 + read_uint16 [hi; lo] 0)) /\
  (forall p q, p ++ q = rr -> p <> [] -> q <> [] ->
      blen pre < blen (pre ++ p) /\
      count_rr_length (pre ++ p) (blen (pre ++ p)) (blen pre) = Some 0) /\
  (forall b post, u8 b >= 192 ->
      count_rr_length (pre ++ labels_wire ls ++ b :: post)
        (blen (pre ++ labels_wire ls ++ b :: post)) (blen pre) = Some 0).
Proof.
  intros Hwf rr. split; [|split].
  - intros post. unfold rr.
    rewrite (count_rr_length_wf pre post ls fixed hi lo rdata Hwf).
    destruct Hwf as [_ [Hfix Hrd]].
    rewrite rr_wire_length by assumption.
    rewrite Hrd, blen_app. f_equal.
  - intros p q Hpq Hp Hq. split.
    + rewrite blen_app. destruct p; [now elim Hp|]. rewrite blen_cons. lia.
    + now apply (count_rr_length_truncated pre p q ls fixed hi lo rdata).
  - intros b post Hb.
    apply count_rr_length_compressed; [apply Hwf|].
    unfold u8 in *. destruct b; vm_compute in Hb |- *;
      solve [discriminate | now elim Hb].
Qed.

(** The record "a. type 0 class 0 ttl 0 rdlen 1 rdata 07" at offset 0: its
    length is 3 + 10 + 1; cut after four octets, or with the pointer c0 0c in
    the name, it is refused. *)
Lemma count_rr_length_correct_witness :
  count_rr_length
    [x01; x61; x00; x00; x00; x00; x00; x00; x00; x00; x00; x00; x01; x07; xff]
    15 0 = Some 14 /\
  count_rr_length [x01; x61; x00; x00] 4 0 = Some 0 /\
  count_rr_length [x01; x61; xc0; x0c] 4 0 = Some 0.
Proof.
  assert (Hwf : rr_wf [(x01, [x61])] (repeat x00 8) x00 x01 [x07]).
  { split; [|split]; try reflexivity.
    constructor; [|constructor]. repeat split. }
  destruct (count_rr_length_correct [] [(x01, [x61])] (repeat x00 8)
              x00 x01 [x07] Hwf) as [H1 [H2 H3]].
  split; [exact (H1 [xff])|split].
  - refine (proj2 (H2 [x01; x61; x00; x00]
                     [x00; x00; x00; x00; x00; x00; x00; x00; x01; x07]
                     eq_refl _ _)); discriminate.
  - refine (H3 xc0 [x0c] _). vm_compute. discriminate.
Defined.

(** ** The segment builder *)

(** C10.  Once a store is cancelled, set_new_soa, set_old_soa, add_deleted,
    add_added and finish return without touching the store or the zone (and
    with it the version chain): finish only frees the store and commits
    nothing.  A cancelled store has no segment (its data pointer is NULL),
    and cancelling it again changes nothing. *)
Theorem cancelled_store_inert
  (sizeof_ixfr_data : N) (node_key_slot : ixfr_data -> N)
  (dname_make_wire_from_packet : buffer -> option (dname * N))
  (rdata_wireformat_to_rdata_atoms : N -> N -> buffer -> option (list rdata_atom))
  (fuel : nat) (z : zone) (st : ixfr_store) (pkt : buffer)
  (ttlpos ttl rrlen type klass : N) (owner : dname)
  (log_buf : option String.string) :
  cancelled st = true ->
  ixfr_store_add_newsoa dname_make_wire_from_packet z st pkt ttlpos = Some st /\
  ixfr_store_add_oldsoa sizeof_ixfr_data node_key_slot
    dname_make_wire_from_packet fuel z st ttl pkt rrlen = Some (z, st) /\
  ixfr_store_delrr sizeof_ixfr_data node_key_slot
    rdata_wireformat_to_rdata_atoms fuel z st owner type klass ttl pkt rrlen
  = Some (z, st) /\
  ixfr_store_addrr sizeof_ixfr_data node_key_slot
    rdata_wireformat_to_rdata_atoms fuel z st owner type klass ttl pkt rrlen
  = Some (z, st) /\
  ixfr_store_finish sizeof_ixfr_data node_key_slot fuel z st log_buf
  = Some (z, st) /\
  (forall st0, cancelled (ixfr_store_cancel st0) = true /\
               store_data (ixfr_store_cancel st0) = None /\
               ixfr_store_cancel (ixfr_store_cancel st0)
               = ixfr_store_cancel st0).
Proof.
  intros Hc.
  unfold ixfr_store_add_newsoa, ixfr_store_add_oldsoa, ixfr_store_delrr,
    ixfr_store_addrr, ixfr_store_putrr, ixfr_store_finish, ixfr_store_free.
  rewrite Hc. repeat split; reflexivity.
Qed.

(** A store that was started for 10 -> 20 and then cancelled, in a zone
    whose chain holds nothing. *)
Lemma cancelled_store_inert_witness :
  let z := {| apex := Some [x00]; soa_rrset := None;
              ixfr := Some {| data := []; total_size := 0; num_files := 0 |};
              opts := {| store_ixfr := true; ixfr_number := 5;
                         ixfr_size := 0 |} |} in
  let st := ixfr_store_cancel (ixfr_store_start 10 20) in
  let pkt := {| hdr := mk_header 1 0 0 0 false false 0;
                buf_data := [x00; x00]; position := 0; limit := 2 |} in
  ixfr_store_finish 64 (fun _ => 0) 3 z st None = Some (z, st) /\
  ixfr_store_addrr 64 (fun _ => 0) (fun _ _ _ => None) 3 z st [x00] 1 1 0 pkt 0
  = Some (z, st).
Proof.
  intros z st pkt.
  destruct (cancelled_store_inert 64 (fun _ => 0) (fun _ => None)
              (fun _ _ _ => None) 3 z st pkt 0 0 0 1 1 [x00] None eq_refl)
    as [_ [_ [_ [Ha [Hf _]]]]].
  split; [exact Hf|exact Ha].
Defined.

(** *** Appending the new SOA and trimming *)

Lemma ixfr_rrs_make_space_ok (rrs : option (list byte)) (capacity added : N) :
  exists capacity',
    ixfr_rrs_make_space rrs capacity added
    = (Some (buf_bytes rrs), capacity') /\
    size_add (buf_len rrs) added <= capacity'.
Proof.
  unfold ixfr_rrs_make_space. destruct rrs as [l|]; simpl.
  - if_leb.
    + eexists. split; [reflexivity|exact E].
    + if_ltb; eexists; (split; [reflexivity|lia]).
  - if_ltb; eexists; (split; [reflexivity|lia]).
Qed.




(** zone_ixfr_make_space hands the store back as it is, or cancelled, and
    the zone keeps its chain object. *)
Lemma make_space_store (sz : N) (slot : ixfr_data -> N) (fuel : nat)
  (i : zone_ixfr) (o : pattern_options) (d : ixfr_data) (st : ixfr_store)
  (r : option zone_ixfr) (st' : ixfr_store) :
  zone_ixfr_make_space sz slot fuel (Some i) o (Some d) st = Some (r, st') ->
  (st' = st \/ st' = ixfr_store_cancel st) /\ exists i', r = Some i'.
Proof.
  unfold zone_ixfr_make_space.
  destruct (ixfr_number o =? 0); [intros [= <- <-]; eauto|].
  destruct (while_loop_partial _ _ _ i) as [i1|]; [|discriminate].
  destruct (ixfr_size o =? 0); [intros [= <- <-]; eauto|].
  destruct (while_loop_partial _ _ _ i1) as [i2|]; [|discriminate].
  destruct (_ && _); intros [= <- <-]; eauto.
Qed.


Lemma ixfrcompare_eq (x y : N) : (ixfrcompare x y =? 0)%Z = (x =? y).
Proof.
  unfold ixfrcompare.
  destruct (x <? y) eqn:E1; [apply N.ltb_lt in E1|apply N.ltb_ge in E1].
  - symmetry. apply N.eqb_neq. lia.
  - destruct (y <? x) eqn:E2; [apply N.ltb_lt in E2|apply N.ltb_ge in E2].
    + symmetry. apply N.eqb_neq. lia.
    + symmetry. apply N.eqb_eq. lia.
Qed.

(** zone_ixfr_remove_oldest as the code has it: whenever the value found
    in the key-pointer slot is not the old_serial of the oldest segment,
    that segment is not unlinked and ixfr_data_free frees it while it is
    in the tree. *)
Lemma remove_oldest_frees_linked (sz : N) (slot : ixfr_data -> N)
  (d : ixfr_data) (t : list ixfr_data) (ts : N) (nf : Z) :
  slot d <> oldserial d ->
  zone_ixfr_remove_oldest sz slot
    {| data := d :: t; total_size := ts; num_files := nf |} = None.
Proof.
  intros Hne. unfold zone_ixfr_remove_oldest, zone_ixfr_remove. simpl.
  rewrite ixfrcompare_eq. apply N.eqb_neq in Hne. rewrite Hne.
  unfold still_linked. simpl. now rewrite N.eqb_refl.
Qed.







(** ** The version chain *)

Lemma ixfrcompare_lt (x y : N) : (ixfrcompare x y <? 0)%Z = (x <? y).
Proof.
  unfold ixfrcompare.
  destruct (x <? y); [reflexivity|]. now destruct (y <? x).
Qed.

Lemma rbtree_insert_In (d x : ixfr_data) (t : list ixfr_data) :
  In x (rbtree_insert oldserial ixfrcompare d t) -> x = d \/ In x t.
Proof.
  induction t as [|y t IH]; simpl.
  - intros [H|[]]; auto.
  - rewrite ixfrcompare_eq, ixfrcompare_lt.
    destruct (oldserial d =? oldserial y); [auto|].
    destruct (oldserial d <? oldserial y); simpl.
    + intros [H|H]; auto.
    + intros [H|H]; auto. apply IH in H. tauto.
Qed.

Lemma rbtree_insert_sorted (d : ixfr_data) (t : list ixfr_data) :
  chain_sorted t -> chain_sorted (rbtree_insert oldserial ixfrcompare d t).
Proof.
  unfold chain_sorted.
  induction t as [|y t IH]; intros Hs; simpl.
  - repeat constructor.
  - rewrite ixfrcompare_eq, ixfrcompare_lt.
    inversion Hs as [|? ? Hs' Hall]; subst.
    destruct (oldserial d =? oldserial y) eqn:E1; [exact Hs|].
    destruct (oldserial d <? oldserial y) eqn:E2.
    + apply N.ltb_lt in E2. constructor; [exact Hs|].
      constructor; [exact E2|].
      eapply Forall_impl; [|exact Hall]. simpl. intros; lia.
    + apply N.ltb_ge in E2. apply N.eqb_neq in E1.
      constructor; [now apply IH|].
      apply Forall_forall. intros x Hx.
      apply rbtree_insert_In in Hx. destruct Hx as [->|Hx]; [lia|].
      rewrite Forall_forall in Hall. now apply Hall.
Qed.

Lemma rbtree_delete_incl (k : N) (t : list ixfr_data) :
  incl (rbtree_delete oldserial ixfrcompare k t) t.
Proof.
  induction t as [|y t IH]; simpl; [apply incl_refl|].
  destruct (ixfrcompare k (oldserial y) =? 0)%Z.
  - apply incl_tl, incl_refl.
  - intros x [->|Hx]; [now left|right; now apply IH].
Qed.

Lemma rbtree_delete_sorted (k : N) (t : list ixfr_data) :
  chain_sorted t -> chain_sorted (rbtree_delete oldserial ixfrcompare k t).
Proof.
  unfold chain_sorted.
  induction t as [|y t IH]; intros Hs; simpl; [constructor|].
  inversion Hs as [|? ? Hs' Hall]; subst.
  destruct (ixfrcompare k (oldserial y) =? 0)%Z; [exact Hs'|].
  constructor; [now apply IH|].
  apply Forall_forall. intros x Hx. apply rbtree_delete_incl in Hx.
  rewrite Forall_forall in Hall. now apply Hall.
Qed.

(** What a removal that leaves a chain behind has done to it. *)
Lemma zone_ixfr_remove_data (sz : N) (slot : ixfr_data -> N)
  (i i' : zone_ixfr) (d : ixfr_data) :
  zone_ixfr_remove sz slot i d = Some i' ->
  data i' = rbtree_delete oldserial ixfrcompare (slot d) (data i) /\
  still_linked d (data i') = false.
Proof.
  unfold zone_ixfr_remove.
  destruct (still_linked d _) eqn:E; [discriminate|].
  intros [= <-]. simpl. auto.
Qed.

Lemma zone_ixfr_remove_oldest_data (sz : N) (slot : ixfr_data -> N)
  (i i' : zone_ixfr) :
  zone_ixfr_remove_oldest sz slot i = Some i' ->
  i' = i \/
  exists k, data i' = rbtree_delete oldserial ixfrcompare k (data i).
Proof.
  unfold zone_ixfr_remove_oldest.
  destruct (0 <? count i); [|intros [= <-]; now left].
  destruct (rbtree_first (data i)) as [[oldest rest]|];
    [|intros [= <-]; now left].
  intros H. apply zone_ixfr_remove_data in H. right.
  exists (slot oldest). apply H.
Qed.

Lemma chain_reachable_sorted (sz : N) (slot : ixfr_data -> N) (i : zone_ixfr) :
  chain_reachable sz slot i -> chain_sorted (data i).
Proof.
  induction 1 as [|i d H IH|i d i' H IH Hr|i i' H IH Hr|i i' H IH Hc]; simpl.
  - constructor.
  - now apply rbtree_insert_sorted.
  - apply zone_ixfr_remove_data in Hr. destruct Hr as [-> _].
    now apply rbtree_delete_sorted.
  - apply zone_ixfr_remove_oldest_data in Hr.
    destruct Hr as [->|[k ->]]; [exact IH|].
    now apply rbtree_delete_sorted.
  - injection Hc as <-. constructor.
Qed.

(** find is an exact match on old_serial. *)
Lemma last_cons_cons {A : Type} (x y : A) (l : list A) :
  last (y :: l) x = last l y.
Proof.
  revert x y. induction l as [|z l IH]; intros x y; [reflexivity|].
  change (last (y :: z :: l) x) with (last (z :: l) x).
  now rewrite !IH.
Qed.


Lemma rbtree_search_key (q : N) (t : list ixfr_data) (n : @rbnode ixfr_data) :
  rbtree_search oldserial ixfrcompare q t = Some n ->
  oldserial (fst n) = q /\ In (fst n) t.
Proof.
  induction t as [|y t IH]; simpl; [discriminate|].
  rewrite ixfrcompare_eq.
  destruct (q =? oldserial y) eqn:E.
  - intros [= <-]. apply N.eqb_eq in E. simpl. auto.
  - intros H. apply IH in H. tauto.
Qed.

Lemma rbtree_search_member (d : ixfr_data) (t : list ixfr_data) :
  chain_sorted t -> In d t ->
  exists succs,
    rbtree_search oldserial ixfrcompare (oldserial d) t = Some (d, succs).
Proof.
  unfold chain_sorted.
  induction t as [|y t IH]; intros Hs Hin; [destruct Hin|].
  inversion Hs as [|? ? Hs' Hall]; subst. simpl.
  rewrite ixfrcompare_eq.
  destruct Hin as [->|Hin].
  - rewrite N.eqb_refl. now exists t.
  - rewrite Forall_forall in Hall. specialize (Hall d Hin).
    destruct (oldserial d =? oldserial y) eqn:E;
      [apply N.eqb_eq in E; lia|].
    now apply IH.
Qed.

Lemma rbtree_insert_member (d : ixfr_data) (t : list ixfr_data) :
  (forall e, In e t -> oldserial e <> oldserial d) ->
  In d (rbtree_insert oldserial ixfrcompare d t).
Proof.
  induction t as [|y t IH]; intros Hfresh; simpl; [now left|].
  rewrite ixfrcompare_eq, ixfrcompare_lt.
  destruct (oldserial d =? oldserial y) eqn:E.
  - apply N.eqb_eq in E. exfalso. apply (Hfresh y); [now left|now symmetry].
  - destruct (oldserial d <? oldserial y); [now left|].
    right. apply IH. intros e He. apply Hfresh. now right.
Qed.

(** C2, as the code has it.  As long as no removal has freed a segment
    that is still linked into the tree (see C6), the chain of a zone is an
    ordered mapping keyed by old_serial: its nodes are in strictly
    increasing order of old_serial compared as plain unsigned 32-bit
    numbers (ixfrcompare),
    not under RFC 1982 comparison; zone_ixfr_add keys a segment by its
    old_serial, and zone_ixfr_find_serial is an exact match on that key. *)
Theorem chain_ordered_by_unsigned_old_serial
  (sizeof_ixfr_data : N) (node_key_slot : ixfr_data -> N) (i : zone_ixfr) :
  chain_reachable sizeof_ixfr_data node_key_slot i ->
  chain_sorted (data i) /\
  (forall d,
      (forall e, In e (data i) -> oldserial e <> oldserial d) ->
      exists succs,
        zone_ixfr_find_serial (Some (zone_ixfr_add sizeof_ixfr_data i d))
          (oldserial d) = Some (d, succs)) /\
  (forall q n,
      zone_ixfr_find_serial (Some i) q = Some n ->
      oldserial (fst n) = q /\ In (fst n) (data i)) /\
  (forall d, In d (data i) ->
      exists succs,
        zone_ixfr_find_serial (Some i) (oldserial d) = Some (d, succs)).
Proof.
  intros Hr. pose proof (chain_reachable_sorted _ _ _ Hr) as Hs.
  split; [exact Hs|split; [|split]].
  - intros d Hfresh. simpl.
    apply rbtree_search_member.
    + now apply rbtree_insert_sorted.
    + now apply rbtree_insert_member.
  - intros q n. simpl. apply rbtree_search_key.
  - intros d Hin. simpl. now apply rbtree_search_member.
Qed.

(** The chain built by adding 20 -> 30 and then 10 -> 20. *)
Lemma chain_ordered_by_unsigned_old_serial_witness :
  let i := zone_ixfr_add 64 (zone_ixfr_add 64 zone_ixfr_create
                               (bare_segment 20 30)) (bare_segment 10 20) in
  data i = [bare_segment 10 20; bare_segment 20 30] /\
  chain_sorted (data i) /\
  zone_ixfr_find_serial (Some i) 20 = Some (bare_segment 20 30, []).
Proof.
  intros i.
  assert (Hr : chain_reachable 64 (fun _ => 0) i)
    by (unfold i; repeat constructor).
  destruct (chain_ordered_by_unsigned_old_serial 64 (fun _ => 0) i Hr)
    as [Hs _].
  repeat split; [exact Hs].
Defined.

(** C2 as stated fails: after the serial has wrapped around, the chain that
    holds 4294967295 -> 0 and 0 -> 1 has 0 -> 1 first, although 4294967295
    comes before 0 under RFC 1982 comparison. *)
Lemma chain_not_sorted_rfc1982 :
  let i := zone_ixfr_add 64 (zone_ixfr_add 64 zone_ixfr_create
                               (bare_segment 4294967295 0))
             (bare_segment 0 1) in
  chain_reachable 64 (fun _ => 0) i /\
  data i = [bare_segment 0 1; bare_segment 4294967295 0] /\
  compare_serial 4294967295 0 = (-1)%Z /\
  ~ chain_sorted_rfc1982 (data i).
Proof.
  intros i. split; [unfold i; repeat constructor|].
  split; [reflexivity|]. split; [reflexivity|].
  intros Hs. inversion Hs as [|? ? _ Hall]; subst.
  inversion Hall as [|? ? Hc _]; subst.
  vm_compute in Hc. discriminate.
Qed.

(** ** Making space *)

(** A loop whose body decreases a measure comes to an end within that many
    iterations, and an invariant of the body holds at its end. *)
Lemma while_loop_measure {S : Type} (m : S -> nat) (cond : S -> bool)
  (body : S -> S) (Inv : S -> Prop) :
  (forall s, Inv s -> cond s = true ->
             Inv (body s) /\ (m (body s) < m s)%nat) ->
  forall fuel s, Inv s -> (m s < fuel)%nat ->
    exists s', while_loop fuel cond body s = Some s' /\ Inv s' /\
               cond s' = false.
Proof.
  intros Hstep. induction fuel as [|fuel IH]; intros s Hinv Hm; [lia|].
  simpl. destruct (cond s) eqn:Hc.
  - destruct (Hstep s Hinv Hc) as [Hinv' Hdec].
    apply IH; [exact Hinv'|lia].
  - exists s. auto.
Qed.

Lemma while_loop_partial_measure {S : Type} (m : S -> nat) (cond : S -> bool)
  (body : S -> option S) (Inv : S -> Prop) :
  (forall s, Inv s -> cond s = true ->
             exists s', body s = Some s' /\ Inv s' /\ (m s' < m s)%nat) ->
  forall fuel s, Inv s -> (m s < fuel)%nat ->
    exists s', while_loop_partial fuel cond body s = Some s' /\ Inv s' /\
               cond s' = false.
Proof.
  intros Hstep. induction fuel as [|fuel IH]; intros s Hinv Hm; [lia|].
  simpl. destruct (cond s) eqn:Hc.
  - destruct (Hstep s Hinv Hc) as [s' [-> [Hinv' Hdec]]].
    apply IH; [exact Hinv'|lia].
  - exists s. auto.
Qed.

Lemma eviction_loop_stuck (sz : N) (slot : ixfr_data -> N) (d : ixfr_data)
  (n : N) (fuel : nat) :
  slot d <> oldserial d -> n <= 1 ->
  forall i, data i = [d] ->
    while_loop_partial fuel (fun i => n <=? count i)
      (zone_ixfr_remove_oldest sz slot) i = None.
Proof.
  intros Hne Hn. destruct fuel as [|fuel]; intros i Hi; [reflexivity|].
  simpl. unfold count at 1. rewrite Hi. simpl length.
  destruct (n <=? N.of_nat 1) eqn:E; [|apply N.leb_gt in E; lia].
  destruct i as [dt ts nf]. simpl in Hi. subst dt.
  now rewrite remove_oldest_frees_linked.
Qed.

(** C6, the code at the failing input.  The zone allows one segment and
    holds 10 -> 20; a builder for 20 -> 30 asks for space.  Unless the
    value read through [&data->node.key] happens to be 10, the oldest
    segment is never unlinked (it is freed while it stays in the tree),
    the count does not drop, the count loop cannot come to an end and
    zone_ixfr_make_space has no result, whatever the fuel. *)
Theorem make_space_eviction_stuck (sizeof_ixfr_data : N)
  (node_key_slot : ixfr_data -> N) (fuel : nat) :
  node_key_slot (bare_segment 10 20) <> 10 ->
  zone_ixfr_make_space sizeof_ixfr_data node_key_slot fuel
    (Some full_chain) one_slot_options (Some (bare_segment 20 30))
    (ixfr_store_start 20 30) = None.
Proof.
  intros Hne. unfold zone_ixfr_make_space. simpl ixfr_number.
  change (1 =? 0) with false. cbv iota.
  rewrite (eviction_loop_stuck sizeof_ixfr_data node_key_slot
             (bare_segment 10 20) 1 fuel Hne); [reflexivity|lia|reflexivity].
Qed.

Lemma make_space_eviction_stuck_witness :
  zone_ixfr_make_space 64 (fun _ => 3221225472) 1000
    (Some full_chain) one_slot_options (Some (bare_segment 20 30))
    (ixfr_store_start 20 30) = None.
Proof.
  apply (make_space_eviction_stuck 64 (fun _ => 3221225472) 1000).
  discriminate.
Defined.

(** With the key the sibling call passes ([node.key], the old_serial),
    removing the oldest segment unlinks the head of the chain. *)
Lemma sorted_head_unlinked (d : ixfr_data) (t : list ixfr_data) :
  chain_sorted (d :: t) -> still_linked d t = false.
Proof.
  intros Hs. inversion Hs as [|? ? _ Hall]; subst. clear Hs.
  unfold still_linked. induction Hall as [|e t He _ IH]; [reflexivity|].
  simpl.
  destruct (oldserial e =? oldserial d) eqn:E;
    [apply N.eqb_eq in E; lia|].
  exact IH.
Qed.

Lemma remove_oldest_with_node_key (sz : N) (d : ixfr_data)
  (t : list ixfr_data) (ts : N) (nf : Z) :
  chain_sorted (d :: t) ->
  zone_ixfr_remove_oldest sz oldserial
    {| data := d :: t; total_size := ts; num_files := nf |}
  = Some {| data := t; total_size := size_sub ts (ixfr_data_size sz d);
            num_files := nf |}.
Proof.
  intros Hs. unfold zone_ixfr_remove_oldest, zone_ixfr_remove. simpl.
  rewrite ixfrcompare_eq, N.eqb_refl.
  now rewrite (sorted_head_unlinked d t Hs).
Qed.

Lemma remove_oldest_with_node_key_suffix (sz : N) (i : zone_ixfr) :
  chain_sorted (data i) ->
  exists k i',
    zone_ixfr_remove_oldest sz oldserial i = Some i' /\
    data i' = skipn k (data i) /\
    (0 < count i -> count i' + 1 = count i).
Proof.
  intros Hs. destruct i as [[|d t] ts nf].
  - exists 0%nat. eexists. split; [reflexivity|]. split; [reflexivity|].
    unfold count. simpl. lia.
  - rewrite (remove_oldest_with_node_key sz d t ts nf Hs). exists 1%nat.
    eexists. split; [reflexivity|]. split; [reflexivity|].
    unfold count. simpl length. lia.
Qed.

Lemma chain_sorted_skipn (k : nat) (t : list ixfr_data) :
  chain_sorted t -> chain_sorted (skipn k t).
Proof.
  unfold chain_sorted. revert t. induction k as [|k IH]; intros t Hs;
    [exact Hs|].
  destruct t as [|d t]; [exact Hs|]. simpl.
  inversion Hs; subst. now apply IH.
Qed.

(** What zone_ixfr_make_space does once zone_ixfr_remove looks the node up
    by its old_serial: this is C6 as the spec states it, for a zone that
    has a chain and a builder that has a segment. *)
Lemma make_space_with_node_key (sz : N) (fuel : nat) (i : zone_ixfr)
  (o : pattern_options) (d : ixfr_data) (st : ixfr_store) :
  chain_sorted (data i) ->
  (length (data i) < fuel)%nat ->
  exists i' st',
    zone_ixfr_make_space sz oldserial fuel (Some i) o (Some d) st
    = Some (Some i', st') /\
    (exists k, data i' = skipn k (data i)) /\
    (ixfr_number o = 0 -> st' = ixfr_store_cancel st /\ i' = i) /\
    (ixfr_number o <> 0 ->
       count i' < ixfr_number o /\
       (ixfr_size o = 0 -> st' = st) /\
       (ixfr_size o <> 0 ->
          (count i' = 0 \/
           size_add (total_size i') (ixfr_data_size sz d) <= ixfr_size o) /\
          (ixfr_size o < size_add (total_size i') (ixfr_data_size sz d) ->
           st' = ixfr_store_cancel st) /\
          (size_add (total_size i') (ixfr_data_size sz d) <= ixfr_size o ->
           st' = st))).
Proof.
  intros Hsorted Hfuel. unfold zone_ixfr_make_space.
  destruct (ixfr_number o =? 0) eqn:En;
    [apply N.eqb_eq in En|apply N.eqb_neq in En].
  - exists i, (ixfr_store_cancel st). split; [reflexivity|].
    split; [now exists 0%nat|]. split; [auto|]. intros H. now elim H.
  - set (Inv := fun j : zone_ixfr =>
                  (exists k, data j = skipn k (data i)) /\
                  (length (data j) <= length (data i))%nat).
    assert (Hstep : forall j,
               Inv j -> 0 < count j ->
               exists j',
                 zone_ixfr_remove_oldest sz oldserial j = Some j' /\
                 Inv j' /\ (length (data j') < length (data j))%nat).
    { intros j [[k Hk] Hl] Hpos.
      assert (Hsj : chain_sorted (data j))
        by (rewrite Hk; now apply chain_sorted_skipn).
      destruct (remove_oldest_with_node_key_suffix sz j Hsj)
        as [k' [j' [Hj' [Hk' Hcnt]]]].
      specialize (Hcnt Hpos). unfold count in Hcnt, Hpos.
      exists j'. split; [exact Hj'|].
      split; [split|]; try lia.
      exists (k' + k)%nat. rewrite Hk', Hk. apply skipn_skipn. }
    assert (Hinv0 : Inv i) by (split; [now exists 0%nat|lia]).
    destruct (while_loop_partial_measure (fun j => length (data j))
                (fun j => ixfr_number o <=? count j)
                (zone_ixfr_remove_oldest sz oldserial) Inv) with
      (fuel := fuel) (s := i) as [i1 [H1 [Hinv1 Hc1]]]; auto.
    { intros j Hj Hc. apply (Hstep j Hj).
      apply N.leb_le in Hc. lia. }
    rewrite H1. apply N.leb_gt in Hc1.
    destruct (ixfr_size o =? 0) eqn:Es;
      [apply N.eqb_eq in Es|apply N.eqb_neq in Es].
    + exists i1, st. split; [reflexivity|]. split; [apply Hinv1|].
      split; [intros H; now elim En|]. intros _.
      split; [exact Hc1|]. split; [auto|]. intros H; now elim H.
    + destruct (while_loop_partial_measure (fun j => length (data j))
                  (fun j => (0 <? count j) &&
                            (ixfr_size o <? size_add (total_size j)
                                              (ixfr_data_size sz d)))
                  (zone_ixfr_remove_oldest sz oldserial)
                  (fun j => Inv j /\ count j < ixfr_number o)) with
        (fuel := fuel) (s := i1) as [i2 [H2 [[Hinv2 Hn2] Hc2]]]; auto.
      { intros j [Hj Hjn] Hc.
        apply andb_prop in Hc. destruct Hc as [Hc _].
        apply N.ltb_lt in Hc.
        destruct (Hstep j Hj Hc) as [j' [Hr [Ha Hb]]].
        exists j'. split; [exact Hr|].
        split; [split; [exact Ha|]|exact Hb].
        unfold count in *. lia. }
      { destruct Hinv1 as [_ Hl]. lia. }
      rewrite H2.
      assert (Hfin : count i2 = 0 \/
                     size_add (total_size i2) (ixfr_data_size sz d)
                     <= ixfr_size o).
      { apply andb_false_iff in Hc2. destruct Hc2 as [Hc2|Hc2].
        - left. apply N.ltb_ge in Hc2. lia.
        - right. now apply N.ltb_ge in Hc2. }
      destruct ((count i2 =? 0) &&
                (ixfr_size o <? size_add (total_size i2)
                                  (ixfr_data_size sz d))) eqn:Ecancel.
      * apply andb_prop in Ecancel. destruct Ecancel as [E0 Ebig].
        apply N.eqb_eq in E0. apply N.ltb_lt in Ebig.
        exists i2, (ixfr_store_cancel st). split; [reflexivity|].
        split; [apply Hinv2|]. split; [intros H; now elim En|]. intros _.
        split; [exact Hn2|]. split; [intros H; now elim Es|]. intros _.
        split; [exact Hfin|]. split; [auto|]. intros H. lia.
      * exists i2, st. split; [reflexivity|].
        split; [apply Hinv2|]. split; [intros H; now elim En|]. intros _.
        split; [exact Hn2|]. split; [intros H; now elim Es|]. intros _.
        split; [exact Hfin|]. split; [|auto]. intros Hbig.
        apply andb_false_iff in Ecancel. destruct Ecancel as [E|E].
        -- apply N.eqb_neq in E. destruct Hfin; lia.
        -- apply N.ltb_ge in E. lia.
Qed.

(** ** Reading the files at startup *)

Lemma ixfr_read_files_app (sz : N) (parse : list byte -> option rr)
  (pre rest : list ixfr_file) :
  forall z s n z1 s1,
    ixfr_read_files sz parse pre z s n
    = (z1, s1, (n + Z.of_nat (length pre))%Z) ->
    ixfr_read_files sz parse (pre ++ rest) z s n
    = ixfr_read_files sz parse rest z1 s1 (n + Z.of_nat (length pre))%Z.
Proof.
  assert (Hle : forall files z s n,
             (snd (ixfr_read_files sz parse files z s n)
              <= n + Z.of_nat (length files))%Z).
  { induction files as [|f files IH]; intros z s n; simpl; [lia|].
    destruct (ixfr_data_read sz parse z f s (n + 1)) as [[[|] z'] s'].
    - specialize (IH z' s' (n + 1)%Z). lia.
    - simpl. lia. }
  induction pre as [|f pre IH]; intros z s n z1 s1 H.
  - simpl in H. injection H as <- <- _. simpl.
    now rewrite Z.add_0_r.
  - simpl in H |- *.
    destruct (ixfr_data_read sz parse z f s (n + 1)) as [[[|] z'] s'].
    + replace (n + Z.pos (Pos.of_succ_nat (length pre)))%Z
        with ((n + 1) + Z.of_nat (length pre))%Z in * by lia.
      now apply IH.
    + injection H as _ _ H. lia.
Qed.

Lemma ixfr_data_read_full (sz : N) (parse : list byte -> option rr)
  (z : zone) (i : zone_ixfr) (f : ixfr_file) (s : N) (num : Z) :
  ixfr z = Some i -> count i = ixfr_number (opts z) ->
  ixfr_data_read sz parse z f s num = (false, z, s).
Proof.
  intros Hi Hc. unfold ixfr_data_read. rewrite Hi, Hc, N.eqb_refl.
  reflexivity.
Qed.

Lemma ixfr_data_read_over_budget (sz : N) (parse : list byte -> option rr)
  (z : zone) (f : ixfr_file) (s s' : N) (num : Z) (d : ixfr_data) :
  match ixfr z with
  | Some i => count i <> ixfr_number (opts z)
  | None => True
  end ->
  ixfr_data_parse parse z f s num = (Some d, s') ->
  ixfr_size (opts z) <> 0 ->
  ixfr_size (opts z)
  < size_add (total_size (chain_or_new z)) (ixfr_data_size sz d) ->
  ixfr_data_read sz parse z f s num
  = (false, set_zone_ixfr z (Some (chain_or_new z)), s').
Proof.
  intros Hfull Hp Hs Hbig. unfold ixfr_data_read.
  replace (match ixfr z with
           | Some i => count i =? ixfr_number (opts z)
           | None => false
           end) with false
    by (destruct (ixfr z); [symmetry; now apply N.eqb_neq|reflexivity]).
  destruct (apex z) eqn:Ha.
  - rewrite Hp. fold (chain_or_new z). cbn [opts set_zone_ixfr].
    apply N.eqb_neq in Hs. rewrite Hs.
    apply N.ltb_lt in Hbig. rewrite Hbig. reflexivity.
  - exfalso. unfold ixfr_data_parse, ixfr_data_readnewsoa in Hp.
    destruct (ixfr_data_readrr parse f) as [[r rest]|]; [|discriminate].
    unfold soa_line_ok in Hp. rewrite Ha, andb_false_r in Hp.
    discriminate.
Qed.

Lemma chain_data_set_num_files (z : zone) (n : Z) :
  chain_data match ixfr z with
             | Some i => set_zone_ixfr z (Some (set_num_files i n))
             | None => z
             end = chain_data z.
Proof. unfold chain_data. destruct (ixfr z) eqn:E; simpl; now rewrite ?E. Qed.

Lemma chain_data_read_from_file (sz : N) (parse : list byte -> option rr)
  (z : zone) (files : list ixfr_file) (z1 : zone) (s1 : N) (n1 : Z) :
  ixfr_read_files sz parse files
    (set_zone_ixfr z (zone_ixfr_clear (ixfr z)))
    (zone_get_current_serial
       (Some (set_zone_ixfr z (zone_ixfr_clear (ixfr z))))) 0 = (z1, s1, n1) ->
  chain_data (ixfr_read_from_file sz parse z files) = chain_data z1.
Proof.
  intros H. unfold ixfr_read_from_file. rewrite H.
  destruct (0 <? n1)%Z; [apply chain_data_set_num_files|reflexivity].
Qed.

(** C9, where the code keeps to it.  The files are read in the order 1, 2,
    ...  Suppose the files before file k have all been read into the chain.
    When the segment of file k would push the aggregate size over a nonzero
    max-bytes, the loop stops, that segment is discarded, and the chain is
    the one the lower-numbered files have built; likewise, when the zone's
    chain object holds max-count segments at file k, that file and all
    further files are skipped and the chain built so far is kept.  (The
    test for max-count is made on the chain object only: see
    [read_passes_zero_max_count] for a zone that has none.) *)
Theorem read_stops_and_keeps_earlier
  (sizeof_ixfr_data : N) (zonec_parse_string : list byte -> option rr)
  (z : zone) (pre : list ixfr_file) (f : ixfr_file) (post : list ixfr_file)
  (z1 : zone) (s1 : N) :
  let z0 := set_zone_ixfr z (zone_ixfr_clear (ixfr z)) in
  ixfr_read_files sizeof_ixfr_data zonec_parse_string pre z0
    (zone_get_current_serial (Some z0)) 0
  = (z1, s1, Z.of_nat (length pre)) ->
  (forall d s2,
      match ixfr z1 with
      | Some i => count i <> ixfr_number (opts z1)
      | None => True
      end ->
      ixfr_data_parse zonec_parse_string z1 f s1 (Z.of_nat (length pre) + 1)
      = (Some d, s2) ->
      ixfr_size (opts z1) <> 0 ->
      ixfr_size (opts z1)
      < size_add (total_size (chain_or_new z1))
          (ixfr_data_size sizeof_ixfr_data d) ->
      chain_data (ixfr_read_from_file sizeof_ixfr_data zonec_parse_string z
                    (pre ++ f :: post)) = chain_data z1 /\
      chain_data (ixfr_read_from_file sizeof_ixfr_data zonec_parse_string z
                    (pre ++ f :: post))
      = chain_data (ixfr_read_from_file sizeof_ixfr_data zonec_parse_string
                      z pre)) /\
  (forall i,
      ixfr z1 = Some i -> count i = ixfr_number (opts z1) ->
      chain_data (ixfr_read_from_file sizeof_ixfr_data zonec_parse_string z
                    (pre ++ f :: post)) = data i /\
      ixfr_read_from_file sizeof_ixfr_data zonec_parse_string z
        (pre ++ f :: post)
      = ixfr_read_from_file sizeof_ixfr_data zonec_parse_string z pre).
Proof.
  intros z0 Hpre.
  pose proof (ixfr_read_files_app sizeof_ixfr_data zonec_parse_string pre
                (f :: post) z0 (zone_get_current_serial (Some z0)) 0 z1 s1
                Hpre) as Happ.
  rewrite Z.add_0_l in Happ.
  pose proof (chain_data_read_from_file sizeof_ixfr_data zonec_parse_string
                z pre z1 s1 _ Hpre) as Hcpre.
  split.
  - intros d s2 Hfull Hparse Hs Hbig.
    assert (Hall : chain_data
                     (ixfr_read_from_file sizeof_ixfr_data zonec_parse_string
                        z (pre ++ f :: post)) = chain_data z1).
    { erewrite chain_data_read_from_file.
      2:{ fold z0. rewrite Happ. simpl ixfr_read_files.
          rewrite (ixfr_data_read_over_budget sizeof_ixfr_data
                     zonec_parse_string z1 f s1 s2 _ d Hfull Hparse Hs Hbig).
          reflexivity. }
      unfold chain_data, chain_or_new. simpl. now destruct (ixfr z1). }
    split; [exact Hall|]. now rewrite Hall, Hcpre.
  - intros i Hi Hc.
    assert (Heq : ixfr_read_files sizeof_ixfr_data zonec_parse_string
                    (pre ++ f :: post) z0
                    (zone_get_current_serial (Some z0)) 0
                  = (z1, s1, Z.of_nat (length pre))).
    { rewrite Happ. simpl ixfr_read_files.
      now rewrite (ixfr_data_read_full sizeof_ixfr_data zonec_parse_string
                     z1 i f s1 _ Hi Hc). }
    split.
    + rewrite (chain_data_read_from_file _ _ _ _ _ _ _ Heq).
      unfold chain_data. now rewrite Hi.
    + unfold ixfr_read_from_file. fold z0. now rewrite Heq, Hpre.
Qed.

(** Two files, 10 -> 20 (file 1) and 5 -> 10 (file 2), each of 220 octets
    with a header of 64.  With max-bytes 300 the second segment is dropped
    and the first stays; with max-count 1 the second file is skipped. *)
Lemma read_stops_and_keeps_earlier_witness :
  chain_data (ixfr_read_from_file 64 toy_parse (toy_zone 20 5 300)
                [toy_file x0a x14; toy_file x05 x0a])
  = chain_data (ixfr_read_from_file 64 toy_parse (toy_zone 20 5 300)
                  [toy_file x0a x14]) /\
  ixfr_read_from_file 64 toy_parse (toy_zone 20 1 0)
    [toy_file x0a x14; toy_file x05 x0a]
  = ixfr_read_from_file 64 toy_parse (toy_zone 20 1 0) [toy_file x0a x14].
Proof.
  split.
  - edestruct (read_stops_and_keeps_earlier 64 toy_parse (toy_zone 20 5 300)
                 [toy_file x0a x14] (toy_file x05 x0a) []) as [HA _].
    { vm_compute. reflexivity. }
    edestruct HA as [_ H]; [| |discriminate| |exact H].
    + vm_compute. discriminate.
    + vm_compute. reflexivity.
    + vm_compute. reflexivity.
  - edestruct (read_stops_and_keeps_earlier 64 toy_parse (toy_zone 20 1 0)
                 [toy_file x0a x14] (toy_file x05 x0a) []) as [_ HB].
    { vm_compute. reflexivity. }
    edestruct HB as [_ H]; [reflexivity|reflexivity|exact H].
Defined.

(** *** The count of the chain while the files are read *)

Lemma rbtree_insert_length (d : ixfr_data) (t : list ixfr_data) :
  (length (rbtree_insert oldserial ixfrcompare d t) <= S (length t))%nat.
Proof.
  induction t as [|y t IH]; simpl; [lia|].
  destruct (ixfrcompare (oldserial d) (oldserial y) =? 0)%Z; [simpl; lia|].
  destruct (ixfrcompare (oldserial d) (oldserial y) <? 0)%Z; simpl; lia.
Qed.

Lemma ixfr_data_read_count (sz : N) (parse : list byte -> option rr)
  (z : zone) (f : ixfr_file) (s : N) (num : Z) :
  0 < ixfr_number (opts z) ->
  within_max_count z ->
  opts (snd (fst (ixfr_data_read sz parse z f s num))) = opts z /\
  within_max_count (snd (fst (ixfr_data_read sz parse z f s num))).
Proof.
  intros Hpos Hok. unfold ixfr_data_read.
  assert (Hadd : forall i d,
             count i < ixfr_number (opts z) ->
             count (zone_ixfr_add sz i d) <= ixfr_number (opts z)).
  { intros i d Hlt. unfold count, zone_ixfr_add in *. simpl.
    pose proof (rbtree_insert_length d (data i)). lia. }
  unfold within_max_count in Hok.
  destruct (ixfr z) as [i|] eqn:Hi.
  - destruct (count i =? ixfr_number (opts z)) eqn:Hc.
    + simpl. unfold within_max_count. rewrite Hi. auto.
    + apply N.eqb_neq in Hc.
      destruct (apex z) as [ap|];
        [|simpl; unfold within_max_count; rewrite Hi; auto].
      destruct (ixfr_data_parse parse z f s num) as [[d|] s'];
        [|simpl; unfold within_max_count; rewrite Hi; auto].
      cbn [opts set_zone_ixfr].
      destruct (negb (ixfr_size (opts z) =? 0)
                && (ixfr_size (opts z)
                    <? size_add (total_size i) (ixfr_data_size sz d)));
        simpl; unfold within_max_count; simpl; split; auto.
      apply Hadd. lia.
  - destruct (apex z) as [ap|];
      [|simpl; unfold within_max_count; rewrite Hi; auto].
    destruct (ixfr_data_parse parse z f s num) as [[d|] s'];
      [|simpl; unfold within_max_count; rewrite Hi; auto].
    cbn [opts set_zone_ixfr].
    destruct (negb (ixfr_size (opts z) =? 0)
              && (ixfr_size (opts z)
                  <? size_add (total_size zone_ixfr_create)
                       (ixfr_data_size sz d)));
      simpl; unfold within_max_count; simpl; split; auto.
    all: try apply Hadd; unfold count; simpl; lia.
Qed.

(** With a max-count of at least one, the chain never holds more than
    max-count segments while the files are read: the count reaches
    max-count before it could pass it, and there the reading stops. *)
Lemma read_count_within_max (sz : N) (parse : list byte -> option rr)
  (files : list ixfr_file) :
  forall z s n,
    0 < ixfr_number (opts z) ->
    within_max_count z ->
    opts (fst (fst (ixfr_read_files sz parse files z s n))) = opts z /\
    within_max_count (fst (fst (ixfr_read_files sz parse files z s n))).
Proof.
  induction files as [|f files IH]; intros z s n Hpos Hok; simpl; [auto|].
  destruct (ixfr_data_read_count sz parse z f s (n + 1) Hpos Hok)
    as [Ho Hw].
  destruct (ixfr_data_read sz parse z f s (n + 1)) as [[[|] z'] s'];
    simpl in Ho, Hw.
  - destruct (IH z' s' (n + 1)%Z) as [Ho' Hw'];
      [now rewrite Ho|exact Hw|].
    split; [now rewrite Ho'|exact Hw'].
  - simpl. auto.
Qed.

(** The test that skips a file needs a chain object.  A zone that has none
    yet and a max-count of 0: both files are read, and the chain ends with
    two segments.  With the (empty) chain object in place the first file is
    skipped already. *)
Lemma read_passes_zero_max_count :
  ixfr (toy_zone 20 0 0) = None /\
  ixfr_number (opts (toy_zone 20 0 0)) = 0 /\
  map (fun d => (oldserial d, newserial d))
    (chain_data (ixfr_read_from_file 64 toy_parse (toy_zone 20 0 0)
                   [toy_file x0a x14; toy_file x05 x0a]))
  = [(5, 10); (10, 20)] /\
  chain_data (ixfr_read_from_file 64 toy_parse
                (set_zone_ixfr (toy_zone 20 0 0) (Some zone_ixfr_create))
                [toy_file x0a x14; toy_file x05 x0a]) = [].
Proof.
  split; [reflexivity|]. split; [reflexivity|].
  split; vm_compute; reflexivity.
Qed.

(** ** The response streamer *)

(** *** Packet buffers *)

Lemma buffer_upto_length (n : N) (l : list byte) :
  length (buffer_upto n l) = N.to_nat n.
Proof.
  unfold buffer_upto. rewrite length_app, length_firstn, repeat_length. lia.
Qed.

Lemma buffer_upto_exact (l rest : list byte) :
  buffer_upto (blen l) (l ++ rest) = l.
Proof.
  unfold buffer_upto, blen. rewrite Nat2N.id.
  rewrite firstn_app, firstn_all, Nat.sub_diag, firstn_O, app_nil_r.
  rewrite length_app.
  replace (length l - (length l + length rest))%nat with 0%nat by lia.
  apply app_nil_r.
Qed.

Lemma buffer_message_write (b : buffer) (octets : list byte) :
  buffer_message (buffer_write b octets) = buffer_message b ++ octets.
Proof.
  unfold buffer_message, buffer_write. simpl.
  rewrite app_assoc.
  replace (position b + blen octets)
    with (blen (buffer_upto (position b) (buf_data b) ++ octets)).
  - apply buffer_upto_exact.
  - unfold blen. rewrite length_app, buffer_upto_length. lia.
Qed.

Lemma buffer_message_length (b : buffer) :
  blen (buffer_message b) = position b.
Proof. unfold buffer_message, blen. rewrite buffer_upto_length. lia. Qed.

Lemma buffer_message_set_hdr (b : buffer) (h : header) :
  buffer_message (set_hdr b h) = buffer_message b.
Proof. reflexivity. Qed.

Lemma firstn_repeat_le {A : Type} (x : A) (k n : nat) :
  (k <= n)%nat -> firstn k (repeat x n) = repeat x k.
Proof.
  revert n. induction k as [|k IH]; intros n H; [reflexivity|].
  destruct n as [|n]; [lia|]. simpl. f_equal. apply IH. lia.
Qed.

(** Cutting the packet back to a position it has passed. *)
Lemma buffer_message_cut (b : buffer) (m rest : list byte) :
  buffer_message b = m ++ rest ->
  buffer_message (buffer_set_position b (blen m)) = m.
Proof.
  unfold buffer_message, buffer_set_position. simpl. intros H.
  assert (Hl : (length m <= N.to_nat (position b))%nat).
  { apply (f_equal (@length byte)) in H.
    rewrite buffer_upto_length, length_app in H. lia. }
  unfold buffer_upto in *. unfold blen. rewrite Nat2N.id.
  apply (f_equal (firstn (length m))) in H.
  rewrite firstn_app, firstn_firstn, Nat.min_l in H by lia.
  rewrite (firstn_app (length m) m), firstn_all, Nat.sub_diag, firstn_O,
    app_nil_r in H.
  rewrite length_firstn in H.
  destruct (Nat.le_gt_cases (length m) (length (buf_data b))) as [Hle|Hgt].
  - replace (length m - length (buf_data b))%nat with 0%nat by lia.
    simpl. rewrite app_nil_r.
    replace (length m - Nat.min (N.to_nat (position b)) (length (buf_data b)))%nat
      with 0%nat in H by lia.
    rewrite firstn_O, app_nil_r in H. exact H.
  - rewrite Nat.min_r in H by lia.
    rewrite firstn_all2 by lia. rewrite firstn_all2 in H by lia.
    rewrite firstn_repeat_le in H by lia. exact H.
Qed.


Lemma u16_add_lt (a b : N) : u16_add a b < UINT16_MOD.
Proof. apply N.mod_lt. discriminate. Qed.

Lemma u16_add_0 (t : N) : t < UINT16_MOD -> u16_add t 0 = t.
Proof. intros H. unfold u16_add. rewrite N.add_0_r. now apply N.mod_small. Qed.

(** *** One run of the current segment *)




(** *** The four blocks of ixfr_copy_rrs_into_packet *)

Lemma buf_len_bytes (b : option (list byte)) : buf_len b = blen (buf_bytes b).
Proof. now destruct b. Qed.

Lemma same_session_refl (q : query) : same_session q q.
Proof. unfold same_session. repeat split. Qed.

Lemma same_session_trans (q1 q2 q3 : query) :
  same_session q1 q2 -> same_session q2 q3 -> same_session q1 q3.
Proof.
  unfold same_session. intros H1 H2.
  repeat match goal with H : _ /\ _ |- _ => destruct H end.
  repeat split; congruence.
Qed.












(** *** The streamer on arbitrary runs: it returns, and it only appends *)

Lemma copy_run_loop_total (run_data : list byte) (max : N) (fuel : nat) :
  forall cnt p total,
    (N.to_nat (blen run_data - cnt) < fuel)%nat ->
    exists r c p' t' x,
      copy_run_loop fuel run_data (blen run_data) max cnt p total
      = Some (r, c, p', t') /\
      buffer_message p' = buffer_message p ++ x /\
      position p' = position p + blen x /\
      hdr p' = hdr p /\ limit p' = limit p /\
      (total < UINT16_MOD -> t' < UINT16_MOD).
Proof.
  induction fuel as [|fuel IH]; intros cnt p total Hf; [lia|].
  simpl. if_ltb.
  - destruct (count_rr_length_total run_data (blen run_data) cnt) as [n Hn].
    rewrite Hn.
    destruct (negb (n =? 0) && (buffer_position p <? max)
              && (buffer_position p + n <? max)) eqn:Ec.
    + apply andb_prop in Ec. destruct Ec as [Ec _].
      apply andb_prop in Ec. destruct Ec as [Ec _].
      apply negb_true_iff, N.eqb_neq in Ec.
      apply count_rr_length_bound in Hn. destruct Hn as [Hn|[_ Hn]]; [lia|].
      destruct (IH (cnt + n) (buffer_write p (slice run_data cnt n))
                  (u16_add total 1) ltac:(lia))
        as [r [c [p' [t' [x [H1 [H2 [H3 [H4 [H5 H6]]]]]]]]]].
      exists r, c, p', t', (slice run_data cnt n ++ x).
      split; [exact H1|].
      rewrite H2, H3, H4, H5, buffer_message_write, blen_app. simpl.
      rewrite <- app_assoc. repeat split; [lia|].
      intros _. apply H6, u16_add_lt.
    + exists true, cnt, p, total, []. rewrite app_nil_r, blen_nil, N.add_0_r.
      repeat split. auto.
  - exists false, cnt, p, total, []. rewrite app_nil_r, blen_nil, N.add_0_r.
    repeat split. auto.
Qed.

(** What one call of ixfr_copy_rrs_into_packet does to the packet, for any
    contents of the runs. *)
Lemma ixfr_copy_rrs_into_packet_total (q : query) (cur end_data : ixfr_data)
  (succs e2 : list ixfr_data) :
  q_ixfr_data q = Some (cur, succs) ->
  q_ixfr_end_data q = Some (end_data, e2) ->
  exists a q' x,
    ixfr_copy_rrs_into_packet q = Some (a, q') /\
    same_session q q' /\
    buffer_message (packet q') = buffer_message (packet q) ++ x /\
    position (packet q') = position (packet q) + blen x /\
    a < UINT16_MOD /\
    (newsoa_pending q end_data = false ->
     ixfr_pos_of_newsoa q' = ixfr_pos_of_newsoa q /\
     ixfr_count_newsoa q' = ixfr_count_newsoa q) /\
    (newsoa_pending q end_data = true -> newsoa_fits q end_data = false ->
     q' = q /\ a = 0) /\
    (newsoa_pending q end_data = true -> newsoa_fits q end_data = true ->
     ixfr_pos_of_newsoa q' = position (packet q) + newsoa_len end_data /\
     ixfr_count_newsoa q' = newsoa_len end_data /\
     exists x', x = buf_bytes (newsoa end_data) ++ x').
Proof.
  intros Hcur Hend. unfold ixfr_copy_rrs_into_packet. rewrite Hcur, Hend.
  (* the state behind the first block *)
  assert (H1 : exists r1 t1 q1 x1,
             copy_first_soa q end_data 0 = (r1, t1, q1) /\
             same_session q q1 /\
             buffer_message (packet q1) = buffer_message (packet q) ++ x1 /\
             position (packet q1) = position (packet q) + blen x1 /\
             t1 < UINT16_MOD /\
             (newsoa_pending q end_data = false ->
              r1 = false /\ x1 = [] /\
              ixfr_pos_of_newsoa q1 = ixfr_pos_of_newsoa q /\
              ixfr_count_newsoa q1 = ixfr_count_newsoa q) /\
             (newsoa_pending q end_data = true ->
              newsoa_fits q end_data = false ->
              r1 = true /\ q1 = q /\ t1 = 0) /\
             (newsoa_pending q end_data = true ->
              newsoa_fits q end_data = true ->
              r1 = false /\ x1 = buf_bytes (newsoa end_data) /\
              ixfr_pos_of_newsoa q1
              = position (packet q) + newsoa_len end_data /\
              ixfr_count_newsoa q1 = newsoa_len end_data)).
  { unfold copy_first_soa, newsoa_pending, newsoa_fits, buffer_position.
    destruct (ixfr_count_newsoa q <? newsoa_len end_data).
    - destruct ((position (packet q) <? maxlen q)
                && (position (packet q) + newsoa_len end_data <? maxlen q)).
      + do 3 eexists. exists (buf_bytes (newsoa end_data)).
        split; [reflexivity|]. simpl.
        rewrite buffer_message_write, <- buf_len_bytes.
        unfold same_session. simpl.
        repeat split; try discriminate.
      + exists true, 0, q, []. rewrite app_nil_r, blen_nil, N.add_0_r.
        repeat split; try discriminate; apply same_session_refl.
    - exists false, 0, q, []. rewrite app_nil_r, blen_nil, N.add_0_r.
      repeat split; try discriminate; apply same_session_refl. }
  destruct H1 as [r1 [t1 [q1 [x1 [E1 [Hs1 [Hm1 [Hp1 [Ht1 [Hn1 [Hr1 Hf1]]]]]]]]]]].
  rewrite E1.
  (* the blocks behind it leave the new SOA's bookkeeping alone *)
  assert (Hrest : exists a q' x,
             (let '(returned, total_added, q0) :=
                copy_second_soa q1 cur t1 in
              if returned then Some (total_added, q0)
              else
                match copy_del q0 cur total_added with
                | None => None
                | Some (returned0, total_added0, q2) =>
                    if returned0 then Some (total_added0, q2)
                    else
                      match copy_add q2 cur total_added0 with
                      | None => None
                      | Some (_, total_added1, q3) => Some (total_added1, q3)
                      end
                end) = Some (a, q') /\
             same_session q1 q' /\
             buffer_message (packet q') = buffer_message (packet q1) ++ x /\
             position (packet q') = position (packet q1) + blen x /\
             a < UINT16_MOD /\
             ixfr_pos_of_newsoa q' = ixfr_pos_of_newsoa q1 /\
             ixfr_count_newsoa q' = ixfr_count_newsoa q1).
  { assert (H2 : exists r2 t2 q2 x2,
               copy_second_soa q1 cur t1 = (r2, t2, q2) /\
               same_session q1 q2 /\
               buffer_message (packet q2) = buffer_message (packet q1) ++ x2 /\
               position (packet q2) = position (packet q1) + blen x2 /\
               t2 < UINT16_MOD /\
               ixfr_pos_of_newsoa q2 = ixfr_pos_of_newsoa q1 /\
               ixfr_count_newsoa q2 = ixfr_count_newsoa q1).
    { unfold copy_second_soa, buffer_position.
      destruct (ixfr_count_oldsoa q1 <? oldsoa_len cur).
      - destruct ((position (packet q1) <? maxlen q1)
                  && (position (packet q1) + oldsoa_len cur <? maxlen q1)).
        + do 3 eexists. exists (buf_bytes (oldsoa cur)).
          split; [reflexivity|]. simpl. rewrite buffer_message_write.
          unfold same_session. simpl. repeat split. apply u16_add_lt.
        + exists true, t1, q1, []. rewrite app_nil_r, blen_nil, N.add_0_r.
          repeat split; try assumption; apply same_session_refl.
      - exists false, t1, q1, []. rewrite app_nil_r, blen_nil, N.add_0_r.
        repeat split; try assumption; apply same_session_refl. }
    destruct H2 as [r2 [t2 [q2 [x2 [E2 [Hs2 [Hm2 [Hp2 [Ht2 [Hn2 Hc2]]]]]]]]]].
    rewrite E2. destruct r2.
    { exists t2, q2, x2. split; [reflexivity|]. split; [exact Hs2|].
      repeat split; assumption. }
    unfold copy_del. unfold del_len. rewrite buf_len_bytes.
    destruct (copy_run_loop_total (buf_bytes (del cur)) (maxlen q2)
                (S (length (buf_bytes (del cur)))) (ixfr_count_del q2)
                (packet q2) t2 ltac:(unfold blen; lia))
      as [r3 [c3 [p3 [t3 [x3 [E3 [Hm3 [Hp3 [Hh3 [Hl3 Ht3]]]]]]]]]].
    specialize (Ht3 Ht2).
    rewrite E3.
    set (q3 := set_stream (set_packet q2 p3) (q_ixfr_data q2)
                 (q_ixfr_end_data q2) (ixfr_count_newsoa q2)
                 (ixfr_count_oldsoa q2) c3 (ixfr_count_add q2)
                 (ixfr_pos_of_newsoa q2)).
    assert (Hs3 : same_session q1 q3).
    { eapply same_session_trans; [exact Hs2|].
      unfold same_session, q3. simpl. repeat split; assumption. }
    destruct r3.
    { exists t3, q3, (x2 ++ x3). split; [reflexivity|].
      split; [exact Hs3|]. unfold q3. simpl.
      rewrite Hm3, Hp3, Hm2, Hp2, blen_app, <- app_assoc.
      repeat split; auto. lia. }
    unfold copy_add. unfold add_len. rewrite buf_len_bytes.
    destruct (copy_run_loop_total (buf_bytes (add cur)) (maxlen q3)
                (S (length (buf_bytes (add cur)))) (ixfr_count_add q3)
                (packet q3) t3 ltac:(unfold blen; lia))
      as [r4 [c4 [p4 [t4 [x4 [E4 [Hm4 [Hp4 [Hh4 [Hl4 Ht4]]]]]]]]]].
    specialize (Ht4 Ht3).
    rewrite E4. eexists. eexists. exists (x2 ++ x3 ++ x4).
    split; [reflexivity|]. split.
    { eapply same_session_trans; [exact Hs3|].
      unfold same_session. simpl. repeat split; assumption. }
    simpl. rewrite Hm4, Hp4. unfold q3. simpl.
    rewrite Hm3, Hp3, Hm2, Hp2, !blen_app, <- !app_assoc.
    repeat split; auto. lia. }
  destruct (newsoa_pending q end_data) eqn:Epend.
  - destruct (newsoa_fits q end_data) eqn:Efit.
    + destruct (Hf1 eq_refl eq_refl) as [-> [-> [Hpos Hcnt]]].
      destruct Hrest as [a [q' [x [E [Hs [Hm [Hp [Hta [Hpn Hcn]]]]]]]]].
      exists a, q', (buf_bytes (newsoa end_data) ++ x).
      split; [exact E|]. split; [eapply same_session_trans; eassumption|].
      rewrite Hm, Hm1, Hp, Hp1, blen_app, <- app_assoc.
      repeat split; try discriminate; try congruence; try lia.
      now exists x.
    + destruct (Hr1 eq_refl eq_refl) as [-> [-> ->]].
      exists 0, q, []. rewrite app_nil_r, blen_nil, N.add_0_r.
      repeat split; try discriminate; apply same_session_refl.
  - destruct (Hn1 eq_refl) as [-> [-> [Hpos Hcnt]]].
    destruct Hrest as [a [q' [x [E [Hs [Hm [Hp [Hta [Hpn Hcn]]]]]]]]].
    exists a, q', x.
    split; [exact E|]. split; [eapply same_session_trans; eassumption|].
    rewrite Hm, Hm1, Hp, Hp1, app_nil_r, blen_nil, N.add_0_r.
    repeat split; try discriminate; congruence.
Qed.

Lemma same_session_stream (q q' : query) :
  same_session q q' -> same_stream q q'.
Proof.
  unfold same_session, same_stream. intros H.
  repeat match goal with H : _ /\ _ |- _ => destruct H end.
  repeat split; assumption.
Qed.

Lemma same_stream_trans (q1 q2 q3 : query) :
  same_stream q1 q2 -> same_stream q2 q3 -> same_stream q1 q3.
Proof.
  unfold same_stream. intros H1 H2.
  repeat match goal with H : _ /\ _ |- _ => destruct H end.
  repeat split; congruence.
Qed.

(** The loop over the following segments, for any contents of the runs. *)
Lemma next_segments_total (end_data : ixfr_data) (e2 : list ixfr_data)
  (succs : list ixfr_data) :
  forall q cur total,
    q_ixfr_end_data q = Some (end_data, e2) ->
    total < UINT16_MOD ->
    (exists n, q_ixfr_data q = Some n) ->
    exists t' q' x,
      next_segments q cur succs total = Some (t', q') /\
      same_stream q q' /\
      buffer_message (packet q') = buffer_message (packet q) ++ x /\
      position (packet q') = position (packet q) + blen x /\
      (exists n, q_ixfr_data q' = Some n) /\
      (newsoa_pending q end_data = false ->
       ixfr_pos_of_newsoa q' = ixfr_pos_of_newsoa q) /\
      (newsoa_pending q end_data = true -> newsoa_fits q end_data = false ->
       x = [] /\ t' = total /\
       ixfr_pos_of_newsoa q' = ixfr_pos_of_newsoa q).
Proof.
  induction succs as [|n rest IH]; intros q cur total Hend Ht Hdata; simpl.
  - destruct (add_len cur <=? ixfr_count_add q).
    + eexists. eexists. exists []. split; [reflexivity|]. simpl.
      rewrite app_nil_r, blen_nil, N.add_0_r.
      unfold same_stream. simpl. repeat split; auto.
    + exists total, q, []. rewrite app_nil_r, blen_nil, N.add_0_r.
      unfold same_stream. repeat split; auto.
  - destruct (add_len cur <=? ixfr_count_add q).
    + set (q2 := set_stream q (Some (n, rest)) (q_ixfr_end_data q)
                   (ixfr_count_newsoa q) (oldsoa_len n) 0 0
                   (ixfr_pos_of_newsoa q)).
      destruct (ixfr_copy_rrs_into_packet_total q2 n end_data rest e2
                  eq_refl Hend)
        as [a [q3 [x [E [Hs [Hm [Hp [Hta [Hn [Hr Hf]]]]]]]]]].
      rewrite E.
      assert (Hend3 : q_ixfr_end_data q3 = Some (end_data, e2)).
      { destruct Hs as [_ [_ [_ [_ [_ [_ [_ [_ [_ [He _]]]]]]]]]].
        rewrite He. exact Hend. }
      assert (Hdata3 : exists m, q_ixfr_data q3 = Some m).
      { destruct Hs as [_ [_ [_ [_ [_ [_ [_ [_ [Hd _]]]]]]]]].
        rewrite Hd. now eexists. }
      destruct (IH q3 n (u16_add total a) Hend3 (u16_add_lt _ _) Hdata3)
        as [t' [q' [x' [E' [Hs' [Hm' [Hp' [Hd' [Hn' Hr']]]]]]]]].
      rewrite E'. exists t', q', (x ++ x').
      split; [reflexivity|].
      assert (Hs2 : same_stream q q3).
      { apply same_session_stream in Hs. unfold same_stream in *.
        simpl in Hs. exact Hs. }
      split; [eapply same_stream_trans; eassumption|].
      rewrite Hm', Hm, Hp', Hp, blen_app, <- app_assoc. simpl.
      split; [reflexivity|]. split; [lia|]. split; [exact Hd'|].
      assert (Hpend2 : newsoa_pending q2 end_data = newsoa_pending q end_data)
        by reflexivity.
      assert (Hfit2 : newsoa_fits q2 end_data = newsoa_fits q end_data)
        by reflexivity.
      split.
      * intros Hpend. rewrite <- Hpend2 in Hpend.
        destruct (Hn Hpend) as [Hpos Hcnt].
        rewrite Hn'; [exact Hpos|].
        unfold newsoa_pending in *. now rewrite Hcnt.
      * intros Hpend Hfit. rewrite <- Hpend2 in Hpend.
        rewrite <- Hfit2 in Hfit.
        destruct (Hr Hpend Hfit) as [-> ->].
        destruct (Hr' Hpend Hfit) as [-> [-> Hpos]].
        assert (Hx : x = []).
        { apply (f_equal (@length byte)) in Hm.
          rewrite length_app in Hm. destruct x; [reflexivity|].
          simpl in Hm. lia. }
        rewrite Hx. repeat split; auto.
        apply u16_add_0. exact Ht.
    + exists total, q, []. rewrite app_nil_r, blen_nil, N.add_0_r.
      unfold same_stream. repeat split; auto.
Qed.

(** stream_fill returns for every query that has a segment to stream
    from; it only appends to the packet, and the position of the opening
    new SOA is recorded exactly when that SOA has been written. *)
Lemma stream_fill_total (q : query) (cur end_data : ixfr_data)
  (succs e2 : list ixfr_data) :
  q_ixfr_data q = Some (cur, succs) ->
  q_ixfr_end_data q = Some (end_data, e2) ->
  exists total q' x,
    stream_fill q = Some (total, q') /\
    same_stream q q' /\
    buffer_message (packet q') = buffer_message (packet q) ++ x /\
    position (packet q') = position (packet q) + blen x /\
    (exists n, q_ixfr_data q' = Some n) /\
    (newsoa_pending q end_data = false ->
     ixfr_pos_of_newsoa q' = ixfr_pos_of_newsoa q) /\
    (newsoa_pending q end_data = true -> newsoa_fits q end_data = false ->
     x = [] /\ total = 0 /\ ixfr_pos_of_newsoa q' = ixfr_pos_of_newsoa q) /\
    (newsoa_pending q end_data = true -> newsoa_fits q end_data = true ->
     ixfr_pos_of_newsoa q' = position (packet q) + newsoa_len end_data /\
     exists x', x = buf_bytes (newsoa end_data) ++ x').
Proof.
  intros Hcur Hend. unfold stream_fill.
  destruct (ixfr_copy_rrs_into_packet_total q cur end_data succs e2 Hcur Hend)
    as [a [q1 [x [E [Hs [Hm [Hp [Ha [Hn [Hr Hf]]]]]]]]]].
  rewrite E.
  assert (Hcur1 : q_ixfr_data q1 = Some (cur, succs)).
  { destruct Hs as [_ [_ [_ [_ [_ [_ [_ [_ [Hd _]]]]]]]]]. now rewrite Hd. }
  assert (Hend1 : q_ixfr_end_data q1 = Some (end_data, e2)).
  { destruct Hs as [_ [_ [_ [_ [_ [_ [_ [_ [_ [He _]]]]]]]]]]. now rewrite He. }
  rewrite Hcur1.
  destruct (next_segments_total end_data e2 succs q1 cur a Hend1 Ha
              ltac:(eexists; exact Hcur1))
    as [t' [q' [x' [E' [Hs' [Hm' [Hp' [Hd' [Hn' Hr']]]]]]]]].
  rewrite E'. exists t', q', (x ++ x'). split; [reflexivity|].
  split; [eapply same_stream_trans;
          [apply same_session_stream; exact Hs|exact Hs']|].
  rewrite Hm', Hm, Hp', Hp, blen_app, <- app_assoc.
  split; [reflexivity|]. split; [lia|]. split; [exact Hd'|].
  split; [|split].
  - intros Hpend. destruct (Hn Hpend) as [Hpos Hcnt].
    rewrite Hn'; [exact Hpos|].
    unfold newsoa_pending in *. now rewrite Hcnt.
  - intros Hpend Hfit. destruct (Hr Hpend Hfit) as [-> ->].
    destruct (Hr' Hpend Hfit) as [-> [-> Hpos]].
    assert (Hx : x = []).
    { apply (f_equal (@length byte)) in Hm.
      rewrite length_app in Hm. destruct x; [reflexivity|].
      simpl in Hm. lia. }
    rewrite Hx. auto.
  - intros Hpend Hfit. destruct (Hf Hpend Hfit) as [Hpos [Hcnt [x0 ->]]].
    split.
    + rewrite Hn'; [exact Hpos|].
      unfold newsoa_pending. rewrite Hcnt. apply N.ltb_irrefl.
    + exists (x0 ++ x'). now rewrite app_assoc.
Qed.

(** *** Truncation over UDP *)

Lemma stream_answer_udp (total : N) (q1 : query) :
  tcp q1 = false -> ixfr_is_done q1 = false ->
  let q' := stream_answer total q1 in
  ixfr_is_done q' = true /\
  TC (hdr (packet q')) = true /\
  AA (hdr (packet q')) = true /\
  buf_data (packet q') = buf_data (packet q1) /\
  position (packet q')
  = (if ixfr_pos_of_newsoa q1 =? 0 then position (packet q1)
     else ixfr_pos_of_newsoa q1) /\
  ANCOUNT (hdr (packet q'))
  = (if ixfr_pos_of_newsoa q1 =? 0 then total else 1).
Proof.
  intros Htcp Hdone. unfold stream_answer. cbn [tcp set_packet ixfr_is_done].
  rewrite Htcp, Hdone. cbn [negb andb].
  cbn [ixfr_pos_of_newsoa set_packet packet tsig set_ixfr_is_done].
  destruct (tsig_status_eqb (tsig q1) TSIG_OK);
    destruct (ixfr_pos_of_newsoa q1 =? 0); simpl; repeat split.
Qed.

(** C5, as the code has it.  On the first packet of a stream over a
    connectionless transport (nothing of the opening new SOA written yet,
    no position of it remembered, a final segment with a new SOA): when the
    stream is not completed within the packet, the TC bit is set and the
    stream is marked done; if the opening new SOA fitted, the packet is cut
    back to the position just behind that SOA, so that it holds just the
    opening new SOA, and the answer count is 1; if the opening new SOA did
    not fit, the packet holds no record and the answer count is 0. *)
Theorem udp_reply_truncated (q : query) (cur end_data : ixfr_data)
  (succs e2 : list ixfr_data) :
  tcp q = false ->
  q_ixfr_data q = Some (cur, succs) ->
  q_ixfr_end_data q = Some (end_data, e2) ->
  ixfr_count_newsoa q = 0 ->
  ixfr_pos_of_newsoa q = 0 ->
  0 < newsoa_len end_data ->
  exists total q1,
    stream_fill q = Some (total, q1) /\
    query_ixfr_stream q = Some (QUERY_IN_IXFR, stream_answer total q1) /\
    (ixfr_is_done q1 = false ->
     let q' := stream_answer total q1 in
     TC (hdr (packet q')) = true /\
     ixfr_is_done q' = true /\
     AA (hdr (packet q')) = true /\
     (newsoa_fits q end_data = true ->
      buffer_message (packet q')
      = buffer_message (packet q) ++ buf_bytes (newsoa end_data) /\
      position (packet q') = position (packet q) + newsoa_len end_data /\
      ANCOUNT (hdr (packet q')) = 1) /\
     (newsoa_fits q end_data = false ->
      buffer_message (packet q') = buffer_message (packet q) /\
      ANCOUNT (hdr (packet q')) = 0)).
Proof.
  intros Htcp Hcur Hend Hcnt Hpos Hlen.
  destruct (stream_fill_total q cur end_data succs e2 Hcur Hend)
    as [total [q1 [x [E [Hs [Hm [Hp [_ [_ [Hr Hf]]]]]]]]]].
  exists total, q1. split; [exact E|].
  split; [unfold query_ixfr_stream; now rewrite E|].
  intros Hdone q'.
  assert (Hpend : newsoa_pending q end_data = true).
  { unfold newsoa_pending. rewrite Hcnt. now apply N.ltb_lt. }
  assert (Htcp1 : tcp q1 = false).
  { destruct Hs as [_ [Ht _]]. now rewrite Ht. }
  destruct (stream_answer_udp total q1 Htcp1 Hdone)
    as [Hd [Htc [Haa [Hdata [Hposq Han]]]]].
  fold q' in Hd, Htc, Haa, Hdata, Hposq, Han.
  split; [exact Htc|]. split; [exact Hd|]. split; [exact Haa|].
  assert (Hmsg : buffer_message (packet q')
                 = buffer_message
                     (buffer_set_position (packet q1) (position (packet q')))).
  { unfold buffer_message, buffer_set_position. simpl. now rewrite Hdata. }
  split.
  - intros Hfit. destruct (Hf Hpend Hfit) as [Hpn [x' ->]].
    assert (Hnz : (ixfr_pos_of_newsoa q1 =? 0) = false)
      by (apply N.eqb_neq; lia).
    rewrite Hnz in Hposq, Han. rewrite Hmsg, Hposq, Hpn.
    split; [|split; [reflexivity|exact Han]].
    replace (position (packet q) + newsoa_len end_data)
      with (blen (buffer_message (packet q) ++ buf_bytes (newsoa end_data))).
    + apply (buffer_message_cut (packet q1) _ x').
      rewrite Hm. now rewrite app_assoc.
    + rewrite blen_app, buffer_message_length. unfold newsoa_len.
      now rewrite buf_len_bytes.
  - intros Hfit. destruct (Hr Hpend Hfit) as [-> [-> Hpn]].
    rewrite Hpn, Hpos in Hposq, Han. simpl in Hposq, Han.
    split; [|exact Han].
    rewrite Hmsg, Hposq. rewrite app_nil_r in Hm.
    rewrite <- Hm. unfold buffer_message, buffer_set_position. reflexivity.
Qed.

(** Over UDP with room for 100 octets, the stream of the segment 10 -> 20
    (156 octets) is cut back to the 17 octets of header and question and
    the opening SOA of 33 octets. *)
Lemma udp_reply_truncated_witness :
  exists q',
    query_ixfr_stream (toy_stream_start false 100 [toy_segment x0a x14])
    = Some (QUERY_IN_IXFR, q') /\
    TC (hdr (packet q')) = true /\
    ixfr_is_done q' = true /\
    ANCOUNT (hdr (packet q')) = 1 /\
    position (packet q') = 50 /\
    buffer_message (packet q')
    = buffer_message (toy_query_packet 10)
      ++ buf_bytes (newsoa (toy_segment x0a x14)).
Proof.
  destruct (udp_reply_truncated
              (toy_stream_start false 100 [toy_segment x0a x14])
              (toy_segment x0a x14) (toy_segment x0a x14) [] []
              eq_refl eq_refl eq_refl eq_refl eq_refl eq_refl)
    as [total [q1 [E [Eq H]]]].
  assert (Hd : ixfr_is_done q1 = false).
  { vm_compute in E. injection E as _ <-. reflexivity. }
  destruct (H Hd) as [Htc [Hdone [_ [Hfit _]]]].
  destruct (Hfit eq_refl) as [Hm [Hp Han]].
  exists (stream_answer total q1).
  split; [exact Eq|]. split; [exact Htc|]. split; [exact Hdone|].
  split; [exact Han|]. split; [exact Hp|exact Hm].
Defined.

(** C5 as stated fails: over UDP with room for 512 octets and an opening
    new SOA of 520 octets, the query for serial 10 against the zone at
    serial 20 is answered with TC set and the stream marked done, but
    nothing of the stream has been written: the answer count is 0, not 1,
    and the packet ends behind the question. *)
Lemma udp_reply_without_opening_soa :
  exists q',
    query_ixfr plain_skip_dname plain_skip_rr plain_encode_rr axfr_stub
      (toy_db 20 [long_soa_segment]) 65535 (toy_query false 512 10)
    = Some (QUERY_IN_IXFR, q') /\
    tcp q' = false /\
    TC (hdr (packet q')) = true /\
    ixfr_is_done q' = true /\
    ANCOUNT (hdr (packet q')) = 0 /\
    position (packet q') = 17 /\
    ixfr_count_newsoa q' = 0 /\
    ixfr_count_add q' = 0 /\ add_len long_soa_segment = 45.
Proof.
  eexists. split; [vm_compute; reflexivity|]. repeat split.
Qed.

(** *** The up-to-date reply *)

Lemma packet_first_flags (q : query) :
  packet (if tsig_sign_it (clamp_maxlen q)
          then set_tsig_flags (clamp_maxlen q) true true false
          else set_tsig_flags (clamp_maxlen q) false true
                 (tsig_sign_it (clamp_maxlen q))) = packet q /\
  qname (if tsig_sign_it (clamp_maxlen q)
         then set_tsig_flags (clamp_maxlen q) true true false
         else set_tsig_flags (clamp_maxlen q) false true
                (tsig_sign_it (clamp_maxlen q))) = qname q /\
  q_ixfr_data (if tsig_sign_it (clamp_maxlen q)
               then set_tsig_flags (clamp_maxlen q) true true false
               else set_tsig_flags (clamp_maxlen q) false true
                      (tsig_sign_it (clamp_maxlen q))) = q_ixfr_data q.
Proof.
  unfold clamp_maxlen.
  destruct (IXFR_MAX_MESSAGE_LEN <? maxlen q);
    match goal with
    | |- context [if tsig_sign_it ?x then _ else _] =>
        destruct (tsig_sign_it x)
    end; repeat split.
Qed.

(** C1, as the code has it.  For an IXFR query with serial q against a zone
    whose current serial is c: if q is equal to or newer than c under
    RFC 1982 comparison ([compare_serial q c >= 0]), the zone has exactly
    one SOA record and that record is encoded into the packet, then
    query_ixfr answers with that single SOA record, which carries c, with
    answer count 1 and the AA flag set, reports QUERY_PROCESSED and sets up
    no stream: no difference segment is sent. *)
Theorem up_to_date_reply
  (packet_skip_dname : buffer -> option N)
  (packet_skip_rr : buffer -> bool -> option N)
  (packet_encode_rr : query -> option dname -> rr -> N -> option buffer)
  (query_axfr : namedb -> query -> query_state_type * query)
  (db : namedb) (capacity : N) (q : query) (qserial snip_pos : N)
  (z : zone) (soa : rr) (p : buffer) :
  ixfr_is_done q = false ->
  q_ixfr_data q = None ->
  parse_qserial packet_skip_dname packet_skip_rr (packet q) QHEADERSZ
  = (Some qserial, snip_pos) ->
  namedb_find_zone db (qname q) = Some z ->
  (compare_serial qserial (zone_get_current_serial (Some z)) >= 0)%Z ->
  soa_rrset z = Some [soa] ->
  packet_encode_rr (first_packet_query q snip_pos) (apex z) soa (rr_ttl soa)
  = Some p ->
  exists q',
    query_ixfr packet_skip_dname packet_skip_rr packet_encode_rr query_axfr
      db capacity q = Some (QUERY_PROCESSED, q') /\
    packet q' = AA_SET (ANCOUNT_SET p 1) /\
    ANCOUNT (hdr (packet q')) = 1 /\
    AA (hdr (packet q')) = true /\
    soa_rr_get_serial soa = zone_get_current_serial (Some z) /\
    q_ixfr_data q' = None /\
    ixfr_count_del q' = ixfr_count_del q /\
    ixfr_count_add q' = ixfr_count_add q.
Proof.
  intros Hdone Hdata Hparse Hzone Hcmp Hsoa Henc.
  unfold query_ixfr. rewrite Hdone.
  destruct (packet_first_flags q) as [Hpk [Hqn Hqd]].
  rewrite Hqd, Hdata, Hpk, Hparse. cbn [packet set_packet qname].
  rewrite Hqn, Hzone.
  apply Z.ge_le in Hcmp. apply Z.geb_le in Hcmp. rewrite Hcmp.
  rewrite Hsoa.
  unfold first_packet_query in Henc. rewrite Hpk in Henc. rewrite Henc.
  eexists. split; [reflexivity|]. cbn [packet set_packet].
  split; [reflexivity|]. split; [reflexivity|]. split; [reflexivity|].
  split.
  - unfold zone_get_current_serial, soa_rr_get_serial. now rewrite Hsoa.
  - unfold clamp_maxlen.
    destruct (IXFR_MAX_MESSAGE_LEN <? maxlen q);
      match goal with
      | |- context [if tsig_sign_it ?x then _ else _] =>
          destruct (tsig_sign_it x)
      end; simpl; auto.
Qed.

(** The client asks with serial 20, and with serial 30, of the zone at
    serial 20. *)
Lemma up_to_date_reply_witness :
  (exists q',
      query_ixfr plain_skip_dname plain_skip_rr plain_encode_rr axfr_stub
        (toy_db 20 [toy_segment x0a x14]) 65535 (toy_query true 65535 20)
      = Some (QUERY_PROCESSED, q') /\
      ANCOUNT (hdr (packet q')) = 1 /\ AA (hdr (packet q')) = true /\
      q_ixfr_data q' = None) /\
  (exists q',
      query_ixfr plain_skip_dname plain_skip_rr plain_encode_rr axfr_stub
        (toy_db 20 [toy_segment x0a x14]) 65535 (toy_query true 65535 30)
      = Some (QUERY_PROCESSED, q') /\
      ANCOUNT (hdr (packet q')) = 1 /\ AA (hdr (packet q')) = true /\
      q_ixfr_data q' = None).
Proof.
  split.
  - edestruct (up_to_date_reply plain_skip_dname plain_skip_rr
                 plain_encode_rr axfr_stub (toy_db 20 [toy_segment x0a x14])
                 65535 (toy_query true 65535 20))
      as [q' [E [_ [Han [Haa [_ [Hnone _]]]]]]];
      [reflexivity|reflexivity|vm_compute; reflexivity|reflexivity
      |vm_compute; discriminate|reflexivity|vm_compute; reflexivity|].
    exists q'. auto.
  - edestruct (up_to_date_reply plain_skip_dname plain_skip_rr
                 plain_encode_rr axfr_stub (toy_db 20 [toy_segment x0a x14])
                 65535 (toy_query true 65535 30))
      as [q' [E [_ [Han [Haa [_ [Hnone _]]]]]]];
      [reflexivity|reflexivity|vm_compute; reflexivity|reflexivity
      |vm_compute; discriminate|reflexivity|vm_compute; reflexivity|].
    exists q'. auto.
Defined.

(** C1 as stated fails: the zone is at serial 20, the client asks with
    serial 10, so the zone's serial is newer than the query's; the reply
    is not a single SOA but the stream of the segment 10 -> 20, six
    records in the answer section. *)
Lemma newer_zone_serial_streams_differences :
  compare_serial 20 10 = 1%Z /\
  exists q',
    query_ixfr plain_skip_dname plain_skip_rr plain_encode_rr axfr_stub
      (toy_db 20 [toy_segment x0a x14]) 65535 (toy_query true 65535 10)
    = Some (QUERY_IN_IXFR, q') /\
    ANCOUNT (hdr (packet q')) = 6 /\
    answer_section 17 (packet q')
    = buf_bytes (newsoa (toy_segment x0a x14))
      ++ buf_bytes (oldsoa (toy_segment x0a x14))
      ++ buf_bytes (del (toy_segment x0a x14))
      ++ buf_bytes (add (toy_segment x0a x14)).
Proof.
  split; [reflexivity|].
  eexists. split; [vm_compute; reflexivity|].
  split; [reflexivity|]. vm_compute. reflexivity.
Qed.

(** *** The size discipline of a packet *)

Lemma clamp_maxlen_min (q : query) :
  maxlen (clamp_maxlen q) = N.min (maxlen q) IXFR_MAX_MESSAGE_LEN.
Proof.
  unfold clamp_maxlen. if_ltb; simpl; lia.
Qed.







(** *** The stream across segments and packets *)















Lemma packet_flags_cursor (q : query) :
  let q' := if tsig_sign_it (clamp_maxlen q)
            then set_tsig_flags (clamp_maxlen q) true true false
            else set_tsig_flags (clamp_maxlen q) false true
                   (tsig_sign_it (clamp_maxlen q)) in
  maxlen q' = N.min (maxlen q) IXFR_MAX_MESSAGE_LEN /\
  tcp q' = tcp q /\
  ixfr_is_done q' = ixfr_is_done q /\
  q_ixfr_end_data q' = q_ixfr_end_data q /\
  ixfr_count_newsoa q' = ixfr_count_newsoa q /\
  ixfr_count_oldsoa q' = ixfr_count_oldsoa q /\
  ixfr_count_del q' = ixfr_count_del q /\
  ixfr_count_add q' = ixfr_count_add q.
Proof.
  cbv zeta. split.
  - rewrite <- clamp_maxlen_min. now destruct (tsig_sign_it (clamp_maxlen q)).
  - unfold clamp_maxlen.
    destruct (IXFR_MAX_MESSAGE_LEN <? maxlen q);
      match goal with
      | |- context [if tsig_sign_it ?x then _ else _] =>
          destruct (tsig_sign_it x)
      end; repeat split.
Qed.


Section TcpStream.
Variable packet_skip_dname : buffer -> option N.
Variable packet_skip_rr : buffer -> bool -> option N.
Variable packet_encode_rr : query -> option dname -> rr -> N -> option buffer.
Variable query_axfr : namedb -> query -> query_state_type * query.
Variable db : namedb.
Variable capacity : N.







End TcpStream.

(** With sealed runs (ixfr_store_finish closes both runs of a segment with
    its new SOA) the stream reads: the new SOA of the final segment, the
    old SOA of the first segment, and for each segment its deleted records,
    its new SOA, its added records and its new SOA again. *)
Lemma chain_stream_sealed (deleted added : ixfr_data -> list byte)
  (s : ixfr_data) (succs : list ixfr_data) :
  Forall (fun d => buf_bytes (del d) = deleted d ++ buf_bytes (newsoa d) /\
                   buf_bytes (add d) = added d ++ buf_bytes (newsoa d))
    (s :: succs) ->
  chain_stream s succs
  = buf_bytes (newsoa (last succs s)) ++ buf_bytes (oldsoa s)
    ++ flat_map (fun d => deleted d ++ buf_bytes (newsoa d)
                          ++ added d ++ buf_bytes (newsoa d)) (s :: succs).
Proof.
  intros H. unfold chain_stream. do 2 f_equal.
  induction H as [|d l [Hd Ha] _ IH]; [reflexivity|].
  simpl. rewrite IH, Hd, Ha. now rewrite <- !app_assoc.
Qed.





(** * Further properties *)

(** ** The walker stays inside the buffer *)

(** X1.  For every buffer, length and offset, count_rr_length comes to an
    end (the name loop needs no more iterations than the buffer has
    octets), and what it reports is either 0 or a record of at least 11
    octets (the root label and the 10 fixed octets) that ends inside the
    first [data_len] octets. *)
Theorem count_rr_length_in_bounds (data : list byte) (data_len current : N) :
  exists n,
    count_rr_length data data_len current = Some n /\
    (n = 0 \/ (11 <= n /\ current + n <= data_len)).
Proof.
  unfold count_rr_length.
  destruct (data_len <=? current); [exists 0; auto|].
  destruct (pass_owner_dname _ data data_len current) eqn:E.
  - exfalso. revert E. apply pass_owner_dname_fuel. lia.
  - exists 0. auto.
  - apply pass_owner_dname_ge in E.
    destruct (data_len <? i + 10); [exists 0; auto|].
    cbv zeta. destruct (data_len <? _) eqn:E2; [exists 0; auto|].
    eexists. split; [reflexivity|]. right.
    apply N.ltb_ge in E2. lia.
Qed.

(** ** Connected segments *)

Lemma connect_ixfrs_from_spec (succs : list ixfr_data) :
  forall p e,
    (serials_connect (p :: succs) /\
     connect_ixfrs_from p succs e = (true, newserial (last succs p))) \/
    (~ serials_connect (p :: succs) /\
     connect_ixfrs_from p succs e = (false, e)).
Proof.
  induction succs as [|n rest IH]; intros p e.
  - left. split; [|reflexivity].
    intros l1 a b l2 H. destruct l1 as [|x [|y l1]]; discriminate.
  - simpl connect_ixfrs_from.
    destruct (newserial p =? oldserial n) eqn:E; simpl negb; cbv iota.
    + apply N.eqb_eq in E.
      destruct (IH n e) as [[Hc Hr]|[Hc Hr]].
      * left. split.
        -- intros l1 a b l2 H. destruct l1 as [|x l1].
           ++ injection H as <- <- _. exact E.
           ++ injection H as _ H. apply (Hc l1 a b l2 H).
        -- rewrite Hr. now rewrite last_cons_cons.
      * right. split; [|exact Hr].
        intros H. apply Hc. intros l1 a b l2 Hl.
        apply (H (p :: l1) a b l2). now rewrite Hl.
    + apply N.eqb_neq in E. right. split; [|reflexivity].
      intros H. apply E. apply (H [] p n rest eq_refl).
Qed.

(** X2.  connect_ixfrs answers true exactly when every segment from the
    given one to the end of the tree hands over to its successor (new
    serial = old serial of the next); it then reports the new serial of the
    last segment, and otherwise leaves [*end_serial] as it was. *)
Theorem connect_ixfrs_connected (d : ixfr_data) (succs : list ixfr_data)
  (end_serial : N) :
  (fst (connect_ixfrs (d, succs) end_serial) = true
   <-> serials_connect (d :: succs)) /\
  (serials_connect (d :: succs) ->
   snd (connect_ixfrs (d, succs) end_serial) = newserial (last succs d)) /\
  (~ serials_connect (d :: succs) ->
   snd (connect_ixfrs (d, succs) end_serial) = end_serial).
Proof.
  unfold connect_ixfrs. simpl fst. simpl snd.
  destruct (connect_ixfrs_from_spec succs d end_serial) as [[Hc Hr]|[Hc Hr]];
    rewrite Hr; simpl.
  - split; [tauto|]. split; [reflexivity|tauto].
  - split; [split; [discriminate|tauto]|]. split; [tauto|reflexivity].
Qed.

(** ** Growing a run *)

(** X3.  ixfr_rrs_make_space, as long as the size_t sum does not wrap:
    the octets of the run are kept, afterwards there is room for [added]
    more octets, a run that had the room keeps its capacity, a first
    allocation has at least IXFR_STORE_INITIAL_SIZE octets, and a run that
    has to grow at least doubles its capacity. *)
Theorem ixfr_rrs_make_space_grows (rrs : option (list byte))
  (capacity added : N) :
  buf_len rrs + added < SIZE_MOD ->
  capacity * 2 < SIZE_MOD ->
  fst (ixfr_rrs_make_space rrs capacity added) = Some (buf_bytes rrs) /\
  buf_len rrs + added <= snd (ixfr_rrs_make_space rrs capacity added) /\
  (rrs <> None -> buf_len rrs + added <= capacity ->
   ixfr_rrs_make_space rrs capacity added = (rrs, capacity)) /\
  (rrs = None ->
   IXFR_STORE_INITIAL_SIZE <= snd (ixfr_rrs_make_space rrs capacity added)) /\
  (rrs <> None -> capacity < buf_len rrs + added ->
   capacity * 2 <= snd (ixfr_rrs_make_space rrs capacity added)).
Proof.
  intros Hsum Hcap. unfold ixfr_rrs_make_space, size_add.
  rewrite (N.mod_small _ _ Hsum), (N.mod_small _ _ Hcap).
  destruct rrs as [l|]; simpl buf_len in *; simpl buf_bytes.
  - destruct (blen l + added <=? capacity) eqn:E;
      [apply N.leb_le in E|apply N.leb_gt in E]; cbn [fst snd].
    + repeat split; intros; try reflexivity; try lia; try discriminate.
    + destruct (capacity * 2 <? blen l + added) eqn:E2;
        [apply N.ltb_lt in E2|apply N.ltb_ge in E2]; cbn [fst snd].
      all: repeat split; intros; try reflexivity; try lia; try discriminate.
  - destruct (IXFR_STORE_INITIAL_SIZE <? 0 + added) eqn:E2;
      [apply N.ltb_lt in E2|apply N.ltb_ge in E2]; cbn [fst snd].
    all: repeat split; intros; try reflexivity; try lia; try congruence.
Qed.

(** A run of 10 octets with capacity 16 takes 6 more as it is; asked for 7
    it grows to 32. *)
Lemma ixfr_rrs_make_space_grows_witness :
  ixfr_rrs_make_space (Some (repeat x00 10)) 16 6
  = (Some (repeat x00 10), 16) /\
  16 * 2 <= snd (ixfr_rrs_make_space (Some (repeat x00 10)) 16 7).
Proof.
  destruct (ixfr_rrs_make_space_grows (Some (repeat x00 10)) 16 6)
    as [_ [_ [H1 _]]]; [vm_compute; reflexivity|vm_compute; reflexivity|].
  destruct (ixfr_rrs_make_space_grows (Some (repeat x00 10)) 16 7)
    as [_ [_ [_ [_ H2]]]]; [vm_compute; reflexivity|vm_compute; reflexivity|].
  split.
  - apply H1; [discriminate|vm_compute; discriminate].
  - apply H2; [discriminate|vm_compute; reflexivity].
Defined.

(** ** Records put into a run, and the walker *)

Lemma u8_byte_of_N (n : N) : u8 (byte_of_N n) = n mod 256.
Proof.
  unfold u8, byte_of_N.
  destruct (Byte.of_N (n mod 256)) as [b|] eqn:E.
  - now apply Byte.to_of_N.
  - apply Byte.of_N_None_iff in E.
    pose proof (N.mod_lt n 256 ltac:(discriminate)). lia.
Qed.

Lemma lor_shift_low (v : N) :
  N.lor (N.shiftl (N.shiftr v 8) 8) (v mod 256) = v.
Proof.
  apply N.bits_inj. intros k. rewrite N.lor_spec.
  change 256 with (2 ^ 8).
  destruct (N.lt_ge_cases k 8) as [Hk|Hk].
  - rewrite (N.shiftl_spec_low _ _ _ Hk), (N.mod_pow2_bits_low _ _ _ Hk).
    reflexivity.
  - rewrite (N.shiftl_spec_high' _ _ _ Hk), N.shiftr_spec',
      (N.mod_pow2_bits_high _ _ _ Hk), orb_false_r.
    f_equal. lia.
Qed.

Lemma read_write_uint16 (v : N) (rest : list byte) :
  v < UINT16_MOD -> read_uint16 (write_uint16 v ++ rest) 0 = v.
Proof.
  intros Hv. unfold read_uint16, write_uint16, byte_at.
  change (N.to_nat (0 + 1)) with 1%nat. change (N.to_nat 0) with 0%nat.
  cbn [app nth]. rewrite !u8_byte_of_N.
  rewrite (N.mod_small (N.shiftr v 8) 256).
  - apply lor_shift_low.
  - rewrite N.shiftr_div_pow2. unfold UINT16_MOD in Hv.
    apply N.Div0.div_lt_upper_bound. exact Hv.
Qed.

Lemma rdlen_uncompressed_sum (atoms : list rdata_atom) :
  forall acc,
    acc + blen (flat_map atom_wire atoms) < SIZE_MOD ->
    fold_left (fun acc a => size_add acc (blen (atom_wire a))) atoms acc
    = acc + blen (flat_map atom_wire atoms).
Proof.
  induction atoms as [|a atoms IH]; intros acc H;
    cbn [fold_left flat_map] in *.
  - rewrite blen_nil. lia.
  - rewrite blen_app in H |- *.
    unfold size_add at 2. rewrite N.mod_small by lia.
    rewrite IH by lia. lia.
Qed.

Lemma record_wire_length (r : rr) :
  blen (record_wire r)
  = blen (rr_owner r) + 10 + blen (flat_map atom_wire (rdatas r)).
Proof.
  unfold record_wire, write_uint16, write_uint32.
  rewrite !blen_app, !blen_cons, blen_nil. lia.
Qed.

(** What ixfr_putrr appends, for sizes that do not wrap. *)
Lemma ixfr_putrr_appends (r : rr) (rrs : option (list byte)) (capacity : N) :
  buf_len rrs + blen (record_wire r) < SIZE_MOD ->
  exists capacity',
    ixfr_putrr (rr_owner r) (rr_type r) (rr_klass r) (rr_ttl r) (rdatas r)
      rrs capacity
    = (true, Some (buf_bytes rrs ++ record_wire r), capacity') /\
    buf_len rrs + blen (record_wire r) <= capacity'.
Proof.
  intros Hsz. rewrite record_wire_length in Hsz.
  unfold ixfr_putrr.
  rewrite (rdlen_uncompressed_sum (rdatas r) 0) by lia.
  rewrite N.add_0_l.
  assert (Hsz' : size_add (size_add (blen (rr_owner r)) (2 + 2 + 4 + 2))
                   (blen (flat_map atom_wire (rdatas r)))
                 = blen (record_wire r)).
  { rewrite record_wire_length. unfold size_add.
    rewrite (N.mod_small (blen (rr_owner r) + _)) by lia.
    rewrite N.mod_small by lia. lia. }
  rewrite Hsz'.
  destruct (ixfr_rrs_make_space_ok rrs capacity (blen (record_wire r)))
    as [c [-> Hc]].
  assert (Hadd : size_add (buf_len rrs) (blen (record_wire r))
                 = buf_len rrs + blen (record_wire r)).
  { unfold size_add. apply N.mod_small. rewrite record_wire_length. lia. }
  rewrite Hadd in Hc |- *.
  destruct (c <? buf_len rrs + blen (record_wire r)) eqn:E;
    [apply N.ltb_lt in E; lia|].
  exists c. split; [reflexivity|exact Hc].
Qed.

Lemma record_wire_rr_wire (r : rr) :
  rr_storable r ->
  exists ls fixed hi lo,
    rr_wf ls fixed hi lo (flat_map atom_wire (rdatas r)) /\
    record_wire r = rr_wire ls fixed hi lo (flat_map atom_wire (rdatas r)).
Proof.
  intros [[ls [Hls Ho]] Hrd].
  exists ls,
    (write_uint16 (rr_type r) ++ write_uint16 (rr_klass r)
     ++ write_uint32 (rr_ttl r)),
    (byte_of_N (N.shiftr (blen (flat_map atom_wire (rdatas r))) 8)),
    (byte_of_N (blen (flat_map atom_wire (rdatas r)))).
  split.
  - split; [exact Hls|]. split; [reflexivity|].
    apply (read_write_uint16 _ [] Hrd).
  - unfold record_wire, rr_wire. rewrite Ho.
    rewrite <- !app_assoc. reflexivity.
Qed.

(** X4.  A record with an uncompressed owner name and an rdata length
    below 65536 that ixfr_putrr puts behind a run is read back by
    count_rr_length as one record of exactly the octets written, whatever
    follows it. *)
Theorem putrr_record_is_walked (r : rr) (rrs : option (list byte))
  (capacity : N) (post : list byte) :
  rr_storable r ->
  buf_len rrs + blen (record_wire r) < SIZE_MOD ->
  exists capacity',
    ixfr_putrr (rr_owner r) (rr_type r) (rr_klass r) (rr_ttl r) (rdatas r)
      rrs capacity
    = (true, Some (buf_bytes rrs ++ record_wire r), capacity') /\
    count_rr_length (buf_bytes rrs ++ record_wire r ++ post)
      (blen (buf_bytes rrs ++ record_wire r ++ post)) (buf_len rrs)
    = Some (blen (record_wire r)) /\
    slice (buf_bytes rrs ++ record_wire r ++ post) (buf_len rrs)
      (blen (record_wire r)) = record_wire r.
Proof.
  intros Hst Hsz.
  destruct (ixfr_putrr_appends r rrs capacity Hsz) as [c [E _]].
  exists c. split; [exact E|].
  destruct (record_wire_rr_wire r Hst) as [ls [fixed [hi [lo [Hwf ->]]]]].
  rewrite buf_len_bytes. split.
  - apply count_rr_length_wf. exact Hwf.
  - unfold slice, blen. rewrite !Nat2N.id.
    rewrite skipn_app, skipn_all, Nat.sub_diag. simpl app. simpl skipn.
    rewrite firstn_app, firstn_all, Nat.sub_diag. simpl. apply app_nil_r.
Qed.

(** The record "a. A IN 3600 07" behind a run of three octets. *)
Lemma putrr_record_is_walked_witness :
  exists capacity',
    ixfr_putrr [x01; x61; x00] 1 1 3600 [AtomData [x07]]
      (Some [x01; x02; x03]) 0
    = (true,
       Some ([x01; x02; x03]
             ++ record_wire {| rr_owner := [x01; x61; x00]; rr_type := 1;
                               rr_klass := 1; rr_ttl := 3600;
                               rdatas := [AtomData [x07]] |}),
       capacity') /\
    count_rr_length
      ([x01; x02; x03]
       ++ record_wire {| rr_owner := [x01; x61; x00]; rr_type := 1;
                         rr_klass := 1; rr_ttl := 3600;
                         rdatas := [AtomData [x07]] |} ++ [xff])
      18 3 = Some 14.
Proof.
  destruct (putrr_record_is_walked
              {| rr_owner := [x01; x61; x00]; rr_type := 1; rr_klass := 1;
                 rr_ttl := 3600; rdatas := [AtomData [x07]] |}
              (Some [x01; x02; x03]) 0 [xff]) as [c [E [Hw _]]].
  - split.
    + exists [(x01, [x61])]. split; [|reflexivity].
      constructor; [|constructor]. vm_compute. repeat split.
    + vm_compute. reflexivity.
  - vm_compute. reflexivity.
  - exists c. split; [exact E|exact Hw].
Defined.

(** ** Segments read from a file *)

Lemma read_putrr_bytes (r : rr) (rrs rrs' : option (list byte))
  (capacity capacity' : N) :
  rr_storable r ->
  read_putrr r rrs capacity = (true, rrs', capacity') ->
  rrs' = Some (buf_bytes rrs ++ record_wire r).
Proof.
  intros [_ Hrd]. unfold read_putrr, ixfr_putrr.
  rewrite (rdlen_uncompressed_sum (rdatas r) 0)
    by (unfold UINT16_MOD, SIZE_MOD in *; lia).
  rewrite N.add_0_l.
  match goal with
  | |- context [ixfr_rrs_make_space rrs capacity ?sz] =>
      destruct (ixfr_rrs_make_space_ok rrs capacity sz) as [c [-> _]]
  end.
  destruct (c <? _); [discriminate|].
  intros [= <- _]. unfold record_wire. reflexivity.
Qed.

Lemma ixfr_trim_capacity_bytes (rrs : option (list byte)) (capacity : N) :
  buf_bytes (fst (ixfr_trim_capacity rrs capacity)) = buf_bytes rrs.
Proof.
  unfold ixfr_trim_capacity. destruct rrs as [l|]; [|reflexivity].
  destruct (capacity =? _); reflexivity.
Qed.

(** The records a section of the file holds: the records of the file up
    to and with the first SOA that carries the new serial. *)
Lemma read_section_records (parse : list byte -> option rr) (new_serial : N) :
  (forall line r, parse line = Some r -> rr_storable r) ->
  forall lines rrs capacity run capacity' rest,
    read_section parse lines new_serial rrs capacity
    = Some (run, capacity', rest) ->
    exists rs l,
      run = Some (buf_bytes rrs ++ concat (map record_wire (rs ++ [l]))) /\
      rr_type l = TYPE_SOA /\ soa_rr_get_serial l = new_serial /\
      Forall rr_storable (rs ++ [l]) /\
      file_records parse lines = rs ++ l :: file_records parse rest /\
      Forall (fun r => closes_section new_serial r = false) rs /\
      closes_section new_serial l = true.
Proof.
  intros Hparse. induction lines as [|line lines IH];
    intros rrs capacity run capacity' rest H; simpl in H; [discriminate|].
  cbn [file_records].
  destruct (read_line parse line) as [| |r] eqn:Eline.
  - apply (IH _ _ _ _ _ H).
  - discriminate.
  - assert (Ep : parse line = Some r).
    { unfold read_line in Eline.
      destruct (skipwhite line) as [|c tl]; [discriminate|].
      destruct (u8 c =? 0); [discriminate|].
      destruct (u8 c =? 59); [discriminate|].
      destruct (parse line); [now injection Eline as ->|discriminate]. }
    pose proof (Hparse _ _ Ep) as Hst.
    destruct (read_putrr r rrs capacity) as [[[|] rrs1] c1] eqn:Hput;
      simpl in H; [|discriminate].
    pose proof (read_putrr_bytes r rrs rrs1 capacity c1 Hst Hput) as ->.
    fold (closes_section new_serial r) in H.
    destruct (closes_section new_serial r) eqn:Eend.
    + injection H as <- _ <-.
      pose proof Eend as Eend'. unfold closes_section in Eend'.
      apply andb_prop in Eend'. destruct Eend' as [Et Es].
      apply N.eqb_eq in Et, Es.
      exists [], r. simpl. rewrite app_nil_r.
      repeat split; auto.
    + destruct (IH _ _ _ _ _ H)
        as [rs [l [-> [Ht [Hs [Hall [Hfile [Hrs Hl]]]]]]]].
      exists (r :: rs), l. simpl buf_bytes. simpl.
      rewrite <- app_assoc, Hfile. repeat split; auto.
Qed.

Lemma ixfr_data_readrr_records (parse : list byte -> option rr)
  (lines rest : ixfr_file) (r : rr) :
  ixfr_data_readrr parse lines = Some (r, rest) ->
  file_records parse lines = r :: file_records parse rest.
Proof.
  induction lines as [|line lines IH]; simpl; [discriminate|].
  destruct (read_line parse line) as [| |r']; [exact IH|discriminate|].
  now intros [= <- <-].
Qed.

Lemma ixfr_data_readrr_parsed (parse : list byte -> option rr)
  (lines rest : ixfr_file) (r : rr) :
  ixfr_data_readrr parse lines = Some (r, rest) ->
  exists line, parse line = Some r.
Proof.
  induction lines as [|line lines IH]; simpl; [discriminate|].
  unfold read_line.
  destruct (skipwhite line) as [|c tl]; [exact IH|].
  destruct (u8 c =? 0); [exact IH|].
  destruct (u8 c =? 59); [exact IH|].
  destruct (parse line) as [r'|] eqn:E; [|discriminate].
  intros [= <- _]. now exists line.
Qed.

(** What ixfr_data_parse makes of a file: the four parts of the segment
    are the records of the file in wire form, the new serial is the wanted
    one and the old serial is the one wanted next. *)
Lemma ixfr_data_parse_spec (parse : list byte -> option rr) (z : zone)
  (lines : ixfr_file) (s s' : N) (num : Z) (d : ixfr_data) :
  (forall line r, parse line = Some r -> rr_storable r) ->
  ixfr_data_parse parse z lines s num = (Some d, s') ->
  exists (n o : rr) (dr ar : list rr) (dl al : rr),
    newserial d = s /\ s' = oldserial d /\ file_num d = num /\
    log_str d = None /\
    soa_line_ok z n = true /\ soa_rr_get_serial n = newserial d /\
    soa_line_ok z o = true /\ soa_rr_get_serial o = oldserial d /\
    buf_bytes (newsoa d) = record_wire n /\
    buf_bytes (oldsoa d) = record_wire o /\
    buf_bytes (del d) = concat (map record_wire (dr ++ [dl])) /\
    buf_bytes (add d) = concat (map record_wire (ar ++ [al])) /\
    rr_type dl = TYPE_SOA /\ soa_rr_get_serial dl = newserial d /\
    rr_type al = TYPE_SOA /\ soa_rr_get_serial al = newserial d /\
    Forall rr_storable (n :: o :: (dr ++ [dl]) ++ (ar ++ [al])) /\
    (exists more,
        file_records parse lines
        = n :: o :: dr ++ dl :: ar ++ al :: more) /\
    Forall (fun r => closes_section (newserial d) r = false) dr /\
    closes_section (newserial d) dl = true /\
    Forall (fun r => closes_section (newserial d) r = false) ar /\
    closes_section (newserial d) al = true.
Proof.
  intros Hparse. unfold ixfr_data_parse.
  (* the new SOA *)
  unfold ixfr_data_readnewsoa.
  destruct (ixfr_data_readrr parse lines) as [[n l1]|] eqn:En;
    [|discriminate].
  destruct (ixfr_data_readrr_parsed _ _ _ _ En) as [ln Hn].
  pose proof (Hparse _ _ Hn) as Hsn.
  destruct (soa_line_ok z n) eqn:Hokn; simpl negb; cbv iota; [|discriminate].
  cbn [newserial set_serials oldserial newsoa].
  destruct (soa_rr_get_serial n =? s) eqn:Es; simpl negb; cbv iota;
    [|discriminate].
  apply N.eqb_eq in Es.
  destruct (read_putrr n None 0) as [[[|] x1] c1] eqn:Hp1;
    simpl negb; cbv iota; [|discriminate].
  pose proof (read_putrr_bytes _ _ _ _ _ Hsn Hp1) as ->.
  pose proof (ixfr_trim_capacity_bytes
                (Some (buf_bytes None ++ record_wire n)) c1) as Ht1.
  destruct (ixfr_trim_capacity (Some (buf_bytes None ++ record_wire n)) c1)
    as [t1 tc1]. simpl fst in Ht1. simpl buf_bytes in Ht1.
  (* the old SOA *)
  unfold ixfr_data_readoldsoa.
  destruct (ixfr_data_readrr parse l1) as [[o l2]|] eqn:Eo; [|discriminate].
  destruct (ixfr_data_readrr_parsed _ _ _ _ Eo) as [lo Ho].
  pose proof (Hparse _ _ Ho) as Hso.
  destruct (soa_line_ok z o) eqn:Hoko; simpl negb; cbv iota; [|discriminate].
  cbn [newserial set_serials oldserial newsoa oldsoa set_newsoa].
  destruct (read_putrr o None 0) as [[[|] x2] c2] eqn:Hp2;
    simpl negb; cbv iota; [|discriminate].
  pose proof (read_putrr_bytes _ _ _ _ _ Hso Hp2) as ->.
  pose proof (ixfr_trim_capacity_bytes
                (Some (buf_bytes None ++ record_wire o)) c2) as Ht2.
  destruct (ixfr_trim_capacity (Some (buf_bytes None ++ record_wire o)) c2)
    as [t2 tc2]. simpl fst in Ht2. simpl buf_bytes in Ht2.
  (* the deleted run *)
  unfold ixfr_data_readrun at 1.
  cbn [newserial set_serials oldserial set_oldsoa set_newsoa run_rrs del].
  destruct (read_section parse l2 (soa_rr_get_serial n) None 0)
    as [[[x3 c3] l3]|] eqn:E3; [|discriminate].
  destruct (read_section_records parse _ Hparse _ _ _ _ _ _ E3)
    as [dr [dl [-> [Hdt [Hds [Hdall [Hdfile [Hdr Hdl]]]]]]]].
  pose proof (ixfr_trim_capacity_bytes
                (Some (buf_bytes None
                       ++ concat (map record_wire (dr ++ [dl])))) c3) as Ht3.
  destruct (ixfr_trim_capacity
              (Some (buf_bytes None
                     ++ concat (map record_wire (dr ++ [dl])))) c3)
    as [t3 tc3]. simpl fst in Ht3. simpl buf_bytes in Ht3.
  (* the added run *)
  unfold ixfr_data_readrun.
  cbn [newserial set_serials oldserial set_oldsoa set_newsoa run_rrs
       set_run_rrs add].
  destruct (read_section parse l3 (soa_rr_get_serial n) None 0)
    as [[[x4 c4] l4]|] eqn:E4; [|discriminate].
  destruct (read_section_records parse _ Hparse _ _ _ _ _ _ E4)
    as [ar [al [-> [Hat [Has [Haall [Hafile [Har Hal]]]]]]]].
  pose proof (ixfr_trim_capacity_bytes
                (Some (buf_bytes None
                       ++ concat (map record_wire (ar ++ [al])))) c4) as Ht4.
  destruct (ixfr_trim_capacity
              (Some (buf_bytes None
                     ++ concat (map record_wire (ar ++ [al])))) c4)
    as [t4 tc4]. simpl fst in Ht4. simpl buf_bytes in Ht4.
  intros [= <- <-].
  exists n, o, dr, ar, dl, al. cbn.
  repeat match goal with |- _ /\ _ => split end;
    try reflexivity; try assumption; try congruence.
  - constructor; [exact Hsn|]. constructor; [exact Hso|].
    apply Forall_app. split; assumption.
  - exists (file_records parse l4).
    rewrite (ixfr_data_readrr_records _ _ _ _ En),
      (ixfr_data_readrr_records _ _ _ _ Eo), Hdfile, Hafile.
    reflexivity.
Qed.

Lemma slice_middle (pre r post : list byte) :
  slice (pre ++ r ++ post) (blen pre) (blen r) = r.
Proof.
  unfold slice, blen. rewrite !Nat2N.id.
  rewrite skipn_app, skipn_all, Nat.sub_diag. simpl app. simpl skipn.
  rewrite firstn_app, firstn_all, Nat.sub_diag. simpl. apply app_nil_r.
Qed.

(** A run that is a row of storable records is cut by the walker into
    exactly these records. *)
Lemma walks_storable_records (rs : list rr) :
  Forall rr_storable rs ->
  forall pre,
    walks (pre ++ concat (map record_wire rs)) (blen pre)
      (map record_wire rs).
Proof.
  induction 1 as [|r rs Hr _ IH]; intros pre.
  - simpl. rewrite app_nil_r. apply N.le_refl.
  - cbn [map concat walks].
    destruct (record_wire_rr_wire r Hr) as [ls [fixed [hi [lo [Hwf E]]]]].
    pose proof (record_wire_length r) as Hlen.
    split; [rewrite !blen_app; lia|].
    split; [rewrite E; apply count_rr_length_wf; exact Hwf|].
    split; [lia|].
    split; [apply slice_middle|].
    rewrite app_assoc, <- blen_app. apply IH.
Qed.

(** X5.  A segment that ixfr_data_parse has read from a file, with a zone
    parser that hands out records with uncompressed owner names and rdata
    below 65536 octets.  The records of the file, in the order of its
    lines, are [n], [o], then [dr] and [dl], then [ar] and [al], then what
    is not read: [dl] is the first record behind [o] that is an SOA with
    the segment's new serial, [al] the next such record behind [dl].  The
    new-SOA buffer holds [n] and the old-SOA buffer [o], each as one record
    for the walker, and the walker cuts the deleted run exactly into
    [dr ++ [dl]] and the added run exactly into [ar ++ [al]], all in
    uncompressed wire form. *)
Theorem read_segment_is_streamable (zonec_parse_string : list byte -> option rr)
  (z : zone) (lines : ixfr_file) (dest_serial s' : N) (num : Z)
  (d : ixfr_data) :
  (forall line r, zonec_parse_string line = Some r -> rr_storable r) ->
  ixfr_data_parse zonec_parse_string z lines dest_serial num = (Some d, s') ->
  exists (n o : rr) (dr ar : list rr) (dl al : rr) (more : list rr),
    file_records zonec_parse_string lines
    = n :: o :: dr ++ dl :: ar ++ al :: more /\
    Forall (fun r => closes_section (newserial d) r = false) dr /\
    closes_section (newserial d) dl = true /\
    Forall (fun r => closes_section (newserial d) r = false) ar /\
    closes_section (newserial d) al = true /\
    buf_bytes (newsoa d) = record_wire n /\
    buf_bytes (oldsoa d) = record_wire o /\
    segment_rrs d (map record_wire (dr ++ [dl]),
                   map record_wire (ar ++ [al])) /\
    count_rr_length (buf_bytes (newsoa d)) (newsoa_len d) 0
    = Some (newsoa_len d) /\
    count_rr_length (buf_bytes (oldsoa d)) (oldsoa_len d) 0
    = Some (oldsoa_len d).
Proof.
  intros Hparse H.
  destruct (ixfr_data_parse_spec _ _ _ _ _ _ _ Hparse H)
    as [n [o [dr [ar [dl [al
         [_ [_ [_ [_ [_ [_ [_ [_ [Hn [Ho [Hd [Ha
           [_ [_ [_ [_ [Hall [[more Hfile]
             [Hdr [Hdl [Har Hal]]]]]]]]]]]]]]]]]]]]]]]]]]].
  inversion Hall as [|? ? Hsn Hall1]; subst.
  inversion Hall1 as [|? ? Hso Hall2]; subst.
  apply Forall_app in Hall2. destruct Hall2 as [Hdall Haall].
  exists n, o, dr, ar, dl, al, more.
  split; [exact Hfile|]. split; [exact Hdr|]. split; [exact Hdl|].
  split; [exact Har|]. split; [exact Hal|].
  split; [exact Hn|]. split; [exact Ho|]. split.
  - unfold segment_rrs. cbn [fst snd]. rewrite Hd, Ha.
    split; [apply (walks_storable_records _ Hdall [])|].
    split; [apply (walks_storable_records _ Haall [])|].
    rewrite map_app. intros E. apply app_eq_nil in E.
    destruct E as [_ E]. discriminate.
  - unfold newsoa_len, oldsoa_len. rewrite !buf_len_bytes, Hn, Ho.
    destruct (record_wire_rr_wire n Hsn) as [ls [fx [hi [lo [Hwf E]]]]].
    destruct (record_wire_rr_wire o Hso) as [ls' [fx' [hi' [lo' [Hwf' E']]]]].
    rewrite E, E'. split.
    + pose proof (count_rr_length_wf [] [] ls fx hi lo _ Hwf) as Hc.
      cbv zeta in Hc. simpl app in Hc. rewrite app_nil_r in Hc. exact Hc.
    + pose proof (count_rr_length_wf [] [] ls' fx' hi' lo' _ Hwf') as Hc.
      cbv zeta in Hc. simpl app in Hc. rewrite app_nil_r in Hc. exact Hc.
Qed.

Lemma toy_parse_storable (line : list byte) (r : rr) :
  toy_parse line = Some r -> rr_storable r.
Proof.
  unfold toy_parse.
  destruct line as [|tag [|n [|x l]]]; try discriminate.
  destruct (u8 tag =? 83).
  - intros [= <-]. split.
    + exists []. split; [constructor|reflexivity].
    + vm_compute. reflexivity.
  - destruct (u8 tag =? 65); [|discriminate].
    intros [= <-]. split.
    + exists []. split; [constructor|reflexivity].
    + vm_compute. reflexivity.
Defined.

(** The segment 10 -> 20 read from its file: the file holds the two SOA
    records, one deleted and one added record, each followed by the SOA of
    serial 20, and nothing more. *)
Lemma read_segment_is_streamable_witness :
  file_records toy_parse (toy_file x0a x14)
  = [toy_soa 20; toy_soa 10; toy_rr x01; toy_soa 20; toy_rr x02; toy_soa 20] /\
  exists (n o : rr) (dr ar : list rr) (dl al : rr) (more : list rr),
    file_records toy_parse (toy_file x0a x14)
    = n :: o :: dr ++ dl :: ar ++ al :: more /\
    segment_rrs (toy_segment x0a x14)
      (map record_wire (dr ++ [dl]), map record_wire (ar ++ [al])).
Proof.
  split; [vm_compute; reflexivity|].
  destruct (read_segment_is_streamable toy_parse (toy_zone 0 0 0)
              (toy_file x0a x14) 20 10 0 (toy_segment x0a x14)
              toy_parse_storable)
    as [n [o [dr [ar [dl [al [more [H1 [_ [_ [_ [_ [_ [_ [H2 _]]]]]]]]]]]]]]].
  - vm_compute. reflexivity.
  - exists n, o, dr, ar, dl, al, more. split; [exact H1|exact H2].
Defined.

(** ** The serials of the files read at startup *)

Lemma ixfr_data_parse_serials (parse : list byte -> option rr) (z : zone)
  (lines : ixfr_file) (s s' : N) (num : Z) (d : ixfr_data) :
  ixfr_data_parse parse z lines s num = (Some d, s') ->
  newserial d = s /\ s' = oldserial d /\ file_num d = num.
Proof.
  unfold ixfr_data_parse, ixfr_data_readnewsoa.
  destruct (ixfr_data_readrr parse lines) as [[n l1]|]; [|discriminate].
  destruct (soa_line_ok z n); simpl negb; cbv iota; [|discriminate].
  cbn [newserial set_serials oldserial newsoa].
  destruct (soa_rr_get_serial n =? s) eqn:Es; simpl negb; cbv iota;
    [|discriminate].
  apply N.eqb_eq in Es.
  destruct (read_putrr n None 0) as [[[|] x1] c1];
    simpl negb; cbv iota; [|discriminate].
  destruct (ixfr_trim_capacity x1 c1) as [t1 tc1].
  unfold ixfr_data_readoldsoa.
  destruct (ixfr_data_readrr parse l1) as [[o l2]|]; [|discriminate].
  destruct (soa_line_ok z o); simpl negb; cbv iota; [|discriminate].
  cbn [newserial set_serials oldserial newsoa oldsoa set_newsoa].
  destruct (read_putrr o None 0) as [[[|] x2] c2];
    simpl negb; cbv iota; [|discriminate].
  destruct (ixfr_trim_capacity x2 c2) as [t2 tc2].
  unfold ixfr_data_readrun.
  cbn [newserial set_serials oldserial set_oldsoa set_newsoa run_rrs del].
  destruct (read_section parse l2 (soa_rr_get_serial n) None 0)
    as [[[x3 c3] l3]|]; [|discriminate].
  destruct (ixfr_trim_capacity x3 c3) as [t3 tc3].
  cbn [newserial set_serials oldserial set_oldsoa set_newsoa run_rrs
       set_run_rrs add].
  destruct (read_section parse l3 (soa_rr_get_serial n) None 0)
    as [[[x4 c4] l4]|]; [|discriminate].
  destruct (ixfr_trim_capacity x4 c4) as [t4 tc4].
  intros [= <- <-]. cbn. auto.
Qed.

Lemma ixfr_data_read_step (sz : N) (parse : list byte -> option rr)
  (z z' : zone) (f : ixfr_file) (s s' : N) (num : Z) (ok : bool) :
  ixfr_data_read sz parse z f s num = (ok, z', s') ->
  soa_rrset z' = soa_rrset z /\ apex z' = apex z /\ opts z' = opts z /\
  if ok
  then exists d,
      ixfr_data_parse parse z f s num = (Some d, s') /\
      chain_data z' = rbtree_insert oldserial ixfrcompare d (chain_data z)
  else chain_data z' = chain_data z.
Proof.
  unfold ixfr_data_read.
  destruct (match ixfr z with
            | Some i => count i =? ixfr_number (opts z)
            | None => false
            end).
  { intros [= <- <- _]. auto. }
  destruct (apex z) as [a|] eqn:Ha.
  2: { intros [= <- <- _]. auto. }
  destruct (ixfr_data_parse parse z f s num) as [[d|] s1] eqn:Ep.
  2: { intros [= <- <- _]. auto. }
  cbn [opts set_zone_ixfr].
  destruct (negb (ixfr_size (opts z) =? 0) && _).
  - intros [= <- <- _]. cbn. repeat split; auto.
    unfold chain_data. cbn. destruct (ixfr z); reflexivity.
  - intros [= <- <- <-]. cbn. repeat split; auto.
    exists d. split; [reflexivity|].
    unfold chain_data. cbn. destruct (ixfr z); reflexivity.
Qed.

(** The loop over the files: the segments read, in the order of the files,
    lead up to the serial the loop started with. *)
Lemma ixfr_read_files_linked (sz : N) (parse : list byte -> option rr)
  (files : list ixfr_file) :
  forall z s n z' s' n',
    ixfr_read_files sz parse files z s n = (z', s', n') ->
    exists l,
      links_to s l /\
      chain_data z'
      = fold_left (fun t d => rbtree_insert oldserial ixfrcompare d t) l
          (chain_data z) /\
      n' = (n + Z.of_nat (length l))%Z /\
      (length l <= length files)%nat /\
      (forall k d, nth_error l k = Some d ->
                   file_num d = (n + Z.of_nat k + 1)%Z) /\
      soa_rrset z' = soa_rrset z.
Proof.
  induction files as [|f files IH]; intros z s n z' s' n' H; simpl in H.
  - injection H as <- <- <-. exists []. simpl.
    repeat split; auto; try lia.
    intros [|k] d; discriminate.
  - destruct (ixfr_data_read sz parse z f s (n + 1)) as [[ok z1] s1] eqn:E.
    destruct (ixfr_data_read_step _ _ _ _ _ _ _ _ _ E) as [Hsoa [_ [_ Hok]]].
    destruct ok.
    + destruct Hok as [d [Hp Hc]].
      destruct (ixfr_data_parse_serials _ _ _ _ _ _ _ Hp) as [Hn [Ho Hf]].
      destruct (IH _ _ _ _ _ _ H) as [l [Hl [Hch [Hn' [Hlen [Hnum Hs]]]]]].
      exists (d :: l). simpl.
      split; [split; [exact Hn|now rewrite <- Ho]|].
      split; [now rewrite Hch, Hc|].
      split; [lia|]. split; [lia|]. split; [|congruence].
      intros [|k] x Hx; simpl in Hx.
      * injection Hx as <-. lia.
      * rewrite (Hnum k x Hx). lia.
    + injection H as <- <- <-. exists []. simpl.
      repeat split; auto; try lia.
      intros [|k] d; discriminate.
Qed.

Lemma links_to_adjacent (a b : ixfr_data) (q : list ixfr_data) :
  forall p c, links_to c (p ++ b :: a :: q) -> newserial a = oldserial b.
Proof.
  induction p as [|x p IH]; intros c H.
  - destruct H as [_ [H _]]. exact H.
  - destruct H as [_ H]. now apply (IH (oldserial x)).
Qed.

Lemma links_to_rev_connect (c : N) (l : list ixfr_data) :
  links_to c l -> serials_connect (rev l).
Proof.
  intros H l1 a b l2 E.
  apply (f_equal (@rev _)) in E. rewrite rev_involutive in E.
  rewrite rev_app_distr in E. simpl in E. rewrite <- !app_assoc in E.
  simpl in E. rewrite E in H.
  now apply (links_to_adjacent a b (rev l1) (rev l2) c).
Qed.

Lemma serials_connect_suffix (pre rest : list ixfr_data) :
  serials_connect (pre ++ rest) -> serials_connect rest.
Proof.
  intros H l1 a b l2 E. apply (H (pre ++ l1) a b l2).
  now rewrite E, app_assoc.
Qed.

Lemma last_app_cons {A : Type} (pre : list A) (x d : A) (succs : list A) :
  last (pre ++ x :: succs) d = last succs x.
Proof.
  induction pre as [|y pre IH].
  - simpl app. apply last_cons_cons.
  - change ((y :: pre) ++ x :: succs) with (y :: (pre ++ x :: succs)).
    destruct (pre ++ x :: succs) as [|z l] eqn:E.
    + destruct pre; discriminate.
    + rewrite <- IH. rewrite <- E. simpl. rewrite E. reflexivity.
Qed.

Lemma rbtree_search_split {A : Type} (key : A -> N) (cmp : N -> N -> Z)
  (k : N) (t : list A) (y : A) (r : list A) :
  rbtree_search key cmp k t = Some (y, r) ->
  exists pre, t = pre ++ y :: r.
Proof.
  induction t as [|x t IH]; simpl; [discriminate|].
  destruct (cmp k (key x) =? 0)%Z.
  - intros [= <- <-]. now exists [].
  - intros H. destruct (IH H) as [pre ->]. now exists (x :: pre).
Qed.

(** Segments with falling old serials are inserted in front of one
    another. *)
Lemma fold_insert_decreasing (l : list ixfr_data) :
  forall t,
    StronglySorted (fun a b => oldserial b < oldserial a) l ->
    (forall d x, In d l -> In x t -> oldserial d < oldserial x) ->
    fold_left (fun t d => rbtree_insert oldserial ixfrcompare d t) l t
    = rev l ++ t.
Proof.
  induction l as [|d l IH]; intros t Hs Hlt; [reflexivity|].
  inversion Hs as [|? ? Hs' Hall]; subst.
  cbn [fold_left rev].
  assert (Hins : rbtree_insert oldserial ixfrcompare d t = d :: t).
  { destruct t as [|y t']; [reflexivity|]. simpl.
    rewrite ixfrcompare_eq, ixfrcompare_lt.
    assert (H : oldserial d < oldserial y)
      by (apply Hlt; now left).
    destruct (oldserial d =? oldserial y) eqn:E1;
      [apply N.eqb_eq in E1; lia|].
    destruct (oldserial d <? oldserial y) eqn:E2;
      [reflexivity|apply N.ltb_ge in E2; lia]. }
  rewrite Hins, IH.
  - now rewrite <- app_assoc.
  - exact Hs'.
  - intros e x He [<-|Hx].
    + rewrite Forall_forall in Hall. now apply Hall.
    + apply Hlt; [now right|exact Hx].
Qed.

Lemma ixfr_data_read_object (sz : N) (parse : list byte -> option rr)
  (z z' : zone) (f : ixfr_file) (s s' : N) (num : Z) (ok : bool) :
  ixfr_data_read sz parse z f s num = (ok, z', s') ->
  (ixfr z <> None -> ixfr z' <> None) /\ (ok = true -> ixfr z' <> None).
Proof.
  unfold ixfr_data_read.
  destruct (match ixfr z with
            | Some i => count i =? ixfr_number (opts z)
            | None => false
            end).
  { intros [= <- <- _]. split; [auto|discriminate]. }
  destruct (apex z) as [a|].
  2: { intros [= <- <- _]. split; [auto|discriminate]. }
  destruct (ixfr_data_parse parse z f s num) as [[d|] s1].
  2: { intros [= <- <- _]. split; [auto|discriminate]. }
  cbn [opts set_zone_ixfr].
  destruct (negb (ixfr_size (opts z) =? 0) && _);
    intros [= <- <- _]; cbn; split; discriminate.
Qed.

Lemma ixfr_read_files_object (sz : N) (parse : list byte -> option rr)
  (files : list ixfr_file) :
  forall z s n z' s' n',
    ixfr_read_files sz parse files z s n = (z', s', n') ->
    (ixfr z <> None -> ixfr z' <> None) /\
    ((n < n')%Z -> ixfr z' <> None).
Proof.
  induction files as [|f files IH]; intros z s n z' s' n' H; simpl in H.
  - injection H as <- <- <-. split; [auto|lia].
  - destruct (ixfr_data_read sz parse z f s (n + 1)) as [[ok z1] s1] eqn:E.
    destruct (ixfr_data_read_object _ _ _ _ _ _ _ _ _ E) as [H1 H2].
    destruct ok.
    + destruct (IH _ _ _ _ _ _ H) as [H3 _].
      split; intros; apply H3; auto.
    + injection H as <- <- <-. split; [exact H1|lia].
Qed.

(** X6.  What ixfr_read_from_file leaves in the chain.  The segments it
    has read, taken in the order of the files, lead up to the zone's current
    serial: the segment of file 1 ends at the current serial and the
    segment of each further file ends at the old serial of the file before
    it; the segment of file k carries file number k, and the chain object
    counts the files.  When the old serials fall from file to file as plain
    numbers, the chain is these segments from the last file to the first,
    and from every segment that zone_ixfr_find_serial finds connect_ixfrs
    reaches the zone's current serial. *)
Theorem startup_chain_leads_to_current_serial (sizeof_ixfr_data : N)
  (zonec_parse_string : list byte -> option rr) (z : zone)
  (files : list ixfr_file) :
  let z' := ixfr_read_from_file sizeof_ixfr_data zonec_parse_string z files in
  let current := zone_get_current_serial (Some z) in
  exists l,
    (length l <= length files)%nat /\
    links_to current l /\
    (forall k d, nth_error l k = Some d -> file_num d = (Z.of_nat k + 1)%Z) /\
    chain_data z'
    = fold_left (fun t d => rbtree_insert oldserial ixfrcompare d t) l [] /\
    (l <> [] ->
     exists i, ixfr z' = Some i /\ num_files i = Z.of_nat (length l)) /\
    (StronglySorted (fun a b => oldserial b < oldserial a) l ->
     chain_data z' = rev l /\
     forall q n,
       zone_ixfr_find_serial (ixfr z') q = Some n ->
       connect_ixfrs n 0 = (true, current)).
Proof.
  intros z' current.
  set (z0 := set_zone_ixfr z (zone_ixfr_clear (ixfr z))).
  destruct (ixfr_read_files sizeof_ixfr_data zonec_parse_string files z0
              (zone_get_current_serial (Some z0)) 0)
    as [[z1 s1] n1] eqn:E.
  destruct (ixfr_read_files_linked _ _ _ _ _ _ _ _ _ E)
    as [l [Hl [Hch [Hn [Hlen [Hnum _]]]]]].
  pose proof (chain_data_read_from_file _ _ _ _ _ _ _ E) as Hcd.
  fold z' in Hcd.
  assert (Hz0 : chain_data z0 = []).
  { unfold chain_data, z0. simpl. now destruct (ixfr z). }
  rewrite Hz0 in Hch.
  assert (Hobj : l <> [] ->
                 exists i, ixfr z' = Some i /\
                           num_files i = Z.of_nat (length l)).
  { intros Hne. unfold z', ixfr_read_from_file. fold z0. rewrite E.
    assert (Hpos : (0 < n1)%Z)
      by (destruct l; [now elim Hne|simpl length in Hn; lia]).
    destruct (ixfr_read_files_object _ _ _ _ _ _ _ _ _ E) as [_ Ho].
    specialize (Ho Hpos).
    apply Z.ltb_lt in Hpos. rewrite Hpos.
    destruct (ixfr z1) as [i|]; [|now elim Ho].
    eexists. split; [reflexivity|]. simpl. lia. }
  exists l.
  split; [exact Hlen|]. split; [exact Hl|].
  split; [intros k d Hk; rewrite (Hnum k d Hk); lia|].
  split; [now rewrite Hcd|]. split; [exact Hobj|].
  intros Hs.
  assert (Hrev : chain_data z' = rev l).
  { rewrite Hcd, Hch, (fold_insert_decreasing l [] Hs).
    - apply app_nil_r.
    - intros d x _ []. }
  split; [exact Hrev|].
  intros q [y r] Hf.
  unfold zone_ixfr_find_serial in Hf.
  destruct (ixfr z') as [i|] eqn:Hi; [|discriminate].
  assert (Hdata : data i = rev l)
    by (rewrite <- Hrev; unfold chain_data; now rewrite Hi).
  rewrite Hdata in Hf.
  destruct (rbtree_search_split _ _ _ _ _ _ Hf) as [pre Hsplit].
  pose proof (links_to_rev_connect _ _ Hl) as Hconn.
  rewrite Hsplit in Hconn. apply serials_connect_suffix in Hconn.
  unfold connect_ixfrs. simpl fst. simpl snd.
  destruct (connect_ixfrs_from_spec r y 0) as [[_ Hr]|[Hc _]];
    [|now elim Hc].
  rewrite Hr. f_equal.
  destruct l as [|d l']; [destruct pre; discriminate|].
  destruct Hl as [Hd _].
  rewrite <- (last_app_cons pre y d r), <- Hsplit.
  simpl rev. rewrite last_last. exact Hd.
Qed.

(** ** Blank lines and comments *)

Lemma read_line_skip (parse : list byte -> option rr) (line : list byte) :
  blank_or_comment line = true -> read_line parse line = LineSkip.
Proof.
  unfold blank_or_comment, read_line.
  destruct (skipwhite line) as [|c tl]; [reflexivity|].
  destruct (u8 c =? 0); [reflexivity|].
  destruct (u8 c =? 59); [reflexivity|discriminate].
Qed.

Lemma read_line_record (parse : list byte -> option rr) (line : list byte) :
  blank_or_comment line = false -> read_line parse line <> LineSkip.
Proof.
  unfold blank_or_comment, read_line.
  destruct (skipwhite line) as [|c tl]; [discriminate|].
  destruct (u8 c =? 0); [discriminate|].
  destruct (u8 c =? 59); [discriminate|].
  intros _. destruct (parse line); discriminate.
Qed.

Lemma ixfr_data_readrr_record_lines (parse : list byte -> option rr)
  (lines : ixfr_file) :
  ixfr_data_readrr parse (record_lines lines)
  = match ixfr_data_readrr parse lines with
    | Some (r, rest) => Some (r, record_lines rest)
    | None => None
    end.
Proof.
  induction lines as [|line lines IH]; [reflexivity|].
  unfold record_lines in *. cbn [filter].
  destruct (blank_or_comment line) eqn:E; cbn [negb].
  - cbn [ixfr_data_readrr]. rewrite (read_line_skip parse line E). exact IH.
  - cbn [ixfr_data_readrr].
    pose proof (read_line_record parse line E) as Hr.
    destruct (read_line parse line); [now elim Hr|reflexivity|reflexivity].
Qed.

Lemma read_section_record_lines (parse : list byte -> option rr)
  (new_serial : N) (lines : ixfr_file) :
  forall rrs capacity,
    read_section parse (record_lines lines) new_serial rrs capacity
    = match read_section parse lines new_serial rrs capacity with
      | Some (x, c, rest) => Some (x, c, record_lines rest)
      | None => None
      end.
Proof.
  induction lines as [|line lines IH]; intros rrs capacity; [reflexivity|].
  unfold record_lines in *. cbn [filter].
  destruct (blank_or_comment line) eqn:E; cbn [negb].
  - cbn [read_section]. rewrite (read_line_skip parse line E). apply IH.
  - cbn [read_section].
    pose proof (read_line_record parse line E) as Hr.
    destruct (read_line parse line) as [| |r];
      [now elim Hr|reflexivity|].
    destruct (read_putrr r rrs capacity) as [[ok x] c].
    destruct (negb ok); [reflexivity|].
    destruct ((rr_type r =? TYPE_SOA) && _); [reflexivity|apply IH].
Qed.

(** X7.  ixfr_data_parse reads the same segment, and asks for the same
    serial next, from a file and from the file without its blank lines and
    its comment lines (a ';' behind optional white space), wherever they
    stand: in front, like the header that ixfr_write_file_header writes,
    or between the records. *)
Theorem comments_and_blank_lines_ignored
  (zonec_parse_string : list byte -> option rr) (z : zone)
  (lines : ixfr_file) (dest_serial : N) (num : Z) :
  ixfr_data_parse zonec_parse_string z (record_lines lines) dest_serial num
  = ixfr_data_parse zonec_parse_string z lines dest_serial num.
Proof.
  unfold ixfr_data_parse, ixfr_data_readnewsoa, ixfr_data_readoldsoa,
    ixfr_data_readrun.
  rewrite ixfr_data_readrr_record_lines.
  destruct (ixfr_data_readrr zonec_parse_string lines) as [[n l1]|];
    [|reflexivity].
  destruct (negb (soa_line_ok z n)); [reflexivity|].
  match goal with
  | |- context [if negb (?a =? ?b) then _ else _] => destruct (negb (a =? b))
  end; [reflexivity|].
  match goal with
  | |- context [read_putrr ?r ?x ?c] =>
      destruct (read_putrr r x c) as [[ok1 x1] c1]
  end.
  destruct (negb ok1); [reflexivity|].
  destruct (ixfr_trim_capacity x1 c1) as [t1 tc1].
  rewrite ixfr_data_readrr_record_lines.
  destruct (ixfr_data_readrr zonec_parse_string l1) as [[o l2]|];
    [|reflexivity].
  destruct (negb (soa_line_ok z o)); [reflexivity|].
  match goal with
  | |- context [read_putrr ?r ?x ?c] =>
      destruct (read_putrr r x c) as [[ok2 x2] c2]
  end.
  destruct (negb ok2); [reflexivity|].
  destruct (ixfr_trim_capacity x2 c2) as [t2 tc2].
  rewrite read_section_record_lines.
  match goal with
  | |- context [read_section zonec_parse_string l2 ?s ?x ?c] =>
      destruct (read_section zonec_parse_string l2 s x c)
        as [[[x3 c3] l3]|]
  end; [|reflexivity].
  destruct (ixfr_trim_capacity x3 c3) as [t3 tc3].
  rewrite read_section_record_lines.
  match goal with
  | |- context [read_section zonec_parse_string l3 ?s ?x ?c] =>
      destruct (read_section zonec_parse_string l3 s x c)
        as [[[x4 c4] l4]|]
  end; [|reflexivity].
  destruct (ixfr_trim_capacity x4 c4) as [t4 tc4].
  reflexivity.
Qed.

(** ** Replies of query_ixfr that are not a stream *)

(** X8.  The first call of query_ixfr for a query whose serial cannot be
    parsed answers FORMERR, and for a name that is not a zone of the
    database NOTAUTH: in both cases the reply is cut off behind the
    question (or stays at the header when the question could not be
    passed), the authority and additional counts are 0, no record is added,
    QUERY_PROCESSED is reported and no stream is set up. *)
Theorem unparsed_or_unknown_zone_refused
  (packet_skip_dname : buffer -> option N)
  (packet_skip_rr : buffer -> bool -> option N)
  (packet_encode_rr : query -> option dname -> rr -> N -> option buffer)
  (query_axfr : namedb -> query -> query_state_type * query)
  (db : namedb) (capacity : N) (q : query) (parsed : option N)
  (snip_pos : N) :
  ixfr_is_done q = false ->
  q_ixfr_data q = None ->
  parse_qserial packet_skip_dname packet_skip_rr (packet q) QHEADERSZ
  = (parsed, snip_pos) ->
  match parsed with
  | None => True
  | Some _ => namedb_find_zone db (qname q) = None
  end ->
  exists q',
    query_ixfr packet_skip_dname packet_skip_rr packet_encode_rr query_axfr
      db capacity q = Some (QUERY_PROCESSED, q') /\
    RCODE (hdr (packet q'))
    = match parsed with None => RCODE_FORMAT | Some _ => RCODE_NOTAUTH end /\
    NSCOUNT (hdr (packet q')) = 0 /\
    ARCOUNT (hdr (packet q')) = 0 /\
    ANCOUNT (hdr (packet q')) = ANCOUNT (hdr (packet q)) /\
    AA (hdr (packet q')) = AA (hdr (packet q)) /\
    position (packet q') = snip_pos /\
    buf_data (packet q') = buf_data (packet q) /\
    q_ixfr_data q' = None /\
    ixfr_is_done q' = false.
Proof.
  intros Hdone Hdata Hparse Hcase.
  unfold query_ixfr. rewrite Hdone.
  destruct (packet_first_flags q) as [Hpk [Hqn Hqd]].
  destruct (packet_flags_cursor q) as [_ [_ [Hd _]]]. cbv zeta in Hd.
  set (q1 := if tsig_sign_it (clamp_maxlen q)
             then set_tsig_flags (clamp_maxlen q) true true false
             else set_tsig_flags (clamp_maxlen q) false true
                    (tsig_sign_it (clamp_maxlen q))) in *.
  rewrite Hqd, Hdata, Hpk, Hparse. cbn [packet set_packet qname].
  destruct parsed as [qs|].
  - rewrite Hqn, Hcase. eexists. split; [reflexivity|]. cbn.
    rewrite Hqd, Hdata, Hd, Hdone. repeat split.
  - eexists. split; [reflexivity|]. cbn.
    rewrite Hqd, Hdata, Hd, Hdone. repeat split.
Qed.

(** A query without authority section, and a query for a zone the
    database does not hold. *)
Lemma unparsed_or_unknown_zone_refused_witness :
  (exists q',
      query_ixfr plain_skip_dname plain_skip_rr plain_encode_rr axfr_stub
        (toy_db 20 [toy_segment x0a x14]) 65535 toy_query_without_soa
      = Some (QUERY_PROCESSED, q') /\
      RCODE (hdr (packet q')) = RCODE_FORMAT /\
      position (packet q') = 12) /\
  (exists q',
      query_ixfr plain_skip_dname plain_skip_rr plain_encode_rr axfr_stub
        [] 65535 (toy_query true 65535 10)
      = Some (QUERY_PROCESSED, q') /\
      RCODE (hdr (packet q')) = RCODE_NOTAUTH /\
      position (packet q') = 17).
Proof.
  split.
  - destruct (unparsed_or_unknown_zone_refused plain_skip_dname plain_skip_rr
                plain_encode_rr axfr_stub (toy_db 20 [toy_segment x0a x14])
                65535 toy_query_without_soa None 12)
      as [q' [E [Hr [_ [_ [_ [_ [Hp _]]]]]]]];
      [reflexivity|reflexivity|vm_compute; reflexivity|exact I|].
    exists q'. auto.
  - destruct (unparsed_or_unknown_zone_refused plain_skip_dname plain_skip_rr
                plain_encode_rr axfr_stub [] 65535 (toy_query true 65535 10)
                (Some 10) 17)
      as [q' [E [Hr [_ [_ [_ [_ [Hp _]]]]]]]];
      [reflexivity|reflexivity|vm_compute; reflexivity|reflexivity|].
    exists q'. auto.
Defined.

(** X9.  A client that is level with the zone or ahead of it
    ([compare_serial q c >= 0]) is answered SERVFAIL, with no record added,
    when the zone does not have exactly one SOA record (the AA flag is then
    left as it was), and when the SOA record cannot be encoded into the
    packet (the AA flag is then set). *)
Theorem up_to_date_client_servfail
  (packet_skip_dname : buffer -> option N)
  (packet_skip_rr : buffer -> bool -> option N)
  (packet_encode_rr : query -> option dname -> rr -> N -> option buffer)
  (query_axfr : namedb -> query -> query_state_type * query)
  (db : namedb) (capacity : N) (q : query) (qserial snip_pos : N)
  (z : zone) :
  ixfr_is_done q = false ->
  q_ixfr_data q = None ->
  parse_qserial packet_skip_dname packet_skip_rr (packet q) QHEADERSZ
  = (Some qserial, snip_pos) ->
  namedb_find_zone db (qname q) = Some z ->
  (compare_serial qserial (zone_get_current_serial (Some z)) >= 0)%Z ->
  match soa_rrset z with
  | Some [soa] =>
      packet_encode_rr (first_packet_query q snip_pos) (apex z) soa
        (rr_ttl soa) = None
  | _ => True
  end ->
  exists q',
    query_ixfr packet_skip_dname packet_skip_rr packet_encode_rr query_axfr
      db capacity q = Some (QUERY_PROCESSED, q') /\
    RCODE (hdr (packet q')) = RCODE_SERVFAIL /\
    ANCOUNT (hdr (packet q')) = ANCOUNT (hdr (packet q)) /\
    AA (hdr (packet q'))
    = match soa_rrset z with
      | Some [_] => true
      | _ => AA (hdr (packet q))
      end /\
    position (packet q') = snip_pos /\
    buf_data (packet q') = buf_data (packet q) /\
    q_ixfr_data q' = None.
Proof.
  intros Hdone Hdata Hparse Hzone Hcmp Hcase.
  unfold query_ixfr. rewrite Hdone.
  destruct (packet_first_flags q) as [Hpk [Hqn Hqd]].
  unfold first_packet_query in Hcase. rewrite Hpk in Hcase.
  set (q1 := if tsig_sign_it (clamp_maxlen q)
             then set_tsig_flags (clamp_maxlen q) true true false
             else set_tsig_flags (clamp_maxlen q) false true
                    (tsig_sign_it (clamp_maxlen q))) in *.
  rewrite Hqd, Hdata, Hpk, Hparse. cbn [packet set_packet qname].
  rewrite Hqn, Hzone.
  apply Z.ge_le in Hcmp. apply Z.geb_le in Hcmp. rewrite Hcmp.
  destruct (soa_rrset z) as [[|soa [|soa2 rest]]|].
  - eexists. split; [reflexivity|]. cbn. rewrite Hqd, Hdata. repeat split.
  - rewrite Hcase. eexists. split; [reflexivity|]. cbn.
    rewrite Hqd, Hdata. repeat split.
  - eexists. split; [reflexivity|]. cbn. rewrite Hqd, Hdata. repeat split.
  - eexists. split; [reflexivity|]. cbn. rewrite Hqd, Hdata. repeat split.
Qed.

(** A zone without SOA, and a packet with room for 20 octets only. *)
Lemma up_to_date_client_servfail_witness :
  (exists q',
      query_ixfr plain_skip_dname plain_skip_rr plain_encode_rr axfr_stub
        [([x00], toy_zone_without_soa)] 65535 (toy_query true 65535 10)
      = Some (QUERY_PROCESSED, q') /\
      RCODE (hdr (packet q')) = RCODE_SERVFAIL /\
      AA (hdr (packet q')) = false) /\
  (exists q',
      query_ixfr plain_skip_dname plain_skip_rr plain_encode_rr axfr_stub
        (toy_db 20 [toy_segment x0a x14]) 65535 (toy_query true 20 20)
      = Some (QUERY_PROCESSED, q') /\
      RCODE (hdr (packet q')) = RCODE_SERVFAIL /\
      AA (hdr (packet q')) = true).
Proof.
  split.
  - destruct (up_to_date_client_servfail plain_skip_dname plain_skip_rr
                plain_encode_rr axfr_stub [([x00], toy_zone_without_soa)]
                65535 (toy_query true 65535 10) 10 17 toy_zone_without_soa)
      as [q' [E [Hr [_ [Ha _]]]]];
      [reflexivity|reflexivity|vm_compute; reflexivity|reflexivity
      |vm_compute; discriminate|exact I|].
    exists q'. auto.
  - destruct (up_to_date_client_servfail plain_skip_dname plain_skip_rr
                plain_encode_rr axfr_stub (toy_db 20 [toy_segment x0a x14])
                65535 (toy_query true 20 20) 20 17
                (toy_chain_zone 20 [toy_segment x0a x14]))
      as [q' [E [Hr [_ [Ha _]]]]];
      [reflexivity|reflexivity|vm_compute; reflexivity|reflexivity
      |vm_compute; discriminate|vm_compute; reflexivity|].
    exists q'. auto.
Defined.

(** X10.  A client that is behind the zone is handed over to query_axfr,
    with the packet prepared as for the stream (cut off behind the
    question, authority and additional counts 0), whenever the IXFR cannot
    be served from the chain: the zone has no chain, no segment starts at
    the client's serial, the segments from there on do not connect, or they
    do not end at the zone's current serial. *)
Theorem behind_client_falls_back_to_axfr
  (packet_skip_dname : buffer -> option N)
  (packet_skip_rr : buffer -> bool -> option N)
  (packet_encode_rr : query -> option dname -> rr -> N -> option buffer)
  (query_axfr : namedb -> query -> query_state_type * query)
  (db : namedb) (capacity : N) (q : query) (qserial snip_pos : N)
  (z : zone) :
  ixfr_is_done q = false ->
  q_ixfr_data q = None ->
  parse_qserial packet_skip_dname packet_skip_rr (packet q) QHEADERSZ
  = (Some qserial, snip_pos) ->
  namedb_find_zone db (qname q) = Some z ->
  (compare_serial qserial (zone_get_current_serial (Some z)) < 0)%Z ->
  match zone_ixfr_find_serial (ixfr z) qserial with
  | None => True
  | Some d =>
      fst (connect_ixfrs d 0) = false \/
      snd (connect_ixfrs d 0) <> zone_get_current_serial (Some z)
  end ->
  query_ixfr packet_skip_dname packet_skip_rr packet_encode_rr query_axfr
    db capacity q
  = Some (query_axfr db (first_packet_query q snip_pos)).
Proof.
  intros Hdone Hdata Hparse Hzone Hcmp Hcase.
  unfold query_ixfr. rewrite Hdone.
  destruct (packet_first_flags q) as [Hpk [Hqn Hqd]].
  unfold first_packet_query.
  set (q1 := if tsig_sign_it (clamp_maxlen q)
             then set_tsig_flags (clamp_maxlen q) true true false
             else set_tsig_flags (clamp_maxlen q) false true
                    (tsig_sign_it (clamp_maxlen q))) in *.
  rewrite Hqd, Hdata, Hpk, Hparse. cbn [packet set_packet qname].
  rewrite Hqn, Hzone.
  rewrite Z.geb_leb. apply Z.leb_gt in Hcmp. rewrite Hcmp.
  destruct (ixfr z) as [i|] eqn:Hi; [|reflexivity].
  destruct (zone_ixfr_find_serial (Some i) qserial) as [d|]; [|reflexivity].
  destruct (connect_ixfrs d 0) as [connected end_serial].
  simpl fst in Hcase. simpl snd in Hcase.
  destruct Hcase as [->|Hne]; [reflexivity|].
  apply N.eqb_neq in Hne. rewrite Hne.
  now rewrite orb_true_r.
Qed.

(** The zone is at serial 30, its chain holds 10 -> 20 only: a client at
    serial 10 gets the zone by AXFR, and so does a client at serial 15. *)
Lemma behind_client_falls_back_to_axfr_witness :
  fst (axfr_stub [] (toy_query true 65535 10)) = QUERY_IN_AXFR /\
  (exists q',
      query_ixfr plain_skip_dname plain_skip_rr plain_encode_rr axfr_stub
        (toy_db 30 [toy_segment x0a x14]) 65535 (toy_query true 65535 10)
      = Some (QUERY_IN_AXFR, q')) /\
  (exists q',
      query_ixfr plain_skip_dname plain_skip_rr plain_encode_rr axfr_stub
        (toy_db 30 [toy_segment x0a x14]) 65535 (toy_query true 65535 15)
      = Some (QUERY_IN_AXFR, q')).
Proof.
  split; [reflexivity|]. split.
  - eexists.
    rewrite (behind_client_falls_back_to_axfr plain_skip_dname plain_skip_rr
               plain_encode_rr axfr_stub (toy_db 30 [toy_segment x0a x14])
               65535 (toy_query true 65535 10) 10 17
               (toy_chain_zone 30 [toy_segment x0a x14]));
      [reflexivity|reflexivity|reflexivity|vm_compute; reflexivity
      |reflexivity|vm_compute; reflexivity|].
    vm_compute. right. discriminate.
  - eexists.
    rewrite (behind_client_falls_back_to_axfr plain_skip_dname plain_skip_rr
               plain_encode_rr axfr_stub (toy_db 30 [toy_segment x0a x14])
               65535 (toy_query true 65535 15) 15 17
               (toy_chain_zone 30 [toy_segment x0a x14]));
      [reflexivity|reflexivity|reflexivity|vm_compute; reflexivity
      |reflexivity|vm_compute; reflexivity|].
    vm_compute. exact I.
Defined.

(** ** The length of a packet of the stream *)

Lemma stays_below_refl (q : query) : stays_below q q.
Proof. split; [reflexivity|now left]. Qed.

Lemma stays_below_trans (q1 q2 q3 : query) :
  stays_below q1 q2 -> stays_below q2 q3 -> stays_below q1 q3.
Proof.
  intros [Hm1 H1] [Hm2 H2]. split; [congruence|].
  rewrite Hm1 in H2. destruct H2 as [H2|H2]; [|now right].
  rewrite H2. exact H1.
Qed.

Lemma slice_length_le (l : list byte) (current rrlen : N) :
  blen (slice l current rrlen) <= rrlen.
Proof.
  unfold slice, blen. rewrite length_firstn. lia.
Qed.

Lemma copy_run_loop_below (data : list byte) (len max : N) (fuel : nat) :
  forall cnt p total ret c p' t',
    copy_run_loop fuel data len max cnt p total = Some (ret, c, p', t') ->
    position p' = position p \/ position p' < max.
Proof.
  induction fuel as [|fuel IH]; intros cnt p total ret c p' t' H;
    simpl in H; [discriminate|].
  destruct (cnt <? len); [|injection H as _ _ <- _; now left].
  destruct (count_rr_length data len cnt) as [n|]; [|discriminate].
  destruct (negb (n =? 0) && (buffer_position p <? max)
            && (buffer_position p + n <? max)) eqn:Ec.
  - apply andb_prop in Ec. destruct Ec as [_ Ec]. apply N.ltb_lt in Ec.
    unfold buffer_position in Ec.
    pose proof (slice_length_le data cnt n) as Hle.
    apply IH in H. simpl position in H. right. lia.
  - injection H as _ _ <- _. now left.
Qed.

Lemma copy_first_soa_below (q : query) (e : ixfr_data) (t : N) :
  stays_below q (snd (copy_first_soa q e t)).
Proof.
  unfold copy_first_soa.
  destruct (ixfr_count_newsoa q <? newsoa_len e); [|apply stays_below_refl].
  destruct ((buffer_position (packet q) <? maxlen q) && _) eqn:Ec;
    [|apply stays_below_refl].
  apply andb_prop in Ec. destruct Ec as [_ Ec]. apply N.ltb_lt in Ec.
  split; [reflexivity|]. right. cbn.
  unfold buffer_position, newsoa_len in Ec. rewrite buf_len_bytes in Ec.
  exact Ec.
Qed.

Lemma copy_second_soa_below (q : query) (cur : ixfr_data) (t : N) :
  stays_below q (snd (copy_second_soa q cur t)).
Proof.
  unfold copy_second_soa.
  destruct (ixfr_count_oldsoa q <? oldsoa_len cur); [|apply stays_below_refl].
  destruct ((buffer_position (packet q) <? maxlen q) && _) eqn:Ec;
    [|apply stays_below_refl].
  apply andb_prop in Ec. destruct Ec as [_ Ec]. apply N.ltb_lt in Ec.
  split; [reflexivity|]. right. cbn.
  unfold buffer_position, oldsoa_len in Ec. rewrite buf_len_bytes in Ec.
  exact Ec.
Qed.

Lemma copy_del_below (q : query) (cur : ixfr_data) (t : N) (r : bool)
  (t' : N) (q' : query) :
  copy_del q cur t = Some (r, t', q') -> stays_below q q'.
Proof.
  unfold copy_del.
  destruct (copy_run_loop _ _ _ _ _ _ _) as [[[[ret c] p'] t1]|] eqn:E;
    [|discriminate].
  intros [= _ _ <-]. apply copy_run_loop_below in E.
  split; [reflexivity|exact E].
Qed.

Lemma copy_add_below (q : query) (cur : ixfr_data) (t : N) (r : bool)
  (t' : N) (q' : query) :
  copy_add q cur t = Some (r, t', q') -> stays_below q q'.
Proof.
  unfold copy_add.
  destruct (copy_run_loop _ _ _ _ _ _ _) as [[[[ret c] p'] t1]|] eqn:E;
    [|discriminate].
  intros [= _ _ <-]. apply copy_run_loop_below in E.
  split; [reflexivity|exact E].
Qed.

Lemma ixfr_copy_rrs_into_packet_below (q q' : query) (a : N) :
  ixfr_copy_rrs_into_packet q = Some (a, q') -> stays_below q q'.
Proof.
  unfold ixfr_copy_rrs_into_packet.
  destruct (q_ixfr_data q) as [[cur succs]|]; [|discriminate].
  destruct (q_ixfr_end_data q) as [[e e2]|]; [|discriminate].
  cbv zeta.
  pose proof (copy_first_soa_below q e 0) as H1.
  destruct (copy_first_soa q e 0) as [[r1 t1] q1]. simpl snd in H1.
  destruct r1; [intros [= _ <-]; exact H1|].
  pose proof (copy_second_soa_below q1 cur t1) as H2.
  destruct (copy_second_soa q1 cur t1) as [[r2 t2] q2]. simpl snd in H2.
  pose proof (stays_below_trans _ _ _ H1 H2) as H12.
  destruct r2; [intros [= _ <-]; exact H12|].
  destruct (copy_del q2 cur t2) as [[[r3 t3] q3]|] eqn:E3; [|discriminate].
  pose proof (stays_below_trans _ _ _ H12 (copy_del_below _ _ _ _ _ _ E3))
    as H123.
  destruct r3; [intros [= _ <-]; exact H123|].
  destruct (copy_add q3 cur t3) as [[[r4 t4] q4]|] eqn:E4; [|discriminate].
  intros [= _ <-].
  exact (stays_below_trans _ _ _ H123 (copy_add_below _ _ _ _ _ _ E4)).
Qed.

Lemma next_segments_below (succs : list ixfr_data) :
  forall q cur total t' q',
    next_segments q cur succs total = Some (t', q') -> stays_below q q'.
Proof.
  induction succs as [|n rest IH]; intros q cur total t' q'; simpl.
  - destruct (add_len cur <=? ixfr_count_add q);
      intros [= _ <-]; [|apply stays_below_refl].
    split; [reflexivity|now left].
  - destruct (add_len cur <=? ixfr_count_add q);
      [|intros [= _ <-]; apply stays_below_refl].
    destruct (ixfr_copy_rrs_into_packet _) as [[a q2]|] eqn:E;
      [|discriminate].
    intros H. apply IH in H. apply ixfr_copy_rrs_into_packet_below in E.
    apply (stays_below_trans _ _ _ E) in H.
    destruct H as [Hm H]. split; [exact Hm|exact H].
Qed.

Lemma stream_fill_below (q q' : query) (t : N) :
  stream_fill q = Some (t, q') -> stays_below q q'.
Proof.
  unfold stream_fill.
  destruct (ixfr_copy_rrs_into_packet q) as [[a q1]|] eqn:E; [|discriminate].
  destruct (q_ixfr_data q1) as [[cur succs]|]; [|discriminate].
  intros H. apply next_segments_below in H.
  apply ixfr_copy_rrs_into_packet_below in E.
  exact (stays_below_trans _ _ _ E H).
Qed.

(** Every way through query_ixfr that reports QUERY_IN_IXFR goes through
    the streamer; [q0] is the query as the streamer is entered. *)
Lemma query_ixfr_enters_stream
  (packet_skip_dname : buffer -> option N)
  (packet_skip_rr : buffer -> bool -> option N)
  (packet_encode_rr : query -> option dname -> rr -> N -> option buffer)
  (query_axfr : namedb -> query -> query_state_type * query)
  (db : namedb) (capacity : N) (q q' : query) :
  (forall db q, fst (query_axfr db q) <> QUERY_IN_IXFR) ->
  query_ixfr packet_skip_dname packet_skip_rr packet_encode_rr query_axfr
    db capacity q = Some (QUERY_IN_IXFR, q') ->
  exists q0,
    query_ixfr_stream q0 = Some (QUERY_IN_IXFR, q') /\
    maxlen q0 = N.min (maxlen q) IXFR_MAX_MESSAGE_LEN /\
    tcp q0 = tcp q /\ tsig q0 = tsig q /\
    ixfr_is_done q0 = false /\ ixfr_is_done q = false /\
    tsig_update_it q0 = true /\
    tsig_prepare_it q0 = tsig_sign_it q /\
    match q_ixfr_data q with
    | Some n =>
        q_ixfr_data q0 = Some n /\
        position (packet q0) = QHEADERSZ /\
        QDCOUNT (hdr (packet q0)) = 0 /\
        TC (hdr (packet q0)) = false /\
        RCODE (hdr (packet q0)) = 0 /\
        ixfr_pos_of_newsoa q0 = ixfr_pos_of_newsoa q /\
        tsig_sign_it q0 = false
    | None =>
        position (packet q0)
        = snd (parse_qserial packet_skip_dname packet_skip_rr (packet q)
                 QHEADERSZ) /\
        QDCOUNT (hdr (packet q0)) = QDCOUNT (hdr (packet q)) /\
        TC (hdr (packet q0)) = TC (hdr (packet q)) /\
        RCODE (hdr (packet q0)) = RCODE (hdr (packet q)) /\
        ixfr_pos_of_newsoa q0 = 0 /\
        ixfr_count_newsoa q0 = 0 /\
        tsig_sign_it q0 = tsig_status_eqb (tsig q) TSIG_OK
    end.
Proof.
  intros Haxfr. unfold query_ixfr.
  destruct (ixfr_is_done q) eqn:Hdone; [discriminate|].
  destruct (packet_first_flags q) as [Hpk [Hqn Hqd]].
  destruct (packet_flags_cursor q)
    as [Hmax [Htcp [Hd [_ [_ [_ [_ _]]]]]]].
  cbv zeta in Hmax, Htcp, Hd.
  assert (Hts : tsig (if tsig_sign_it (clamp_maxlen q)
                      then set_tsig_flags (clamp_maxlen q) true true false
                      else set_tsig_flags (clamp_maxlen q) false true
                             (tsig_sign_it (clamp_maxlen q))) = tsig q
                /\ tsig_update_it
                     (if tsig_sign_it (clamp_maxlen q)
                      then set_tsig_flags (clamp_maxlen q) true true false
                      else set_tsig_flags (clamp_maxlen q) false true
                             (tsig_sign_it (clamp_maxlen q))) = true
                /\ tsig_prepare_it
                     (if tsig_sign_it (clamp_maxlen q)
                      then set_tsig_flags (clamp_maxlen q) true true false
                      else set_tsig_flags (clamp_maxlen q) false true
                             (tsig_sign_it (clamp_maxlen q)))
                   = tsig_sign_it q
                /\ tsig_sign_it
                     (if tsig_sign_it (clamp_maxlen q)
                      then set_tsig_flags (clamp_maxlen q) true true false
                      else set_tsig_flags (clamp_maxlen q) false true
                             (tsig_sign_it (clamp_maxlen q))) = false
                /\ ixfr_pos_of_newsoa
                     (if tsig_sign_it (clamp_maxlen q)
                      then set_tsig_flags (clamp_maxlen q) true true false
                      else set_tsig_flags (clamp_maxlen q) false true
                             (tsig_sign_it (clamp_maxlen q)))
                   = ixfr_pos_of_newsoa q).
  { unfold clamp_maxlen.
    destruct (IXFR_MAX_MESSAGE_LEN <? maxlen q); cbn;
      destruct (tsig_sign_it q) eqn:Es; cbn; rewrite ?Es; repeat split. }
  destruct Hts as [Hts [Hup [Hprep [Hsign Hposn]]]].
  set (q1 := if tsig_sign_it (clamp_maxlen q)
             then set_tsig_flags (clamp_maxlen q) true true false
             else set_tsig_flags (clamp_maxlen q) false true
                    (tsig_sign_it (clamp_maxlen q))) in *.
  assert (Hax : forall qa P,
             Some (query_axfr db qa) = Some (QUERY_IN_IXFR, q') -> P).
  { intros qa P [= H]. exfalso. apply (Haxfr db qa). now rewrite H. }
  rewrite Hqd.
  destruct (q_ixfr_data q) as [n|] eqn:Hdata.
  - intros H. eexists. split; [exact H|]. cbn.
    rewrite Hqd.
    repeat split; try assumption; congruence.
  - rewrite Hpk.
    destruct (parse_qserial _ _ (packet q) QHEADERSZ) as [[qs|] pos];
      [|discriminate].
    cbn [qname set_packet packet].
    destruct (namedb_find_zone db (qname q1)) as [z|]; [|discriminate].
    destruct (compare_serial qs _ >=? 0)%Z.
    { destruct (soa_rrset z) as [[|soa [|? ?]]|]; discriminate. }
    destruct (ixfr z) as [i|]; [|apply Hax].
    destruct (zone_ixfr_find_serial (Some i) qs) as [d|]; [|apply Hax].
    destruct (connect_ixfrs d 0) as [connected end_serial].
    destruct (negb connected || negb (end_serial =? _)); [apply Hax|].
    intros H. eexists. split; [exact H|].
    cbn [tsig set_ixfr_is_done set_stream set_packet].
    rewrite Hts.
    destruct (tsig_status_eqb (tsig q) TSIG_OK); cbn;
      repeat split; try assumption; congruence.
Qed.

Lemma query_ixfr_stream_parts (q0 q' : query) (st : query_state_type) :
  query_ixfr_stream q0 = Some (st, q') ->
  exists total q1 cur succs e e2,
    q_ixfr_data q0 = Some (cur, succs) /\
    q_ixfr_end_data q0 = Some (e, e2) /\
    stream_fill q0 = Some (total, q1) /\
    q' = stream_answer total q1.
Proof.
  unfold query_ixfr_stream.
  destruct (stream_fill q0) as [[total q1]|] eqn:E; [|discriminate].
  intros [= _ <-].
  unfold stream_fill, ixfr_copy_rrs_into_packet in E.
  destruct (q_ixfr_data q0) as [[cur succs]|] eqn:Hc; [|discriminate].
  destruct (q_ixfr_end_data q0) as [[e e2]|] eqn:He; [|discriminate].
  exists total, q1, cur, succs, e, e2.
  repeat split.
Qed.

Lemma next_segments_flags (succs : list ixfr_data) :
  forall q cur total t' q' e e2,
    q_ixfr_end_data q = Some (e, e2) ->
    next_segments q cur succs total = Some (t', q') ->
    tcp q' = tcp q /\ tsig q' = tsig q /\
    tsig_update_it q' = tsig_update_it q /\
    tsig_prepare_it q' = tsig_prepare_it q /\
    ((ixfr_is_done q' = ixfr_is_done q /\ tsig_sign_it q' = tsig_sign_it q) \/
     (ixfr_is_done q' = true /\ tsig_sign_it q' = true)).
Proof.
  induction succs as [|n rest IH]; intros q cur total t' q' e e2 He; simpl.
  - destruct (add_len cur <=? ixfr_count_add q); intros [= _ <-]; cbn;
      repeat split; auto.
  - destruct (add_len cur <=? ixfr_count_add q);
      [|intros [= _ <-]; repeat split; auto].
    set (q2 := set_stream q (Some (n, rest)) (q_ixfr_end_data q)
                 (ixfr_count_newsoa q) (oldsoa_len n) 0 0
                 (ixfr_pos_of_newsoa q)).
    destruct (ixfr_copy_rrs_into_packet_total q2 n e rest e2 eq_refl He)
      as [a [q3 [x [E [Hs _]]]]].
    rewrite E. intros H.
    destruct Hs as [_ [Ht [_ [Hts [Hp [Hu [Hsg [Hd [_ [He3 _]]]]]]]]]].
    unfold q2 in Ht, Hts, Hp, Hu, Hsg, Hd.
    cbn [set_stream tcp tsig tsig_prepare_it tsig_update_it tsig_sign_it
         ixfr_is_done] in Ht, Hts, Hp, Hu, Hsg, Hd.
    destruct (IH _ _ _ _ _ e e2 (eq_trans He3 He) H)
      as [H1 [H2 [H3 [H4 H5]]]].
    split; [congruence|]. split; [congruence|]. split; [congruence|].
    split; [congruence|].
    destruct H5 as [[H5 H6]|H5]; [left|right; exact H5].
    split; congruence.
Qed.

Lemma stream_fill_flags (q q' : query) (t : N) :
  stream_fill q = Some (t, q') ->
  tcp q' = tcp q /\ tsig q' = tsig q /\
  tsig_update_it q' = tsig_update_it q /\
  tsig_prepare_it q' = tsig_prepare_it q /\
  ((ixfr_is_done q' = ixfr_is_done q /\ tsig_sign_it q' = tsig_sign_it q) \/
   (ixfr_is_done q' = true /\ tsig_sign_it q' = true)).
Proof.
  intros H. pose proof H as H0.
  unfold stream_fill, ixfr_copy_rrs_into_packet in H0.
  destruct (q_ixfr_data q) as [[cur succs]|] eqn:Hc; [|discriminate].
  destruct (q_ixfr_end_data q) as [[e e2]|] eqn:He; [|discriminate].
  clear H0. unfold stream_fill in H.
  destruct (ixfr_copy_rrs_into_packet_total q cur e succs e2 Hc He)
    as [a [q1 [x [E [Hs _]]]]].
  rewrite E in H.
  destruct Hs as [_ [Ht [_ [Hts [Hp [Hu [Hsg [Hd [Hc1 [He1 _]]]]]]]]]].
  rewrite Hc1, Hc in H.
  destruct (next_segments_flags _ _ _ _ _ _ e e2 (eq_trans He1 He) H)
    as [H1 [H2 [H3 [H4 H5]]]].
  split; [congruence|]. split; [congruence|]. split; [congruence|].
  split; [congruence|].
  destruct H5 as [[H5 H6]|H5]; [left|right; exact H5].
  split; congruence.
Qed.

Lemma stream_answer_position (total : N) (q1 : query) :
  position (packet (stream_answer total q1))
  = if negb (tcp q1) && negb (ixfr_is_done q1)
    then if ixfr_pos_of_newsoa q1 =? 0 then position (packet q1)
         else ixfr_pos_of_newsoa q1
    else position (packet q1).
Proof.
  unfold stream_answer. cbn [tcp set_packet ixfr_is_done].
  destruct (negb (tcp q1) && negb (ixfr_is_done q1));
    cbn [packet set_packet ixfr_pos_of_newsoa];
    [destruct (ixfr_pos_of_newsoa q1 =? 0); cbn [negb]|];
    destruct (tsig_status_eqb _ _); reflexivity.
Qed.

(** X11.  A packet of the stream never reaches the maximum message
    length.  For the first packet of a stream, and for every packet over
    TCP, query_ixfr adds nothing behind the place where the answer section
    starts (the end of the question in the first packet, the end of the
    header in the packets that follow), or the packet ends beyond that
    place and strictly before min(maxlen, 16384). *)
Theorem stream_packet_stays_below_maxlen
  (packet_skip_dname : buffer -> option N)
  (packet_skip_rr : buffer -> bool -> option N)
  (packet_encode_rr : query -> option dname -> rr -> N -> option buffer)
  (query_axfr : namedb -> query -> query_state_type * query)
  (db : namedb) (capacity : N) (q q' : query) :
  (forall db q, fst (query_axfr db q) <> QUERY_IN_IXFR) ->
  query_ixfr packet_skip_dname packet_skip_rr packet_encode_rr query_axfr
    db capacity q = Some (QUERY_IN_IXFR, q') ->
  tcp q = true \/ q_ixfr_data q = None ->
  let start :=
    match q_ixfr_data q with
    | Some _ => QHEADERSZ
    | None => snd (parse_qserial packet_skip_dname packet_skip_rr (packet q)
                     QHEADERSZ)
    end in
  position (packet q') = start \/
  (start < position (packet q') /\
   position (packet q') < N.min (maxlen q) IXFR_MAX_MESSAGE_LEN).
Proof.
  intros Haxfr Hq Hcase start.
  destruct (query_ixfr_enters_stream _ _ _ _ _ _ _ _ Haxfr Hq)
    as [q0 [Hs [Hmax [Htcp [_ [_ [_ [_ [_ Hfirst]]]]]]]]].
  destruct (query_ixfr_stream_parts _ _ _ Hs)
    as [total [q1 [cur [succs [e [e2 [Hc [He [Hfill ->]]]]]]]]].
  destruct (stream_fill_below _ _ _ Hfill) as [Hm1 Hbelow].
  destruct (stream_fill_flags _ _ _ Hfill) as [Ht1 _].
  destruct (stream_fill_total q0 cur e succs e2 Hc He)
    as [t' [q1' [x [E [_ [_ [Hp [_ [Hn1 [Hn2 Hn3]]]]]]]]]].
  rewrite Hfill in E. injection E as <- <-.
  assert (Hstart : position (packet q0) = start).
  { unfold start. destruct (q_ixfr_data q); tauto. }
  assert (Hplain : position (packet q1) = start \/
                   (start < position (packet q1) /\
                    position (packet q1)
                    < N.min (maxlen q) IXFR_MAX_MESSAGE_LEN)).
  { rewrite <- Hstart, <- Hmax.
    destruct Hbelow as [Hb|Hb]; [now left|].
    destruct (N.eq_dec (position (packet q1)) (position (packet q0)));
      [now left|right]. lia. }
  rewrite stream_answer_position.
  destruct (negb (tcp q1) && negb (ixfr_is_done q1)) eqn:Eudp;
    [|exact Hplain].
  apply andb_prop in Eudp. destruct Eudp as [Eu _].
  apply negb_true_iff in Eu. rewrite Ht1, Htcp in Eu.
  destruct Hcase as [Hcase|Hcase]; [congruence|].
  rewrite Hcase in Hfirst.
  destruct Hfirst as [_ [_ [_ [_ [Hpn [Hcn _]]]]]].
  destruct (newsoa_pending q0 e) eqn:Epend.
  - destruct (newsoa_fits q0 e) eqn:Efit.
    + destruct (Hn3 eq_refl eq_refl) as [Hpos _].
      unfold newsoa_pending in Epend. rewrite Hcn in Epend.
      apply N.ltb_lt in Epend.
      unfold newsoa_fits in Efit. apply andb_prop in Efit.
      destruct Efit as [_ Efit]. apply N.ltb_lt in Efit.
      rewrite Hpos.
      destruct (position (packet q0) + newsoa_len e =? 0) eqn:Ez;
        [apply N.eqb_eq in Ez; lia|].
      right. rewrite <- Hstart, <- Hmax. lia.
    + destruct (Hn2 eq_refl eq_refl) as [_ [_ Hpos]].
      rewrite Hpos, Hpn. exact Hplain.
  - rewrite (Hn1 eq_refl), Hpn. exact Hplain.
Qed.

(** The first packet of the stream 10 -> 20 with room for 100 octets. *)
Lemma stream_packet_stays_below_maxlen_witness :
  exists q',
    query_ixfr plain_skip_dname plain_skip_rr plain_encode_rr axfr_stub
      (toy_db 20 [toy_segment x0a x14]) 65535 (toy_query true 100 10)
    = Some (QUERY_IN_IXFR, q') /\
    (position (packet q') = 17 \/
     (17 < position (packet q') /\
      position (packet q') < N.min 100 IXFR_MAX_MESSAGE_LEN)).
Proof.
  eexists. split; [vm_compute; reflexivity|].
  refine (stream_packet_stays_below_maxlen plain_skip_dname plain_skip_rr
            plain_encode_rr axfr_stub (toy_db 20 [toy_segment x0a x14])
            65535 (toy_query true 100 10) _ _ _ _).
  - intros db q. discriminate.
  - vm_compute. reflexivity.
  - left. reflexivity.
Defined.

(** ** One packet over UDP *)

(** X12.  Over a connectionless transport query_ixfr always ends the
    stream with the packet it returns: whatever the chain holds and however
    much of it went into the packet, the stream is marked done, and a
    further call reports QUERY_PROCESSED and leaves the query as it is. *)
Theorem udp_stream_is_one_packet
  (packet_skip_dname : buffer -> option N)
  (packet_skip_rr : buffer -> bool -> option N)
  (packet_encode_rr : query -> option dname -> rr -> N -> option buffer)
  (query_axfr : namedb -> query -> query_state_type * query)
  (db : namedb) (capacity : N) (q q' : query) :
  (forall db q, fst (query_axfr db q) <> QUERY_IN_IXFR) ->
  tcp q = false ->
  query_ixfr packet_skip_dname packet_skip_rr packet_encode_rr query_axfr
    db capacity q = Some (QUERY_IN_IXFR, q') ->
  ixfr_is_done q' = true /\
  tcp q' = false /\
  query_ixfr packet_skip_dname packet_skip_rr packet_encode_rr query_axfr
    db capacity q' = Some (QUERY_PROCESSED, q').
Proof.
  intros Haxfr Hudp Hq.
  destruct (query_ixfr_enters_stream _ _ _ _ _ _ _ _ Haxfr Hq)
    as [q0 [Hs [_ [Htcp _]]]].
  destruct (query_ixfr_stream_parts _ _ _ Hs)
    as [total [q1 [cur [succs [e [e2 [Hc [He [Hfill ->]]]]]]]]].
  destruct (stream_fill_flags _ _ _ Hfill) as [Ht1 _].
  assert (Hudp1 : tcp q1 = false) by congruence.
  assert (Hdone : ixfr_is_done (stream_answer total q1) = true).
  { unfold stream_answer. cbn [tcp set_packet ixfr_is_done].
    rewrite Hudp1. cbn [negb andb].
    destruct (ixfr_is_done q1) eqn:Ed; cbn [negb];
      destruct (tsig_status_eqb _ _); cbn; try reflexivity; exact Ed. }
  assert (Htcp' : tcp (stream_answer total q1) = false).
  { unfold stream_answer. cbn [tcp set_packet ixfr_is_done].
    rewrite Hudp1. cbn [negb andb].
    destruct (negb (ixfr_is_done q1));
      destruct (tsig_status_eqb _ _); cbn; exact Hudp1. }
  split; [exact Hdone|]. split; [exact Htcp'|].
  unfold query_ixfr; now rewrite Hdone.
Qed.

(** The stream 10 -> 20 over UDP with room for 512 octets: all of it is
    sent in the one packet, which is not truncated. *)
Lemma udp_stream_is_one_packet_witness :
  exists q',
    query_ixfr plain_skip_dname plain_skip_rr plain_encode_rr axfr_stub
      (toy_db 20 [toy_segment x0a x14]) 65535 (toy_query false 512 10)
    = Some (QUERY_IN_IXFR, q') /\
    ixfr_is_done q' = true /\
    query_ixfr plain_skip_dname plain_skip_rr plain_encode_rr axfr_stub
      (toy_db 20 [toy_segment x0a x14]) 65535 q'
    = Some (QUERY_PROCESSED, q').
Proof.
  eexists. split; [vm_compute; reflexivity|].
  refine ((fun H => conj (proj1 H) (proj2 (proj2 H)))
            (udp_stream_is_one_packet plain_skip_dname plain_skip_rr
               plain_encode_rr axfr_stub (toy_db 20 [toy_segment x0a x14])
               65535 (toy_query false 512 10) _ _ _ _)).
  - intros db q. discriminate.
  - reflexivity.
  - vm_compute. reflexivity.
Defined.

(** ** Signing *)

Lemma tsig_status_eqb_eq (a b : tsig_status) :
  tsig_status_eqb a b = true <-> a = b.
Proof. destruct a, b; simpl; split; congruence. Qed.

Lemma stream_answer_flags (total : N) (q1 : query) :
  let q' := stream_answer total q1 in
  tsig_update_it q' = tsig_update_it q1 /\
  tsig_prepare_it q' = tsig_prepare_it q1 /\
  tsig_sign_it q'
  = (tsig_sign_it q1 || tsig_status_eqb (tsig q1) TSIG_OK) /\
  ixfr_is_done q'
  = (ixfr_is_done q1 || negb (tcp q1)).
Proof.
  unfold stream_answer. cbn [tcp set_packet ixfr_is_done].
  destruct (tcp q1) eqn:Et, (ixfr_is_done q1) eqn:Ed;
    cbn [negb andb orb set_packet tsig set_ixfr_is_done];
    destruct (tsig_status_eqb (tsig q1) TSIG_OK); cbn;
    rewrite ?orb_true_r, ?orb_false_r, ?Et, ?Ed; repeat split.
Qed.

(** X13.  The TSIG flags query_ixfr leaves on a packet of the stream: the
    running digest is always updated, a new digest is prepared exactly when
    the packet before was signed, with TSIG status OK every packet is
    marked for signing, the packet that ends a stream over TCP is marked
    for signing whatever the status is, and without status OK no packet
    before the end is. *)
Theorem stream_packet_signing
  (packet_skip_dname : buffer -> option N)
  (packet_skip_rr : buffer -> bool -> option N)
  (packet_encode_rr : query -> option dname -> rr -> N -> option buffer)
  (query_axfr : namedb -> query -> query_state_type * query)
  (db : namedb) (capacity : N) (q q' : query) :
  (forall db q, fst (query_axfr db q) <> QUERY_IN_IXFR) ->
  query_ixfr packet_skip_dname packet_skip_rr packet_encode_rr query_axfr
    db capacity q = Some (QUERY_IN_IXFR, q') ->
  tsig_update_it q' = true /\
  tsig_prepare_it q' = tsig_sign_it q /\
  (tsig q = TSIG_OK -> tsig_sign_it q' = true) /\
  (tcp q = true -> ixfr_is_done q' = true -> tsig_sign_it q' = true) /\
  (tsig q <> TSIG_OK -> ixfr_is_done q' = false -> tsig_sign_it q' = false).
Proof.
  intros Haxfr Hq.
  destruct (query_ixfr_enters_stream _ _ _ _ _ _ _ _ Haxfr Hq)
    as [q0 [Hs [_ [Htcp [Hts [Hd0 [_ [Hup [Hprep Hfirst]]]]]]]]].
  destruct (query_ixfr_stream_parts _ _ _ Hs)
    as [total [q1 [cur [succs [e [e2 [Hc [He [Hfill ->]]]]]]]]].
  destruct (stream_fill_flags _ _ _ Hfill)
    as [Ht1 [Hts1 [Hu1 [Hp1 Hds]]]].
  destruct (stream_answer_flags total q1) as [Hu [Hp [Hsg Hdn]]].
  cbv zeta in Hu, Hp, Hsg, Hdn.
  assert (Hsign0 : tsig q <> TSIG_OK -> tsig_sign_it q0 = false).
  { intros Hne. destruct (q_ixfr_data q).
    - tauto.
    - destruct Hfirst as [_ [_ [_ [_ [_ [_ ->]]]]]].
      destruct (tsig_status_eqb (tsig q) TSIG_OK) eqn:E; [|reflexivity].
      apply tsig_status_eqb_eq in E. now elim Hne. }
  split; [congruence|]. split; [congruence|].
  rewrite Hsg, Hdn, Hts1, Hts, Ht1, Htcp.
  split; [|split].
  - intros Hok. apply (proj2 (tsig_status_eqb_eq _ _)) in Hok.
    rewrite Hok. apply orb_true_r.
  - intros Ht Hdone. rewrite Ht in Hdone. cbn [negb] in Hdone.
    rewrite orb_false_r in Hdone.
    destruct Hds as [[Hd _]|[_ Hsn]]; [congruence|].
    rewrite Hsn. reflexivity.
  - intros Hne Hdone. apply orb_false_iff in Hdone.
    destruct Hdone as [Hdone _].
    destruct Hds as [[_ Hsn]|[Hd _]]; [|congruence].
    rewrite Hsn, (Hsign0 Hne).
    destruct (tsig_status_eqb (tsig q) TSIG_OK) eqn:E; [|reflexivity].
    apply tsig_status_eqb_eq in E. now elim Hne.
Qed.

(** A stream without TSIG that fits one packet over TCP: the packet is the
    last one and is marked for signing. *)
Lemma stream_packet_signing_witness :
  exists q',
    query_ixfr plain_skip_dname plain_skip_rr plain_encode_rr axfr_stub
      (toy_db 20 [toy_segment x0a x14]) 65535 (toy_query true 65535 10)
    = Some (QUERY_IN_IXFR, q') /\
    tsig_update_it q' = true /\ tsig_sign_it q' = true.
Proof.
  assert (H : exists q',
             query_ixfr plain_skip_dname plain_skip_rr plain_encode_rr
               axfr_stub (toy_db 20 [toy_segment x0a x14]) 65535
               (toy_query true 65535 10) = Some (QUERY_IN_IXFR, q') /\
             ixfr_is_done q' = true)
    by (eexists; split; vm_compute; reflexivity).
  destruct H as [q' [E Hd]]. exists q'. split; [exact E|].
  destruct (stream_packet_signing plain_skip_dname plain_skip_rr
              plain_encode_rr axfr_stub (toy_db 20 [toy_segment x0a x14])
              65535 (toy_query true 65535 10) q')
    as [Hu [_ [_ [Hs _]]]].
  - intros db q. discriminate.
  - exact E.
  - split; [exact Hu|]. apply Hs; [reflexivity|exact Hd].
Defined.

(** ** The size budget at startup *)

Lemma ixfr_data_read_budget (sz : N) (parse : list byte -> option rr)
  (z z' : zone) (f : ixfr_file) (s s' : N) (num : Z) (ok : bool) :
  ixfr_data_read sz parse z f s num = (ok, z', s') ->
  ixfr_size (opts z) <> 0 ->
  (forall i, ixfr z = Some i -> total_size i <= ixfr_size (opts z)) ->
  opts z' = opts z /\
  forall i', ixfr z' = Some i' -> total_size i' <= ixfr_size (opts z).
Proof.
  unfold ixfr_data_read. intros H Hne Hz.
  destruct (match ixfr z with
            | Some i => count i =? ixfr_number (opts z)
            | None => false
            end).
  { injection H as _ <- _. auto. }
  destruct (apex z) as [a|].
  2: { injection H as _ <- _. auto. }
  destruct (ixfr_data_parse parse z f s num) as [[d|] s1].
  2: { injection H as _ <- _. auto. }
  cbn [opts set_zone_ixfr] in H.
  apply N.eqb_neq in Hne. rewrite Hne in H. cbn [negb andb] in H.
  assert (H0 : total_size (match ixfr z with
                           | Some i => i
                           | None => zone_ixfr_create
                           end) <= ixfr_size (opts z)).
  { destruct (ixfr z) as [i|]; [now apply Hz|]. cbn. lia. }
  destruct (ixfr_size (opts z) <? _) eqn:E;
    [|apply N.ltb_ge in E]; injection H as _ <- _; cbn [opts ixfr].
  - split; [reflexivity|]. now intros i' [= <-].
  - split; [reflexivity|]. intros i' [= <-]. exact E.
Qed.

Lemma ixfr_read_files_budget (sz : N) (parse : list byte -> option rr)
  (files : list ixfr_file) :
  forall z s n z' s' n',
    ixfr_read_files sz parse files z s n = (z', s', n') ->
    ixfr_size (opts z) <> 0 ->
    (forall i, ixfr z = Some i -> total_size i <= ixfr_size (opts z)) ->
    opts z' = opts z /\
    forall i', ixfr z' = Some i' -> total_size i' <= ixfr_size (opts z).
Proof.
  induction files as [|f files IH]; intros z s n z' s' n' H Hne Hz.
  - injection H as <- _ _. auto.
  - cbn [ixfr_read_files] in H.
    destruct (ixfr_data_read sz parse z f s (n + 1)) as [[ok z1] s1] eqn:E.
    destruct (ixfr_data_read_budget _ _ _ _ _ _ _ _ _ E Hne Hz) as [Ho H1].
    destruct ok.
    + rewrite <- Ho in Hne, H1.
      destruct (IH _ _ _ _ _ _ H Hne H1) as [Ho' H2].
      rewrite Ho in Ho', H2. auto.
    + injection H as <- _ _. auto.
Qed.

(** X14.  When an ixfr-size is configured, the chain that
    ixfr_read_from_file leaves behind stays within it: total_size is at
    most ixfr_size, however many files there are and whatever they hold,
    and the options of the zone are not touched. *)
Theorem startup_respects_size_budget (sizeof_ixfr_data : N)
  (zonec_parse_string : list byte -> option rr) (z : zone)
  (files : list ixfr_file) (i : zone_ixfr) :
  ixfr_size (opts z) <> 0 ->
  ixfr (ixfr_read_from_file sizeof_ixfr_data zonec_parse_string z files)
  = Some i ->
  total_size i <= ixfr_size (opts z) /\
  opts (ixfr_read_from_file sizeof_ixfr_data zonec_parse_string z files)
  = opts z.
Proof.
  intros Hne. unfold ixfr_read_from_file.
  destruct (ixfr_read_files _ _ files _ _ 0) as [[z1 s1] n1] eqn:E.
  apply ixfr_read_files_budget in E; cbn [opts set_zone_ixfr ixfr];
    [|exact Hne|].
  2: { intros i0. destruct (ixfr z); cbn; [|discriminate].
       intros [= <-]. cbn. lia. }
  cbn [opts set_zone_ixfr] in E. destruct E as [Ho Hb].
  destruct (0 <? n1)%Z.
  - destruct (ixfr z1) as [i1|] eqn:E1; cbn [ixfr opts set_zone_ixfr].
    + intros [= <-]. cbn. split; [now apply Hb|exact Ho].
    + rewrite E1. discriminate.
  - intros Hi. split; [now apply Hb|exact Ho].
Qed.

(** Two files of 220 octets each and an ixfr-size of 300: the second file
    is left out. *)
Lemma startup_respects_size_budget_witness :
  exists i,
    ixfr (ixfr_read_from_file 64 toy_parse (toy_zone 20 5 300)
            [toy_file x0a x14; toy_file x05 x0a]) = Some i /\
    total_size i <= 300 /\ length (data i) = 1%nat.
Proof.
  eexists. split; [vm_compute; reflexivity|]. split.
  - refine (proj1 (startup_respects_size_budget 64 toy_parse
                     (toy_zone 20 5 300)
                     [toy_file x0a x14; toy_file x05 x0a] _ _ _)).
    + vm_compute. discriminate.
    + vm_compute. reflexivity.
  - reflexivity.
Defined.

(** ** Records put by the builder *)

Lemma byte_of_N_low (a b : N) :
  (forall k, k < 8 -> N.testbit a k = N.testbit b k) ->
  byte_of_N a = byte_of_N b.
Proof.
  intros H. unfold byte_of_N. replace (a mod 256) with (b mod 256);
    [reflexivity|].
  apply N.bits_inj. intros k. change 256 with (2 ^ 8).
  destruct (N.lt_ge_cases k 8) as [Hk|Hk].
  - rewrite !N.mod_pow2_bits_low by exact Hk. symmetry. now apply H.
  - now rewrite !N.mod_pow2_bits_high by exact Hk.
Qed.

(** A 16-bit field takes the low 16 bits of a size_t. *)
Lemma write_uint16_size (v : N) :
  write_uint16 (v mod SIZE_MOD) = write_uint16 v.
Proof.
  unfold write_uint16. change SIZE_MOD with (2 ^ 64).
  f_equal; [|f_equal]; apply byte_of_N_low; intros k Hk.
  - rewrite !N.shiftr_spec'. apply N.mod_pow2_bits_low. lia.
  - apply N.mod_pow2_bits_low. lia.
Qed.

Lemma rdlen_uncompressed_mod (atoms : list rdata_atom) :
  forall acc,
    fold_left (fun acc a => size_add acc (blen (atom_wire a))) atoms
      (acc mod SIZE_MOD)
    = (acc + blen (flat_map atom_wire atoms)) mod SIZE_MOD.
Proof.
  induction atoms as [|a atoms IH]; intros acc; cbn [fold_left flat_map].
  - rewrite blen_nil. f_equal. lia.
  - rewrite blen_app. unfold size_add at 2.
    rewrite N.Div0.add_mod_idemp_l, IH. f_equal. lia.
Qed.

(** What ixfr_putrr has appended when it returns 1, also for sizes that
    wrap. *)
Lemma ixfr_putrr_record (owner : dname) (type klass ttl : N)
  (atoms : list rdata_atom) (rrs rrs' : option (list byte))
  (capacity capacity' : N) :
  ixfr_putrr owner type klass ttl atoms rrs capacity
  = (true, rrs', capacity') ->
  rrs' = Some (buf_bytes rrs
               ++ record_wire {| rr_owner := owner; rr_type := type;
                                 rr_klass := klass; rr_ttl := ttl;
                                 rdatas := atoms |}).
Proof.
  assert (Hw : write_uint16
                 (fold_left (fun acc a => size_add acc (blen (atom_wire a)))
                    atoms 0)
               = write_uint16 (blen (flat_map atom_wire atoms))).
  { change 0 with (0 mod SIZE_MOD) at 1.
    rewrite rdlen_uncompressed_mod, N.add_0_l. apply write_uint16_size. }
  unfold ixfr_putrr. rewrite Hw.
  match goal with
  | |- context [ixfr_rrs_make_space rrs capacity ?sz] =>
      destruct (ixfr_rrs_make_space_ok rrs capacity sz) as [c [-> _]]
  end.
  destruct (c <? _); [discriminate|].
  intros H. injection H as <- _. reflexivity.
Qed.

(** X15.  What ixfr_store_putrr (ixfr_store_delrr, ixfr_store_addrr) leaves
    behind when it returns.  For a cancelled store and for a record of type
    SOA nothing changes.  Otherwise the store is either cancelled and holds
    no segment, or the rdata was parsed and exactly one record, in
    uncompressed wire form, has been appended to the run the call was
    pointed at; the other run, both SOA buffers and the serials are as
    before.  A run never ends in a part of a record. *)
Theorem store_putrr_appends_one_record
  (sizeof_ixfr_data : N) (node_key_slot : ixfr_data -> N)
  (rdata_wireformat_to_rdata_atoms :
     N -> N -> buffer -> option (list rdata_atom))
  (fuel : nat) (z z' : zone) (st st' : ixfr_store) (owner : dname)
  (type klass ttl : N) (packet : buffer) (rrlen : N) (w : run) :
  ixfr_store_putrr sizeof_ixfr_data node_key_slot
    rdata_wireformat_to_rdata_atoms fuel z st owner type klass ttl packet
    rrlen w = Some (z', st') ->
  if cancelled st || (type =? TYPE_SOA) then z' = z /\ st' = st
  else
    (cancelled st' = true /\ store_data st' = None) \/
    exists d atoms,
      store_data st = Some d /\
      rdata_wireformat_to_rdata_atoms type rrlen packet = Some atoms /\
      cancelled st' = false /\
      store_data st'
      = Some (set_run_rrs w d
                (Some (buf_bytes (run_rrs w d)
                       ++ record_wire {| rr_owner := owner; rr_type := type;
                                         rr_klass := klass; rr_ttl := ttl;
                                         rdatas := atoms |}))).
Proof.
  unfold ixfr_store_putrr.
  destruct (cancelled st) eqn:Ec; [now intros [= <- <-]|].
  destruct (type =? TYPE_SOA); [now intros [= <- <-]|].
  cbn [orb].
  destruct (zone_ixfr_make_space _ _ fuel (ixfr z) (opts z) (store_data st) st)
    as [[i st1]|] eqn:Em; [|discriminate].
  assert (Hst : st1 = st \/ st1 = ixfr_store_cancel st).
  { destruct (ixfr z) as [i0|], (store_data st) as [d0|];
      try (cbn in Em; injection Em as _ <-; now left).
    now destruct (make_space_store _ _ _ _ _ _ _ _ _ Em). }
  destruct Hst as [->| ->].
  2: { cbn [cancelled ixfr_store_cancel]. intros [= _ <-]. left. now split. }
  rewrite Ec.
  destruct (rdata_wireformat_to_rdata_atoms type rrlen packet) as [atoms|];
    [|intros [= _ <-]; left; now split].
  destruct (store_data st) as [d|] eqn:Ed; [|discriminate].
  destruct (ixfr_putrr owner type klass ttl atoms (run_rrs w d)
              (run_capacity w st)) as [[ok rrs] c] eqn:Ep.
  destruct ok.
  - intros [= _ <-]. right. exists d, atoms.
    apply ixfr_putrr_record in Ep. subst rrs.
    repeat split; try reflexivity. cbn. exact Ec.
  - intros [= _ <-]. left. now split.
Qed.

(** The record "a. A IN 3600 07" is deleted in a builder that holds no
    record yet. *)
Lemma store_putrr_appends_one_record_witness :
  exists st',
    ixfr_store_delrr 64 (fun _ => 0) (fun _ _ _ => Some [AtomData [x07]]) 1
      roomy_zone builder_with_newsoa [x01; x61; x00] 1 1 3600
      {| hdr := mk_header 1 0 0 0 false false 0; buf_data := [x07];
         position := 0; limit := 1 |} 1 = Some (roomy_zone, st') /\
    option_map del (store_data st')
    = Some (Some (record_wire {| rr_owner := [x01; x61; x00]; rr_type := 1;
                                 rr_klass := 1; rr_ttl := 3600;
                                 rdatas := [AtomData [x07]] |})).
Proof.
  assert (H : exists st',
             ixfr_store_delrr 64 (fun _ => 0)
               (fun _ _ _ => Some [AtomData [x07]]) 1
               roomy_zone builder_with_newsoa [x01; x61; x00] 1 1 3600
               {| hdr := mk_header 1 0 0 0 false false 0; buf_data := [x07];
                  position := 0; limit := 1 |} 1 = Some (roomy_zone, st'))
    by (eexists; vm_compute; reflexivity).
  destruct H as [st' E]. exists st'. split; [exact E|].
  pose proof (store_putrr_appends_one_record _ _ _ _ _ _ _ _ _ _ _ _ _ _ _ E)
    as H.
  cbn [cancelled builder_with_newsoa orb] in H.
  change (1 =? TYPE_SOA) with false in H. cbv iota in H.
  destruct H as [[Hc _]|[d [atoms [Hd [Ha [_ ->]]]]]].
  - exfalso. revert Hc. vm_compute in E. injection E as <-. discriminate.
  - injection Hd as <-. injection Ha as <-. reflexivity.
Defined.

(** ** The SOA records of the builder *)

Lemma write_uint16_u16 (v : N) :
  write_uint16 (v mod UINT16_MOD) = write_uint16 v.
Proof.
  unfold write_uint16. change UINT16_MOD with (2 ^ 16).
  f_equal; [|f_equal]; apply byte_of_N_low; intros k Hk.
  - rewrite !N.shiftr_spec'. apply N.mod_pow2_bits_low. lia.
  - apply N.mod_pow2_bits_low. lia.
Qed.

Lemma store_soa_record_wire (apex_name : dname) (ttl : N)
  (primns email : dname) (fields : N * N * N * N * N) :
  store_soa apex_name ttl
    ((blen primns + blen email + 4 + 4 + 4 + 4 + 4) mod UINT16_MOD)
    primns email fields
  = record_wire (soa_record apex_name ttl primns email fields).
Proof.
  destruct fields as [[[[serial refresh] retry] expire] minimum].
  unfold store_soa, record_wire, soa_record.
  cbn [rr_owner rr_type rr_klass rr_ttl rdatas flat_map atom_wire].
  rewrite write_uint16_u16. do 4 f_equal.
  rewrite app_nil_r. f_equal.
  rewrite !blen_app. unfold write_uint32. rewrite !blen_cons, blen_nil.
  f_equal. lia.
Qed.

Lemma soa_record_walked (apex_name : dname) (ttl : N)
  (primns email : dname) (fields : N * N * N * N * N) (post : list byte) :
  name_wf apex_name ->
  blen primns + blen email + 20 < UINT16_MOD ->
  let soa := record_wire (soa_record apex_name ttl primns email fields) in
  count_rr_length (soa ++ post) (blen (soa ++ post)) 0 = Some (blen soa).
Proof.
  intros Hn Hl soa.
  assert (Hs : rr_storable (soa_record apex_name ttl primns email fields)).
  { destruct fields as [[[[serial refresh] retry] expire] minimum].
    split; [exact Hn|].
    cbn [soa_record rdatas flat_map atom_wire].
    rewrite !blen_app. unfold write_uint32. rewrite !blen_cons, blen_nil.
    lia. }
  destruct (record_wire_rr_wire _ Hs) as [ls [fixed [hi [lo [Hwf E]]]]].
  unfold soa. rewrite E.
  exact (count_rr_length_wf [] post ls fixed hi lo _ Hwf).
Qed.

(** X16.  The SOA that ixfr_store_add_newsoa and ixfr_store_add_oldsoa
    store, when they return with the store not cancelled, is one record in
    uncompressed wire form: the apex as owner, type SOA, class IN, the TTL
    (read at ttlpos, or the one passed in) and the two names and five
    numbers that read_soa_rdata took from the packet; nothing else of the
    segment changes.  It is the record ixfr_putrr stores for the same SOA,
    and count_rr_length reads it as one record when the apex is well formed
    and the names are of DNS size. *)
Theorem stored_soa_is_one_record
  (sizeof_ixfr_data : N) (node_key_slot : ixfr_data -> N)
  (dname_make_wire_from_packet : buffer -> option (dname * N))
  (fuel : nat) (z : zone) (st : ixfr_store) (packet : buffer)
  (ttlpos ttl rrlen : N) :
  cancelled st = false ->
  (forall st',
      ixfr_store_add_newsoa dname_make_wire_from_packet z st packet ttlpos
      = Some st' ->
      cancelled st' = false ->
      exists d apex_name primns email fields sz p,
        store_data st = Some d /\ apex z = Some apex_name /\
        read_soa_rdata dname_make_wire_from_packet
          (buffer_set_position packet (ttlpos + 4 + 2))
          (size_add (size_add (size_add (blen apex_name) (2 + 2)) 4) 2)
        = Some (primns, email, fields, sz, p) /\
        store_data st'
        = Some (set_newsoa d
                  (Some (record_wire
                           (soa_record apex_name
                              (read_uint32 (buf_data packet) ttlpos)
                              primns email fields)))) /\
        (forall post,
            name_wf apex_name ->
            blen primns + blen email + 20 < UINT16_MOD ->
            let soa := record_wire
                         (soa_record apex_name
                            (read_uint32 (buf_data packet) ttlpos)
                            primns email fields) in
            count_rr_length (soa ++ post) (blen (soa ++ post)) 0
            = Some (blen soa))) /\
  (forall z' st',
      ixfr_store_add_oldsoa sizeof_ixfr_data node_key_slot
        dname_make_wire_from_packet fuel z st ttl packet rrlen
      = Some (z', st') ->
      cancelled st' = false ->
      exists d apex_name primns email fields sz p,
        store_data st = Some d /\ apex z = Some apex_name /\
        read_soa_rdata dname_make_wire_from_packet packet
          (size_add (blen apex_name) (2 + 2 + 4 + 2))
        = Some (primns, email, fields, sz, p) /\
        store_data st'
        = Some (set_oldsoa d
                  (Some (record_wire
                           (soa_record apex_name ttl primns email fields)))) /\
        (forall post,
            name_wf apex_name ->
            blen primns + blen email + 20 < UINT16_MOD ->
            let soa := record_wire
                         (soa_record apex_name ttl primns email fields) in
            count_rr_length (soa ++ post) (blen (soa ++ post)) 0
            = Some (blen soa))).
Proof.
  intros Hc. split.
  - intros st'. unfold ixfr_store_add_newsoa. rewrite Hc.
    destruct (store_data st) as [d|] eqn:Ed; [|discriminate].
    destruct (apex z) as [apex_name|] eqn:Ea; [|discriminate].
    destruct (negb (buffer_available _ (4 + 2)));
      [intros [= <-]; discriminate|].
    cbn [buffer_read_u32 buffer_read_u16 fst snd].
    destruct (negb (buffer_available _ _));
      [intros [= <-]; discriminate|].
    match goal with
    | |- context [read_soa_rdata _ ?p ?s] =>
        destruct (read_soa_rdata dname_make_wire_from_packet p s)
          as [[[[[primns email] fields] sz] p']|] eqn:Er
    end; [|intros [= <-]; discriminate].
    intros [= <-] _.
    exists d, apex_name, primns, email, fields, sz, p'.
    split; [reflexivity|]. split; [reflexivity|]. split.
    + exact Er.
    + split.
      * cbn [store_data set_store_data]. rewrite store_soa_record_wire.
        reflexivity.
      * intros post. apply soa_record_walked.
  - intros z' st'. unfold ixfr_store_add_oldsoa. rewrite Hc.
    destruct (store_data st) as [d|] eqn:Ed; [|discriminate].
    cbn [store_data set_store_data].
    destruct (zone_ixfr_make_space _ _ fuel (ixfr z) (opts z)
                (Some (set_oldsoa d None)) (set_store_data st
                                              (Some (set_oldsoa d None))))
      as [[i st1]|] eqn:Em; [|discriminate].
    assert (Hst : st1 = set_store_data st (Some (set_oldsoa d None)) \/
                  st1 = ixfr_store_cancel
                          (set_store_data st (Some (set_oldsoa d None)))).
    { destruct (ixfr z) as [i0|];
        [|cbn in Em; injection Em as _ <-; now left].
      now destruct (make_space_store _ _ _ _ _ _ _ _ _ Em). }
    destruct Hst as [->| ->].
    2: { cbn [cancelled ixfr_store_cancel]. intros [= _ <-]. discriminate. }
    cbn [cancelled set_store_data]. rewrite Hc.
    cbn [apex set_zone_ixfr].
    destruct (apex z) as [apex_name|] eqn:Ea; [|discriminate].
    destruct (negb (buffer_available _ _));
      [intros [= _ <-]; discriminate|].
    match goal with
    | |- context [read_soa_rdata _ ?p ?s] =>
        destruct (read_soa_rdata dname_make_wire_from_packet p s)
          as [[[[[primns email] fields] sz] p']|] eqn:Er
    end; [|intros [= _ <-]; discriminate].
    intros [= _ <-] _.
    exists d, apex_name, primns, email, fields, sz, p'.
    split; [reflexivity|]. split; [reflexivity|]. split; [exact Er|].
    split.
    + cbn [store_data set_store_data]. rewrite store_soa_record_wire.
      reflexivity.
    + intros post. apply soa_record_walked.
Qed.

(** The new SOA of serial 20 is stored as the record the toy parser has
    for the line "S" 20. *)
Lemma stored_soa_is_one_record_witness :
  exists st',
    ixfr_store_add_newsoa root_name_from_packet roomy_zone
      (ixfr_store_start 10 20) (toy_soa_packet 20) 0 = Some st' /\
    option_map newsoa (store_data st')
    = Some (Some (record_wire (toy_soa 20))).
Proof.
  assert (H : exists st',
             ixfr_store_add_newsoa root_name_from_packet roomy_zone
               (ixfr_store_start 10 20) (toy_soa_packet 20) 0 = Some st' /\
             cancelled st' = false)
    by (eexists; split; vm_compute; reflexivity).
  destruct H as [st' [E Hc]]. exists st'. split; [exact E|].
  destruct (stored_soa_is_one_record 64 (fun _ => 0) root_name_from_packet 1
              roomy_zone (ixfr_store_start 10 20) (toy_soa_packet 20) 0 0 0
              eq_refl) as [Hn _].
  destruct (Hn st' E Hc)
    as [d [a [primns [email [fields [sz [p [Hd [Ha [Hr [-> _]]]]]]]]]]].
  injection Hd as <-. injection Ha as <-.
  vm_compute in Hr. injection Hr as <- <- <- _ _. reflexivity.
Defined.

(** ** The IXFR files on disk *)

(** *** Decimal numbers *)

Lemma digit_byte (d : N) : d < 10 -> u8 (byte_of_N (48 + d)) = 48 + d.
Proof. intros H. rewrite u8_byte_of_N. apply N.mod_small. lia. Qed.

Lemma little_digits_value (fuel : nat) :
  forall n, n < 10 ^ N.of_nat fuel ->
            little_value (little_digits fuel n) = n.
Proof.
  induction fuel as [|fuel IH]; intros n Hn.
  - change (10 ^ N.of_nat 0) with 1 in Hn. cbn [little_digits little_value].
    lia.
  - cbn [little_digits little_value].
    rewrite digit_byte by (apply N.mod_lt; discriminate).
    rewrite Nat2N.inj_succ, N.pow_succ_r' in Hn.
    pose proof (N.div_mod n 10 ltac:(discriminate)) as Hdm.
    assert (Hq : n / 10 < 10 ^ N.of_nat fuel)
      by (apply N.Div0.div_lt_upper_bound; exact Hn).
    specialize (IH _ Hq). clear Hn Hq.
    revert Hdm IH. generalize (n mod 10). generalize (n / 10).
    intros q r Hdm IH.
    destruct (q =? 0) eqn:E.
    + apply N.eqb_eq in E. cbn [little_value]. lia.
    + rewrite IH. lia.
Qed.

Lemma decimal_fuel (n : N) : n < 10 ^ N.of_nat (S (N.to_nat (N.log2 n))).
Proof.
  rewrite Nat2N.inj_succ, N2Nat.id.
  destruct (N.eq_dec n 0) as [->|Hn]; [reflexivity|].
  destruct (N.log2_spec n ltac:(lia)) as [_ H].
  eapply N.lt_le_trans; [exact H|].
  apply N.pow_le_mono_l. lia.
Qed.

Lemma decimal_inj (a b : N) : decimal a = decimal b -> a = b.
Proof.
  unfold decimal. intros H.
  apply (f_equal (@rev byte)) in H. rewrite !rev_involutive in H.
  apply (f_equal little_value) in H.
  now rewrite !little_digits_value in H by apply decimal_fuel.
Qed.

Lemma little_digits_length (fuel : nat) :
  forall n k, n < 10 ^ N.of_nat k -> (1 <= k)%nat ->
              (length (little_digits fuel n) <= k)%nat.
Proof.
  induction fuel as [|fuel IH]; intros n k Hn Hk; [simpl; lia|].
  cbn [little_digits length].
  destruct (n / 10 =? 0) eqn:E; [simpl; lia|].
  apply N.eqb_neq in E.
  destruct k as [|k]; [lia|].
  rewrite Nat2N.inj_succ, N.pow_succ_r' in Hn.
  assert (Hq : n / 10 < 10 ^ N.of_nat k)
    by (apply N.Div0.div_lt_upper_bound; exact Hn).
  destruct k as [|k].
  { change (10 ^ N.of_nat 0) with 1 in Hq. revert E Hq.
    generalize (n / 10). intros; lia. }
  specialize (IH (n / 10) (S k) Hq ltac:(lia)). lia.
Qed.

Lemma decimal_length (n : N) (k : nat) :
  n < 10 ^ N.of_nat k -> (1 <= k)%nat -> (length (decimal n) <= k)%nat.
Proof.
  intros Hn Hk. unfold decimal. rewrite length_rev.
  now apply little_digits_length.
Qed.

Lemma little_digits_digits (fuel : nat) :
  forall n, Forall (fun c => 48 <= u8 c <= 57) (little_digits fuel n).
Proof.
  induction fuel as [|fuel IH]; intros n; [constructor|].
  cbn [little_digits]. constructor.
  - pose proof (N.mod_lt n 10 ltac:(discriminate)) as H.
    rewrite digit_byte by assumption. revert H.
    generalize (n mod 10). intros; lia.
  - destruct (n / 10 =? 0); [constructor|apply IH].
Qed.

Lemma decimal_digits (n : N) : Forall (fun c => 48 <= u8 c <= 57) (decimal n).
Proof. unfold decimal. apply Forall_rev, little_digits_digits. Qed.

(** *** File names *)

(** For a zone file name of at most 1024 octets the names of the files
    with different numbers differ. *)
Lemma make_ixfr_name_inj (zfile : list byte) (a b : Z) :
  (length (c_string zfile) <= 1024)%nat ->
  (0 <= a < 2147483648)%Z -> (0 <= b < 2147483648)%Z ->
  make_ixfr_name zfile a = make_ixfr_name zfile b -> a = b.
Proof.
  intros Hz Ha Hb. unfold make_ixfr_name, snprintf.
  assert (Hd : forall n, (0 <= n < 2147483648)%Z ->
                         decimal_int n = decimal (Z.to_N n) /\
                         (length (decimal (Z.to_N n)) <= 10)%nat).
  { intros n Hn. unfold decimal_int.
    destruct (n <? 0)%Z eqn:E; [apply Z.ltb_lt in E; lia|].
    split; [reflexivity|]. apply decimal_length; [|lia].
    change (10 ^ N.of_nat 10) with 10000000000. lia. }
  destruct (Hd a Ha) as [Ea La], (Hd b Hb) as [Eb Lb].
  rewrite Ea, Eb.
  assert (Hcut : forall l : list byte,
             (length l <= 1040)%nat ->
             firstn (N.to_nat (1024 + 24 - 1)) l = l).
  { intros l Hl. apply firstn_all2.
    change (N.to_nat (1024 + 24 - 1)) with 1047%nat. lia. }
  rewrite !Hcut
    by (destruct (_ =? 1)%Z; rewrite !length_app; simpl length; lia).
  destruct (a =? 1)%Z eqn:A1, (b =? 1)%Z eqn:B1;
    try apply Z.eqb_eq in A1; try apply Z.eqb_eq in B1; intros H;
    apply app_inv_head in H.
  - congruence.
  - discriminate H.
  - discriminate H.
  - injection H as H. apply decimal_inj in H. lia.
Qed.

(** *** The directory *)

Lemma name_eqb_eq (a b : list byte) : name_eqb a b = true <-> a = b.
Proof.
  unfold name_eqb. destruct (list_eq_dec _ a b); split; congruence.
Qed.

Lemma name_eqb_refl (a : list byte) : name_eqb a a = true.
Proof. now apply name_eqb_eq. Qed.

Lemma name_eqb_neq (a b : list byte) : a <> b -> name_eqb a b = false.
Proof.
  intros H. destruct (name_eqb a b) eqn:E; [|reflexivity].
  now apply name_eqb_eq in E.
Qed.

Lemma disk_find_remove (dk : disk) (n m : list byte) :
  disk_find (disk_remove dk n) m
  = if name_eqb n m then None else disk_find dk m.
Proof.
  induction dk as [|[n0 c] dk IH]; simpl.
  - now destruct (name_eqb n m).
  - destruct (name_eqb n0 n) eqn:E0; simpl.
    + apply name_eqb_eq in E0. subst n0. rewrite IH.
      now destruct (name_eqb n m).
    + rewrite IH. destruct (name_eqb n0 m) eqn:E1; [|reflexivity].
      apply name_eqb_eq in E1. subst n0.
      destruct (name_eqb n m) eqn:E2; [|reflexivity].
      apply name_eqb_eq in E2. subst n. now rewrite name_eqb_refl in E0.
Qed.

Lemma disk_find_store (dk : disk) (n c m : list byte) :
  disk_find (disk_store dk n c) m
  = if name_eqb n m then Some c else disk_find dk m.
Proof.
  unfold disk_store. cbn [disk_find].
  destruct (name_eqb n m) eqn:E; [reflexivity|].
  now rewrite disk_find_remove, E.
Qed.

Lemma disk_remove_length (dk : disk) (n : list byte) :
  (length (disk_remove dk n) <= length dk)%nat.
Proof. apply filter_length_le. Qed.

Lemma disk_remove_shrinks (dk : disk) (n : list byte) :
  disk_find dk n <> None -> (length (disk_remove dk n) < length dk)%nat.
Proof.
  induction dk as [|[n0 c] dk IH]; simpl; [congruence|].
  destruct (name_eqb n0 n) eqn:E; simpl.
  - intros _. pose proof (disk_remove_length dk n). unfold disk_remove in *.
    lia.
  - intros H. specialize (IH H). unfold disk_remove in *. lia.
Qed.

(** *** Deleting the files that are too many *)

Lemma unlink_loop_spec (zfile : list byte) (fuel : nat) :
  forall dk i,
    (length dk < fuel)%nat ->
    exists dk',
      unlink_loop fuel dk zfile i = Some dk' /\
      (forall n c, disk_find dk' n = Some c -> disk_find dk n = Some c) /\
      (forall n, (forall j, (0 <= j < Z.of_nat (length dk))%Z ->
                            n <> make_ixfr_name zfile (i + j)) ->
                 disk_find dk' n = disk_find dk n) /\
      (disk_find dk (make_ixfr_name zfile i) <> None ->
       disk_find dk' (make_ixfr_name zfile i) = None).
Proof.
  induction fuel as [|fuel IH]; intros dk i Hf; [lia|].
  cbn [unlink_loop]. unfold ixfr_unlink_it, unlink.
  destruct (disk_find dk (make_ixfr_name zfile i)) as [c0|] eqn:E.
  - assert (Hlen : (length (disk_remove dk (make_ixfr_name zfile i))
                    < length dk)%nat).
    { apply disk_remove_shrinks. congruence. }
    destruct (IH (disk_remove dk (make_ixfr_name zfile i)) (i + 1)%Z
                ltac:(lia)) as [dk' [-> [Hsub [Hkeep _]]]].
    exists dk'. split; [reflexivity|]. split; [|split].
    + intros n c H. apply Hsub in H. rewrite disk_find_remove in H.
      now destruct (name_eqb _ n).
    + intros n Hn. rewrite Hkeep.
      * rewrite disk_find_remove, name_eqb_neq; [reflexivity|].
        intros Heq. apply (Hn 0%Z ltac:(lia)). now rewrite Z.add_0_r.
      * intros j Hj. replace (i + 1 + j)%Z with (i + (1 + j))%Z by lia.
        apply Hn. lia.
    + intros _.
      destruct (disk_find dk' (make_ixfr_name zfile i)) as [c|] eqn:E';
        [|reflexivity].
      apply Hsub in E'. now rewrite disk_find_remove, name_eqb_refl in E'.
  - exists dk. split; [reflexivity|]. split; [auto|]. split; [auto|].
    congruence.
Qed.

Lemma delete_superfluous_spec (fuel : nat) (dk : disk) (zfile : list byte)
  (dest_num_files : Z) :
  (length dk < fuel)%nat ->
  exists dk',
    ixfr_delete_superfluous_files fuel dk zfile dest_num_files = Some dk' /\
    ixfr_file_exists dk' zfile (dest_num_files + 1) = false /\
    (forall n c, disk_find dk' n = Some c -> disk_find dk n = Some c) /\
    (forall n, (forall j, (1 <= j <= Z.of_nat (length dk))%Z ->
                          n <> make_ixfr_name zfile (dest_num_files + j)) ->
               disk_find dk' n = disk_find dk n).
Proof.
  intros Hf. unfold ixfr_delete_superfluous_files, ixfr_file_exists.
  destruct (disk_find dk (make_ixfr_name zfile (dest_num_files + 1)))
    as [c|] eqn:E; cbn [negb].
  - destruct (unlink_loop_spec zfile fuel dk (dest_num_files + 1)%Z Hf)
      as [dk' [-> [Hsub [Hkeep Hgone]]]].
    exists dk'. split; [reflexivity|].
    rewrite Hgone by congruence.
    split; [reflexivity|]. split; [exact Hsub|].
    intros n Hn. apply Hkeep. intros j Hj Heq.
    apply (Hn (1 + j)%Z ltac:(lia)). rewrite Heq. f_equal. lia.
  - exists dk. split; [reflexivity|]. rewrite E. auto.
Qed.



(** *** Renaming the files of the chain *)

Lemma make_ixfr_name_neq (zfile : list byte) (a b : Z) :
  (length (c_string zfile) <= 1024)%nat ->
  (0 <= a < 2147483648)%Z -> (0 <= b < 2147483648)%Z -> a <> b ->
  name_eqb (make_ixfr_name zfile a) (make_ixfr_name zfile b) = false.
Proof.
  intros Hz Ha Hb Hab. apply name_eqb_neq. intros E.
  now apply make_ixfr_name_inj in E.
Qed.

Lemma to_int_small (n : N) : n < 2147483648 -> to_int n = Z.of_N n.
Proof.
  intros H. unfold to_int. unfold UINT32_MOD.
  rewrite N.mod_small by lia.
  destruct (Z.of_N n <? 2147483648)%Z eqn:E; [reflexivity|].
  apply Z.ltb_ge in E. lia.
Qed.

Lemma countdown_length (n : nat) : length (countdown n) = n.
Proof. induction n as [|n IH]; simpl; [reflexivity|now rewrite IH]. Qed.

Lemma countdown_cons (d : ixfr_data) (l : list ixfr_data) :
  map file_num (d :: l) = countdown (length (d :: l)) ->
  file_num d = Z.of_nat (S (length l)) /\
  map file_num l = countdown (length l).
Proof. intros H. injection H as Hd Hl. split; assumption. Qed.

Lemma number_above_countdown (l : list ixfr_data) :
  map file_num l = countdown (length l) -> number_above 0 l = l.
Proof.
  induction l as [|d l IH]; [reflexivity|]. intros H.
  apply countdown_cons in H. destruct H as [Hd Hl].
  change (set_file_num d (0 + Z.of_nat (S (length l))) :: number_above 0 l
          = d :: l).
  rewrite (IH Hl), Z.add_0_l. f_equal.
  destruct d. cbn [file_num] in Hd. unfold set_file_num. cbn.
  rewrite Hd. reflexivity.
Qed.

Lemma number_above_app (olds news : list ixfr_data) :
  number_above 0 (olds ++ news)
  = number_above (Z.of_nat (length news)) olds ++ number_above 0 news.
Proof.
  induction olds as [|d olds IH]; [reflexivity|].
  cbn [app number_above]. rewrite IH. f_equal. f_equal.
  cbn [length]. rewrite length_app. lia.
Qed.

Lemma number_up_snoc (l : list ixfr_data) :
  forall num d,
    number_up num (l ++ [d])
    = number_up num l ++ [set_file_num d (num + Z.of_nat (length l))].
Proof.
  induction l as [|x l IH]; intros num d; cbn [app number_up length].
  - now rewrite Z.add_0_r.
  - rewrite IH. do 4 f_equal. lia.
Qed.

Lemma number_up_rev (news : list ixfr_data) :
  rev (number_up 1 (rev news)) = number_above 0 news.
Proof.
  induction news as [|d news IH]; [reflexivity|].
  cbn [rev number_above]. rewrite number_up_snoc, rev_app_distr.
  cbn [rev app]. rewrite IH. f_equal. f_equal.
  rewrite length_rev. cbn [length]. lia.
Qed.

Lemma number_above_file_num (base : Z) (l : list ixfr_data) :
  (0 <= base)%Z ->
  Forall (fun d => file_num d <> 0%Z) (number_above base l).
Proof.
  intros Hb. induction l as [|d l IH]; [constructor|].
  cbn [number_above]. constructor; [|exact IH].
  cbn [file_num set_file_num length]. lia.
Qed.

(** The file at [destnum] is out of the way, whether it was there or
    not. *)
Lemma unlink_if_exists (dk : disk) (zfile : list byte) (destnum : Z) (n : list byte) :
  disk_find (if ixfr_file_exists dk zfile destnum
             then snd (ixfr_unlink_it dk zfile destnum false)
             else dk) n
  = if name_eqb (make_ixfr_name zfile destnum) n then None
    else disk_find dk n.
Proof.
  unfold ixfr_file_exists, ixfr_unlink_it, unlink.
  destruct (disk_find dk (make_ixfr_name zfile destnum)) as [c|] eqn:E;
    cbn [snd].
  - apply disk_find_remove.
  - destruct (name_eqb _ n) eqn:En; [|reflexivity].
    apply name_eqb_eq in En. now subst n.
Qed.

(** With no unwritten segment the oldest file already has its number and
    nothing is renamed. *)
Lemma rename_loop_nothing (dk : disk) (zfile : list byte)
  (before olds : list ixfr_data) :
  map file_num olds = countdown (length olds) ->
  rename_loop dk zfile before olds (Z.of_nat (length olds))
  = (true, dk, rev before ++ olds).
Proof.
  destruct olds as [|d olds]; intros H.
  - cbn. now rewrite app_nil_r.
  - apply countdown_cons in H. destruct H as [Hd _].
    cbn [rename_loop]. rewrite Hd.
    destruct (Z.of_nat (S (length olds)) =? 0)%Z; [reflexivity|].
    change (length (d :: olds)) with (S (length olds)).
    now rewrite Z.eqb_refl.
Qed.

(** With [k >= 1] unwritten segments behind them, the files of the older
    segments move up by [k], the oldest first. *)
Lemma rename_loop_shift (zfile : list byte) (news : list ixfr_data) :
  (length (c_string zfile) <= 1024)%nat ->
  Forall (fun d => file_num d = 0%Z) news ->
  (1 <= length news)%nat ->
  forall rest before dk,
    map file_num rest = countdown (length rest) ->
    (Z.of_nat (length rest + length news) < 2147483648)%Z ->
    Forall (fun d => disk_find dk (make_ixfr_name zfile (file_num d))
                     <> None) rest ->
    exists dk',
      rename_loop dk zfile before (rest ++ news)
        (Z.of_nat (length rest + length news))
      = (true, dk',
         rev before ++ number_above (Z.of_nat (length news)) rest ++ news) /\
      (forall f, (1 <= f <= Z.of_nat (length rest))%Z ->
                 disk_find dk'
                   (make_ixfr_name zfile (f + Z.of_nat (length news)))
                 = disk_find dk (make_ixfr_name zfile f)) /\
      (forall n,
          (forall f, (1 <= f <= Z.of_nat (length rest + length news))%Z ->
                     n <> make_ixfr_name zfile f) ->
          disk_find dk' n = disk_find dk n).
Proof.
  intros Hz Hnews Hk.
  induction rest as [|d rest IH]; intros before dk Hnum Hbound Hex.
  - exists dk. split; [|split; [intros f Hf; cbn in Hf; lia|auto]].
    cbn [app length Nat.add number_above].
    destruct news as [|x news]; [cbn in Hk; lia|].
    cbn [rename_loop]. inversion Hnews as [|? ? Hx _]; subst.
    now rewrite Hx.
  - apply countdown_cons in Hnum. destruct Hnum as [Hd Hrest].
    inversion Hex as [|? ? Hexd Hexr]; subst.
    cbn [app rename_loop]. rewrite Hd.
    cbn [length] in Hbound |- *.
    set (r := length rest) in *. set (k := length news) in *.
    destruct (Z.of_nat (S r) =? 0)%Z eqn:E0; [apply Z.eqb_eq in E0; lia|].
    destruct (Z.of_nat (S r) =? Z.of_nat (S r + k))%Z eqn:E1;
      [apply Z.eqb_eq in E1; lia|].
    unfold ixfr_rename_it, rename.
    rewrite unlink_if_exists.
    rewrite make_ixfr_name_neq by (try assumption; lia).
    rewrite Hd in Hexd.
    destruct (disk_find dk (make_ixfr_name zfile (Z.of_nat (S r))))
      as [c|] eqn:Ec; [|congruence].
    destruct (Z.of_nat (S r + k) - 1 =? 0)%Z eqn:E2;
      [apply Z.eqb_eq in E2; lia|].
    replace (Z.of_nat (S r + k) - 1)%Z with (Z.of_nat (r + k)) by lia.
    match goal with
    | |- context [rename_loop ?dk2 zfile ?b (rest ++ news) _] =>
        destruct (IH b dk2 Hrest ltac:(lia)) as [dk' [-> [Hmove Hkeep]]]
    end.
    { rewrite Forall_forall in Hexr |- *. intros x Hx.
      assert (Hfx : (1 <= file_num x <= Z.of_nat r)%Z).
      { assert (Hin : In (file_num x) (countdown r))
          by (rewrite <- Hrest; now apply in_map).
        clear - Hin. induction r as [|r IHr]; [destruct Hin|].
        cbn [countdown] in Hin. destruct Hin as [<-|Hin]; [lia|].
        specialize (IHr Hin). lia. }
      rewrite disk_find_store, make_ixfr_name_neq by (try assumption; lia).
      rewrite disk_find_remove, make_ixfr_name_neq by (try assumption; lia).
      rewrite unlink_if_exists, make_ixfr_name_neq
        by (try assumption; lia).
      now apply Hexr. }
    exists dk'. split; [|split].
    + f_equal. cbn [rev number_above]. rewrite <- app_assoc. cbn [app].
      do 3 f_equal. cbn [length]. fold r. lia.
    + intros f Hf.
      destruct (Z.eq_dec f (Z.of_nat (S r))) as [->|Hne].
      * rewrite Hkeep.
        -- rewrite disk_find_store.
           replace (Z.of_nat (S r) + Z.of_nat k)%Z
             with (Z.of_nat (S r + k)) by lia.
           now rewrite name_eqb_refl.
        -- intros f' Hf' Heq.
           apply make_ixfr_name_inj in Heq; try assumption; lia.
      * rewrite Hmove by lia.
        rewrite disk_find_store, make_ixfr_name_neq
          by (try assumption; lia).
        rewrite disk_find_remove, make_ixfr_name_neq
          by (try assumption; lia).
        rewrite unlink_if_exists, make_ixfr_name_neq
          by (try assumption; lia).
        reflexivity.
    + intros n Hn. rewrite Hkeep.
      * rewrite disk_find_store, name_eqb_neq
          by (intros Heq; apply (Hn (Z.of_nat (S r + k))); [lia|now symmetry]).
        rewrite disk_find_remove, name_eqb_neq
          by (intros Heq; apply (Hn (Z.of_nat (S r))); [lia|now symmetry]).
        rewrite unlink_if_exists, name_eqb_neq
          by (intros Heq; apply (Hn (Z.of_nat (S r + k))); [lia|now symmetry]).
        reflexivity.
      * intros f Hf. apply Hn. lia.
Qed.

(** *** Writing the chain to disk *)

Section WriteChain.
Variable sizeof_ixfr_data : N.
Variable node_key_slot : ixfr_data -> N.
Variable zone_name : list byte.
Variable dname_make : list byte -> option dname.
Variable rdata_wireformat_to_rdata_atoms :
  N -> N -> buffer -> option (list rdata_atom).
Variable dname_to_string : dname -> list byte.
Variable rrclass_to_string : N -> list byte.
Variable rrtype_to_string : N -> list byte.
Variable zoneformat : N -> nat -> N.
Variable rdata_atom_to_string : N -> rdata_atom -> rr -> option (list byte).
Variable rdata_atoms_to_unknown_string :
  N -> list rdata_atom -> option (list byte).

Local Abbreviation write_data :=
  (ixfr_write_file_data dname_make rdata_wireformat_to_rdata_atoms
     dname_to_string rrclass_to_string rrtype_to_string zoneformat
     rdata_atom_to_string rdata_atoms_to_unknown_string).

Local Abbreviation write_loop' :=
  (write_loop zone_name dname_make rdata_wireformat_to_rdata_atoms
     dname_to_string rrclass_to_string rrtype_to_string zoneformat
     rdata_atom_to_string rdata_atoms_to_unknown_string).

(** The unwritten segments [l], newest first, go to the files [num],
    [num + 1], ...; the loop ends at the first segment that has a file. *)
Lemma write_loop_news (zfile : list byte) :
  (length (c_string zfile) <= 1024)%nat ->
  forall l tail after num dk,
    Forall (fun d => file_num d = 0%Z) l ->
    Forall (fun d => exists out, write_data d = Some (true, out)) l ->
    Forall (fun d => file_num d <> 0%Z) tail ->
    (0 <= num)%Z -> (num + Z.of_nat (length l) < 2147483648)%Z ->
    exists dk',
      write_loop' dk zfile (l ++ tail) after num
      = Some (dk', rev tail ++ rev (number_up num l) ++ after) /\
      (forall j d,
          nth_error l j = Some d ->
          exists out,
            write_data d = Some (true, out) /\
            disk_find dk' (make_ixfr_name zfile (num + Z.of_nat j))
            = Some (ixfr_write_file_header zone_name d ++ out)) /\
      (forall n,
          (forall j, (0 <= j < Z.of_nat (length l))%Z ->
                     n <> make_ixfr_name zfile (num + j)) ->
          disk_find dk' n = disk_find dk n).
Proof.
  intros Hz. induction l as [|d l IH];
    intros tail after num dk Hzero Hout Htail Hnum Hbound.
  - exists dk. split; [|split; [intros [|j] d H; discriminate H|auto]].
    cbn [app number_up rev].
    destruct tail as [|t tail]; [reflexivity|].
    inversion Htail as [|? ? Ht _]; subst. cbn [write_loop].
    apply Z.eqb_neq in Ht. now rewrite Ht.
  - inversion Hzero as [|? ? Hd Hzero']; subst.
    inversion Hout as [|? ? [out Hw] Hout']; subst.
    cbn [length] in Hbound.
    cbn [app write_loop]. rewrite Hd. cbn [Z.eqb].
    unfold ixfr_write_file. rewrite Hw.
    match goal with
    | |- context [write_loop _ _ _ _ _ _ _ _ _ ?dk1 zfile (l ++ tail) ?a ?n] =>
        destruct (IH tail a n dk1 Hzero' Hout' Htail ltac:(lia) ltac:(lia))
          as [dk' [-> [Hnew Hkeep]]]
    end.
    exists dk'. split; [|split].
    + f_equal. f_equal. f_equal. cbn [number_up rev].
      now rewrite <- app_assoc.
    + intros [|j] x Hx.
      * injection Hx as <-. exists out. split; [exact Hw|].
        rewrite Z.add_0_r, Hkeep.
        -- now rewrite disk_find_store, name_eqb_refl.
        -- intros j Hj Heq.
           apply make_ixfr_name_inj in Heq; try assumption; lia.
      * destruct (Hnew j x Hx) as [o [Ho Hf]]. exists o. split; [exact Ho|].
        rewrite <- Hf. f_equal. f_equal. lia.
    + intros n Hn. rewrite Hkeep.
      * rewrite disk_find_store, name_eqb_neq; [reflexivity|].
        intros Heq. apply (Hn 0%Z); [cbn [length]; lia|].
        now rewrite Z.add_0_r.
      * intros j Hj. replace (num + 1 + j)%Z with (num + (1 + j))%Z by lia.
        apply Hn. cbn [length]. lia.
Qed.

Local Abbreviation write_to_file :=
  (ixfr_write_to_file sizeof_ixfr_data node_key_slot zone_name dname_make
     rdata_wireformat_to_rdata_atoms dname_to_string rrclass_to_string
     rrtype_to_string zoneformat rdata_atom_to_string
     rdata_atoms_to_unknown_string).

(** X18.  ixfr_write_to_file on a chain that is within ixfr-number and
    whose older segments [olds] have the files n, ..., 1 (the oldest the
    largest number) while the newer segments [news] have none yet: the
    call returns, the old files move up by the number of new segments,
    the new segments that can be printed are written to the files 1, 2,
    ... with the newest in file 1, and the segments in memory carry their
    file numbers.  Afterwards there is no file behind the last one, and no
    file with another name has been touched. *)
Theorem write_to_file_stores_chain (fuel : nat) (dk : disk) (z : zone)
  (zfile : list byte) (i : zone_ixfr) (olds news : list ixfr_data) :
  ixfr z = Some i -> data i = olds ++ news ->
  store_ixfr (opts z) = true ->
  count i <= ixfr_number (opts z) -> ixfr_number (opts z) < 2147483648 ->
  map file_num olds = countdown (length olds) ->
  Forall (fun d => file_num d = 0%Z) news ->
  Forall (fun d => ixfr_file_exists dk zfile (file_num d) = true) olds ->
  Forall (fun d => exists out, write_data d = Some (true, out)) news ->
  (length (c_string zfile) <= 1024)%nat ->
  (Z.of_nat (length (olds ++ news)) + Z.of_nat (length dk) + 1
   < 2147483648)%Z ->
  (length dk < fuel)%nat ->
  exists dk',
    write_to_file fuel dk z zfile
    = Some (dk',
            set_zone_ixfr z
              (Some (set_data i (number_above 0 (olds ++ news))))) /\
    (forall f, (1 <= f <= Z.of_nat (length olds))%Z ->
               disk_find dk'
                 (make_ixfr_name zfile (f + Z.of_nat (length news)))
               = disk_find dk (make_ixfr_name zfile f)) /\
    (forall j d,
        nth_error (rev news) j = Some d ->
        exists out,
          write_data d = Some (true, out) /\
          disk_find dk' (make_ixfr_name zfile (Z.of_nat j + 1))
          = Some (ixfr_write_file_header zone_name d ++ out)) /\
    ixfr_file_exists dk' zfile (Z.of_nat (length (olds ++ news)) + 1)
    = false /\
    (forall n, (forall f, n <> make_ixfr_name zfile f) ->
               disk_find dk' n = disk_find dk n).
Proof.
  intros Hi Hdata Hen Hcount Hmax Holds Hnews Hex Hout Hz Hbound Hfuel.
  set (m := length olds) in *. set (k := length news) in *.
  assert (Hlen : length (olds ++ news) = (m + k)%nat)
    by (rewrite length_app; reflexivity).
  rewrite Hlen in Hbound |- *.
  assert (Hc : to_int (count i) = Z.of_nat (m + k)).
  { rewrite to_int_small by lia. unfold count. rewrite Hdata, Hlen.
    lia. }
  assert (Hdest : ixfr_target_number_files z = Z.of_nat (m + k)).
  { unfold ixfr_target_number_files, zone_is_ixfr_enabled.
    rewrite Hi, Hen, Hc. cbn [negb]. rewrite to_int_small by lia.
    destruct (_ <? _)%Z eqn:E; [reflexivity|].
    apply Z.ltb_ge in E. unfold count in Hcount.
    rewrite Hdata, Hlen in Hcount. lia. }
  unfold ixfr_write_to_file. rewrite Hdest.
  destruct (delete_superfluous_spec fuel dk zfile (Z.of_nat (m + k)) Hfuel)
    as [dk1 [-> [Hgone1 [_ Hkeep1]]]].
  unfold ixfr_delete_memory_items. rewrite Hi, Hc, Z.eqb_refl.
  unfold ixfr_rename_files. rewrite Hi, Hdata.
  (* the files of the older segments are still there *)
  assert (Hfile : forall f, (1 <= f <= Z.of_nat (m + k))%Z ->
                            disk_find dk1 (make_ixfr_name zfile f)
                            = disk_find dk (make_ixfr_name zfile f)).
  { intros f Hf. apply Hkeep1. intros j Hj Heq.
    apply make_ixfr_name_inj in Heq; try assumption; lia. }
  assert (Hrange : forall x, In x olds -> (1 <= file_num x <= Z.of_nat m)%Z).
  { intros x Hx.
    assert (Hin : In (file_num x) (countdown m))
      by (rewrite <- Holds; now apply in_map).
    clear - Hin. induction m as [|r IHr]; [destruct Hin|].
    cbn [countdown] in Hin. destruct Hin as [<-|Hin]; [lia|].
    specialize (IHr Hin). lia. }
  assert (Hex1 : Forall (fun d => disk_find dk1 (make_ixfr_name zfile
                                                   (file_num d)) <> None)
                   olds).
  { rewrite Forall_forall in Hex |- *. intros x Hx.
    specialize (Hex x Hx). unfold ixfr_file_exists in Hex.
    rewrite Hfile by (specialize (Hrange x Hx); lia).
    destruct (disk_find dk _); [discriminate|discriminate Hex]. }
  (* the renames *)
  assert (Hren : exists dk2,
             rename_loop dk1 zfile [] (olds ++ news) (Z.of_nat (m + k))
             = (true, dk2, number_above (Z.of_nat k) olds ++ news) /\
             (forall f, (1 <= f <= Z.of_nat m)%Z ->
                        disk_find dk2 (make_ixfr_name zfile (f + Z.of_nat k))
                        = disk_find dk1 (make_ixfr_name zfile f)) /\
             (forall n,
                 (forall f, (1 <= f <= Z.of_nat (m + k))%Z ->
                            n <> make_ixfr_name zfile f) ->
                 disk_find dk2 n = disk_find dk1 n)).
  { destruct (Nat.eq_dec k 0) as [Hk0|Hk0].
    - assert (Hn : news = []) by (now apply length_zero_iff_nil).
      exists dk1. rewrite Hn, Hk0, !app_nil_r, Nat.add_0_r.
      pose proof (rename_loop_nothing dk1 zfile [] olds Holds) as Hr.
      fold m in Hr. cbn [rev app] in Hr. rewrite Hr.
      change (Z.of_nat 0) with 0%Z.
      rewrite (number_above_countdown olds Holds).
      split; [reflexivity|]. split; [|auto].
      intros f Hf. f_equal. f_equal. cbn. lia.
    - apply (rename_loop_shift zfile news Hz Hnews ltac:(lia) olds [] dk1
               Holds ltac:(lia) Hex1). }
  destruct Hren as [dk2 [-> [Hmove2 Hkeep2]]].
  (* the writes *)
  unfold ixfr_write_files. cbn [ixfr set_zone_ixfr data set_data].
  rewrite rev_app_distr.
  destruct (write_loop_news zfile Hz (rev news)
              (rev (number_above (Z.of_nat k) olds)) [] 1%Z dk2)
    as [dk3 [-> [Hnew3 Hkeep3]]].
  { now apply Forall_rev. }
  { now apply Forall_rev. }
  { apply Forall_rev, number_above_file_num. lia. }
  { lia. }
  { rewrite length_rev. fold k. lia. }
  rewrite length_rev in Hkeep3. fold k in Hkeep3.
  exists dk3. split; [|split; [|split; [|split]]].
  - rewrite rev_involutive, app_nil_r, number_up_rev.
    rewrite (number_above_app olds news). reflexivity.
  - intros f Hf. rewrite Hkeep3.
    + rewrite Hmove2 by exact Hf. apply Hfile. lia.
    + intros j Hj Heq.
      apply make_ixfr_name_inj in Heq; try assumption; lia.
  - intros j d Hj. destruct (Hnew3 j d Hj) as [out [Ho Hf]].
    exists out. split; [exact Ho|]. rewrite <- Hf. f_equal. f_equal. lia.
  - unfold ixfr_file_exists in *. rewrite Hkeep3, Hkeep2.
    + exact Hgone1.
    + intros f Hf Heq.
      apply make_ixfr_name_inj in Heq; try assumption; lia.
    + intros j Hj Heq.
      apply make_ixfr_name_inj in Heq; try assumption; lia.
  - intros n Hn. rewrite Hkeep3, Hkeep2, Hkeep1; auto.
Qed.
End WriteChain.

(** The new segment 10 -> 20 goes to "z.ixfr", the file of 5 -> 10 moves
    from "z.ixfr" to "z.ixfr.2", and there is no "z.ixfr.3". *)
Lemma write_to_file_stores_chain_witness :
  exists dk',
    ixfr_write_to_file 64 (fun _ => 0) [x7a] toy_dname_make toy_rdata_atoms
      toy_dname_to_string toy_rrclass_to_string toy_rrtype_to_string
      toy_zoneformat toy_rdata_atom_to_string
      toy_rdata_atoms_to_unknown_string 2 toy_disk_one_file
      toy_zone_on_disk [x7a]
    = Some (dk',
            toy_chain_zone 20
              [set_file_num (toy_segment x05 x0a) 2;
               set_file_num (toy_segment x0a x14) 1]) /\
    disk_find dk' (make_ixfr_name [x7a] 2) = Some [x41; x0a] /\
    ixfr_file_exists dk' [x7a] 1 = true /\
    ixfr_file_exists dk' [x7a] 3 = false.
Proof.
  destruct (write_to_file_stores_chain 64 (fun _ => 0) [x7a] toy_dname_make
              toy_rdata_atoms toy_dname_to_string toy_rrclass_to_string
              toy_rrtype_to_string toy_zoneformat toy_rdata_atom_to_string
              toy_rdata_atoms_to_unknown_string 2 toy_disk_one_file
              toy_zone_on_disk [x7a]
              {| data := [toy_written_segment; toy_segment x0a x14];
                 total_size := 0; num_files := 0 |}
              [toy_written_segment] [toy_segment x0a x14])
    as [dk' [E [Hold [Hnew [Hgone _]]]]].
  - reflexivity.
  - reflexivity.
  - reflexivity.
  - vm_compute. discriminate.
  - reflexivity.
  - reflexivity.
  - repeat constructor.
  - repeat constructor.
  - constructor; [|constructor]. eexists. vm_compute. reflexivity.
  - simpl. lia.
  - simpl. lia.
  - simpl. lia.
  - exists dk'. split; [exact E|]. split; [|split].
    + pose proof (Hold 1%Z ltac:(simpl; lia)) as H.
      change (1 + Z.of_nat (length [toy_segment x0a x14]))%Z with 2%Z in H.
      rewrite H. reflexivity.
    + destruct (Hnew 0%nat (toy_segment x0a x14) eq_refl) as [out [_ Hf]].
      unfold ixfr_file_exists. change (Z.of_nat 0 + 1)%Z with 1%Z in Hf.
      now rewrite Hf.
    + exact Hgone.
Defined.

(** ** A segment that is written to its file and read again *)

(** *** fgets on the lines the writer prints *)

Lemma fgets_text (text rest : list byte) :
  Forall (fun c => u8 c <> 10) text ->
  forall n, (length text < n)%nat ->
            fgets n (text ++ x0a :: rest) = (text ++ [x0a], rest).
Proof.
  induction 1 as [|c text Hc _ IH]; intros n Hn.
  - destruct n as [|n]; [lia|]. reflexivity.
  - destruct n as [|n]; [simpl in Hn; lia|].
    cbn [app fgets]. apply N.eqb_neq in Hc. rewrite Hc.
    rewrite IH by (simpl in Hn; lia). reflexivity.
Qed.

Lemma fgets_lines_texts (texts : list (list byte)) :
  Forall one_line texts ->
  forall fuel,
    (length (concat (map text_line texts)) <= fuel)%nat ->
    fgets_lines fuel (concat (map text_line texts)) = map text_line texts.
Proof.
  induction 1 as [|t texts [Hnl Hlen] _ IH]; intros fuel Hfuel.
  - destruct fuel; reflexivity.
  - cbn [map concat] in *. unfold text_line at 1 in Hfuel.
    unfold text_line at 1. rewrite <- app_assoc in *. cbn [app] in *.
    rewrite length_app in Hfuel. cbn [length] in Hfuel.
    destruct fuel as [|fuel]; [lia|].
    assert (E : fgets_lines (S fuel)
                  (t ++ x0a :: concat (map text_line texts))
                = let '(line, rest) :=
                    fgets (N.to_nat 65535)
                      (t ++ x0a :: concat (map text_line texts)) in
                  line :: fgets_lines fuel rest).
    { destruct t; reflexivity. }
    rewrite E, fgets_text by (assumption || (unfold blen in Hlen; lia)).
    rewrite IH by lia. reflexivity.
Qed.

Lemma file_lines_texts (texts : list (list byte)) :
  Forall one_line texts ->
  file_lines (concat (map text_line texts)) = map text_line texts.
Proof. intros H. unfold file_lines. now apply fgets_lines_texts. Qed.

(** *** The header *)

Lemma header_is_texts (zone_name : list byte) (d : ixfr_data) :
  ixfr_write_file_header zone_name d
  = concat (map text_line (header_texts zone_name d)).
Proof.
  unfold ixfr_write_file_header, header_texts, text_line.
  destruct (log_str d); cbn [map concat app];
    rewrite <- ?app_assoc; cbn [app]; rewrite ?app_nil_r; reflexivity.
Qed.

Lemma comment_line (text : list byte) :
  blank_or_comment (text_line (x3b :: text)) = true.
Proof. reflexivity. Qed.

Lemma header_texts_comments (zone_name : list byte) (d : ixfr_data) :
  Forall (fun t => blank_or_comment (text_line t) = true)
    (header_texts zone_name d).
Proof.
  unfold header_texts.
  destruct (log_str d); repeat constructor.
Qed.

Lemma digits_no_newline (l : list byte) :
  Forall (fun c => 48 <= u8 c <= 57) l -> Forall (fun c => u8 c <> 10) l.
Proof. apply Forall_impl. intros c H. lia. Qed.

Lemma header_texts_one_line (zone_name : list byte) (d : ixfr_data) :
  Forall (fun c => u8 c <> 10) (c_string zone_name) ->
  blen (c_string zone_name) < 65528 ->
  Forall (fun c => u8 c <> 10) (log_text d) ->
  blen (log_text d) < 65533 ->
  oldserial d < UINT32_MOD -> newserial d < UINT32_MOD ->
  Forall one_line (header_texts zone_name d).
Proof.
  intros Hz Hzl Hl Hll Ho Hn.
  assert (Hdec : forall s, s < UINT32_MOD ->
                           Forall (fun c => u8 c <> 10) (decimal s) /\
                           blen (decimal s) <= 10).
  { intros s Hs.
    assert (L : (length (decimal s) <= 10)%nat).
    { apply decimal_length; [|lia].
      eapply N.lt_trans; [exact Hs|]. reflexivity. }
    split; [apply digits_no_newline, decimal_digits|unfold blen; lia]. }
  destruct (Hdec _ Ho) as [Ho1 Ho2].
  destruct (Hdec _ Hn) as [Hn1 Hn2].
  assert (Hc : forall c, In c [x3b; x20; x49; x58; x46; x52; x20; x64; x61;
                               x74; x66; x69; x6c; x65; x7a; x6f; x6e;
                               x72; x6d; x5f; x73] -> u8 c <> 10).
  { intros c Hin. simpl in Hin.
    repeat (destruct Hin as [<-|Hin]; [discriminate|]). elim Hin. }
  assert (Hone : forall pre text,
             Forall (fun c => u8 c <> 10) pre ->
             Forall (fun c => u8 c <> 10) text ->
             blen pre + blen text < 65535 -> one_line (pre ++ text)).
  { intros pre text H1 H2 H3. split; [now apply Forall_app|].
    now rewrite blen_app. }
  assert (Hpre : forall pre, incl pre [x3b; x20; x49; x58; x46; x52; x20;
                                       x64; x61; x74; x66; x69; x6c; x65;
                                       x7a; x6f; x6e; x72; x6d; x5f; x73] ->
                             Forall (fun c => u8 c <> 10) pre).
  { intros pre Hi. apply Forall_forall. intros c Hin. apply Hc, Hi, Hin. }
  unfold header_texts, log_text in *.
  apply Forall_app. split.
  - repeat apply Forall_cons; [| | | |constructor].
    + rewrite <- (app_nil_r (_ :: _)).
      apply Hone; [apply Hpre|constructor|reflexivity].
      intros c Hin. simpl in Hin |- *. tauto.
    + apply Hone; [apply Hpre|assumption|].
      * intros c Hin. simpl in Hin |- *. tauto.
      * change (blen [x3b; x20; x7a; x6f; x6e; x65; x20]) with 7. lia.
    + apply Hone; [apply Hpre|assumption|].
      * intros c Hin. simpl in Hin |- *. tauto.
      * change (blen [x3b; x20; x66; x72; x6f; x6d; x5f; x73; x65; x72;
                      x69; x61; x6c; x20]) with 14. lia.
    + apply Hone; [apply Hpre|assumption|].
      * intros c Hin. simpl in Hin |- *. tauto.
      * change (blen [x3b; x20; x74; x6f; x5f; x73; x65; x72; x69; x61;
                      x6c; x20]) with 12. lia.
  - destruct (log_str d); [|constructor].
    apply Forall_cons; [|constructor].
    apply Hone; [apply Hpre|assumption|].
    + intros c Hin. simpl in Hin |- *. tauto.
    + change (blen [x3b; x20]) with 2. lia.
Qed.

(** *** The reader on the lines of printed records *)

Lemma read_putrr_ok (r : rr) (rrs : option (list byte)) (capacity : N) :
  exists capacity',
    read_putrr r rrs capacity
    = (true, Some (buf_bytes rrs ++ record_wire r), capacity').
Proof.
  assert (Hw : write_uint16
                 (fold_left (fun acc a => size_add acc (blen (atom_wire a)))
                    (rdatas r) 0)
               = write_uint16 (blen (flat_map atom_wire (rdatas r)))).
  { change 0 with (0 mod SIZE_MOD) at 1.
    rewrite rdlen_uncompressed_mod, N.add_0_l. apply write_uint16_size. }
  unfold read_putrr, ixfr_putrr. rewrite Hw.
  match goal with
  | |- context [ixfr_rrs_make_space rrs capacity ?sz] =>
      destruct (ixfr_rrs_make_space_ok rrs capacity sz) as [c [-> Hle]]
  end.
  apply N.ltb_ge in Hle. rewrite Hle.
  exists c. reflexivity.
Qed.

Lemma ixfr_trim_capacity_some (l : list byte) (capacity : N) :
  fst (ixfr_trim_capacity (Some l) capacity) = Some l.
Proof.
  unfold ixfr_trim_capacity. destruct (capacity =? _); reflexivity.
Qed.

Lemma read_line_printed (parse : list byte -> option rr) (r : rr)
  (text : list byte) :
  printed_as parse r text -> read_line parse (text_line text) = LineRR r.
Proof.
  intros [_ [Hb Hp]]. unfold read_line. unfold blank_or_comment in Hb.
  destruct (skipwhite (text_line text)) as [|c tl]; [discriminate|].
  destruct (u8 c =? 0); [discriminate|].
  destruct (u8 c =? 59); [discriminate|].
  now rewrite Hp.
Qed.

Lemma ixfr_data_readrr_comments (parse : list byte -> option rr)
  (hs : list (list byte)) (rest : ixfr_file) :
  Forall (fun t => blank_or_comment (text_line t) = true) hs ->
  ixfr_data_readrr parse (map text_line hs ++ rest)
  = ixfr_data_readrr parse rest.
Proof.
  induction 1 as [|h hs Hh _ IH]; [reflexivity|].
  cbn [map app ixfr_data_readrr]. now rewrite (read_line_skip parse _ Hh).
Qed.

Lemma read_section_printed (parse : list byte -> option rr) (new_serial : N)
  (rs : list rr) (texts : list (list byte)) (l : rr) (tl : list byte)
  (rest : ixfr_file) :
  Forall2 (printed_as parse) rs texts ->
  Forall (fun r => closes_section new_serial r = false) rs ->
  printed_as parse l tl -> closes_section new_serial l = true ->
  forall rrs capacity,
  exists capacity',
    read_section parse (map text_line texts ++ text_line tl :: rest)
      new_serial rrs capacity
    = Some (Some (buf_bytes rrs ++ concat (map record_wire (rs ++ [l]))),
            capacity', rest).
Proof.
  intros Hp Hc Hl Hcl. induction Hp as [|r t rs texts Hr _ IH];
    intros rrs capacity.
  - cbn [map app read_section]. rewrite (read_line_printed _ _ _ Hl).
    destruct (read_putrr_ok l rrs capacity) as [c ->].
    cbn [negb]. unfold closes_section in Hcl. rewrite Hcl.
    exists c. cbn [map concat]. now rewrite app_nil_r.
  - cbn [map app read_section]. rewrite (read_line_printed _ _ _ Hr).
    destruct (read_putrr_ok r rrs capacity) as [c ->].
    cbn [negb]. inversion Hc as [|? ? Hcr Hc']; subst.
    unfold closes_section in Hcr. rewrite Hcr.
    destruct (IH Hc' (Some (buf_bytes rrs ++ record_wire r)) c) as [c' ->].
    exists c'. cbn [buf_bytes map concat app]. now rewrite <- app_assoc.
Qed.

Section RoundTrip.
Variable zone_name : list byte.
Variable dname_make : list byte -> option dname.
Variable rdata_wireformat_to_rdata_atoms :
  N -> N -> buffer -> option (list rdata_atom).
Variable dname_to_string : dname -> list byte.
Variable rrclass_to_string : N -> list byte.
Variable rrtype_to_string : N -> list byte.
Variable zoneformat : N -> nat -> N.
Variable rdata_atom_to_string : N -> rdata_atom -> rr -> option (list byte).
Variable rdata_atoms_to_unknown_string :
  N -> list rdata_atom -> option (list byte).
Variable zonec_parse_string : list byte -> option rr.

Local Abbreviation write_rr :=
  (ixfr_write_rr dname_make rdata_wireformat_to_rdata_atoms dname_to_string
     rrclass_to_string rrtype_to_string zoneformat rdata_atom_to_string
     rdata_atoms_to_unknown_string).
Local Abbreviation write_rrs :=
  (ixfr_write_rrs dname_make rdata_wireformat_to_rdata_atoms dname_to_string
     rrclass_to_string rrtype_to_string zoneformat rdata_atom_to_string
     rdata_atoms_to_unknown_string).
Local Abbreviation write_rrs_loop :=
  (ixfr_write_rrs_loop dname_make rdata_wireformat_to_rdata_atoms
     dname_to_string rrclass_to_string rrtype_to_string zoneformat
     rdata_atom_to_string rdata_atoms_to_unknown_string).
Local Abbreviation write_file :=
  (ixfr_write_file zone_name dname_make rdata_wireformat_to_rdata_atoms
     dname_to_string rrclass_to_string rrtype_to_string zoneformat
     rdata_atom_to_string rdata_atoms_to_unknown_string).
Local Abbreviation agree :=
  (fun r => rr_storable r /\ reads_back write_rr zonec_parse_string r).

(** *** The writer on a run of records *)

Lemma write_rrs_loop_records (rs : list rr) :
  Forall agree rs ->
  forall pre fuel,
    (length rs < fuel)%nat ->
    exists texts,
      write_rrs_loop fuel (pre ++ concat (map record_wire rs))
        (blen (pre ++ concat (map record_wire rs))) (blen pre)
      = Some (true, concat (map text_line texts)) /\
      Forall2 (printed_as zonec_parse_string) rs texts.
Proof.
  induction 1 as [|r rs [Hst Hrb] _ IH]; intros pre fuel Hfuel.
  - destruct fuel as [|fuel]; [lia|]. exists [].
    cbn [map concat ixfr_write_rrs_loop]. rewrite app_nil_r, N.ltb_irrefl.
    split; [reflexivity|constructor].
  - destruct fuel as [|fuel]; [lia|].
    cbn [map concat ixfr_write_rrs_loop].
    pose proof (record_wire_length r) as Hlen.
    destruct (record_wire_rr_wire r Hst) as [ls [fixed [hi [lo [Hwf E]]]]].
    assert (Hlt : (blen pre
                   <? blen (pre ++ record_wire r
                                ++ concat (map record_wire rs)))
                  = true).
    { apply N.ltb_lt. rewrite !blen_app. lia. }
    rewrite Hlt.
    assert (Hc : count_rr_length
                   (pre ++ record_wire r ++ concat (map record_wire rs))
                   (blen (pre ++ record_wire r
                              ++ concat (map record_wire rs)))
                   (blen pre)
                 = Some (blen (record_wire r))).
    { rewrite E. apply count_rr_length_wf. exact Hwf. }
    rewrite Hc.
    destruct (blen (record_wire r) =? 0) eqn:E0;
      [apply N.eqb_eq in E0; lia|].
    destruct (blen (pre ++ record_wire r ++ concat (map record_wire rs))
              <? blen pre + blen (record_wire r)) eqn:E1;
      [apply N.ltb_lt in E1; rewrite !blen_app in E1; lia|].
    assert (Hs : skipn (N.to_nat (blen pre))
                   (pre ++ record_wire r ++ concat (map record_wire rs))
                 = record_wire r ++ concat (map record_wire rs)).
    { unfold blen. rewrite Nat2N.id, skipn_app, skipn_all, Nat.sub_diag.
      reflexivity. }
    rewrite Hs.
    destruct (Hrb (concat (map record_wire rs))) as [t [-> Ht]].
    destruct (IH (pre ++ record_wire r) fuel ltac:(simpl in Hfuel; lia))
      as [texts [Hl Hts]].
    rewrite <- app_assoc, (blen_app pre (record_wire r)) in Hl. rewrite Hl.
    exists (t :: texts). split; [reflexivity|now constructor].
Qed.

Lemma write_rrs_records (rs : list rr) :
  Forall agree rs ->
  exists texts,
    write_rrs (Some (concat (map record_wire rs)))
    = Some (true, concat (map text_line texts)) /\
    Forall2 (printed_as zonec_parse_string) rs texts.
Proof.
  intros H. unfold ixfr_write_rrs.
  destruct (blen (concat (map record_wire rs)) =? 0) eqn:E0.
  - apply N.eqb_eq in E0. destruct H as [|r rs [Hst _] _].
    + exists []. split; [reflexivity|constructor].
    + cbn [map concat] in E0. rewrite blen_app in E0.
      pose proof (record_wire_length r). lia.
  - assert (Hn : (length rs <= length (concat (map record_wire rs)))%nat).
    { clear E0. induction H as [|r rs _ _ IH]; [simpl; lia|].
      cbn [map concat length]. rewrite length_app.
      pose proof (record_wire_length r) as Hl. unfold blen in Hl. lia. }
    exact (write_rrs_loop_records rs H []
             (S (length (concat (map record_wire rs)))) ltac:(lia)).
Qed.

(** *** The four readers on the lines of a written segment *)

Lemma readnewsoa_printed (d0 : ixfr_data) (z : zone) (hs : list (list byte))
  (r : rr) (t : list byte) (rest : ixfr_file) :
  Forall (fun t => blank_or_comment (text_line t) = true) hs ->
  printed_as zonec_parse_string r t ->
  soa_line_ok z r = true ->
  ixfr_data_readnewsoa zonec_parse_string d0 z
    (map text_line hs ++ text_line t :: rest) (soa_rr_get_serial r)
  = Some (set_newsoa (set_serials d0 (oldserial d0) (soa_rr_get_serial r))
            (Some (buf_bytes (newsoa d0) ++ record_wire r)),
          rest).
Proof.
  intros Hh Hp Hok. unfold ixfr_data_readnewsoa.
  rewrite ixfr_data_readrr_comments by exact Hh.
  cbn [ixfr_data_readrr]. rewrite (read_line_printed _ _ _ Hp), Hok.
  cbn [negb set_serials newserial newsoa]. rewrite N.eqb_refl. cbn [negb].
  destruct (read_putrr_ok r (newsoa d0) 0) as [c ->]. cbn [negb].
  pose proof (ixfr_trim_capacity_some (buf_bytes (newsoa d0) ++ record_wire r)
                c) as Ht.
  destruct (ixfr_trim_capacity _ c) as [x c']. simpl in Ht. now subst x.
Qed.

Lemma readoldsoa_printed (d0 : ixfr_data) (z : zone) (r : rr)
  (t : list byte) (rest : ixfr_file) :
  printed_as zonec_parse_string r t ->
  soa_line_ok z r = true ->
  ixfr_data_readoldsoa zonec_parse_string d0 z (text_line t :: rest)
  = Some (set_oldsoa (set_serials d0 (soa_rr_get_serial r) (newserial d0))
            (Some (buf_bytes (oldsoa d0) ++ record_wire r)),
          rest, soa_rr_get_serial r).
Proof.
  intros Hp Hok. unfold ixfr_data_readoldsoa.
  cbn [ixfr_data_readrr]. rewrite (read_line_printed _ _ _ Hp), Hok.
  cbn [negb set_serials oldserial oldsoa].
  destruct (read_putrr_ok r (oldsoa d0) 0) as [c ->]. cbn [negb].
  pose proof (ixfr_trim_capacity_some (buf_bytes (oldsoa d0) ++ record_wire r)
                c) as Ht.
  destruct (ixfr_trim_capacity _ c) as [x c']. simpl in Ht. now subst x.
Qed.

Lemma readrun_printed (w : run) (d0 : ixfr_data) (rs : list rr)
  (texts : list (list byte)) (l : rr) (tl : list byte) (rest : ixfr_file) :
  Forall2 (printed_as zonec_parse_string) rs texts ->
  Forall (fun r => closes_section (newserial d0) r = false) rs ->
  printed_as zonec_parse_string l tl ->
  closes_section (newserial d0) l = true ->
  ixfr_data_readrun zonec_parse_string w d0
    (map text_line texts ++ text_line tl :: rest)
  = Some (set_run_rrs w d0
            (Some (buf_bytes (run_rrs w d0)
                   ++ concat (map record_wire (rs ++ [l])))),
          rest).
Proof.
  intros Hp Hc Hl Hcl. unfold ixfr_data_readrun.
  destruct (read_section_printed zonec_parse_string (newserial d0) rs texts
              l tl rest Hp Hc Hl Hcl (run_rrs w d0) 0) as [c ->].
  pose proof (ixfr_trim_capacity_some
                (buf_bytes (run_rrs w d0)
                 ++ concat (map record_wire (rs ++ [l]))) c) as Ht.
  destruct (ixfr_trim_capacity _ c) as [x c']. simpl in Ht. now subst x.
Qed.

(** X19.  A segment that ixfr_write_file writes to its file is read back
    by the four readers of ixfr_data_read as the same segment: the same
    serials and the same four buffers, octet by octet, without the log
    string, which the readers leave out.  This holds for a segment in the
    form the builder and the reader leave it in (new SOA, old SOA, a
    deleted and an added run that each end at their first SOA with the
    new serial), when the printing functions and the zone parser agree on
    each of its records, the zone name and the log string hold no newline
    and their header lines fit the line buffer of 65536 octets.  The file
    is the header, which the readers pass over as comments, and one line
    per record. *)
Theorem written_file_reads_back (z : zone) (dk : disk) (zfile : list byte)
  (num num' : Z) (d : ixfr_data) (n o : rr) (dr : list rr) (dl : rr)
  (ar : list rr) (al : rr) :
  segment_of_records z d n o dr dl ar al ->
  Forall (fun r => rr_storable r /\
                   reads_back write_rr zonec_parse_string r)
    (n :: o :: dr ++ dl :: ar ++ [al]) ->
  Forall (fun c => u8 c <> 10) (c_string zone_name) ->
  blen (c_string zone_name) < 65528 ->
  Forall (fun c => u8 c <> 10) (log_text d) ->
  blen (log_text d) < 65533 ->
  oldserial d < UINT32_MOD -> newserial d < UINT32_MOD ->
  exists content,
    write_file dk d zfile num
    = Some (true, disk_store dk (make_ixfr_name zfile num) content,
            set_file_num d num) /\
    disk_find (disk_store dk (make_ixfr_name zfile num) content)
      (make_ixfr_name zfile num) = Some content /\
    ixfr_data_parse zonec_parse_string z (file_lines content) (newserial d)
      num'
    = (Some (set_file_num (set_log_str d None) num'), oldserial d).
Proof.
  intros Hseg Hag Hz Hzl Hl Hll Ho Hn.
  destruct Hseg as (Hns & Hos & Hde & Had & Hokn & Hsn & Hoko & Hso
                    & Hcd & Hcdl & Hca & Hcal).
  inversion Hag as [|? ? Hagn Hag1]; subst.
  inversion Hag1 as [|? ? Hago Hag2]; subst. clear Hag Hag1.
  apply Forall_app in Hag2. destruct Hag2 as [Hagdr Hag3].
  inversion Hag3 as [|? ? Hagdl Hag4]; subst. clear Hag3.
  apply Forall_app in Hag4. destruct Hag4 as [Hagar Hagal].
  destruct (write_rrs_records [n] ltac:(now constructor)) as [tn [Hwn Hpn]].
  destruct (write_rrs_records [o] ltac:(now constructor)) as [to [Hwo Hpo]].
  destruct (write_rrs_records (dr ++ [dl])
              ltac:(apply Forall_app; split; [assumption|now constructor]))
    as [td [Hwd Hpd]].
  destruct (write_rrs_records (ar ++ [al])
              ltac:(apply Forall_app; split; assumption))
    as [ta [Hwa Hpa]].
  cbn [map concat] in Hwn, Hwo. rewrite app_nil_r in Hwn, Hwo.
  inversion Hpn as [|? tn1 ? ? Hpn1 Hpn']; subst. inversion Hpn'; subst.
  inversion Hpo as [|? to1 ? ? Hpo1 Hpo']; subst. inversion Hpo'; subst.
  apply Forall2_app_inv_l in Hpd.
  destruct Hpd as [tdr [tdl' [Hpdr [Hpdl ->]]]].
  inversion Hpdl as [|? tdl ? ? Hpdl1 Hpdl']; subst. inversion Hpdl'; subst.
  apply Forall2_app_inv_l in Hpa.
  destruct Hpa as [tar [tal' [Hpar [Hpal ->]]]].
  inversion Hpal as [|? tal ? ? Hpal1 Hpal']; subst. inversion Hpal'; subst.
  clear Hpn Hpn' Hpo Hpo' Hpdl Hpdl' Hpal Hpal'.
  exists (concat (map text_line
                    (header_texts zone_name d
                     ++ tn1 :: to1 :: (tdr ++ tdl :: tar ++ [tal])))).
  split; [|split].
  - unfold ixfr_write_file, ixfr_write_file_data.
    rewrite Hns, Hwn, Hos, Hwo, Hde, Hwd, Had, Hwa, header_is_texts.
    do 3 f_equal.
    repeat (rewrite ?map_app, ?concat_app; cbn [map concat];
            rewrite ?app_nil_r, <- ?app_assoc).
    reflexivity.
  - rewrite disk_find_store, name_eqb_refl. reflexivity.
  - rewrite file_lines_texts.
    + repeat (rewrite map_app; cbn [map]). unfold ixfr_data_parse.
      rewrite <- Hsn at 1.
      rewrite (readnewsoa_printed _ z _ n tn1 _
                 (header_texts_comments zone_name d) Hpn1 Hokn).
      rewrite (readoldsoa_printed _ z o to1 _ Hpo1 Hoko).
      cbn [set_oldsoa set_serials set_newsoa oldserial newserial newsoa
           oldsoa del add log_str file_num buf_bytes app].
      rewrite Hsn, Hso.
      match goal with
      | |- context [ixfr_data_readrun _ DelRun ?d0 _] =>
          rewrite (readrun_printed DelRun d0 dr tdr dl tdl _
                     Hpdr Hcd Hpdl1 Hcdl)
      end.
      cbn [set_run_rrs run_rrs oldserial newserial newsoa oldsoa del add
           log_str file_num buf_bytes app].
      match goal with
      | |- context [ixfr_data_readrun _ AddRun ?d0 _] =>
          rewrite (readrun_printed AddRun d0 ar tar al tal []
                     Hpar Hca Hpal1 Hcal)
      end.
      cbn [set_run_rrs run_rrs oldserial newserial newsoa oldsoa del add
           log_str file_num buf_bytes app].
      destruct d as [os ns nsoa osoa de ad lg fn].
      cbn [oldserial newserial newsoa oldsoa del add] in Hns, Hos, Hde, Had.
      subst nsoa osoa de ad. reflexivity.
    + apply Forall_app. split.
      * now apply header_texts_one_line.
      * assert (H2 : forall rs ts,
                   Forall2 (printed_as zonec_parse_string) rs ts ->
                   Forall one_line ts).
        { intros rs ts H.
          induction H as [|? ? ? ? [H _] _ IH]; constructor; assumption. }
        constructor; [apply Hpn1|]. constructor; [apply Hpo1|].
        apply Forall_app. split; [exact (H2 _ _ Hpdr)|].
        constructor; [apply Hpdl1|].
        apply Forall_app. split; [exact (H2 _ _ Hpar)|].
        constructor; [apply Hpal1|constructor].
Qed.
End RoundTrip.

(** What the stand-in printer and the stand-in parser make of the records
    of the segment 10 -> 20. *)
Lemma toy_reads_back (r : rr) (text : list byte) :
  (forall post,
      ixfr_write_rr toy_dname_make toy_rdata_atoms toy_dname_to_string
        toy_rrclass_to_string toy_rrtype_to_string toy_zoneformat
        toy_rdata_atom_to_string toy_rdata_atoms_to_unknown_string
        (record_wire r ++ post) (blen (record_wire r))
      = Some (text_line text)) ->
  forallb (fun c => negb (u8 c =? 10)) text = true ->
  blen text < 65535 ->
  blank_or_comment (text_line text) = false ->
  toy_line_parse (text_line text) = Some r ->
  reads_back
    (ixfr_write_rr toy_dname_make toy_rdata_atoms toy_dname_to_string
       toy_rrclass_to_string toy_rrtype_to_string toy_zoneformat
       toy_rdata_atom_to_string toy_rdata_atoms_to_unknown_string)
    toy_line_parse r.
Proof.
  intros Hw Hnl Hlen Hb Hp post. exists text.
  split; [apply Hw|]. split; [split|split]; try assumption.
  apply Forall_forall. intros c Hin.
  rewrite forallb_forall in Hnl. specialize (Hnl c Hin).
  apply negb_true_iff in Hnl. now apply N.eqb_neq.
Qed.

(** The segment 10 -> 20 of the root zone, written to the file "z.ixfr"
    of an empty directory with the stand-in printer, is read back from it
    with the stand-in parser. *)
Lemma written_file_reads_back_witness :
  exists content,
    ixfr_write_file [x7a] toy_dname_make toy_rdata_atoms toy_dname_to_string
      toy_rrclass_to_string toy_rrtype_to_string toy_zoneformat
      toy_rdata_atom_to_string toy_rdata_atoms_to_unknown_string
      [] (toy_segment x0a x14) [x7a] 1
    = Some (true, disk_store [] (make_ixfr_name [x7a] 1) content,
            set_file_num (toy_segment x0a x14) 1) /\
    disk_find (disk_store [] (make_ixfr_name [x7a] 1) content)
      (make_ixfr_name [x7a] 1) = Some content /\
    ixfr_data_parse toy_line_parse (toy_zone 0 0 0) (file_lines content)
      (newserial (toy_segment x0a x14)) 1
    = (Some (set_file_num (set_log_str (toy_segment x0a x14) None) 1),
       oldserial (toy_segment x0a x14)).
Proof.
  assert (Hsoa20 : rr_storable (toy_soa 20) /\
                   reads_back
                     (ixfr_write_rr toy_dname_make toy_rdata_atoms
                        toy_dname_to_string toy_rrclass_to_string
                        toy_rrtype_to_string toy_zoneformat
                        toy_rdata_atom_to_string
                        toy_rdata_atoms_to_unknown_string)
                     toy_line_parse (toy_soa 20)).
  { split; [apply (toy_parse_storable [x53; x14]); reflexivity|].
    apply (toy_reads_back _ (toy_text [x53; x4f; x41] [x32; x30]));
      vm_compute; reflexivity. }
  apply (written_file_reads_back [x7a] toy_dname_make toy_rdata_atoms
           toy_dname_to_string toy_rrclass_to_string toy_rrtype_to_string
           toy_zoneformat toy_rdata_atom_to_string
           toy_rdata_atoms_to_unknown_string toy_line_parse
           (toy_zone 0 0 0) [] [x7a] 1 1 (toy_segment x0a x14)
           (toy_soa 20) (toy_soa 10) [toy_rr x01] (toy_soa 20)
           [toy_rr x02] (toy_soa 20)).
  - unfold segment_of_records.
    repeat split; try (vm_compute; reflexivity);
      (constructor; [vm_compute; reflexivity|constructor]).
  - repeat (apply Forall_cons; [|try apply Forall_nil]);
      try exact Hsoa20.
    + split; [apply (toy_parse_storable [x53; x0a]); reflexivity|].
      apply (toy_reads_back _ (toy_text [x53; x4f; x41] [x31; x30]));
        vm_compute; reflexivity.
    + split; [apply (toy_parse_storable [x41; x01]); reflexivity|].
      apply (toy_reads_back _ (toy_text [x41] [x31]));
        vm_compute; reflexivity.
    + split; [apply (toy_parse_storable [x41; x02]); reflexivity|].
      apply (toy_reads_back _ (toy_text [x41] [x32]));
        vm_compute; reflexivity.
  - repeat constructor. intros H. vm_compute in H. discriminate H.
  - vm_compute. reflexivity.
  - vm_compute. constructor.
  - vm_compute. reflexivity.
  - vm_compute. reflexivity.
  - vm_compute. reflexivity.
Defined.

(** ** The files of the segments behind a failed rename or write *)

(** X20.  ixfr_delete_rest_files deletes no file and resets no file
    number.  Its loop runs only as long as file_num is 0, and its body
    unlinks and resets only a segment whose file_num is not 0: whatever
    the directory and the segments from [from] backwards hold, both are
    left as they are. *)
Theorem delete_rest_files_deletes_nothing (dk : disk) (zfile : list byte)
  (nodes : list ixfr_data) :
  ixfr_delete_rest_files dk zfile nodes = (dk, nodes).
Proof.
  induction nodes as [|d previous IH]; [reflexivity|].
  cbn [ixfr_delete_rest_files].
  destruct (file_num d =? 0)%Z; [|reflexivity].
  cbn [negb]. now rewrite IH.
Qed.

(** ** Dropping segments the configuration has no room for *)

Lemma remove_oldest_slot (sz : N) (slot : ixfr_data -> N) (d : ixfr_data)
  (t : list ixfr_data) (ts : N) (nf : Z) :
  slot d = oldserial d -> chain_sorted (d :: t) ->
  zone_ixfr_remove_oldest sz slot
    {| data := d :: t; total_size := ts; num_files := nf |}
  = Some {| data := t; total_size := size_sub ts (ixfr_data_size sz d);
            num_files := nf |}.
Proof.
  intros Hslot Hs. unfold zone_ixfr_remove_oldest, zone_ixfr_remove. simpl.
  rewrite Hslot, ixfrcompare_eq, N.eqb_refl.
  now rewrite (sorted_head_unlinked d t Hs).
Qed.

Lemma skipn_by_length {A : Type} (k : nat) (l : list A) :
  skipn k l = skipn (length l - length (skipn k l)) l.
Proof.
  rewrite length_skipn.
  destruct (Nat.le_gt_cases k (length l)) as [H|H].
  - f_equal. lia.
  - rewrite skipn_all2 by lia.
    replace (length l - (length l - k))%nat with (length l) by lia.
    now rewrite skipn_all.
Qed.

(** X21.  ixfr_delete_memory_items on a zone with a chain of fewer than
    2^31 segments.  With no more segments than dest_num_files it leaves
    the zone as it is.  With more segments it has to remove the oldest
    one: unless the value that zone_ixfr_remove reads through
    [&data->node.key] is the old serial of that segment, the segment is
    freed while it is linked and the call has no result.  Where that value
    is the old serial of each segment, the call ends and leaves exactly
    the dest_num_files newest segments of the chain, in their order. *)
Theorem delete_memory_items_cases (sizeof_ixfr_data : N)
  (node_key_slot : ixfr_data -> N) (fuel : nat) (z : zone) (i : zone_ixfr)
  (dest_num_files : Z) :
  ixfr z = Some i ->
  count i < 2147483648 ->
  ((Z.of_N (count i) <= dest_num_files)%Z ->
   ixfr_delete_memory_items sizeof_ixfr_data node_key_slot fuel z
     dest_num_files = Some z) /\
  (forall d0 t,
      data i = d0 :: t ->
      (dest_num_files < Z.of_N (count i))%Z ->
      node_key_slot d0 <> oldserial d0 ->
      ixfr_delete_memory_items sizeof_ixfr_data node_key_slot fuel z
        dest_num_files = None) /\
  ((forall d, In d (data i) -> node_key_slot d = oldserial d) ->
   chain_sorted (data i) ->
   (0 <= dest_num_files < Z.of_N (count i))%Z ->
   (length (data i) < fuel)%nat ->
   exists i',
     ixfr_delete_memory_items sizeof_ixfr_data node_key_slot fuel z
       dest_num_files = Some (set_zone_ixfr z (Some i')) /\
     data i'
     = skipn (length (data i) - Z.to_nat dest_num_files) (data i) /\
     length (data i') = Z.to_nat dest_num_files /\
     num_files i' = num_files i).
Proof.
  intros Hi Hcount. unfold ixfr_delete_memory_items. rewrite Hi.
  rewrite (to_int_small _ Hcount).
  split; [|split].
  - intros Hle.
    destruct (dest_num_files =? Z.of_N (count i))%Z eqn:E1; [reflexivity|].
    destruct (Z.of_N (count i) <? dest_num_files)%Z eqn:E2; [reflexivity|].
    apply Z.ltb_ge in E2. apply Z.eqb_neq in E1. lia.
  - intros d0 t Hd Hlt Hslot.
    destruct (dest_num_files =? Z.of_N (count i))%Z eqn:E1;
      [apply Z.eqb_eq in E1; lia|].
    destruct (Z.of_N (count i) <? dest_num_files)%Z eqn:E2;
      [apply Z.ltb_lt in E2; lia|].
    destruct fuel as [|fuel]; [reflexivity|].
    cbn [while_loop_partial]. rewrite (to_int_small _ Hcount).
    apply Z.ltb_lt in Hlt. rewrite Hlt.
    destruct i as [dt ts nf]. simpl in Hd. subst dt.
    now rewrite remove_oldest_frees_linked.
  - intros Hslot Hsorted [H0 Hlt] Hfuel.
    destruct (dest_num_files =? Z.of_N (count i))%Z eqn:E1;
      [apply Z.eqb_eq in E1; lia|].
    destruct (Z.of_N (count i) <? dest_num_files)%Z eqn:E2;
      [apply Z.ltb_lt in E2; lia|].
    set (Inv := fun j : zone_ixfr =>
                  (exists k, data j = skipn k (data i)) /\
                  (length (data j) <= length (data i))%nat /\
                  (dest_num_files <= Z.of_nat (length (data j)))%Z /\
                  num_files j = num_files i).
    assert (Hsmall : forall j, Inv j -> to_int (count j) = Z.of_N (count j)).
    { intros j [_ [Hl _]]. apply to_int_small. unfold count in *. lia. }
    assert (Hstep : forall j,
               Inv j ->
               (dest_num_files <? to_int (count j))%Z = true ->
               exists j',
                 zone_ixfr_remove_oldest sizeof_ixfr_data node_key_slot j
                 = Some j' /\
                 Inv j' /\ (length (data j') < length (data j))%nat).
    { intros j Hinv Hc. rewrite (Hsmall j Hinv) in Hc.
      apply Z.ltb_lt in Hc. destruct Hinv as [[k Hk] [Hl [Hd Hnf]]].
      destruct j as [[|d t] ts nf]; unfold count in Hc;
        cbn [data length num_files] in *; [lia|].
      assert (Hs : chain_sorted (d :: t))
        by (rewrite Hk; now apply chain_sorted_skipn).
      assert (Hin : In d (data i)).
      { assert (H : In d (skipn k (data i)))
          by (rewrite <- Hk; now left).
        revert H. generalize (data i). clear. intros l.
        revert l. induction k as [|k IH]; intros l H; [exact H|].
        destruct l as [|x l]; [elim H|]. right. now apply IH. }
      rewrite (remove_oldest_slot _ _ d t ts nf (Hslot d Hin) Hs).
      eexists. split; [reflexivity|]. unfold Inv.
      cbn [data length num_files].
      split; [|lia]. split; [|split; [lia|split; [lia|exact Hnf]]].
      exists (S k). clear - Hk.
      revert Hk. generalize (data i). intros l.
      revert l. induction k as [|k IH]; intros l Hk.
      - simpl in Hk. now subst l.
      - destruct l as [|x l]; [discriminate Hk|]. apply (IH l Hk). }
    assert (Hinv0 : Inv i).
    { split; [now exists 0%nat|]. unfold count in Hlt.
      split; [lia|]. split; [lia|reflexivity]. }
    destruct (while_loop_partial_measure (fun j => length (data j)) _ _ Inv
                Hstep fuel i Hinv0 Hfuel) as [j [-> [Hinv Hc]]].
    exists j. split; [reflexivity|].
    rewrite (Hsmall j Hinv) in Hc. apply Z.ltb_ge in Hc.
    destruct Hinv as [[k Hk] [Hl [Hd Hnf]]]. unfold count in Hc.
    assert (Hlen : length (data j) = Z.to_nat dest_num_files) by lia.
    split; [|split; [exact Hlen|exact Hnf]].
    rewrite <- Hlen, Hk. apply skipn_by_length.
Qed.

(** The chain 5 -> 10, 10 -> 20 with room for one segment only: with the
    key pointer's own octets as the key the call has no result; with the
    old serial as the key the segment 10 -> 20 is left. *)
Lemma delete_memory_items_cases_witness :
  ixfr_delete_memory_items 64 (fun _ => 4096) 3
    (toy_chain_zone 20 [toy_segment x05 x0a; toy_segment x0a x14]) 1
  = None /\
  exists i',
    ixfr_delete_memory_items 64 oldserial 3
      (toy_chain_zone 20 [toy_segment x05 x0a; toy_segment x0a x14]) 1
    = Some (set_zone_ixfr
              (toy_chain_zone 20 [toy_segment x05 x0a; toy_segment x0a x14])
              (Some i')) /\
    data i' = [toy_segment x0a x14].
Proof.
  split.
  - refine (proj1 (proj2 (delete_memory_items_cases 64 (fun _ => 4096) 3
                            (toy_chain_zone 20 [toy_segment x05 x0a;
                                                toy_segment x0a x14])
                            _ 1 eq_refl _))
              (toy_segment x05 x0a) [toy_segment x0a x14] eq_refl _ _).
    + vm_compute. reflexivity.
    + vm_compute. reflexivity.
    + vm_compute. discriminate.
  - destruct (proj2 (proj2 (delete_memory_items_cases 64 oldserial 3
                              (toy_chain_zone 20 [toy_segment x05 x0a;
                                                  toy_segment x0a x14])
                              _ 1 eq_refl ltac:(vm_compute; reflexivity))))
      as [i' [H1 [H2 _]]].
    + intros d _. reflexivity.
    + repeat constructor; vm_compute; reflexivity.
    + split; [lia|vm_compute; reflexivity].
    + simpl. lia.
    + exists i'. split; [exact H1|exact H2].
Defined.
